(** * Real-mode TCE hypercalls and vcore exit coordination (KVM on Book3S HV)

    A shallow embedding of
      - arch/powerpc/kvm/book3s_64_vio_hv.c  (H_PUT_TCE, H_PUT_TCE_INDIRECT,
        H_STUFF_TCE, H_GET_TCE and their helpers), and
      - arch/powerpc/kvm/book3s_hv_builtin.c (kvmhv_commence_exit and
        kvmhv_interrupt_vcore, kvmppc_read_intr and get_irqmap),
    together with the properties the specification states about them and
    further properties read off the code.

    Conventions.
      - [unsigned long] and [u64] are integers of [Z] reduced modulo 2^64 by
        [u64]; [int] is reduced to the signed 32-bit range by [s32].
      - A C pointer to an [iommu_table] or a [kvmppc_vcore] is an address in
        [Z] (0 is NULL) into a finite map; a pointer to a TCE table is its
        position in the VM's table list.
      - Reading outside an array or through a pointer that owns no object
        is undefined behaviour in C; here the computation yields [None].
      - Functions of the kernel that live outside the two files are the
        fields of the class [Collaborators]; the calls of the pre-flight
        validators, of the exchange and of the mapping counters, the
        resolution of a guest physical address and the loads from the
        guest's TCE list are recorded in the [trace]. *)

From Stdlib Require Import ZArith List Lia Bool.
From stdpp Require Import base option list gmap.

Open Scope Z_scope.

(** ** Machine integers *)

Definition u64 (z : Z) : Z := z mod 2 ^ 64.
Definition s32 (z : Z) : Z := (z + 2 ^ 31) mod 2 ^ 32 - 2 ^ 31.

(** [(1 << shift)] computed in [int]. *)
Definition int_shl1 (shift : Z) : Z := s32 (Z.shiftl 1 shift).

(** [(1 << shift) - 1] computed in [int], then converted to [unsigned long]. *)
Definition int_page_mask (shift : Z) : Z := s32 (int_shl1 shift - 1).

(** ** Hypercall return codes (asm/hvcall.h) and TCE flags (asm/tce.h) *)

Definition H_SUCCESS : Z := 0.
Definition H_HARDWARE : Z := -1.
Definition H_PARAMETER : Z := -4.
Definition H_TOO_HARD : Z := 9999.

Definition TCE_PCI_WRITE : Z := 2.
Definition TCE_PCI_READ : Z := 1.

Definition IOMMU_PAGE_SHIFT_4K : Z := 12.
Definition IOMMU_PAGE_SIZE_4K : Z := u64 (Z.shiftl 1 IOMMU_PAGE_SHIFT_4K).
(** [~((1 << IOMMU_PAGE_SHIFT_4K) - 1)], an [int]. *)
Definition IOMMU_PAGE_MASK_4K : Z := Z.lnot (int_page_mask IOMMU_PAGE_SHIFT_4K).

Definition EINVAL : Z := 22.
Definition ENXIO : Z := 6.
Definition EAGAIN : Z := 11.

(** ** Data model *)

Inductive dma_data_direction :=
| DMA_BIDIRECTIONAL
| DMA_TO_DEVICE
| DMA_FROM_DEVICE
| DMA_NONE.

#[global] Instance dma_data_direction_eq_dec : EqDecision dma_data_direction.
Proof. solve_decision. Defined.

(** The geometry fields of [struct iommu_table].  The hypercalls read
    [it_page_shift]; the parameter checks of the device-group collaborator
    read all three. *)
Record iommu_table := {
  it_page_shift : Z;
  it_offset : Z;
  it_size : Z
}.

(** [struct kvmppc_spapr_tce_group]: one attached device group. *)
Record kvmppc_spapr_tce_group := { tbl : Z }.

(** [struct kvmppc_spapr_tce_table]: [pages] are the chunks of the Entry
    Store, each holding [TCES_PER_PAGE] entries. *)
Record kvmppc_spapr_tce_table := {
  liobn : Z;
  page_shift : Z;
  offset : Z;
  size : Z;
  groups : list kvmppc_spapr_tce_group;
  pages : list (list Z)
}.

Definition set_pages (stt : kvmppc_spapr_tce_table) (p : list (list Z))
  : kvmppc_spapr_tce_table :=
  {| liobn := liobn stt; page_shift := page_shift stt; offset := offset stt;
     size := size stt; groups := groups stt; pages := p |}.

Record kvm_memory_slot := {
  base_gfn : Z;
  npages_slot : Z;
  userspace_addr : Z
}.

(** What [__find_linux_pte_or_hugepte] reports about a page table entry. *)
Record pte_t := {
  pte_present : bool;
  pte_young : bool;
  pte_pfn : Z
}.

(** Calls into the collaborators that the properties below speak about. *)
Inductive event :=
| EvPutParamCheck (t ioba gpa ret : Z)
| EvClearParamCheck (t ioba tce_value npages ret : Z)
| EvXchg (t entry hpa : Z) (dir : dma_data_direction) (ret : Z)
| EvMappedInc (mem ret : Z)
| EvMappedDec (mem : Z)
| EvGpaToUa (gpa : Z)
| EvListLoad (addr : Z)
| EvLockRmap (rmap : Z)
| EvUnlockRmap (rmap : Z).

#[global] Instance event_eq_dec : EqDecision event.
Proof. solve_decision. Defined.

(** ** Validation layer *)

Definition kvmppc_ioba_validate (stt : kvmppc_spapr_tce_table)
    (ioba npages : Z) : Z :=
  let mask := u64 (int_page_mask (page_shift stt)) in
  let idx := Z.shiftr ioba (page_shift stt) in
  if negb (Z.land ioba mask =? 0)
     || (idx <? offset stt)
     || (u64 (offset stt + size stt + npages) <=? idx)
  then H_PARAMETER
  else H_SUCCESS.

Definition kvmppc_tce_validate (stt : kvmppc_spapr_tce_table) (tce : Z) : Z :=
  let mask := u64 (Z.land (int_page_mask (page_shift stt))
                          (Z.lnot (Z.lor TCE_PCI_WRITE TCE_PCI_READ))) in
  if negb (Z.land tce mask =? 0) then H_PARAMETER else H_SUCCESS.

(** ** Collaborators

    The kernel services the two files call but do not define.  [ext] is the
    state they own (hardware TCE tables, the pinned-memory registry with
    its mapping counters, memory slots, page tables, guest memory).
    A result of [None] stands for a failing (non-zero) return or a NULL
    pointer; a pointer result in [Z] is NULL when it is 0. *)

Class Collaborators := {
  ext : Type;
  (** [PAGE_SHIFT] of the host kernel. *)
  PAGE_SHIFT : Z;
  iommu_tce_direction : Z -> dma_data_direction;
  iommu_tce_clear_param_check : iommu_table -> Z -> Z -> Z -> Z;
  iommu_tce_put_param_check : iommu_table -> Z -> Z -> Z;
  (** [iommu_tce_xchg_rm(tbl, entry, &hpa, &dir)]: the return value and the
      contents of [hpa] and [dir] afterwards. *)
  iommu_tce_xchg_rm :
    Z -> Z -> Z -> dma_data_direction -> ext -> Z * Z * dma_data_direction * ext;
  (** [IOMMU_TABLE_USERSPACE_ENTRY(tbl, entry)]: address of the slot. *)
  IOMMU_TABLE_USERSPACE_ENTRY : Z -> Z -> Z;
  real_vmalloc_addr : Z -> Z;
  search_memslots : Z -> ext -> option kvm_memory_slot;
  gfn_to_hva_memslot : kvm_memory_slot -> Z -> Z;
  (** [real_vmalloc_addr(&memslot->arch.rmap[gfn - memslot->base_gfn])]. *)
  rmap_real_addr : kvm_memory_slot -> Z -> Z;
  mm_iommu_preregistered : ext -> bool;
  mm_iommu_lookup_rm : Z -> Z -> ext -> option Z;
  mm_iommu_rm_ua_to_hpa : Z -> Z -> ext -> option Z;
  mm_iommu_mapped_inc : Z -> ext -> Z * ext;
  mm_iommu_mapped_dec : Z -> ext -> ext;
  (** [__find_linux_pte_or_hugepte(pgdir, ua, NULL, &shift)]. *)
  find_linux_pte_or_hugepte : Z -> ext -> option (pte_t * Z);
  (** [be64_to_cpu] of the doubleword at a real address. *)
  load_be64 : Z -> ext -> Z
}.

Section Vio.

Context `{C : Collaborators}.

(** [PAGE_SIZE], [PAGE_MASK] (asm/page.h) and [TCES_PER_PAGE]. *)
Definition PAGE_SIZE : Z := u64 (Z.shiftl 1 PAGE_SHIFT).
Definition PAGE_MASK : Z := Z.lnot (int_page_mask PAGE_SHIFT).
Definition TCES_PER_PAGE : Z := PAGE_SIZE / 8.

(** ** State and the monad of real-mode code *)

Record world := {
  spapr_tce_tables : list kvmppc_spapr_tce_table;  (* kvm->arch.spapr_tce_tables *)
  iommu_tables : gmap Z iommu_table;               (* objects behind kg->tbl *)
  real_mem : gmap Z Z;                             (* userspace-address slots *)
  run_task_mm : bool;                              (* vcpu->arch.run_task->mm *)
  gpr4 : Z;                                        (* vcpu->arch.gpr[4] *)
  ext_state : ext;
  trace : list event
}.

Definition with_tables (w : world) (l : list kvmppc_spapr_tce_table) : world :=
  {| spapr_tce_tables := l; iommu_tables := iommu_tables w;
     real_mem := real_mem w; run_task_mm := run_task_mm w; gpr4 := gpr4 w;
     ext_state := ext_state w; trace := trace w |}.

Definition with_real_mem (w : world) (m : gmap Z Z) : world :=
  {| spapr_tce_tables := spapr_tce_tables w; iommu_tables := iommu_tables w;
     real_mem := m; run_task_mm := run_task_mm w; gpr4 := gpr4 w;
     ext_state := ext_state w; trace := trace w |}.

Definition with_gpr4 (w : world) (v : Z) : world :=
  {| spapr_tce_tables := spapr_tce_tables w; iommu_tables := iommu_tables w;
     real_mem := real_mem w; run_task_mm := run_task_mm w; gpr4 := v;
     ext_state := ext_state w; trace := trace w |}.

Definition with_ext (w : world) (e : ext) : world :=
  {| spapr_tce_tables := spapr_tce_tables w; iommu_tables := iommu_tables w;
     real_mem := real_mem w; run_task_mm := run_task_mm w; gpr4 := gpr4 w;
     ext_state := e; trace := trace w |}.

Definition with_trace (w : world) (t : list event) : world :=
  {| spapr_tce_tables := spapr_tce_tables w; iommu_tables := iommu_tables w;
     real_mem := real_mem w; run_task_mm := run_task_mm w; gpr4 := gpr4 w;
     ext_state := ext_state w; trace := t |}.

Definition M (A : Type) : Type := world -> option (A * world).

Definition ret {A} (a : A) : M A := fun w => Some (a, w).
Definition bind {A B} (m : M A) (f : A -> M B) : M B :=
  fun w => match m w with
           | Some (a, w') => f a w'
           | None => None
           end.
Definition fault {A} : M A := fun _ => None.
Definition gets {A} (f : world -> A) : M A := fun w => Some (f w, w).
Definition modify (f : world -> world) : M unit := fun w => Some (tt, f w).
Definition emit (e : event) : M unit :=
  modify (fun w => with_trace w (trace w ++ [e])).
Definition lift_option {A} (o : option A) : M A :=
  match o with Some a => ret a | None => fault end.

Notation "x <- m ;; k" := (bind m (fun x => k))
  (at level 100, m at next level, right associativity).
Notation "m ;;; k" := (bind m (fun _ => k))
  (at level 100, right associativity).

(** [for (i = 0; i < n; ++i) body], where the body may leave the function
    with a value ([Some v]) or fall through to the next round ([None]). *)
Fixpoint for_loop (n : nat) (i : Z) (body : Z -> M (option Z)) : M (option Z) :=
  match n with
  | O => ret None
  | S n' =>
      r <- body i ;;
      match r with
      | Some v => ret (Some v)
      | None => for_loop n' (u64 (i + 1)) body
      end
  end.

(** [list_for_each_entry_rcu_notrace(kg, &stt->groups, next)] with the
    body shared by the three hypercalls: a group whose table is the one
    just handled is skipped, the first non-zero result leaves the function. *)
Fixpoint for_each_group (gs : list kvmppc_spapr_tce_group) (tbltmp : Z)
    (body : Z -> M Z) : M (option Z) :=
  match gs with
  | [] => ret None
  | kg :: gs' =>
      if decide (tbl kg = tbltmp) then for_each_group gs' tbltmp body
      else
        r <- body (tbl kg) ;;
        if r =? 0 then for_each_group gs' (tbl kg) body
        else ret (Some r)
  end.

(** ** TCE table registry *)

Fixpoint find_table_from (l : list kvmppc_spapr_tce_table) (pos : nat)
    (bus : Z) : option nat :=
  match l with
  | [] => None
  | stt :: l' =>
      if decide (liobn stt = bus) then Some pos
      else find_table_from l' (S pos) bus
  end.

Definition kvmppc_find_table (bus : Z) : M (option nat) :=
  gets (fun w => find_table_from (spapr_tce_tables w) 0 bus).

Definition deref_stt (p : nat) : M kvmppc_spapr_tce_table :=
  l <- gets spapr_tce_tables ;; lift_option (l !! p).

Definition deref_tbl (t : Z) : M iommu_table :=
  m <- gets iommu_tables ;; lift_option (m !! t).

(** ** Entry Store *)

Definition entry_slot (stt : kvmppc_spapr_tce_table) (idx : Z) : nat * nat :=
  let idx := u64 (idx - offset stt) in
  (Z.to_nat (idx / TCES_PER_PAGE), Z.to_nat (idx mod TCES_PER_PAGE)).

Definition pages_store (pgs : list (list Z)) (slot : nat * nat) (v : Z)
  : option (list (list Z)) :=
  match pgs !! slot.1 with
  | Some page =>
      if decide (slot.2 < length page)%nat
      then Some (<[slot.1 := <[slot.2 := v]> page]> pgs)
      else None
  | None => None
  end.

Definition pages_load (pgs : list (list Z)) (slot : nat * nat) : option Z :=
  match pgs !! slot.1 with
  | Some page => page !! slot.2
  | None => None
  end.

Definition kvmppc_tce_put (p : nat) (idx tce : Z) : M unit :=
  stt <- deref_stt p ;;
  pgs <- lift_option (pages_store (pages stt) (entry_slot stt idx) tce) ;;
  modify (fun w =>
    with_tables w (<[p := set_pages stt pgs]> (spapr_tce_tables w))).

(** ** Address translation: guest physical to userspace address *)

(** Returns [None] for [-EINVAL], otherwise the userspace address and, when
    [want_rmap], the reverse-map handle (NULL otherwise). *)
Definition kvmppc_gpa_to_ua (gpa : Z) (want_rmap : bool) : M (option (Z * Z)) :=
  emit (EvGpaToUa gpa) ;;;
  e <- gets ext_state ;;
  let gfn := Z.shiftr gpa PAGE_SHIFT in
  match search_memslots gfn e with
  | None => ret None
  | Some memslot =>
      let ua :=
        Z.lor (gfn_to_hva_memslot memslot gfn)
              (Z.land gpa
                 (u64 (Z.lnot (Z.lor PAGE_MASK (Z.lor TCE_PCI_READ TCE_PCI_WRITE))))) in
      ret (Some (ua, if want_rmap then rmap_real_addr memslot gfn else 0))
  end.

(** ** Pinned-memory mapper *)

(** [kvmppc_mm_context] yields NULL when the vcpu has no task or no mm. *)
Definition kvmppc_mm_context : M bool := gets run_task_mm.

Definition kvmppc_preregistered : M bool :=
  mm <- kvmppc_mm_context ;;
  if negb mm then ret false
  else e <- gets ext_state ;; ret (mm_iommu_preregistered e).

Definition kvmppc_rm_iommu_lookup (ua sz : Z) : M (option Z) :=
  mm <- kvmppc_mm_context ;;
  if negb mm then ret None
  else e <- gets ext_state ;; ret (mm_iommu_lookup_rm ua sz e).

Definition call_mapped_inc (mem : Z) : M Z :=
  e <- gets ext_state ;;
  let '(r, e') := mm_iommu_mapped_inc mem e in
  modify (fun w => with_ext w e') ;;;
  emit (EvMappedInc mem r) ;;;
  ret r.

Definition call_mapped_dec (mem : Z) : M unit :=
  modify (fun w => with_ext w (mm_iommu_mapped_dec mem (ext_state w))) ;;;
  emit (EvMappedDec mem).

Definition call_xchg (t entry hpa : Z) (dir : dma_data_direction)
  : M (Z * Z * dma_data_direction) :=
  e <- gets ext_state ;;
  let '(r, hpa', dir', e') := iommu_tce_xchg_rm t entry hpa dir e in
  modify (fun w => with_ext w e') ;;;
  emit (EvXchg t entry hpa dir r) ;;;
  ret (r, hpa', dir').

Definition call_put_param_check (t : Z) (it : iommu_table) (ioba gpa : Z) : M Z :=
  let r := iommu_tce_put_param_check it ioba gpa in
  emit (EvPutParamCheck t ioba gpa r) ;;;
  ret r.

Definition call_clear_param_check (t : Z) (it : iommu_table)
    (ioba tce_value npages : Z) : M Z :=
  let r := iommu_tce_clear_param_check it ioba tce_value npages in
  emit (EvClearParamCheck t ioba tce_value npages r) ;;;
  ret r.

Definition load_real (a : Z) : M Z :=
  m <- gets real_mem ;; lift_option (m !! a).

Definition store_real (a v : Z) : M unit :=
  m <- gets real_mem ;;
  match m !! a with
  | Some _ => modify (fun w => with_real_mem w (<[a := v]> (real_mem w)))
  | None => fault
  end.

Definition kvmppc_rm_tce_iommu_mapped_dec (t entry : Z) : M Z :=
  it <- deref_tbl t ;;
  let pgsize := u64 (Z.shiftl 1 (it_page_shift it)) in
  let pua := IOMMU_TABLE_USERSPACE_ENTRY t entry in
  if pua =? 0 then ret H_SUCCESS
  else
    let pua := real_vmalloc_addr pua in
    if pua =? 0 then ret H_SUCCESS
    else
      ua <- load_real pua ;;
      mem <- kvmppc_rm_iommu_lookup ua pgsize ;;
      match mem with
      | None => ret H_HARDWARE
      | Some mem =>
          call_mapped_dec mem ;;;
          store_real pua 0 ;;;
          ret H_SUCCESS
      end.

Definition kvmppc_rm_tce_iommu_unmap (t entry : Z) : M Z :=
  r <- call_xchg t entry 0 DMA_NONE ;;
  let '(rc, _, dir) := r in
  if negb (rc =? 0) then ret H_HARDWARE
  else if decide (dir = DMA_NONE) then ret H_SUCCESS
  else kvmppc_rm_tce_iommu_mapped_dec t entry.

Definition kvmppc_rm_tce_iommu_map (t entry gpa : Z) (dir : dma_data_direction)
  : M Z :=
  let pua := IOMMU_TABLE_USERSPACE_ENTRY t entry in
  r <- kvmppc_gpa_to_ua gpa false ;;
  match r with
  | None => ret H_HARDWARE
  | Some (ua, _) =>
      it <- deref_tbl t ;;
      mem <- kvmppc_rm_iommu_lookup ua (u64 (Z.shiftl 1 (it_page_shift it))) ;;
      match mem with
      | None => ret H_HARDWARE
      | Some mem =>
          e <- gets ext_state ;;
          match mm_iommu_rm_ua_to_hpa mem ua e with
          | None => ret H_HARDWARE
          | Some hpa =>
              let pua := real_vmalloc_addr pua in
              if pua =? 0 then ret H_HARDWARE
              else
                rc <- call_mapped_inc mem ;;
                if negb (rc =? 0) then ret H_HARDWARE
                else
                  x <- call_xchg t entry hpa dir ;;
                  let '(rc, _, dir) := x in
                  if negb (rc =? 0) then
                    call_mapped_dec mem ;;;
                    ret H_TOO_HARD
                  else
                    (if decide (dir = DMA_NONE) then ret H_SUCCESS
                     else kvmppc_rm_tce_iommu_mapped_dec t entry) ;;;
                    store_real pua ua ;;;
                    ret 0
          end
      end
  end.

(** ** Per-group halves of the hypercalls *)

(** [tce & ~(TCE_PCI_READ | TCE_PCI_WRITE)] *)
Definition tce_gpa (tce : Z) : Z :=
  Z.land tce (u64 (Z.lnot (Z.lor TCE_PCI_READ TCE_PCI_WRITE))).

Definition kvmppc_rm_h_put_tce_iommu (t bus ioba tce : Z) : M Z :=
  it <- deref_tbl t ;;
  let entry := Z.shiftr ioba (it_page_shift it) in
  let gpa := tce_gpa tce in
  let dir := iommu_tce_direction tce in
  if decide (dir = DMA_NONE) then
    rc <- call_clear_param_check t it ioba 0 1 ;;
    if negb (rc =? 0) then ret H_PARAMETER
    else kvmppc_rm_tce_iommu_unmap t entry
  else
    rc <- call_put_param_check t it ioba gpa ;;
    if negb (rc =? 0) then ret H_PARAMETER
    else kvmppc_rm_tce_iommu_map t entry gpa dir.

(** [be64_to_cpu(tces[i])] *)
Definition load_tce (tces i : Z) : M Z :=
  let a := u64 (tces + 8 * i) in
  emit (EvListLoad a) ;;;
  e <- gets ext_state ;;
  ret (load_be64 a e).

Definition kvmppc_rm_h_put_tce_indirect_iommu (t ioba tces npages : Z) : M Z :=
  it <- deref_tbl t ;;
  let entry := Z.shiftr ioba (it_page_shift it) in
  r <- for_loop (Z.to_nat npages) 0 (fun i =>
         tce <- load_tce tces i ;;
         let gpa := tce_gpa tce in
         rc <- call_put_param_check t it
                 (u64 (ioba + u64 (Z.shiftl i (it_page_shift it)))) gpa ;;
         if negb (rc =? 0) then ret (Some H_PARAMETER)
         else ret None) ;;
  match r with
  | Some v => ret v
  | None =>
      r <- for_loop (Z.to_nat npages) 0 (fun i =>
             tce <- load_tce tces i ;;
             let gpa := tce_gpa tce in
             rc <- kvmppc_rm_tce_iommu_map t (u64 (entry + i)) gpa
                     (iommu_tce_direction tce) ;;
             if negb (rc =? 0) then ret (Some rc) else ret None) ;;
      match r with
      | Some v => ret v
      | None => ret H_SUCCESS
      end
  end.

Definition kvmppc_rm_h_stuff_tce_iommu (t bus ioba tce_value npages : Z) : M Z :=
  it <- deref_tbl t ;;
  let entry := Z.shiftr ioba (it_page_shift it) in
  rc <- call_clear_param_check t it ioba tce_value npages ;;
  if negb (rc =? 0) then ret H_PARAMETER
  else
    for_loop (Z.to_nat npages) 0 (fun i =>
      kvmppc_rm_tce_iommu_unmap t (u64 (entry + i)) ;;;
      ret None) ;;;
    ret H_SUCCESS.

(** ** Hypercall dispatcher *)

Definition kvmppc_rm_h_put_tce (bus ioba tce : Z) : M Z :=
  p <- kvmppc_find_table bus ;;
  match p with
  | None => ret H_TOO_HARD
  | Some p =>
      stt <- deref_stt p ;;
      let rc := kvmppc_ioba_validate stt ioba 1 in
      if negb (rc =? 0) then ret rc
      else
        let rc := kvmppc_tce_validate stt tce in
        if negb (rc =? 0) then ret rc
        else
          r <- for_each_group (groups stt) 0
                 (fun t => kvmppc_rm_h_put_tce_iommu t bus ioba tce) ;;
          match r with
          | Some v => ret v
          | None =>
              kvmppc_tce_put p (Z.shiftr ioba (page_shift stt)) tce ;;;
              (* [ret] still holds the 0 of the last successful step *)
              ret 0
          end
  end.

(** Returns [inl errno] or [inr hpa]. *)
Definition kvmppc_rm_ua_to_hpa (ua : Z) : M (Z + Z) :=
  e <- gets ext_state ;;
  match find_linux_pte_or_hugepte ua e with
  | None => ret (inl (- ENXIO))
  | Some (pte, shift) =>
      if negb (pte_present pte) then ret (inl (- ENXIO))
      else
        let shift := if shift =? 0 then PAGE_SHIFT else shift in
        if PAGE_SHIFT <? shift then ret (inl (- EAGAIN))
        else if negb (pte_young pte) then ret (inl (- EAGAIN))
        else
          ret (inr (Z.lor (Z.lor (u64 (Z.shiftl (pte_pfn pte) PAGE_SHIFT))
                                 (Z.land ua (u64 (int_page_mask shift))))
                          (Z.land ua (u64 (Z.lnot PAGE_MASK)))))
  end.

(** The last loop of [kvmppc_rm_h_put_tce_indirect] and its [unlock_exit]
    epilogue. *)
Definition put_tce_indirect_store (p : nat) (stt : kvmppc_spapr_tce_table)
    (entry tces npages rmap : Z) : M Z :=
  r <- for_loop (Z.to_nat npages) 0 (fun i =>
         tce <- load_tce tces i ;;
         let rc := kvmppc_tce_validate stt tce in
         if negb (rc =? 0) then ret (Some rc)
         else
           kvmppc_tce_put p (u64 (entry + i)) tce ;;;
           ret None) ;;
  (if rmap =? 0 then ret tt else emit (EvUnlockRmap rmap)) ;;;
  match r with
  | Some v => ret v
  | None => ret H_SUCCESS
  end.

Definition kvmppc_rm_h_put_tce_indirect (bus ioba tce_list npages : Z) : M Z :=
  p <- kvmppc_find_table bus ;;
  match p with
  | None => ret H_TOO_HARD
  | Some p =>
      stt <- deref_stt p ;;
      let entry := Z.shiftr ioba (page_shift stt) in
      if 512 <? npages then ret H_PARAMETER
      else if negb (Z.land tce_list (u64 (Z.lnot IOMMU_PAGE_MASK_4K)) =? 0)
      then ret H_PARAMETER
      else
        let rc := kvmppc_ioba_validate stt ioba npages in
        if negb (rc =? 0) then ret rc
        else
          prereg <- kvmppc_preregistered ;;
          if prereg then
            r <- kvmppc_gpa_to_ua tce_list false ;;
            match r with
            | None => ret H_TOO_HARD
            | Some (ua, _) =>
                mem <- kvmppc_rm_iommu_lookup ua IOMMU_PAGE_SIZE_4K ;;
                e <- gets ext_state ;;
                match mem ≫= (fun mem => mm_iommu_rm_ua_to_hpa mem ua e) with
                | None => ret H_TOO_HARD
                | Some tces =>
                    r <- for_each_group (groups stt) 0
                           (fun t =>
                              kvmppc_rm_h_put_tce_indirect_iommu t ioba tces npages) ;;
                    match r with
                    | Some v => ret v
                    | None => put_tce_indirect_store p stt entry tces npages 0
                    end
                end
            end
          else
            r <- kvmppc_gpa_to_ua tce_list true ;;
            match r with
            | None => ret H_TOO_HARD
            | Some (ua, rmap) =>
                emit (EvLockRmap rmap) ;;;
                r <- kvmppc_rm_ua_to_hpa ua ;;
                match r with
                | inl _ =>
                    (if rmap =? 0 then ret tt else emit (EvUnlockRmap rmap)) ;;;
                    ret H_TOO_HARD
                | inr tces => put_tce_indirect_store p stt entry tces npages rmap
                end
            end
  end.

(** The closing loop of [kvmppc_rm_h_stuff_tce]:
    [for (i = 0; i < npages; ++i, ioba += (1 << stt->page_shift))]. *)
Fixpoint stuff_store (n : nat) (p : nat) (stt : kvmppc_spapr_tce_table)
    (ioba tce_value : Z) : M unit :=
  match n with
  | O => ret tt
  | S n' =>
      kvmppc_tce_put p (Z.shiftr ioba (page_shift stt)) tce_value ;;;
      stuff_store n' p stt (u64 (ioba + int_shl1 (page_shift stt))) tce_value
  end.

Definition kvmppc_rm_h_stuff_tce (bus ioba tce_value npages : Z) : M Z :=
  p <- kvmppc_find_table bus ;;
  match p with
  | None => ret H_TOO_HARD
  | Some p =>
      stt <- deref_stt p ;;
      let rc := kvmppc_ioba_validate stt ioba npages in
      if negb (rc =? 0) then ret rc
      else
        let rc := kvmppc_tce_validate stt tce_value in
        if negb (rc =? 0)
           || negb (Z.land tce_value (Z.lor TCE_PCI_WRITE TCE_PCI_READ) =? 0)
        then ret H_PARAMETER
        else
          r <- for_each_group (groups stt) 0
                 (fun t =>
                    kvmppc_rm_h_stuff_tce_iommu t bus ioba tce_value npages) ;;
          match r with
          | Some v => ret v
          | None =>
              stuff_store (Z.to_nat npages) p stt ioba tce_value ;;;
              ret H_SUCCESS
          end
  end.

Definition kvmppc_h_get_tce (bus ioba : Z) : M Z :=
  p <- kvmppc_find_table bus ;;
  match p with
  | None => ret H_TOO_HARD
  | Some p =>
      stt <- deref_stt p ;;
      let rc := kvmppc_ioba_validate stt ioba 1 in
      if rc =? 0 then
        v <- lift_option
               (pages_load (pages stt)
                  (entry_slot stt (Z.shiftr ioba (page_shift stt)))) ;;
        modify (fun w => with_gpr4 w v) ;;;
        ret rc
      else ret rc
  end.

End Vio.

Notation "x <- m ;; k" := (bind m (fun x => k))
  (at level 100, m at next level, right associativity).
Notation "m ;;; k" := (bind m (fun _ => k))
  (at level 100, right associativity).

(** * Vcore exit coordination (book3s_hv_builtin.c) *)

Definition BOOK3S_INTERRUPT_HV_DECREMENTER : Z := 0x980.
Definition VCORE_EXIT_REQ : Z := 0x10000.
Definition MAX_SUBCORES : nat := 4.

(** [struct kvmppc_vcore]: the first hardware thread and the word holding
    the entry map (bits 0-7), the exit map (bits 8-15) and the exit request
    (bit 16). *)
Record kvmppc_vcore := {
  pcpu : Z;
  entry_exit_map : Z
}.

(** [local_paca->kvm_hstate] of the calling thread; [kvm_split_mode] is
    NULL ([None]) or the [master_vcs] array of the split-core descriptor. *)
Record kvmppc_host_state := {
  kvm_vcore : Z;
  ptid : Z;
  kvm_split_mode : option (list Z)
}.

(** One inter-thread notification: [kvmhv_interrupt_vcore] on [ipi_vcore]
    called [kvmhv_rm_send_ipi(ipi_cpu)]. *)
Record ipi := {
  ipi_vcore : Z;
  ipi_cpu : Z
}.

#[global] Instance ipi_eq_dec : EqDecision ipi.
Proof. solve_decision. Defined.

Record hv_state := {
  vcores : gmap Z kvmppc_vcore;
  kvm_hstate : kvmppc_host_state;
  sent : list ipi
}.

Definition set_entry_exit_map (s : hv_state) (vc v : Z) : hv_state :=
  {| vcores := alter (fun c => {| pcpu := pcpu c; entry_exit_map := v |}) vc (vcores s);
     kvm_hstate := kvm_hstate s;
     sent := sent s |}.

(** Either way of [kvmhv_rm_send_ipi] (msgsnd to a thread of the same core,
    or a store to the target's MFRR) notifies hardware thread [cpu]. *)
Definition kvmhv_rm_send_ipi (vc cpu : Z) (s : hv_state) : hv_state :=
  {| vcores := vcores s; kvm_hstate := kvm_hstate s;
     sent := sent s ++ [{| ipi_vcore := vc; ipi_cpu := cpu |}] |}.

(** [for (; active; active >>= 1, ++cpu) if (active & 1) kvmhv_rm_send_ipi(cpu);]
    on [int]s.  A negative [active] never becomes 0 under the arithmetic
    shift: the loop does not end, whatever the fuel. *)
Fixpoint interrupt_loop (fuel : nat) (vc active cpu : Z) (s : hv_state)
  : option hv_state :=
  if active =? 0 then Some s
  else
    match fuel with
    | O => None
    | S fuel' =>
        interrupt_loop fuel' vc (Z.shiftr active 1) (s32 (cpu + 1))
          (if Z.land active 1 =? 0 then s else kvmhv_rm_send_ipi vc cpu s)
    end.

Definition kvmhv_interrupt_vcore (vc active : Z) (s : hv_state)
  : option hv_state :=
  c ← vcores s !! vc;
  interrupt_loop 32 vc active (pcpu c) s.

(** [cmpxchg(&vc->entry_exit_map, old, new)]: the value found. *)
Definition cmpxchg (vc old new : Z) (s : hv_state) : option (Z * hv_state) :=
  c ← vcores s !! vc;
  Some (entry_exit_map c,
        if entry_exit_map c =? old then set_entry_exit_map s vc new else s).

(** [do { ee = vc->entry_exit_map; } while (cmpxchg(..., ee, ee | me) != ee);]
    One hardware thread is modelled: nothing writes the word between the
    load and the [cmpxchg], so the loop is left after the first round, and
    a round that is repeated has changed nothing.  Returns [ee]. *)
Definition set_exit_bit (vc me : Z) (s : hv_state) : option (Z * hv_state) :=
  c ← vcores s !! vc;
  let ee := entry_exit_map c in
  '(found, s') ← cmpxchg vc ee (Z.lor ee me) s;
  if found =? ee then Some (ee, s') else None.

(** The same loop for another subcore, left early by [break] when the
    exit has already been requested there. *)
Definition request_subcore_exit (vc : Z) (s : hv_state) : option (Z * hv_state) :=
  c ← vcores s !! vc;
  let ee := entry_exit_map c in
  if negb (Z.shiftr ee 8 =? 0) then Some (ee, s)
  else
    '(found, s') ← cmpxchg vc ee (Z.lor ee VCORE_EXIT_REQ) s;
    if found =? ee then Some (ee, s') else None.

(** [for (i = 0; i < MAX_SUBCORES; ++i)] over [sip->master_vcs]. *)
Fixpoint subcores_loop (n i : nat) (master_vcs : list Z) (s : hv_state)
  : option hv_state :=
  match n with
  | O => Some s
  | S n' =>
      vc ← master_vcs !! i;
      if vc =? 0 then Some s
      else
        '(ee, s1) ← request_subcore_exit vc s;
        s2 ← (if Z.shiftr ee 8 =? 0 then kvmhv_interrupt_vcore vc ee s1
              else Some s1);
        subcores_loop n' (S i) master_vcs s2
  end.

Definition kvmhv_commence_exit (trap : Z) (s : hv_state) : option hv_state :=
  let vc := kvm_vcore (kvm_hstate s) in
  let ptid := ptid (kvm_hstate s) in
  let sip := kvm_split_mode (kvm_hstate s) in
  let me := s32 (Z.shiftl 0x100 ptid) in
  '(ee, s1) ← set_exit_bit vc me s;
  if negb (Z.shiftr ee 8 =? 0) then Some s1
  else
    s2 ← (if negb (trap =? BOOK3S_INTERRUPT_HV_DECREMENTER)
          then kvmhv_interrupt_vcore vc (Z.land ee (Z.lnot (int_shl1 ptid))) s1
          else Some s1);
    match sip with
    | None => Some s2
    | Some master_vcs => subcores_loop MAX_SUBCORES 0 master_vcs s2
    end.

(** * A reference implementation of the collaborators

    Used to run the hypercalls on concrete machines. *)

(** One pre-registered (pinned) region of the registry. *)
Record pinned_region := {
  mem_id : Z;         (* the [mm_iommu_table_group_mem_t] handle *)
  mem_ua : Z;         (* first userspace address *)
  mem_entries : Z;    (* pages in the region *)
  mem_hpa : Z         (* host physical address of the first page *)
}.

Record ref_ext := {
  hw_tce : gmap (Z * Z) (Z * dma_data_direction);  (* (table, entry) -> mapping *)
  regions : list pinned_region;
  mapped : gmap Z Z;                               (* region -> mapping counter *)
  memslots : list kvm_memory_slot;
  linux_ptes : gmap Z (pte_t * Z);                 (* by page number of ua *)
  guest_mem : gmap Z Z;                            (* doublewords by real address *)
  prereg : bool
}.

Definition ref_PAGE_SHIFT : Z := 12.

(** Modelled from the spec: [iommu_tce_direction], absent from the source
    files; the two direction flags of a translation entry are independent
    and no flag set means unmapped. *)
Definition ref_tce_direction (tce : Z) : dma_data_direction :=
  match Z.testbit tce 0, Z.testbit tce 1 with
  | true, true => DMA_BIDIRECTIONAL
  | true, false => DMA_TO_DEVICE
  | false, true => DMA_FROM_DEVICE
  | false, false => DMA_NONE
  end.

(** Modelled from the spec: the [clear_param_check] pre-flight validator of
    the device-group collaborator, absent from the source files. *)
Definition ref_clear_param_check (it : iommu_table) (ioba tce_value npages : Z) : Z :=
  if negb (tce_value =? 0) then - EINVAL
  else if negb (Z.land ioba (Z.ones (it_page_shift it)) =? 0) then - EINVAL
  else if Z.shiftr ioba (it_page_shift it) <? it_offset it then - EINVAL
  else if it_offset it + it_size it <? Z.shiftr ioba (it_page_shift it) + npages
  then - EINVAL
  else 0.

(** Modelled from the spec: the [put_param_check] pre-flight validator of
    the device-group collaborator, absent from the source files. *)
Definition ref_put_param_check (it : iommu_table) (ioba tce : Z) : Z :=
  if negb (Z.land ioba (Z.ones (it_page_shift it)) =? 0) then - EINVAL
  else if negb (Z.land tce (Z.ones (it_page_shift it)) =? 0) then - EINVAL
  else if Z.shiftr ioba (it_page_shift it) <? it_offset it then - EINVAL
  else if it_offset it + it_size it <? Z.shiftr ioba (it_page_shift it) + 1
  then - EINVAL
  else 0.

Definition with_hw (e : ref_ext) (h : gmap (Z * Z) (Z * dma_data_direction)) : ref_ext :=
  {| hw_tce := h; regions := regions e; mapped := mapped e;
     memslots := memslots e; linux_ptes := linux_ptes e;
     guest_mem := guest_mem e; prereg := prereg e |}.

Definition with_mapped (e : ref_ext) (m : gmap Z Z) : ref_ext :=
  {| hw_tce := hw_tce e; regions := regions e; mapped := m;
     memslots := memslots e; linux_ptes := linux_ptes e;
     guest_mem := guest_mem e; prereg := prereg e |}.

(** Modelled from the spec: the [exchange] operation of the device-group
    collaborator, absent from the source files: one step that installs the
    new mapping and hands back the old one. *)
Definition ref_xchg (t entry hpa : Z) (dir : dma_data_direction) (e : ref_ext)
  : Z * Z * dma_data_direction * ref_ext :=
  let old := default (0, DMA_NONE) (hw_tce e !! (t, entry)) in
  (0, old.1, old.2, with_hw e (<[(t, entry) := (hpa, dir)]> (hw_tce e))).

Definition ref_userspace_entry (t entry : Z) : Z := t + 8 * entry.

(** Modelled from the spec: the memory-slot collaborator, absent from the
    source files. *)
Definition ref_search_memslots (gfn : Z) (e : ref_ext) : option kvm_memory_slot :=
  List.find (fun m => (base_gfn m <=? gfn) && (gfn <? base_gfn m + npages_slot m))
            (memslots e).

Definition ref_gfn_to_hva (m : kvm_memory_slot) (gfn : Z) : Z :=
  userspace_addr m + (gfn - base_gfn m) * Z.shiftl 1 ref_PAGE_SHIFT.

Definition ref_rmap_addr (m : kvm_memory_slot) (gfn : Z) : Z :=
  0x7000000 + 8 * (gfn - base_gfn m).

Definition find_region (id : Z) (e : ref_ext) : option pinned_region :=
  List.find (fun r => mem_id r =? id) (regions e).

(** Modelled from the spec: the [lookup] operation of the pinned-memory
    registry collaborator, absent from the source files. *)
Definition ref_lookup_rm (ua sz : Z) (e : ref_ext) : option Z :=
  mem_id <$>
    List.find (fun r => (mem_ua r <=? ua)
                        && (ua + sz <=? mem_ua r
                                        + mem_entries r * Z.shiftl 1 ref_PAGE_SHIFT))
              (regions e).

(** Modelled from the spec: [resolve_to_host_physical] of the pinned-memory
    registry collaborator, absent from the source files. *)
Definition ref_ua_to_hpa (mem ua : Z) (e : ref_ext) : option Z :=
  r ← find_region mem e;
  if (mem_ua r <=? ua)
     && (Z.shiftr (ua - mem_ua r) ref_PAGE_SHIFT <? mem_entries r)
  then Some (mem_hpa r + (ua - mem_ua r))
  else None.

(** Modelled from the spec: [increment_mapping] of the pinned-memory
    registry collaborator, absent from the source files; it fails on a
    region whose counter has dropped to zero. *)
Definition ref_mapped_inc (mem : Z) (e : ref_ext) : Z * ref_ext :=
  match mapped e !! mem with
  | Some n => if n =? 0 then (- ENXIO, e)
              else (0, with_mapped e (<[mem := n + 1]> (mapped e)))
  | None => (- ENXIO, e)
  end.

(** Modelled from the spec: [decrement_mapping] of the pinned-memory
    registry collaborator, absent from the source files. *)
Definition ref_mapped_dec (mem : Z) (e : ref_ext) : ref_ext :=
  match mapped e !! mem with
  | Some n => if n =? 1 then e else with_mapped e (<[mem := n - 1]> (mapped e))
  | None => e
  end.

Definition ref_find_pte (ua : Z) (e : ref_ext) : option (pte_t * Z) :=
  linux_ptes e !! Z.shiftr ua ref_PAGE_SHIFT.

Definition ref_load_be64 (a : Z) (e : ref_ext) : Z := default 0 (guest_mem e !! a).

#[global] Instance ref_collaborators : Collaborators := {|
  ext := ref_ext;
  PAGE_SHIFT := ref_PAGE_SHIFT;
  iommu_tce_direction := ref_tce_direction;
  iommu_tce_clear_param_check := ref_clear_param_check;
  iommu_tce_put_param_check := ref_put_param_check;
  iommu_tce_xchg_rm := ref_xchg;
  IOMMU_TABLE_USERSPACE_ENTRY := ref_userspace_entry;
  real_vmalloc_addr := fun a => a;
  search_memslots := ref_search_memslots;
  gfn_to_hva_memslot := ref_gfn_to_hva;
  rmap_real_addr := ref_rmap_addr;
  mm_iommu_preregistered := prereg;
  mm_iommu_lookup_rm := ref_lookup_rm;
  mm_iommu_rm_ua_to_hpa := ref_ua_to_hpa;
  mm_iommu_mapped_inc := ref_mapped_inc;
  mm_iommu_mapped_dec := ref_mapped_dec;
  find_linux_pte_or_hugepte := ref_find_pte;
  load_be64 := ref_load_be64
|}.

(** * Machines used in the scenarios *)

(** A one-page window of 512 entries, as in the scenarios below. *)
Definition stt_window_512 : kvmppc_spapr_tce_table :=
  {| liobn := 1; page_shift := 12; offset := 0; size := 512;
     groups := []; pages := [replicate 512 0] |}.

(** * Vocabulary of the properties *)

Section Vocabulary.

Context `{C : Collaborators}.

(** A table whose geometry the code can work with: the page shift fits the
    [int] arithmetic of the masks, every index of the window has an I/O
    address, and the Entry Store has a full chunk for every index. *)
Definition wf_table (stt : kvmppc_spapr_tce_table) : Prop :=
  1 <= page_shift stt <= 30
  /\ 0 <= offset stt
  /\ 0 <= size stt
  /\ (offset stt + size stt) * 2 ^ page_shift stt <= 2 ^ 64
  /\ Forall (fun pg => Z.of_nat (length pg) = TCES_PER_PAGE) (pages stt)
  /\ size stt <= Z.of_nat (length (pages stt)) * TCES_PER_PAGE.

(** The world a computation leaves (the world itself if it faults). *)
Definition world_after {A} (m : M A) (w : world) : world :=
  match m w with
  | Some (_, w') => w'
  | None => w
  end.

(** The Entry Store of the whole VM: the chunks of every table. *)
Definition entry_store (w : world) : list (list (list Z)) :=
  pages <$> spapr_tce_tables w.

(** A computation keeps a relation between the worlds before and after. *)
Definition preserves {A} (R : world -> world -> Prop) (m : M A) : Prop :=
  forall w a w', m w = Some (a, w') -> R w w'.

Class Frame (R : world -> world -> Prop) : Prop := {
  frame_refl : forall w, R w w;
  frame_trans : forall a b c, R a b -> R b c -> R a c
}.

(** The Entry Store and the table list are as before. *)
Definition same_tables (w w' : world) : Prop :=
  spapr_tce_tables w' = spapr_tce_tables w.

(** The objects the hypercalls only read are as before. *)
Definition same_static (w w' : world) : Prop :=
  iommu_tables w' = iommu_tables w /\ run_task_mm w' = run_task_mm w.

(** The trace has grown by events that all satisfy [P]. *)
Definition trace_grows (P : event -> Prop) (w w' : world) : Prop :=
  exists evs, trace w' = trace w ++ evs /\ Forall P evs.

(** Nothing but the trace has changed, and it has grown by [P]-events. *)
Definition only_trace (P : event -> Prop) (w w' : world) : Prop :=
  spapr_tce_tables w' = spapr_tce_tables w
  /\ iommu_tables w' = iommu_tables w
  /\ real_mem w' = real_mem w
  /\ run_task_mm w' = run_task_mm w
  /\ gpr4 w' = gpr4 w
  /\ ext_state w' = ext_state w
  /\ trace_grows P w w'.

(** Index [idx] of table [p] holds 0. *)
Definition reads_zero (w : world) (p : nat) (idx : Z) : Prop :=
  exists stt, spapr_tce_tables w !! p = Some stt
              /\ pages_load (pages stt) (entry_slot stt idx) = Some 0.

(** The walk over the attached groups, as a relation.  [groups_ok]: every
    group that is not skipped as a repetition of the table just handled was
    served and reported 0.  [groups_fail]: the groups before some group
    reported 0, that group reported [v <> 0], and the walk stopped there. *)
Inductive groups_ok (body : Z -> M Z)
  : list kvmppc_spapr_tce_group -> Z -> world -> world -> Prop :=
| groups_ok_nil tbltmp w : groups_ok body [] tbltmp w w
| groups_ok_skip kg gs tbltmp w w' :
    tbl kg = tbltmp ->
    groups_ok body gs tbltmp w w' ->
    groups_ok body (kg :: gs) tbltmp w w'
| groups_ok_step kg gs tbltmp w w1 w' :
    tbl kg <> tbltmp ->
    body (tbl kg) w = Some (0, w1) ->
    groups_ok body gs (tbl kg) w1 w' ->
    groups_ok body (kg :: gs) tbltmp w w'.

Inductive groups_fail (body : Z -> M Z)
  : list kvmppc_spapr_tce_group -> Z -> world -> Z -> world -> Prop :=
| groups_fail_here kg gs tbltmp w v w' :
    tbl kg <> tbltmp ->
    body (tbl kg) w = Some (v, w') ->
    v <> 0 ->
    groups_fail body (kg :: gs) tbltmp w v w'
| groups_fail_skip kg gs tbltmp w v w' :
    tbl kg = tbltmp ->
    groups_fail body gs tbltmp w v w' ->
    groups_fail body (kg :: gs) tbltmp w v w'
| groups_fail_later kg gs tbltmp w w1 v w' :
    tbl kg <> tbltmp ->
    body (tbl kg) w = Some (0, w1) ->
    groups_fail body gs (tbl kg) w1 v w' ->
    groups_fail body (kg :: gs) tbltmp w v w'.

End Vocabulary.

(** Classes of events. *)
Definition is_failed_check (ev : event) : bool :=
  match ev with
  | EvPutParamCheck _ _ _ rc => negb (rc =? 0)
  | _ => false
  end.

Definition is_preflight (ev : event) : bool :=
  match ev with
  | EvListLoad _ | EvPutParamCheck _ _ _ _ => true
  | _ => false
  end.

Definition is_exchange (ev : event) : bool :=
  match ev with
  | EvXchg _ _ _ _ _ => true
  | _ => false
  end.

Abbreviation no_failed_check := (fun e => is_failed_check e = false).
Abbreviation failed_check := (fun e => is_failed_check e = true).
Abbreviation preflight := (fun e => is_preflight e = true).

Section Claims.

Context `{C : Collaborators}.

(** C2 as the specification words it: when the validation of any entry
    fails for any device group, no mapping has been exchanged in any group
    and the Entry Store is unmodified. *)
Definition indirect_preflight_all_groups : Prop :=
  forall bus ioba tce_list npages w r w' evs,
    kvmppc_rm_h_put_tce_indirect bus ioba tce_list npages w = Some (r, w') ->
    trace w' = trace w ++ evs ->
    Exists (fun e => is_failed_check e = true) evs ->
    Forall (fun e => is_exchange e = false) evs
    /\ entry_store w' = entry_store w.

End Claims.

(** Two device groups on one bus.  The first has a window of 512 entries,
    the second an empty window, so its pre-flight check rejects every I/O
    address.  Guest memory is one slot backed by a pinned region of 16
    pages; the doubleword at guest physical 0x2000 is a TCE list of one
    entry: guest physical 0x3000, read and write. *)
Definition grp_tbl_a : Z := 0x1000000.
Definition grp_tbl_b : Z := 0x2000000.

Definition two_group_ext : ref_ext :=
  {| hw_tce := ∅;
     regions := [ {| mem_id := 7; mem_ua := 0x40000000; mem_entries := 16;
                     mem_hpa := 0x80000000 |} ];
     mapped := {[ 7 := 1 ]};
     memslots := [ {| base_gfn := 0; npages_slot := 1024;
                      userspace_addr := 0x40000000 |} ];
     linux_ptes := ∅;
     guest_mem := {[ 0x80002000 := 0x3003 ]};
     prereg := true |}.

Definition two_group_machine : world :=
  {| spapr_tce_tables :=
       [ {| liobn := 1; page_shift := 12; offset := 0; size := 512;
            groups := [ {| tbl := grp_tbl_a |}; {| tbl := grp_tbl_b |} ];
            pages := [ replicate 512 0 ] |} ];
     iommu_tables :=
       {[ grp_tbl_a := {| it_page_shift := 12; it_offset := 0; it_size := 512 |};
          grp_tbl_b := {| it_page_shift := 12; it_offset := 0; it_size := 0 |} ]};
     real_mem := {[ grp_tbl_a := 0; grp_tbl_b := 0 ]};
     run_task_mm := true;
     gpr4 := 0;
     ext_state := two_group_ext;
     trace := [] |}.

Section MapperClaims.

Context `{C : Collaborators}.

(** C3 as the specification words it: an unmap that finds a direction other
    than "none" in the hardware entry, and whose recorded userspace address
    belongs to no region of the registry any more, reports success. *)
Definition unmap_tolerates_missing_region : Prop :=
  forall t entry w it hpa dir e' ua,
    iommu_tables w !! t = Some it ->
    iommu_tce_xchg_rm t entry 0 DMA_NONE (ext_state w) = (0, hpa, dir, e') ->
    dir <> DMA_NONE ->
    IOMMU_TABLE_USERSPACE_ENTRY t entry <> 0 ->
    real_vmalloc_addr (IOMMU_TABLE_USERSPACE_ENTRY t entry) <> 0 ->
    real_mem w !! real_vmalloc_addr (IOMMU_TABLE_USERSPACE_ENTRY t entry)
      = Some ua ->
    mm_iommu_lookup_rm ua (u64 (Z.shiftl 1 (it_page_shift it))) e' = None ->
    exists w', kvmppc_rm_tce_iommu_unmap t entry w = Some (H_SUCCESS, w').

End MapperClaims.

(** The first group's entry 0 is mapped for read and write, and the
    userspace address recorded for it, 0x50000000, lies in no pinned
    region (the only region is [0x40000000, 0x40010000)). *)
Definition stale_mapping_machine : world :=
  {| spapr_tce_tables := spapr_tce_tables two_group_machine;
     iommu_tables := iommu_tables two_group_machine;
     real_mem := {[ grp_tbl_a := 0x50000000; grp_tbl_b := 0 ]};
     run_task_mm := true;
     gpr4 := 0;
     ext_state :=
       with_hw two_group_ext {[ (grp_tbl_a, 0) := (0x90000000, DMA_BIDIRECTIONAL) ]};
     trace := [] |}.

(** ** Vocabulary for the exit coordination *)

(** The notifications the caller owes its own vcore: one for every thread
    whose bit is set in the entry map [ee], the caller [ptid] excepted;
    thread [i] runs on hardware thread [pcpu + i]. *)
Definition notified (vc pcpu ee ptid : Z) : list ipi :=
  map (fun i => {| ipi_vcore := vc; ipi_cpu := pcpu + i |})
      (List.filter (fun i => Z.testbit ee i && negb (i =? ptid)) (seqZ 0 8)).

(** The caller's vcore exists, its thread number is one of the eight of a
    core, and in split-core mode [master_vcs] has its [MAX_SUBCORES] slots,
    each NULL or pointing to a vcore.  Hardware thread numbers are small. *)
Definition hv_wf (s : hv_state) : Prop :=
  (exists c, vcores s !! kvm_vcore (kvm_hstate s) = Some c)
  /\ 0 <= ptid (kvm_hstate s) < 8
  /\ (forall v c, vcores s !! v = Some c -> 0 <= pcpu c < 2 ^ 30)
  /\ match kvm_split_mode (kvm_hstate s) with
     | None => True
     | Some master_vcs =>
         length master_vcs = MAX_SUBCORES
         /\ Forall (fun v => v = 0 \/ is_Some (vcores s !! v)) master_vcs
     end.

Definition add_sent (s : hv_state) (l : list ipi) : hv_state :=
  {| vcores := vcores s; kvm_hstate := kvm_hstate s; sent := sent s ++ l |}.

(** The same bus with the first device group alone. *)
Definition one_group_table : kvmppc_spapr_tce_table :=
  {| liobn := 1; page_shift := 12; offset := 0; size := 512;
     groups := [ {| tbl := grp_tbl_a |} ];
     pages := [ replicate 512 0 ] |}.

Definition one_group_machine : world :=
  {| spapr_tce_tables := [ one_group_table ];
     iommu_tables := iommu_tables two_group_machine;
     real_mem := real_mem two_group_machine;
     run_task_mm := true;
     gpr4 := 0;
     ext_state := two_group_ext;
     trace := [] |}.

(** An emulated bus (no device group) with the window of 512 entries. *)
Definition emulated_machine : world :=
  {| spapr_tce_tables := [ stt_window_512 ];
     iommu_tables := ∅;
     real_mem := ∅;
     run_task_mm := true;
     gpr4 := 0;
     ext_state := two_group_ext;
     trace := [] |}.

(** A vcore of four threads on hardware threads 8 to 11: threads 0, 1 and 2
    have entered the guest, thread 3 has not, nobody has acknowledged an
    exit.  The caller is thread 0. *)
Definition four_thread_vcore : hv_state :=
  {| vcores := {[ 0x100 := {| pcpu := 8; entry_exit_map := 0x07 |} ]};
     kvm_hstate := {| kvm_vcore := 0x100; ptid := 0; kvm_split_mode := None |};
     sent := [] |}.

(** ** Vocabulary for the walks over a range of entries *)

(** The entries of the hardware tables that were exchanged, in the order
    of the exchanges. *)
Definition exchanged_entries (evs : list event) : list (Z * Z) :=
  omap (fun ev => match ev with
                  | EvXchg t entry _ _ _ => Some (t, entry)
                  | _ => None
                  end) evs.

Definition is_mapped_inc (ev : event) : bool :=
  match ev with
  | EvMappedInc _ _ => true
  | _ => false
  end.

Section EntryVocabulary.

Context `{C : Collaborators}.

(** The contents of index [idx] of table [p], if the Entry Store has a
    place for it. *)
Definition entry_at (w : world) (p : nat) (idx : Z) : option Z :=
  stt ← spapr_tce_tables w !! p;
  pages_load (pages stt) (entry_slot stt idx).

End EntryVocabulary.

Definition is_list_load (ev : event) : bool :=
  match ev with
  | EvListLoad _ => true
  | _ => false
  end.

(** An emulated bus in a VM whose memory is not preregistered.  The page at
    guest physical 0x2000 is mapped by a present, young base page and holds
    a TCE list of three entries; the third has a bit set inside the page. *)
Definition unregistered_ext : ref_ext :=
  {| hw_tce := ∅;
     regions := [];
     mapped := ∅;
     memslots := [ {| base_gfn := 0; npages_slot := 1024;
                      userspace_addr := 0x40000000 |} ];
     linux_ptes :=
       {[ 0x40002 := ({| pte_present := true; pte_young := true;
                         pte_pfn := 0x80002 |}, 0) ]};
     guest_mem := {[ 0x80002000 := 0x3003; 0x80002008 := 0x5001;
                     0x80002010 := 0x6010 ]};
     prereg := false |}.

Definition unregistered_machine : world :=
  {| spapr_tce_tables := [ stt_window_512 ];
     iommu_tables := ∅;
     real_mem := ∅;
     run_task_mm := true;
     gpr4 := 0;
     ext_state := unregistered_ext;
     trace := [] |}.

(** A core split into two subcores: the vcore at 0x100 (hardware threads
    from 8, threads 0 and 1 in the guest) and the vcore at 0x200 (hardware
    threads from 12, thread 0 in the guest).  The caller is thread 0 of the
    first. *)
Definition split_core : hv_state :=
  {| vcores := {[ 0x100 := {| pcpu := 8; entry_exit_map := 0x03 |};
                  0x200 := {| pcpu := 12; entry_exit_map := 0x01 |} ]};
     kvm_hstate := {| kvm_vcore := 0x100; ptid := 0;
                      kvm_split_mode := Some [0x100; 0x200; 0; 0] |};
     sent := [] |}.

(** * Classification of the pending external interrupt (book3s_hv_builtin.c) *)

Definition u32 (z : Z) : Z := z mod 2 ^ 32.

(** Byte reversal of a 32-bit word, as [st_le32] followed by a load. *)
Definition swab32 (x : Z) : Z :=
  Z.lor (Z.lor (Z.shiftl (Z.land x 0xff) 24)
               (Z.shiftl (Z.land (Z.shiftr x 8) 0xff) 16))
        (Z.lor (Z.shiftl (Z.land (Z.shiftr x 16) 0xff) 8)
               (Z.land (Z.shiftr x 24) 0xff)).

(** Offsets of the ICP registers and the IPI source number (asm/xics.h). *)
Definition XICS_XIRR : Z := 4.
Definition XICS_MFRR : Z := 0xc.
Definition XICS_IPI : Z := 2.
Definition IPI_PRIORITY : Z := 4.

(** [struct kvmppc_irq_map] and [struct kvmppc_passthru_map]: the real and
    the virtual interrupt number of a passed-through interrupt, and the
    array of the mappings with the number of its entries in use. *)
Record kvmppc_irq_map := {
  r_hwirq : Z;
  v_hwirq : Z
}.

Record kvmppc_passthru_map := {
  n_map_irq : Z;
  irq_map : list kvmppc_irq_map
}.

(** A cache-inhibited access to the interrupt controller. *)
Inductive icp_access :=
| IcpLoadWord (addr : Z)         (* _lwzcix *)
| IcpStoreByte (addr val : Z)    (* _stbcix *)
| IcpStoreWord (addr val : Z).   (* _stwcix *)

#[global] Instance icp_access_eq_dec : EqDecision icp_access.
Proof. solve_decision. Defined.

(** The fields of [local_paca->kvm_hstate] read by [kvmppc_read_intr], the
    passthrough map of the VM (NULL is [None]), the word the XIRR register
    of the ICP hands out, and the accesses made to the ICP so far. *)
Record intr_state := {
  host_ipi : Z;
  xics_phys : Z;
  saved_xirr : Z;
  pimap : option kvmppc_passthru_map;
  icp_xirr : Z;
  icp_log : list icp_access
}.

Definition set_host_ipi (s : intr_state) (v : Z) : intr_state :=
  {| host_ipi := v; xics_phys := xics_phys s; saved_xirr := saved_xirr s;
     pimap := pimap s; icp_xirr := icp_xirr s; icp_log := icp_log s |}.

Definition set_saved_xirr (s : intr_state) (v : Z) : intr_state :=
  {| host_ipi := host_ipi s; xics_phys := xics_phys s; saved_xirr := v;
     pimap := pimap s; icp_xirr := icp_xirr s; icp_log := icp_log s |}.

Definition icp_access_log (s : intr_state) (a : icp_access) : intr_state :=
  {| host_ipi := host_ipi s; xics_phys := xics_phys s; saved_xirr := saved_xirr s;
     pimap := pimap s; icp_xirr := icp_xirr s; icp_log := icp_log s ++ [a] |}.

(** [for (i = 0; i < pmap->n_map_irq; i++)] with [n] rounds left: the
    position of the first entry whose [r_hwirq] is [xisr], or NULL.
    Reading past the array is undefined. *)
Fixpoint get_irqmap_from (n i : nat) (pmap : kvmppc_passthru_map) (xisr : Z)
  : option (option nat) :=
  match n with
  | O => Some None
  | S n' =>
      e ← irq_map pmap !! i;
      if xisr =? r_hwirq e then Some (Some i)
      else get_irqmap_from n' (S i) pmap xisr
  end.

Definition get_irqmap (pmap : kvmppc_passthru_map) (xisr : Z)
  : option (option nat) :=
  get_irqmap_from (Z.to_nat (n_map_irq pmap)) 0 pmap xisr.

Section ReadIntr.

(** The byte order of the host ([__LITTLE_ENDIAN__]). *)
Variable LITTLE_ENDIAN : bool.

(** [kvmppc_deliver_irq_passthru(vcpu, xirr, irq_map, pmap)], defined
    outside the two files: its result and what it leaves. *)
Variable kvmppc_deliver_irq_passthru :
  Z -> nat -> kvmppc_passthru_map -> intr_state -> Z * intr_state.

(** [host_signal] tells whether the host sets [host_ipi] between the
    acknowledgement of an IPI and the second look at the flag: the one
    interference of another processor the function guards against. *)
Definition kvmppc_read_intr (host_signal : bool) (s : intr_state)
  : option (Z * intr_state) :=
  if negb (host_ipi s =? 0) then Some (1, s)
  else if xics_phys s =? 0 then Some (1, s)
  else
    let xirr := u32 (icp_xirr s) in
    let s := icp_access_log s (IcpLoadWord (u64 (xics_phys s + XICS_XIRR))) in
    let h_xirr := if LITTLE_ENDIAN then swab32 xirr else xirr in
    let s := set_saved_xirr s h_xirr in
    let xisr := Z.land h_xirr 0xffffff in
    if xisr =? 0 then Some (0, s)
    else if xisr =? XICS_IPI then
      let s := icp_access_log s (IcpStoreByte (u64 (xics_phys s + XICS_MFRR)) 0xff) in
      let s := icp_access_log s (IcpStoreWord (u64 (xics_phys s + XICS_XIRR)) xirr) in
      let s := if host_signal then set_host_ipi s 1 else s in
      if negb (host_ipi s =? 0) then
        Some (1, icp_access_log s
                   (IcpStoreByte (u64 (xics_phys s + XICS_MFRR)) IPI_PRIORITY))
      else Some (-1, set_saved_xirr s 0)
    else
      match pimap s with
      | None => Some (1, s)
      | Some pmap =>
          irq ← get_irqmap pmap xisr;
          match irq with
          | None => Some (1, s)
          | Some i => Some (kvmppc_deliver_irq_passthru xirr i pmap s)
          end
      end.

End ReadIntr.

(** An interrupt controller that presents an IPI (source 2, priority
    0xff) to a thread with no host IPI pending and no passthrough map. *)
Definition ipi_pending : intr_state :=
  {| host_ipi := 0; xics_phys := 0x3ffff80000000; saved_xirr := 0;
     pimap := None; icp_xirr := 0xff000002; icp_log := [] |}.

(** Modelled from the spec: the delivery of a passthrough interrupt, absent
    from the source files; this stand-in reports every interrupt as
    delivered (-2) and changes nothing. *)
Definition deliver_always (xirr : Z) (i : nat) (pmap : kvmppc_passthru_map)
    (s : intr_state) : Z * intr_state := (-2, s).

(** A passthrough map with two entries in use and a third, stale one. *)
Definition two_irq_map : kvmppc_passthru_map :=
  {| n_map_irq := 2;
     irq_map := [ {| r_hwirq := 0x20; v_hwirq := 5 |};
                  {| r_hwirq := 0x30; v_hwirq := 6 |};
                  {| r_hwirq := 0x40; v_hwirq := 7 |} ] |}.

(** The two-group machine with a vcpu whose task has no address space. *)
Definition no_mm_machine : world :=
  {| spapr_tce_tables := spapr_tce_tables two_group_machine;
     iommu_tables := iommu_tables two_group_machine;
     real_mem := real_mem two_group_machine;
     run_task_mm := false;
     gpr4 := 0;
     ext_state := two_group_ext;
     trace := [] |}.

Section ListVocabulary.

Context `{C : Collaborators}.

(** [tces] is the real address at which H_PUT_TCE_INDIRECT reads the list
    whose guest physical address is [tce_list]: the address is resolved
    through the memory slots, and then through the pinned region of the
    page when guest memory is preregistered, through the page table
    otherwise. *)
Definition list_read_at (w : world) (tce_list tces : Z) : Prop :=
  let registered := run_task_mm w && mm_iommu_preregistered (ext_state w) in
  exists ua rmap,
    fst <$> kvmppc_gpa_to_ua tce_list (negb registered) w = Some (Some (ua, rmap))
    /\ if registered
       then exists mem,
              mm_iommu_lookup_rm ua IOMMU_PAGE_SIZE_4K (ext_state w) = Some mem
              /\ mm_iommu_rm_ua_to_hpa mem ua (ext_state w) = Some tces
       else fst <$> kvmppc_rm_ua_to_hpa ua w = Some (inr tces).

End ListVocabulary.

Section MapVocabulary.

Context `{C : Collaborators}.

(** What the map operation resolves for the page it is asked to map, the
    guest page at [gpa]: the pinned region [mem] that holds the userspace
    address of the page, and the host physical address [hpa] of the page
    in that region. *)
Definition new_region (w : world) (t gpa mem hpa : Z) : Prop :=
  exists ua rmap it,
    fst <$> kvmppc_gpa_to_ua gpa false w = Some (Some (ua, rmap))
    /\ iommu_tables w !! t = Some it
    /\ run_task_mm w = true
    /\ mm_iommu_lookup_rm ua (u64 (Z.shiftl 1 (it_page_shift it))) (ext_state w)
       = Some mem
    /\ mm_iommu_rm_ua_to_hpa mem ua (ext_state w) = Some hpa.

(** The region of the mapping that entry [entry] of table [t] had: the
    pinned region, in the registry [e], that holds the userspace address
    recorded for the entry. *)
Definition old_region (w : world) (e : ext) (t entry old : Z) : Prop :=
  exists it ua,
    iommu_tables w !! t = Some it
    /\ IOMMU_TABLE_USERSPACE_ENTRY t entry <> 0
    /\ real_mem w !! real_vmalloc_addr (IOMMU_TABLE_USERSPACE_ENTRY t entry)
       = Some ua
    /\ mm_iommu_lookup_rm ua (u64 (Z.shiftl 1 (it_page_shift it))) e = Some old.

End MapVocabulary.

(** The first group's entry 0 is mapped for read and write to a page of a
    second pinned region, 8, at userspace addresses
    [0x40010000, 0x40020000); the userspace address recorded for the entry
    is 0x40011000.  Region 7 is mapped once and region 8 twice. *)
Definition remap_ext : ref_ext :=
  {| hw_tce := {[ (grp_tbl_a, 0) := (0x90001000, DMA_BIDIRECTIONAL) ]};
     regions := [ {| mem_id := 7; mem_ua := 0x40000000; mem_entries := 16;
                     mem_hpa := 0x80000000 |};
                  {| mem_id := 8; mem_ua := 0x40010000; mem_entries := 16;
                     mem_hpa := 0x90000000 |} ];
     mapped := {[ 7 := 1; 8 := 2 ]};
     memslots := [ {| base_gfn := 0; npages_slot := 1024;
                      userspace_addr := 0x40000000 |} ];
     linux_ptes := ∅;
     guest_mem := ∅;
     prereg := true |}.

Definition remap_machine : world :=
  {| spapr_tce_tables := spapr_tce_tables two_group_machine;
     iommu_tables := iommu_tables two_group_machine;
     real_mem := {[ grp_tbl_a := 0x40011000; grp_tbl_b := 0 ]};
     run_task_mm := true;
     gpr4 := 0;
     ext_state := remap_ext;
     trace := [] |}.

Section PreflightVocabulary.

Context `{C : Collaborators}.

(** What the pre-flight check of a device group's table [it] answers for
    entry [j] of the list at [tces], when the I/O address of the first
    entry is [ioba]: 0 when it accepts the entry. *)
Definition preflight_check (it : iommu_table) (ioba tces : Z) (e : ext) (j : Z)
  : Z :=
  iommu_tce_put_param_check it
    (u64 (ioba + u64 (Z.shiftl j (it_page_shift it))))
    (tce_gpa (load_be64 (u64 (tces + 8 * j)) e)).

(** The call of that check, as it shows in the trace. *)
Definition preflight_event (t : Z) (it : iommu_table) (ioba tces : Z) (e : ext)
    (j : Z) : event :=
  EvPutParamCheck t (u64 (ioba + u64 (Z.shiftl j (it_page_shift it))))
    (tce_gpa (load_be64 (u64 (tces + 8 * j)) e))
    (preflight_check it ioba tces e j).

End PreflightVocabulary.

Section StuffVocabulary.

Context `{C : Collaborators}.

(** The place where entry [entry] of the group table [t] records its
    userspace address can be read and written: the entry has none, or it
    is a cell of the memory. *)
Definition userspace_slot_ok (w : world) (t entry : Z) : Prop :=
  IOMMU_TABLE_USERSPACE_ENTRY t entry = 0
  \/ real_vmalloc_addr (IOMMU_TABLE_USERSPACE_ENTRY t entry) = 0
  \/ is_Some (real_mem w !! real_vmalloc_addr (IOMMU_TABLE_USERSPACE_ENTRY t entry)).

(** The device group [kg] accepts the clearing of [n] entries from the I/O
    address [ioba]: its table is there, the pre-flight check of the table
    accepts the range, and every entry of the range has a usable place for
    its userspace address. *)
Definition group_accepts_clear (w : world) (ioba n : Z)
    (kg : kvmppc_spapr_tce_group) : Prop :=
  exists it,
    iommu_tables w !! tbl kg = Some it
    /\ iommu_tce_clear_param_check it ioba 0 n = 0
    /\ forall i, 0 <= i < n ->
         userspace_slot_ok w (tbl kg) (u64 (Z.shiftr ioba (it_page_shift it) + i)).

(** Every cell of the memory is still a cell. *)
Definition cells_kept (w w' : world) : Prop :=
  forall a, is_Some (real_mem w !! a) -> is_Some (real_mem w' !! a).

End StuffVocabulary.

(** The bus with the first device group alone, every index of the window
    holding 0x3003.  Entry 0 of the group is mapped for read and write to
    guest physical 0x3000 (userspace address 0x40003000, in region 7,
    which is counted twice), and entries 0 to 3 of the group have a place
    for their userspace address. *)
Definition filled_table : kvmppc_spapr_tce_table :=
  {| liobn := 1; page_shift := 12; offset := 0; size := 512;
     groups := [ {| tbl := grp_tbl_a |} ];
     pages := [ replicate 512 0x3003 ] |}.

Definition filled_machine : world :=
  {| spapr_tce_tables := [ filled_table ];
     iommu_tables := iommu_tables two_group_machine;
     real_mem := {[ grp_tbl_a := 0x40003000; grp_tbl_a + 8 := 0;
                    grp_tbl_a + 16 := 0; grp_tbl_a + 24 := 0 ]};
     run_task_mm := true;
     gpr4 := 0;
     ext_state :=
       with_mapped
         (with_hw two_group_ext
            {[ (grp_tbl_a, 0) := (0x80003000, DMA_BIDIRECTIONAL) ]})
         {[ 7 := 2 ]};
     trace := [] |}.

(** * Properties *)

(** ** Machine integers *)

Lemma int_page_mask_ones s : 0 <= s <= 30 -> int_page_mask s = Z.ones s.
Proof.
  intros Hs. unfold int_page_mask, int_shl1, s32.
  rewrite Z.shiftl_1_l, Z.ones_equiv.
  assert (0 < 2 ^ s <= 2 ^ 30) by (split; [lia | apply Z.pow_le_mono_r; lia]).
  change (2 ^ 30) with 1073741824 in *.
  change (2 ^ 31) with 2147483648. change (2 ^ 32) with 4294967296.
  rewrite (Z.mod_small (2 ^ s + _)) by lia.
  rewrite Z.mod_small by lia. lia.
Qed.

Lemma int_shl1_pow2 s : 0 <= s <= 30 -> int_shl1 s = 2 ^ s.
Proof.
  intros Hs. unfold int_shl1, s32. rewrite Z.shiftl_1_l.
  assert (0 < 2 ^ s <= 2 ^ 30) by (split; [lia | apply Z.pow_le_mono_r; lia]).
  change (2 ^ 30) with 1073741824 in *.
  change (2 ^ 31) with 2147483648. change (2 ^ 32) with 4294967296.
  rewrite Z.mod_small by lia. lia.
Qed.

Lemma u64_small z : 0 <= z < 2 ^ 64 -> u64 z = z.
Proof. intros. unfold u64. now apply Z.mod_small. Qed.

Lemma ones_bound s : 0 <= s <= 30 -> 0 <= Z.ones s < 2 ^ 64.
Proof.
  intros Hs. rewrite Z.ones_equiv.
  assert (0 < 2 ^ s <= 2 ^ 30) by (split; [lia | apply Z.pow_le_mono_r; lia]).
  change (2 ^ 30) with 1073741824 in *. change (2 ^ 64) with 18446744073709551616.
  lia.
Qed.

(** ** C1: the window check of [kvmppc_ioba_validate] *)

(** What the code accepts, written out: the upper bound compares the index
    with [offset + size + npages], not [index + npages] with
    [offset + size]. *)
Lemma kvmppc_ioba_validate_spec stt ioba npages :
  kvmppc_ioba_validate stt ioba npages = H_SUCCESS <->
  Z.land ioba (u64 (int_page_mask (page_shift stt))) = 0
  /\ offset stt <= Z.shiftr ioba (page_shift stt)
  /\ Z.shiftr ioba (page_shift stt) < u64 (offset stt + size stt + npages).
Proof.
  unfold kvmppc_ioba_validate, H_SUCCESS, H_PARAMETER.
  destruct (Z.eqb_spec (Z.land ioba (u64 (int_page_mask (page_shift stt)))) 0);
  destruct (Z.ltb_spec (Z.shiftr ioba (page_shift stt)) (offset stt));
  destruct (Z.leb_spec (u64 (offset stt + size stt + npages))
                       (Z.shiftr ioba (page_shift stt)));
  simpl; split; intros; try discriminate; try lia; tauto.
Qed.

Lemma kvmppc_ioba_validate_cases stt ioba npages :
  kvmppc_ioba_validate stt ioba npages = H_SUCCESS
  \/ kvmppc_ioba_validate stt ioba npages = H_PARAMETER.
Proof. unfold kvmppc_ioba_validate. destruct (_ || _); auto. Qed.

(** C1 (the code departs from the claim).  Index 512 lies outside the
    window [0, 512) of the table, and the address is page aligned, yet
    [kvmppc_ioba_validate] answers [H_SUCCESS] for one page at that index:
    the claim requires [H_PARAMETER] for every index outside
    [offset, offset + size). *)
Theorem ioba_validate_accepts_index_past_window :
  let stt := stt_window_512 in
  let ioba := Z.shiftl 512 (page_shift stt) in
  Z.shiftr ioba (page_shift stt) = 512
  /\ ~ (offset stt <= 512 < offset stt + size stt)
  /\ ~ (offset stt + size stt >= 512 + 1)
  /\ kvmppc_ioba_validate stt ioba 1 = H_SUCCESS.
Proof.
  simpl. repeat split; try (vm_compute; intuition congruence).
Qed.

Create HintDb frame.

Section VioProperties.

Context `{C : Collaborators}.

(** ** Reasoning about the monad *)

Lemma bind_inv {A B} (m : M A) (f : A -> M B) w b w' :
  bind m f w = Some (b, w') ->
  exists a w1, m w = Some (a, w1) /\ f a w1 = Some (b, w').
Proof. unfold bind. destruct (m w) as [[a w1]|]; [eauto | discriminate]. Qed.

Lemma bind_run {A B} (m : M A) (f : A -> M B) w a w1 :
  m w = Some (a, w1) -> bind m f w = f a w1.
Proof. unfold bind. now intros ->. Qed.

(** A computation whose result is known leaves [world_after]. *)
Lemma run_world_after {A} (m : M A) w a :
  fst <$> m w = Some a -> m w = Some (a, world_after m w).
Proof.
  unfold world_after. destruct (m w) as [[a' w']|]; simpl; [|discriminate].
  now intros [= ->].
Qed.

Lemma find_table_from_lookup l pos bus p :
  find_table_from l pos bus = Some p ->
  (pos <= p)%nat /\ exists stt, l !! (p - pos)%nat = Some stt /\ liobn stt = bus.
Proof.
  revert pos. induction l as [|stt l IH]; intros pos; simpl; [discriminate|].
  destruct (decide (liobn stt = bus)) as [Heq|Hne].
  - intros [= <-]. split; [lia|]. exists stt. now rewrite Nat.sub_diag.
  - intros H. apply IH in H as [Hle (stt' & Hl & Hb)]. split; [lia|].
    exists stt'. split; [|exact Hb].
    replace (p - pos)%nat with (S (p - S pos)) by lia. exact Hl.
Qed.

Lemma kvmppc_find_table_run bus w :
  kvmppc_find_table bus w = Some (find_table_from (spapr_tce_tables w) 0 bus, w).
Proof. reflexivity. Qed.

Lemma deref_stt_found bus w p :
  find_table_from (spapr_tce_tables w) 0 bus = Some p ->
  exists stt, spapr_tce_tables w !! p = Some stt /\ liobn stt = bus
              /\ deref_stt p w = Some (stt, w).
Proof.
  intros H. apply find_table_from_lookup in H as [_ (stt & Hl & Hb)].
  rewrite Nat.sub_0_r in Hl. exists stt. repeat split; try assumption.
  unfold deref_stt, bind, gets, lift_option. now rewrite Hl.
Qed.

Lemma deref_tbl_inv t w it w' :
  deref_tbl t w = Some (it, w') -> w' = w /\ iommu_tables w !! t = Some it.
Proof.
  unfold deref_tbl, bind, gets, lift_option, ret, fault.
  destruct (iommu_tables w !! t); [|discriminate]. now intros [= -> ->].
Qed.

Lemma deref_stt_inv p w stt w' :
  deref_stt p w = Some (stt, w') -> w' = w /\ spapr_tce_tables w !! p = Some stt.
Proof.
  unfold deref_stt, bind, gets, lift_option, ret, fault.
  destruct (spapr_tce_tables w !! p); [|discriminate]. now intros [= -> ->].
Qed.

(** ** Frame rules *)

Lemma preserves_ret {A} R `{!Frame R} (a : A) : preserves R (ret a).
Proof. intros w a' w' [= _ <-]. apply frame_refl. Qed.

Lemma preserves_gets {A} R `{!Frame R} (f : world -> A) : preserves R (gets f).
Proof. intros w a' w' [= _ <-]. apply frame_refl. Qed.

Lemma preserves_fault {A} R : preserves R (@fault _ A).
Proof. intros w a' w' [=]. Qed.

Lemma preserves_lift_option {A} R `{!Frame R} (o : option A) :
  preserves R (lift_option o).
Proof. destruct o; [apply preserves_ret; auto | apply preserves_fault]. Qed.

Lemma preserves_bind {A B} R `{!Frame R} (m : M A) (f : A -> M B) :
  preserves R m -> (forall a, preserves R (f a)) -> preserves R (bind m f).
Proof.
  intros Hm Hf w b w' H. apply bind_inv in H as (a & w1 & H1 & H2).
  eapply frame_trans; [eapply Hm | eapply Hf]; eauto.
Qed.

Lemma preserves_modify R (f : world -> world) :
  (forall w, R w (f w)) -> preserves R (modify f).
Proof. intros H w a w' [= _ <-]. apply H. Qed.

Lemma preserves_for_loop R `{!Frame R} n i body :
  (forall j, preserves R (body j)) -> preserves R (for_loop n i body).
Proof.
  intros Hb. revert i. induction n as [|n IH]; intros i; simpl.
  - now apply preserves_ret.
  - apply preserves_bind; [done | apply Hb |].
    intros [v|]; [now apply preserves_ret | apply IH].
Qed.

Lemma preserves_for_each_group R `{!Frame R} gs tbltmp body :
  (forall t, preserves R (body t)) -> preserves R (for_each_group gs tbltmp body).
Proof.
  intros Hb. revert tbltmp. induction gs as [|kg gs IH]; intros tbltmp; simpl.
  - now apply preserves_ret.
  - destruct (decide _); [apply IH|].
    apply preserves_bind; [done | apply Hb |].
    intros r. destruct (r =? 0); [apply IH | now apply preserves_ret].
Qed.

#[local] Instance same_tables_frame : Frame same_tables.
Proof. split; unfold same_tables; [done | congruence]. Qed.

#[local] Instance same_static_frame : Frame same_static.
Proof.
  split; unfold same_static; [done|].
  intros a b c [] []. split; congruence.
Qed.

#[local] Instance trace_grows_frame P : Frame (trace_grows P).
Proof.
  split; unfold trace_grows.
  - intros w. exists []. now rewrite app_nil_r.
  - intros a b c (e1 & H1 & F1) (e2 & H2 & F2). exists (e1 ++ e2).
    rewrite H2, H1, app_assoc. split; [done | now apply Forall_app].
Qed.

#[local] Instance only_trace_frame P : Frame (only_trace P).
Proof.
  split; unfold only_trace.
  - intros w. repeat split; try done. apply frame_refl.
  - intros a b c (?&?&?&?&?&?&?) (?&?&?&?&?&?&?).
    repeat split; try congruence. eapply frame_trans; eauto.
Qed.

Lemma preserves_weaken {A} (R R' : world -> world -> Prop) (m : M A) :
  (forall w w', R w w' -> R' w w') -> preserves R m -> preserves R' m.
Proof. intros HR Hm w a w' H. apply HR. eapply Hm; eauto. Qed.

(** One step of a frame proof: follow the structure of the code. *)
Ltac frame_step :=
  match goal with
  | |- preserves _ (ret _) => apply preserves_ret; try apply _
  | |- preserves _ (gets _) => apply preserves_gets; try apply _
  | |- preserves _ fault => apply preserves_fault
  | |- preserves _ (lift_option _) => apply preserves_lift_option; try apply _
  | |- preserves _ (bind _ _) => apply preserves_bind; [apply _ | | intros]
  | |- preserves _ (for_loop _ _ _) => apply preserves_for_loop; [apply _ | intros]
  | |- preserves _ (for_each_group _ _ _) =>
      apply preserves_for_each_group; [apply _ | intros]
  | |- preserves _ (if ?b then _ else _) => destruct b
  | |- preserves _ (match ?x with _ => _ end) => destruct x
  end.

Lemma same_tables_emit e : preserves same_tables (emit e).
Proof. now apply preserves_modify. Qed.

Lemma same_tables_with_ext f : preserves same_tables (modify (fun w => with_ext w (f w))).
Proof. now apply preserves_modify. Qed.

Lemma same_tables_with_real_mem f :
  preserves same_tables (modify (fun w => with_real_mem w (f w))).
Proof. now apply preserves_modify. Qed.

Lemma same_static_emit e : preserves same_static (emit e).
Proof. now apply preserves_modify. Qed.

Lemma same_static_modify f :
  (forall w, iommu_tables (f w) = iommu_tables w) ->
  (forall w, run_task_mm (f w) = run_task_mm w) ->
  preserves same_static (modify f).
Proof. intros H1 H2. apply preserves_modify. intros w. split; auto. Qed.

#[local] Hint Resolve same_tables_emit same_tables_with_ext
  same_tables_with_real_mem same_static_emit : frame.

Ltac frame_tables :=
  repeat first
    [ frame_step
    | solve [auto with frame]
    | apply same_static_modify; reflexivity ].

Lemma same_tables_gpa_to_ua gpa b : preserves same_tables (kvmppc_gpa_to_ua gpa b).
Proof. unfold kvmppc_gpa_to_ua. frame_tables. Qed.

Lemma same_tables_mapped_dec t entry :
  preserves same_tables (kvmppc_rm_tce_iommu_mapped_dec t entry).
Proof.
  unfold kvmppc_rm_tce_iommu_mapped_dec, deref_tbl, load_real,
    kvmppc_rm_iommu_lookup, kvmppc_mm_context, call_mapped_dec, store_real.
  frame_tables.
Qed.

Lemma same_tables_call_xchg t entry hpa dir :
  preserves same_tables (call_xchg t entry hpa dir).
Proof.
  unfold call_xchg. frame_tables.
Qed.

Lemma same_tables_call_mapped_inc mem : preserves same_tables (call_mapped_inc mem).
Proof.
  unfold call_mapped_inc. frame_tables.
Qed.

#[local] Hint Resolve same_tables_gpa_to_ua same_tables_mapped_dec same_tables_call_xchg
  same_tables_call_mapped_inc : frame.

Lemma same_tables_unmap t entry :
  preserves same_tables (kvmppc_rm_tce_iommu_unmap t entry).
Proof.
  unfold kvmppc_rm_tce_iommu_unmap. frame_tables.
Qed.

Lemma same_tables_map t entry gpa dir :
  preserves same_tables (kvmppc_rm_tce_iommu_map t entry gpa dir).
Proof.
  unfold kvmppc_rm_tce_iommu_map, deref_tbl, kvmppc_rm_iommu_lookup,
    kvmppc_mm_context, call_mapped_dec, store_real.
  frame_tables.
Qed.

#[local] Hint Resolve same_tables_unmap same_tables_map : frame.

Lemma same_tables_put_tce_iommu t bus ioba tce :
  preserves same_tables (kvmppc_rm_h_put_tce_iommu t bus ioba tce).
Proof.
  unfold kvmppc_rm_h_put_tce_iommu, deref_tbl, call_clear_param_check,
    call_put_param_check.
  frame_tables.
Qed.

Lemma same_tables_put_tce_indirect_iommu t ioba tces npages :
  preserves same_tables (kvmppc_rm_h_put_tce_indirect_iommu t ioba tces npages).
Proof.
  unfold kvmppc_rm_h_put_tce_indirect_iommu, deref_tbl, load_tce,
    call_put_param_check.
  frame_tables.
Qed.

Lemma same_tables_stuff_tce_iommu t bus ioba tce_value npages :
  preserves same_tables (kvmppc_rm_h_stuff_tce_iommu t bus ioba tce_value npages).
Proof.
  unfold kvmppc_rm_h_stuff_tce_iommu, deref_tbl, call_clear_param_check.
  frame_tables.
Qed.

#[local] Hint Resolve same_tables_put_tce_iommu same_tables_put_tce_indirect_iommu
  same_tables_stuff_tce_iommu : frame.

(** ** C6 and C10: the guards of [kvmppc_rm_h_put_tce_indirect] *)

(** C6.  When the table of the bus is found and [npages] exceeds 512, the
    hypercall returns [H_PARAMETER] and hands the world back as it was:
    the trace, which would record every resolution of the list address
    ([EvGpaToUa]) and every load from the list ([EvListLoad]), has not
    grown, so no contents of the list were read. *)
Theorem put_tce_indirect_list_cap bus ioba tce_list npages w p :
  find_table_from (spapr_tce_tables w) 0 bus = Some p ->
  512 < npages ->
  kvmppc_rm_h_put_tce_indirect bus ioba tce_list npages w = Some (H_PARAMETER, w).
Proof.
  intros Hfind Hn. unfold kvmppc_rm_h_put_tce_indirect.
  rewrite (bind_run _ _ _ _ _ (kvmppc_find_table_run bus w)), Hfind.
  destruct (deref_stt_found _ _ _ Hfind) as (stt & _ & _ & Hd).
  rewrite (bind_run _ _ _ _ _ Hd).
  destruct (Z.ltb_spec 512 npages); [reflexivity | lia].
Qed.

(** C10.  When the table of the bus is found and the list address has a
    bit set below the 4K boundary, the hypercall returns [H_PARAMETER]
    with the world unchanged: the list address was neither resolved nor
    read. *)
Theorem put_tce_indirect_list_alignment bus ioba tce_list npages w p :
  find_table_from (spapr_tce_tables w) 0 bus = Some p ->
  Z.land tce_list 4095 <> 0 ->
  kvmppc_rm_h_put_tce_indirect bus ioba tce_list npages w = Some (H_PARAMETER, w).
Proof.
  intros Hfind Hn. unfold kvmppc_rm_h_put_tce_indirect.
  rewrite (bind_run _ _ _ _ _ (kvmppc_find_table_run bus w)), Hfind.
  destruct (deref_stt_found _ _ _ Hfind) as (stt & _ & _ & Hd).
  rewrite (bind_run _ _ _ _ _ Hd).
  destruct (512 <? npages); [reflexivity|].
  change (u64 (Z.lnot IOMMU_PAGE_MASK_4K)) with 4095.
  destruct (Z.eqb_spec (Z.land tce_list 4095) 0); [contradiction | reflexivity].
Qed.

(** ** C8: the Entry Store round trip *)

Lemma TCES_PER_PAGE_pos : 3 <= PAGE_SHIFT < 64 -> 0 < TCES_PER_PAGE.
Proof.
  intros H. unfold TCES_PER_PAGE, PAGE_SIZE.
  rewrite Z.shiftl_1_l, u64_small.
  - replace PAGE_SHIFT with (3 + (PAGE_SHIFT - 3)) by lia.
    rewrite Z.pow_add_r by lia. change (2 ^ 3) with 8.
    rewrite Z.mul_comm, Z.div_mul by lia. apply Z.pow_pos_nonneg; lia.
  - split; [apply Z.pow_nonneg; lia | apply Z.pow_lt_mono_r; lia].
Qed.

Lemma window_index_bound stt idx :
  wf_table stt -> offset stt <= idx < offset stt + size stt ->
  0 <= idx - offset stt < size stt /\ offset stt + size stt <= 2 ^ 63
  /\ 0 <= idx /\ idx * 2 ^ page_shift stt < 2 ^ 64.
Proof.
  intros (Hs & Ho & Hz & Hfit & _) Hidx.
  assert (HP : 2 <= 2 ^ page_shift stt).
  { change 2 with (2 ^ 1) at 1. apply Z.pow_le_mono_r; lia. }
  set (P := 2 ^ page_shift stt) in *.
  assert ((offset stt + size stt) * 2 <= (offset stt + size stt) * P)
    by (apply Z.mul_le_mono_nonneg_l; lia).
  assert ((idx + 1) * P <= (offset stt + size stt) * P)
    by (apply Z.mul_le_mono_nonneg_r; lia).
  change (2 ^ 63) with 9223372036854775808.
  change (2 ^ 64) with 18446744073709551616 in *.
  repeat split; lia.
Qed.

Lemma entry_slot_in_range stt idx :
  3 <= PAGE_SHIFT < 64 ->
  wf_table stt -> offset stt <= idx < offset stt + size stt ->
  exists page, pages stt !! (entry_slot stt idx).1 = Some page
               /\ ((entry_slot stt idx).2 < length page)%nat.
Proof.
  intros HP Hwf Hidx.
  pose proof (TCES_PER_PAGE_pos HP) as HT.
  destruct (window_index_bound _ _ Hwf Hidx) as (Hi & Hsz & _).
  destruct Hwf as (_ & Ho & _ & _ & Hpg & Hlen).
  unfold entry_slot; simpl.
  rewrite u64_small by (change (2 ^ 64) with 18446744073709551616;
                        change (2 ^ 63) with 9223372036854775808 in Hsz; lia).
  set (i := idx - offset stt) in *.
  assert (Hq : (Z.to_nat (i / TCES_PER_PAGE) < length (pages stt))%nat).
  { assert (0 <= i / TCES_PER_PAGE) by (apply Z.div_pos; lia).
    assert (i / TCES_PER_PAGE < Z.of_nat (length (pages stt))).
    { apply Z.div_lt_upper_bound; lia. }
    lia. }
  destruct (lookup_lt_is_Some_2 _ _ Hq) as [page Hpage].
  exists page. split; [exact Hpage|].
  rewrite Forall_forall in Hpg.
  specialize (Hpg page (list_elem_of_lookup_2 _ _ _ Hpage)).
  pose proof (Z.mod_pos_bound i TCES_PER_PAGE HT). lia.
Qed.

Lemma pages_store_load pgs slot v pgs' :
  pages_store pgs slot v = Some pgs' -> pages_load pgs' slot = Some v.
Proof.
  unfold pages_store, pages_load.
  destruct (pgs !! slot.1) as [page|] eqn:Hp; [|discriminate].
  destruct (decide _) as [Hlt|]; [|discriminate].
  intros [= <-].
  rewrite list_lookup_insert_eq by (eapply lookup_lt_Some; eauto).
  now apply list_lookup_insert_eq.
Qed.

Lemma find_table_from_insert l pos bus p stt stt' :
  find_table_from l pos bus = Some p ->
  l !! (p - pos)%nat = Some stt -> liobn stt' = liobn stt ->
  find_table_from (<[(p - pos)%nat := stt']> l) pos bus = Some p.
Proof.
  revert pos. induction l as [|x l IH]; intros pos; simpl; [discriminate|].
  destruct (decide (liobn x = bus)) as [Heq|Hne].
  - intros [= <-]. rewrite Nat.sub_diag. simpl. intros [= ->] Hl.
    rewrite Hl. now rewrite decide_True.
  - intros Hf Hl Hb. pose proof (find_table_from_lookup _ _ _ _ Hf) as [Hle _].
    replace (p - pos)%nat with (S (p - S pos)) in * by lia. simpl in *.
    rewrite decide_False by assumption. now apply IH.
Qed.

(** C8.  In a well-formed table, for every index of the window and every
    value (validated or not), [kvmppc_tce_put] stores the value and an
    [H_GET_TCE] at the I/O address of that index then succeeds and returns
    exactly that value in [gpr4]. *)
Theorem tce_put_get_round_trip bus w p stt idx v :
  3 <= PAGE_SHIFT < 64 ->
  find_table_from (spapr_tce_tables w) 0 bus = Some p ->
  spapr_tce_tables w !! p = Some stt ->
  wf_table stt ->
  offset stt <= idx < offset stt + size stt ->
  exists w1 w2,
    kvmppc_tce_put p idx v w = Some (tt, w1)
    /\ kvmppc_h_get_tce bus (Z.shiftl idx (page_shift stt)) w1
       = Some (H_SUCCESS, w2)
    /\ gpr4 w2 = v.
Proof.
  intros HP Hfind Hstt Hwf Hidx.
  destruct (entry_slot_in_range _ _ HP Hwf Hidx) as (page & Hpage & Hlt).
  set (pgs' := <[(entry_slot stt idx).1 := <[(entry_slot stt idx).2 := v]> page]>
                 (pages stt)).
  assert (Hst : pages_store (pages stt) (entry_slot stt idx) v = Some pgs').
  { unfold pages_store. rewrite Hpage. now rewrite decide_True. }
  set (w1 := with_tables w (<[p := set_pages stt pgs']> (spapr_tce_tables w))).
  exists w1, (with_gpr4 w1 v). split; [|split; [|reflexivity]].
  - unfold kvmppc_tce_put, deref_stt, bind, gets, lift_option, modify.
    rewrite Hstt. simpl. now rewrite Hst.
  - assert (Hfind1 : find_table_from (spapr_tce_tables w1) 0 bus = Some p).
    { pose proof (find_table_from_insert _ 0 bus p stt (set_pages stt pgs') Hfind) as H.
      rewrite Nat.sub_0_r in H. now apply H. }
    assert (Hd1 : deref_stt p w1 = Some (set_pages stt pgs', w1)).
    { unfold deref_stt, bind, gets, lift_option. simpl.
      rewrite list_lookup_insert_eq by (eapply lookup_lt_Some; eauto). reflexivity. }
    unfold kvmppc_h_get_tce.
    rewrite (bind_run _ _ _ _ _ (kvmppc_find_table_run bus w1)), Hfind1.
    rewrite (bind_run _ _ _ _ _ Hd1).
    destruct (window_index_bound _ _ Hwf Hidx) as (Hi & Hsz & Hi0 & Hio).
    pose proof Hwf as (Hs & Ho & Hz & Hfit & _).
    assert (Hshr : Z.shiftr (Z.shiftl idx (page_shift stt)) (page_shift stt) = idx).
    { rewrite Z.shiftr_shiftl_l by lia. now rewrite Z.sub_diag, Z.shiftl_0_r. }
    assert (Hval : kvmppc_ioba_validate (set_pages stt pgs')
                     (Z.shiftl idx (page_shift stt)) 1 = H_SUCCESS).
    { apply kvmppc_ioba_validate_spec. simpl. rewrite Hshr.
      rewrite int_page_mask_ones, u64_small by (try apply ones_bound; lia).
      rewrite Z.land_ones, Z.shiftl_mul_pow2 by lia.
      rewrite Z.mod_mul by (apply Z.pow_nonzero; lia).
      change (2 ^ 63) with 9223372036854775808 in Hsz.
      rewrite u64_small by (change (2 ^ 64) with 18446744073709551616; lia).
      lia. }
    rewrite Hval. simpl. rewrite Hshr.
    change (entry_slot (set_pages stt pgs') idx) with (entry_slot stt idx).
    unfold bind, lift_option. rewrite (pages_store_load _ _ _ _ Hst).
    reflexivity.
Qed.

(** ** C4: H_PUT_TCE writes the entry after every group has succeeded *)

Lemma for_each_group_ok gs tbltmp body w w' :
  for_each_group gs tbltmp body w = Some (None, w') <->
  groups_ok body gs tbltmp w w'.
Proof.
  split.
  - revert tbltmp w. induction gs as [|kg gs IH]; intros tbltmp w; simpl.
    + intros [= <-]. constructor.
    + destruct (decide (tbl kg = tbltmp)) as [He|Hne].
      * intros H. apply groups_ok_skip; auto.
      * intros H. apply bind_inv in H as (r & w1 & Hb & H).
        destruct (Z.eqb_spec r 0) as [->|Hr]; [|discriminate].
        eapply groups_ok_step; eauto.
  - induction 1 as [| kg gs tbltmp w w' He _ IH | kg gs tbltmp w w1 w' Hne Hb _ IH];
      simpl.
    + reflexivity.
    + now rewrite decide_True.
    + rewrite decide_False by assumption. now rewrite (bind_run _ _ _ _ _ Hb).
Qed.

Lemma for_each_group_fail gs tbltmp body w v w' :
  for_each_group gs tbltmp body w = Some (Some v, w') <->
  groups_fail body gs tbltmp w v w'.
Proof.
  split.
  - revert tbltmp w. induction gs as [|kg gs IH]; intros tbltmp w; simpl.
    + discriminate.
    + destruct (decide (tbl kg = tbltmp)) as [He|Hne].
      * intros H. apply groups_fail_skip; auto.
      * intros H. apply bind_inv in H as (r & w1 & Hb & H).
        destruct (Z.eqb_spec r 0) as [->|Hr].
        -- eapply groups_fail_later; eauto.
        -- injection H as <- <-. eapply groups_fail_here; eauto.
  - induction 1 as [ kg gs tbltmp w v w' Hne Hb Hv
                   | kg gs tbltmp w v w' He _ IH
                   | kg gs tbltmp w w1 v w' Hne Hb _ IH ]; simpl.
    + rewrite decide_False by assumption. rewrite (bind_run _ _ _ _ _ Hb).
      destruct (Z.eqb_spec v 0); [contradiction | reflexivity].
    + now rewrite decide_True.
    + rewrite decide_False by assumption. now rewrite (bind_run _ _ _ _ _ Hb).
Qed.

Lemma same_tables_entry_store w w' : same_tables w w' -> entry_store w' = entry_store w.
Proof. unfold same_tables, entry_store. now intros ->. Qed.

(** C4.  For every H_PUT_TCE that returns:
    - if the Entry Store has changed, the table was found, every attached
      group (walked as [groups_ok] says) reported success, and the call
      returns [H_SUCCESS];
    - if the walk over the groups stops at a group that reports [v <> 0], the
      call returns that [v], and the world it leaves is the one the groups
      left: the entry has not been written and nothing done for the earlier
      groups has been undone;
    - if every group reports success, the call writes the entry with
      [kvmppc_tce_put] and returns [H_SUCCESS]. *)
Theorem put_tce_store_after_all_groups bus ioba tce w r w' :
  kvmppc_rm_h_put_tce bus ioba tce w = Some (r, w') ->
  let body := fun t => kvmppc_rm_h_put_tce_iommu t bus ioba tce in
  (entry_store w' <> entry_store w ->
     r = H_SUCCESS
     /\ exists p stt w1,
          find_table_from (spapr_tce_tables w) 0 bus = Some p
          /\ spapr_tce_tables w !! p = Some stt
          /\ groups_ok body (groups stt) 0 w w1)
  /\ (forall p stt,
        find_table_from (spapr_tce_tables w) 0 bus = Some p ->
        spapr_tce_tables w !! p = Some stt ->
        kvmppc_ioba_validate stt ioba 1 = H_SUCCESS ->
        kvmppc_tce_validate stt tce = H_SUCCESS ->
        (forall v w1, groups_fail body (groups stt) 0 w v w1 ->
           r = v /\ v <> H_SUCCESS /\ w' = w1 /\ entry_store w' = entry_store w)
        /\ (forall w1, groups_ok body (groups stt) 0 w w1 ->
             r = H_SUCCESS
             /\ kvmppc_tce_put p (Z.shiftr ioba (page_shift stt)) tce w1
                = Some (tt, w'))).
Proof.
  intros Hrun body. unfold kvmppc_rm_h_put_tce in Hrun.
  rewrite (bind_run _ _ _ _ _ (kvmppc_find_table_run bus w)) in Hrun.
  destruct (find_table_from (spapr_tce_tables w) 0 bus) as [p|] eqn:Hfind.
  2:{ injection Hrun as <- <-. split; [intros []; reflexivity|].
      intros ? ? [=]. }
  destruct (deref_stt_found _ _ _ Hfind) as (stt & Hstt & _ & Hd).
  rewrite (bind_run _ _ _ _ _ Hd) in Hrun.
  destruct (Z.eqb_spec (kvmppc_ioba_validate stt ioba 1) 0) as [Hv1|Hv1]; simpl in Hrun.
  2:{ injection Hrun as <- <-. split; [intros []; reflexivity|].
      intros ? ? [= <-]. rewrite Hstt. intros [= <-]. contradiction. }
  destruct (Z.eqb_spec (kvmppc_tce_validate stt tce) 0) as [Hv2|Hv2]; simpl in Hrun.
  2:{ injection Hrun as <- <-. split; [intros []; reflexivity|].
      intros ? ? [= <-]. rewrite Hstt. intros [= <-]. contradiction. }
  apply bind_inv in Hrun as (res & w1 & Hloop & Hrun).
  assert (Hsame : same_tables w w1).
  { eapply (preserves_for_each_group same_tables); [|exact Hloop].
    intros t. apply same_tables_put_tce_iommu. }
  change (fun t => kvmppc_rm_h_put_tce_iommu t bus ioba tce) with body in Hloop.
  destruct res as [v|].
  - injection Hrun as <- <-. apply for_each_group_fail in Hloop.
    split.
    + intros Hch. contradict Hch. now apply same_tables_entry_store.
    + intros p' stt' [= <-]. rewrite Hstt. intros [= <-] _ _. split.
      * intros v' w1' Hf. apply for_each_group_fail in Hf, Hloop.
        rewrite Hloop in Hf. injection Hf as <- <-.
        apply for_each_group_fail in Hloop.
        repeat split; auto using same_tables_entry_store.
        clear -Hloop. induction Hloop; auto.
      * intros w1' Hok. apply for_each_group_ok in Hok.
        apply for_each_group_fail in Hloop. congruence.
  - apply bind_inv in Hrun as ([] & w2 & Hput & Hret). injection Hret as <- <-.
    apply for_each_group_ok in Hloop. split.
    + intros _. split; [reflexivity|]. exists p, stt, w1. auto.
    + intros p' stt' [= <-]. rewrite Hstt. intros [= <-] _ _. split.
      * intros v' w1' Hf. apply for_each_group_fail in Hf.
        apply for_each_group_ok in Hloop. congruence.
      * intros w1' Hok. apply for_each_group_ok in Hok, Hloop.
        rewrite Hloop in Hok. injection Hok as <-. auto.
Qed.

(** ** C2: the pre-flight validation of H_PUT_TCE_INDIRECT *)

Lemma trace_grows_emit (P : event -> Prop) e : P e -> preserves (trace_grows P) (emit e).
Proof. intros HP w a w' [= _ <-]. exists [e]. split; [reflexivity | auto]. Qed.

Lemma trace_grows_modify (P : event -> Prop) f :
  (forall w, trace (f w) = trace w) -> preserves (trace_grows P) (modify f).
Proof.
  intros H w a w' [= _ <-]. exists []. rewrite H, app_nil_r. auto.
Qed.

Lemma only_trace_emit (P : event -> Prop) e : P e -> preserves (only_trace P) (emit e).
Proof.
  intros HP w a w' Hrun. repeat split; try (injection Hrun as _ <-; reflexivity).
  eapply trace_grows_emit; eauto.
Qed.

Ltac frame_trace :=
  repeat first
    [ frame_step
    | apply trace_grows_emit; reflexivity
    | apply trace_grows_modify; reflexivity
    | solve [auto with frame] ].

Lemma no_failed_check_map t entry gpa dir :
  preserves (trace_grows no_failed_check) (kvmppc_rm_tce_iommu_map t entry gpa dir).
Proof.
  unfold kvmppc_rm_tce_iommu_map, kvmppc_rm_tce_iommu_mapped_dec,
    kvmppc_gpa_to_ua, deref_tbl, kvmppc_rm_iommu_lookup, kvmppc_mm_context,
    call_mapped_inc, call_xchg, call_mapped_dec, store_real, load_real.
  frame_trace.
Qed.

Lemma no_failed_check_load_tce tces i :
  preserves (trace_grows no_failed_check) (load_tce tces i).
Proof. unfold load_tce. frame_trace. Qed.

(** One round of the first pass: a load and a check, nothing else. *)
Lemma preflight_round t it ioba tces j w :
  let a := u64 (tces + 8 * j) in
  let tce := load_be64 a (ext_state w) in
  let io := u64 (ioba + u64 (Z.shiftl j (it_page_shift it))) in
  let rc := iommu_tce_put_param_check it io (tce_gpa tce) in
  (tce <- load_tce tces j ;;
   let gpa := tce_gpa tce in
   rc <- call_put_param_check t it io gpa ;;
   if negb (rc =? 0) then ret (Some H_PARAMETER) else ret None) w
  = Some (if negb (rc =? 0) then Some H_PARAMETER else None,
          with_trace w (trace w ++ [EvListLoad a; EvPutParamCheck t io (tce_gpa tce) rc])).
Proof.
  intros a tce io rc.
  unfold load_tce, call_put_param_check, bind, emit, modify, gets, ret. simpl.
  fold a tce io rc. rewrite <- app_assoc. simpl.
  destruct (negb (rc =? 0)); reflexivity.
Qed.

Lemma preflight_pass t it ioba tces n i w res w' :
  for_loop n i (fun i =>
      tce <- load_tce tces i ;;
      let gpa := tce_gpa tce in
      rc <- call_put_param_check t it
              (u64 (ioba + u64 (Z.shiftl i (it_page_shift it)))) gpa ;;
      if negb (rc =? 0) then ret (Some H_PARAMETER) else ret None) w
  = Some (res, w') ->
  only_trace preflight w w'
  /\ match res with
     | None => trace_grows no_failed_check w w'
     | Some v =>
         v = H_PARAMETER
         /\ exists pre e, trace w' = trace w ++ pre ++ [e]
                          /\ is_failed_check e = true
                          /\ Forall no_failed_check pre
     end.
Proof.
  revert i w. induction n as [|n IH]; intros i w; simpl.
  - intros [= <- <-]. split; apply frame_refl.
  - intros H. apply bind_inv in H as (r & w1 & Hb & H).
    rewrite preflight_round in Hb. injection Hb as <- <-.
    set (rc := iommu_tce_put_param_check _ _ _) in *.
    set (l := EvListLoad _) in *. set (c := EvPutParamCheck _ _ _ _) in *.
    assert (Hstep : only_trace preflight w (with_trace w (trace w ++ [l; c]))).
    { repeat split. exists [l; c]. split; [reflexivity|]. repeat constructor. }
    destruct (Z.eqb_spec rc 0) as [Hrc|Hrc]; simpl in H.
    + apply IH in H as [Hot Hres]. split; [eapply frame_trans; eauto|].
      assert (Hok : is_failed_check c = false).
      { subst c. simpl. rewrite Hrc. reflexivity. }
      destruct res as [v|].
      * destruct Hres as (-> & pre & e & Ht & He & Hpre). split; [reflexivity|].
        exists ([l; c] ++ pre), e. simpl in Ht. rewrite Ht.
        repeat rewrite <- app_assoc. split; [reflexivity|]. split; [exact He|].
        apply Forall_app. split; [|exact Hpre]. repeat constructor. exact Hok.
      * eapply frame_trans; [|exact Hres]. exists [l; c]. split; [reflexivity|].
        repeat constructor. exact Hok.
    + injection H as <- <-. split; [exact Hstep|]. split; [reflexivity|].
      exists [l], c. split; [reflexivity|]. split.
      * subst c. simpl. destruct (Z.eqb_spec rc 0); [contradiction | reflexivity].
      * repeat constructor.
Qed.

(** A device group's half of the hypercall either meets no failing check,
    or stops at the first one having done nothing but load and check. *)
Lemma put_tce_indirect_iommu_trace t ioba tces npages w r w' :
  kvmppc_rm_h_put_tce_indirect_iommu t ioba tces npages w = Some (r, w') ->
  trace_grows no_failed_check w w'
  \/ (r = H_PARAMETER
      /\ only_trace preflight w w'
      /\ exists pre e, trace w' = trace w ++ pre ++ [e]
                       /\ is_failed_check e = true
                       /\ Forall no_failed_check pre).
Proof.
  unfold kvmppc_rm_h_put_tce_indirect_iommu. intros H.
  apply bind_inv in H as (it & w0 & Hd & H).
  apply deref_tbl_inv in Hd as [-> _].
  apply bind_inv in H as (res & w1 & Hp1 & H).
  apply preflight_pass in Hp1 as [Hot Hres].
  destruct res as [v|].
  - injection H as <- <-. right. destruct Hres as (-> & Hres). auto.
  - left. apply bind_inv in H as (res2 & w2 & Hp2 & H).
    assert (trace_grows no_failed_check w1 w2).
    { eapply (preserves_for_loop (trace_grows no_failed_check)); [|exact Hp2].
      intros j. cbv beta. frame_step; [apply no_failed_check_load_tce|].
      frame_step; [apply no_failed_check_map|]. frame_trace. }
    assert (w' = w2) as -> by (destruct res2; unfold ret in H; congruence).
    eapply frame_trans; eauto.
Qed.

Lemma put_tce_indirect_groups_trace gs tbltmp ioba tces npages w res w' :
  for_each_group gs tbltmp
    (fun t => kvmppc_rm_h_put_tce_indirect_iommu t ioba tces npages) w
  = Some (res, w') ->
  trace_grows no_failed_check w w'
  \/ (res = Some H_PARAMETER
      /\ exists pre e, trace w' = trace w ++ pre ++ [e]
                       /\ is_failed_check e = true
                       /\ Forall no_failed_check pre).
Proof.
  revert tbltmp w. induction gs as [|kg gs IH]; intros tbltmp w; simpl.
  - intros [= <- <-]. left. apply frame_refl.
  - destruct (decide _); [apply IH|].
    intros H. apply bind_inv in H as (r & w1 & Hb & H).
    apply put_tce_indirect_iommu_trace in Hb as [Hg | (-> & _ & Hf)].
    + destruct (r =? 0).
      * apply IH in H as [Hg' | (-> & pre & e & Ht & He & Hpre)].
        -- left. eapply frame_trans; eauto.
        -- right. split; [reflexivity|]. destruct Hg as (e1 & Ht1 & Hf1).
           exists (e1 ++ pre), e. rewrite Ht, Ht1, <- !app_assoc.
           split; [reflexivity|]. split; [exact He|]. now apply Forall_app.
      * injection H as <- <-. now left.
    + injection H as <- <-. right. auto.
Qed.

Lemma no_failed_check_store p stt entry tces npages rmap :
  preserves (trace_grows no_failed_check)
    (put_tce_indirect_store p stt entry tces npages rmap).
Proof.
  unfold put_tce_indirect_store, kvmppc_tce_put, deref_stt.
  frame_trace; apply no_failed_check_load_tce.
Qed.

Lemma failed_check_excluded evs :
  Forall no_failed_check evs -> Exists failed_check evs -> False.
Proof.
  intros Hf He. apply Exists_exists in He as (e & Hin & He).
  rewrite Forall_forall in Hf. specialize (Hf e Hin). simpl in *. congruence.
Qed.

Lemma trace_grows_unique P w w' evs :
  trace_grows P w w' -> trace w' = trace w ++ evs -> Forall P evs.
Proof.
  intros (e & Ht & Hf) Ht'. rewrite Ht in Ht'. apply app_inv_head in Ht'.
  now subst.
Qed.

#[local] Instance unchanged_frame : Frame (fun w w' : world => w' = w).
Proof. split; congruence. Qed.

Lemma kvmppc_preregistered_inv w b w' :
  kvmppc_preregistered w = Some (b, w') -> w' = w.
Proof.
  revert w b w'. change (preserves (fun w w' => w' = w) kvmppc_preregistered).
  unfold kvmppc_preregistered, kvmppc_mm_context. repeat frame_step.
Qed.

Lemma kvmppc_rm_iommu_lookup_inv ua sz w m w' :
  kvmppc_rm_iommu_lookup ua sz w = Some (m, w') ->
  w' = w
  /\ m = if run_task_mm w then mm_iommu_lookup_rm ua sz (ext_state w) else None.
Proof.
  unfold kvmppc_rm_iommu_lookup, kvmppc_mm_context, bind, gets, ret.
  destruct (run_task_mm w); simpl; now intros [= <- <-].
Qed.

Lemma no_failed_check_gpa_to_ua gpa b :
  preserves (trace_grows no_failed_check) (kvmppc_gpa_to_ua gpa b).
Proof. unfold kvmppc_gpa_to_ua. frame_trace. Qed.

(** The whole hypercall either meets no failing check, or returns
    [H_PARAMETER] right after the first one with the tables untouched. *)
Lemma put_tce_indirect_trace bus ioba tce_list npages w r w' :
  kvmppc_rm_h_put_tce_indirect bus ioba tce_list npages w = Some (r, w') ->
  trace_grows no_failed_check w w'
  \/ (r = H_PARAMETER
      /\ same_tables w w'
      /\ exists pre e, trace w' = trace w ++ pre ++ [e]
                       /\ is_failed_check e = true
                       /\ Forall no_failed_check pre).
Proof.
  unfold kvmppc_rm_h_put_tce_indirect. intros H.
  rewrite (bind_run _ _ _ _ _ (kvmppc_find_table_run bus w)) in H.
  destruct (find_table_from _ 0 bus) as [p|];
    [|injection H as <- <-; left; apply frame_refl].
  apply bind_inv in H as (stt & w0 & Hd & H). apply deref_stt_inv in Hd as [-> _].
  destruct (512 <? npages); [injection H as <- <-; left; apply frame_refl|].
  destruct (negb _); [injection H as <- <-; left; apply frame_refl|].
  destruct (negb _); [injection H as <- <-; left; apply frame_refl|].
  apply bind_inv in H as (pre & w0 & Hp & H).
  apply kvmppc_preregistered_inv in Hp as ->.
  destruct pre.
  - apply bind_inv in H as (g & w1 & Hg & H).
    pose proof (same_tables_gpa_to_ua _ _ _ _ _ Hg) as Hs1.
    pose proof (no_failed_check_gpa_to_ua _ _ _ _ _ Hg) as Ht1.
    destruct g as [[ua rm]|]; [|injection H as <- <-; now left].
    apply bind_inv in H as (mem & w2 & Hl & H).
    apply kvmppc_rm_iommu_lookup_inv in Hl as [-> _].
    apply bind_inv in H as (e & w2 & He & H). injection He as <- <-.
    destruct (mem ≫= _) as [tces|]; [|injection H as <- <-; now left].
    apply bind_inv in H as (res & w3 & Hloop & H).
    assert (Hs3 : same_tables w1 w3).
    { eapply (preserves_for_each_group same_tables); [|exact Hloop].
      intros t. apply same_tables_put_tce_indirect_iommu. }
    apply put_tce_indirect_groups_trace in Hloop as [Hg3 | (-> & pr & ev & Ht & Hev & Hpr)].
    + left. destruct res as [v|].
      * injection H as <- <-. eapply frame_trans; eauto.
      * apply no_failed_check_store in H. eapply frame_trans; [|exact H].
        eapply frame_trans; eauto.
    + injection H as <- <-. right. split; [reflexivity|].
      split; [eapply frame_trans; eauto|].
      destruct Ht1 as (e1 & Ht1 & Hf1). exists (e1 ++ pr), ev.
      rewrite Ht, Ht1, <- !app_assoc. split; [reflexivity|].
      split; [exact Hev | now apply Forall_app].
  - left.
    match type of H with
    | ?m w = Some _ => assert (Hm : preserves (trace_grows no_failed_check) m)
    end.
    { unfold kvmppc_rm_ua_to_hpa.
      frame_trace; try apply no_failed_check_gpa_to_ua;
        apply no_failed_check_store. }
    exact (Hm _ _ _ H).
Qed.

(** ** C3: unmapping an entry whose region has gone *)

Lemma call_xchg_run t entry hpa dir w rc hpa' dir' e' :
  iommu_tce_xchg_rm t entry hpa dir (ext_state w) = (rc, hpa', dir', e') ->
  call_xchg t entry hpa dir w
  = Some ((rc, hpa', dir'),
          with_trace (with_ext w e') (trace w ++ [EvXchg t entry hpa dir rc])).
Proof.
  intros H. unfold call_xchg, bind, gets, modify, emit, ret. now rewrite H.
Qed.

(** C3, as the code has it.  When the exchange finds a direction other than
    "none" and the userspace address recorded for the entry belongs to no
    region of the registry, [kvmppc_rm_tce_iommu_unmap] returns
    [H_HARDWARE].  The hardware entry has been exchanged; no mapping counter
    is decremented and the recorded userspace address is kept. *)
Theorem unmap_missing_region_is_hardware_error t entry w it hpa dir e' ua :
  iommu_tables w !! t = Some it ->
  iommu_tce_xchg_rm t entry 0 DMA_NONE (ext_state w) = (0, hpa, dir, e') ->
  dir <> DMA_NONE ->
  IOMMU_TABLE_USERSPACE_ENTRY t entry <> 0 ->
  real_vmalloc_addr (IOMMU_TABLE_USERSPACE_ENTRY t entry) <> 0 ->
  real_mem w !! real_vmalloc_addr (IOMMU_TABLE_USERSPACE_ENTRY t entry)
    = Some ua ->
  mm_iommu_lookup_rm ua (u64 (Z.shiftl 1 (it_page_shift it))) e' = None ->
  kvmppc_rm_tce_iommu_unmap t entry w
  = Some (H_HARDWARE,
          with_trace (with_ext w e') (trace w ++ [EvXchg t entry 0 DMA_NONE 0])).
Proof.
  intros Hit Hx Hdir Hp Hrp Hua Hlk.
  unfold kvmppc_rm_tce_iommu_unmap.
  rewrite (bind_run _ _ _ _ _ (call_xchg_run _ _ _ _ _ _ _ _ _ Hx)). simpl.
  rewrite decide_False by assumption.
  unfold kvmppc_rm_tce_iommu_mapped_dec, deref_tbl, load_real,
    kvmppc_rm_iommu_lookup, kvmppc_mm_context, bind, gets, lift_option, ret.
  simpl. rewrite Hit.
  destruct (Z.eqb_spec (IOMMU_TABLE_USERSPACE_ENTRY t entry) 0); [contradiction|].
  destruct (Z.eqb_spec (real_vmalloc_addr (IOMMU_TABLE_USERSPACE_ENTRY t entry)) 0);
    [contradiction|].
  cbn [real_mem with_trace with_ext]. rewrite Hua.
  cbn [run_task_mm with_trace with_ext ext_state].
  destruct (run_task_mm w); simpl; [rewrite Hlk|]; reflexivity.
Qed.

(** ** C5: the order of counter updates around the exchange *)

Lemma kvmppc_gpa_to_ua_inv gpa b w r w' :
  kvmppc_gpa_to_ua gpa b w = Some (r, w') ->
  w' = with_trace w (trace w ++ [EvGpaToUa gpa]).
Proof.
  unfold kvmppc_gpa_to_ua, bind, emit, modify, gets, ret. simpl.
  destruct (search_memslots _ _); now intros [= _ <-].
Qed.

Lemma call_mapped_inc_inv mem w r w' :
  call_mapped_inc mem w = Some (r, w') ->
  trace w' = trace w ++ [EvMappedInc mem r].
Proof.
  unfold call_mapped_inc, bind, emit, modify, gets, ret.
  destruct (mm_iommu_mapped_inc mem (ext_state w)) as [rc e'].
  now intros [= <- <-].
Qed.

Lemma call_xchg_inv t entry hpa dir w rc h d w' :
  call_xchg t entry hpa dir w = Some ((rc, h, d), w') ->
  trace w' = trace w ++ [EvXchg t entry hpa dir rc].
Proof.
  unfold call_xchg, bind, emit, modify, gets, ret.
  destruct (iommu_tce_xchg_rm _ _ _ _ _) as [[[rc' h'] d'] e'].
  now intros [= <- _ _ <-].
Qed.

Lemma store_real_inv a v w u w' :
  store_real a v w = Some (u, w') -> w' = with_real_mem w (<[a := v]> (real_mem w)).
Proof.
  unfold store_real, bind, gets, modify, fault.
  destruct (real_mem w !! a); [now intros [= _ <-] | discriminate].
Qed.

Lemma mapped_dec_trace t entry w r w' :
  kvmppc_rm_tce_iommu_mapped_dec t entry w = Some (r, w') ->
  trace w' = trace w \/ exists mem, trace w' = trace w ++ [EvMappedDec mem].
Proof.
  unfold kvmppc_rm_tce_iommu_mapped_dec. intros H.
  apply bind_inv in H as (it & w0 & Hd & H). apply deref_tbl_inv in Hd as [-> _].
  destruct (_ =? 0); [injection H as _ <-; now left|].
  destruct (_ =? 0); [injection H as _ <-; now left|].
  apply bind_inv in H as (ua & w0 & Hl & H).
  assert (w0 = w) as ->.
  { unfold load_real, bind, gets, lift_option, ret, fault in Hl.
    destruct (real_mem w !! _); [now injection Hl as _ <- | discriminate]. }
  apply bind_inv in H as (mem & w0 & Hk & H).
  apply kvmppc_rm_iommu_lookup_inv in Hk as [-> _].
  destruct mem as [mem|]; [|injection H as _ <-; now left].
  apply bind_inv in H as (u & w1 & Hdec & H).
  apply bind_inv in H as (u' & w2 & Hst & H). injection H as _ <-.
  apply store_real_inv in Hst as ->. right. exists mem.
  unfold call_mapped_dec, bind, modify, emit in Hdec. now injection Hdec as _ <-.
Qed.

(** The calls [kvmppc_rm_tce_iommu_map] makes after resolving the guest
    physical address, in their order. *)
Lemma map_trace_shape t entry gpa dir w r w' :
  kvmppc_rm_tce_iommu_map t entry gpa dir w = Some (r, w') ->
  exists evs, trace w' = trace w ++ EvGpaToUa gpa :: evs
  /\ (evs = []
      \/ (exists mem rc, rc <> 0 /\ evs = [EvMappedInc mem rc])
      \/ (exists mem hpa rc,
            rc <> 0
            /\ evs = [EvMappedInc mem 0; EvXchg t entry hpa dir rc; EvMappedDec mem])
      \/ (exists mem hpa, evs = [EvMappedInc mem 0; EvXchg t entry hpa dir 0])
      \/ (exists mem hpa old,
            evs = [EvMappedInc mem 0; EvXchg t entry hpa dir 0; EvMappedDec old])).
Proof.
  unfold kvmppc_rm_tce_iommu_map. intros H.
  apply bind_inv in H as (g & w1 & Hg & H).
  apply kvmppc_gpa_to_ua_inv in Hg. 
  assert (Ht1 : trace w1 = trace w ++ [EvGpaToUa gpa]) by now subst w1.
  clear Hg.
  assert (Hnil : forall wx, trace wx = trace w1 ->
            exists evs, trace wx = trace w ++ EvGpaToUa gpa :: evs /\ evs = []).
  { intros wx ->. exists []. now rewrite Ht1. }
  destruct g as [[ua rm]|];
    [|injection H as _ <-; destruct (Hnil w1 eq_refl) as (evs & ? & ?); eauto].
  apply bind_inv in H as (it & w0 & Hd & H). apply deref_tbl_inv in Hd as [-> _].
  apply bind_inv in H as (m & w0 & Hk & H).
  apply kvmppc_rm_iommu_lookup_inv in Hk as [-> _].
  destruct m as [mem|];
    [|injection H as _ <-; destruct (Hnil w1 eq_refl) as (evs & ? & ?); eauto].
  apply bind_inv in H as (e & w0 & He & H). injection He as _ <-.
  destruct (mm_iommu_rm_ua_to_hpa mem ua _) as [hpa|];
    [|injection H as _ <-; destruct (Hnil w1 eq_refl) as (evs & ? & ?); eauto].
  destruct (_ =? 0);
    [injection H as _ <-; destruct (Hnil w1 eq_refl) as (evs & ? & ?); eauto|].
  apply bind_inv in H as (rc & w2 & Hinc & H).
  apply call_mapped_inc_inv in Hinc.
  destruct (Z.eqb_spec rc 0) as [->|Hrc]; simpl in H.
  2:{ injection H as _ <-. exists [EvMappedInc mem rc].
      rewrite Hinc, Ht1, <- app_assoc. split; [reflexivity|]. right; left. eauto. }
  apply bind_inv in H as ([[rx hx] dx] & w3 & Hx & H).
  apply call_xchg_inv in Hx.
  destruct (Z.eqb_spec rx 0) as [->|Hrx]; simpl in H.
  2:{ apply bind_inv in H as (u & w4 & Hdec & H). injection H as _ <-.
      unfold call_mapped_dec, bind, modify, emit in Hdec. injection Hdec as _ <-.
      exists [EvMappedInc mem 0; EvXchg t entry hpa dir rx; EvMappedDec mem].
      simpl. rewrite Hx, Hinc, Ht1, <- !app_assoc. split; [reflexivity|].
      right; right; left. eauto. }
  apply bind_inv in H as (rd & w4 & Hdec & H).
  apply bind_inv in H as (u & w5 & Hst & H). injection H as _ <-.
  apply store_real_inv in Hst as ->. simpl.
  destruct (decide (dx = DMA_NONE)).
  - injection Hdec as _ <-.
    exists [EvMappedInc mem 0; EvXchg t entry hpa dir 0].
    rewrite Hx, Hinc, Ht1, <- !app_assoc. split; [reflexivity|].
    right; right; right; left. eauto.
  - apply mapped_dec_trace in Hdec as [Hd | (old & Hd)]; rewrite Hd, Hx, Hinc, Ht1.
    + exists [EvMappedInc mem 0; EvXchg t entry hpa dir 0].
      rewrite <- !app_assoc. split; [reflexivity|].
      right; right; right; left. eauto.
    + exists [EvMappedInc mem 0; EvXchg t entry hpa dir 0; EvMappedDec old].
      rewrite <- !app_assoc. split; [reflexivity|].
      right; right; right; right. eauto.
Qed.

(** In the events of one [kvmppc_rm_tce_iommu_map]:
    - every exchange is preceded by a successful increment of a mapping
      counter (the new region's: it is the only increment);
    - every decrement is preceded by the exchange; after a successful
      exchange it is the decrement for the old mapping, and after a failed
      exchange it takes back the increment of the region just counted. *)
Lemma map_events_order t entry gpa dir w r w' :
  kvmppc_rm_tce_iommu_map t entry gpa dir w = Some (r, w') ->
  exists evs, trace w' = trace w ++ evs
  /\ (forall i t' en h d rc,
        evs !! i = Some (EvXchg t' en h d rc) ->
        exists j mem, (j < i)%nat /\ evs !! j = Some (EvMappedInc mem 0))
  /\ (forall i m,
        evs !! i = Some (EvMappedDec m) ->
        exists j t' en h d rc,
          (j < i)%nat /\ evs !! j = Some (EvXchg t' en h d rc)
          /\ (rc <> 0 ->
              exists k, (k < j)%nat /\ evs !! k = Some (EvMappedInc m 0))).
Proof.
  intros H. apply map_trace_shape in H as (evs & Ht & Hshape).
  exists (EvGpaToUa gpa :: evs). split; [exact Ht|].
  destruct Hshape as [-> | [(mem & rc & Hrc & ->) | [(mem & hpa & rc & Hrc & ->)
                     | [(mem & hpa & ->) | (mem & hpa & old & ->)]]]];
    (split; [intros i t' en h d rc' Hi | intros i m Hi]);
    repeat (destruct i as [|i]; simpl in Hi; try discriminate);
    injection Hi as <-; subst.
  - exists 1%nat, mem. split; [lia | reflexivity].
  - exists 2%nat, t, entry, hpa, dir, rc. split; [lia|]. split; [reflexivity|].
    intros _. exists 1%nat. split; [lia | reflexivity].
  - exists 1%nat, mem. split; [lia | reflexivity].
  - exists 1%nat, mem. split; [lia | reflexivity].
  - exists 2%nat, t, entry, hpa, dir, 0. split; [lia|]. split; [reflexivity|].
    intros []. reflexivity.
Qed.

(** ** C9: clearing a range with H_STUFF_TCE *)

Lemma shiftr_index idx s : 0 <= s -> Z.shiftr (Z.shiftl idx s) s = idx.
Proof.
  intros. rewrite Z.shiftr_shiftl_l by lia. now rewrite Z.sub_diag, Z.shiftl_0_r.
Qed.

Lemma get_tce_reads bus w p stt idx v :
  find_table_from (spapr_tce_tables w) 0 bus = Some p ->
  spapr_tce_tables w !! p = Some stt ->
  wf_table stt ->
  offset stt <= idx < offset stt + size stt ->
  pages_load (pages stt) (entry_slot stt idx) = Some v ->
  kvmppc_h_get_tce bus (Z.shiftl idx (page_shift stt)) w
  = Some (H_SUCCESS, with_gpr4 w v).
Proof.
  intros Hfind Hstt Hwf Hidx Hload.
  unfold kvmppc_h_get_tce.
  rewrite (bind_run _ _ _ _ _ (kvmppc_find_table_run bus w)), Hfind.
  assert (Hd : deref_stt p w = Some (stt, w)).
  { unfold deref_stt, bind, gets, lift_option. now rewrite Hstt. }
  rewrite (bind_run _ _ _ _ _ Hd).
  destruct (window_index_bound _ _ Hwf Hidx) as (Hi & Hsz & Hi0 & Hio).
  pose proof Hwf as (Hs & Ho & Hz & Hfit & _).
  assert (Hval : kvmppc_ioba_validate stt (Z.shiftl idx (page_shift stt)) 1
                 = H_SUCCESS).
  { apply kvmppc_ioba_validate_spec. rewrite shiftr_index by lia.
    rewrite int_page_mask_ones, u64_small by (try apply ones_bound; lia).
    rewrite Z.land_ones, Z.shiftl_mul_pow2 by lia.
    rewrite Z.mod_mul by (apply Z.pow_nonzero; lia).
    change (2 ^ 63) with 9223372036854775808 in Hsz.
    rewrite u64_small by (change (2 ^ 64) with 18446744073709551616; lia).
    lia. }
  rewrite Hval. simpl. rewrite shiftr_index by lia.
  unfold bind, lift_option. now rewrite Hload.
Qed.

Lemma pages_store_lengths pgs slot v pgs' :
  pages_store pgs slot v = Some pgs' ->
  length pgs' = length pgs
  /\ Forall2 (fun a b => length a = length b) pgs' pgs.
Proof.
  unfold pages_store.
  destruct (pgs !! slot.1) as [page|] eqn:Hp; [|discriminate].
  destruct (decide _); [|discriminate]. intros [= <-].
  split; [apply length_insert|].
  apply Forall2_same_length_lookup. split; [apply length_insert|].
  intros i a b Ha Hb. destruct (decide (i = slot.1)) as [->|Hne].
  - rewrite list_lookup_insert_eq in Ha by (eapply lookup_lt_Some; eauto).
    injection Ha as <-. rewrite Hp in Hb. injection Hb as <-.
    apply length_insert.
  - rewrite list_lookup_insert_ne in Ha by auto. congruence.
Qed.

Lemma wf_table_set_pages stt slot v pgs :
  wf_table stt -> pages_store (pages stt) slot v = Some pgs ->
  wf_table (set_pages stt pgs).
Proof.
  intros (H1 & H2 & H3 & H4 & H5 & H6) Hst.
  apply pages_store_lengths in Hst as [Hlen Hall].
  unfold wf_table; simpl. repeat split; try lia.
  - apply Forall_forall. intros pg Hin.
    apply list_elem_of_lookup in Hin as [i Hi].
    destruct (Forall2_lookup_l _ _ _ _ _ Hall Hi) as (pg0 & Hpg0 & Hl).
    rewrite Hl. rewrite Forall_forall in H5. apply H5.
    eapply list_elem_of_lookup_2; eauto.
Qed.

Lemma kvmppc_tce_put_inv p idx v w u w' :
  kvmppc_tce_put p idx v w = Some (u, w') ->
  exists stt pgs,
    spapr_tce_tables w !! p = Some stt
    /\ pages_store (pages stt) (entry_slot stt idx) v = Some pgs
    /\ w' = with_tables w (<[p := set_pages stt pgs]> (spapr_tce_tables w)).
Proof.
  unfold kvmppc_tce_put. intros H.
  apply bind_inv in H as (stt & w0 & Hd & H). apply deref_stt_inv in Hd as [-> Hstt].
  apply bind_inv in H as (pgs & w0 & Hl & H).
  destruct (pages_store _ _ _) as [pgs0|] eqn:Hst; [|discriminate].
  injection Hl as <- <-. injection H as _ <-. eauto.
Qed.

Lemma pages_store_zero_keeps pgs s pgs' s' :
  pages_store pgs s 0 = Some pgs' ->
  pages_load pgs s' = Some 0 -> pages_load pgs' s' = Some 0.
Proof.
  unfold pages_store, pages_load.
  destruct (pgs !! s.1) as [page|] eqn:Hp; [|discriminate].
  destruct (decide _) as [Hlt|]; [|discriminate]. intros [= <-].
  destruct (decide (s'.1 = s.1)) as [He|Hne].
  - rewrite He, Hp, list_lookup_insert_eq by (eapply lookup_lt_Some; eauto).
    destruct (decide (s'.2 = s.2)) as [->|Hne2].
    + intros _. now apply list_lookup_insert_eq.
    + now rewrite list_lookup_insert_ne by auto.
  - now rewrite list_lookup_insert_ne by auto.
Qed.

Lemma pages_store_zero_id pgs s pgs' :
  pages_store pgs s 0 = Some pgs' -> pages_load pgs s = Some 0 -> pgs' = pgs.
Proof.
  unfold pages_store, pages_load.
  destruct (pgs !! s.1) as [page|] eqn:Hp; [|discriminate].
  destruct (decide _); [|discriminate]. intros [= <-] Hl.
  rewrite (list_insert_id page) by assumption. now apply list_insert_id.
Qed.

Lemma set_pages_id stt : set_pages stt (pages stt) = stt.
Proof. now destruct stt. Qed.

Lemma put_zero_keeps p idx w u w' j :
  kvmppc_tce_put p idx 0 w = Some (u, w') -> reads_zero w p j -> reads_zero w' p j.
Proof.
  intros H (stt & Hstt & Hl).
  apply kvmppc_tce_put_inv in H as (stt' & pgs & Hstt' & Hst & ->).
  rewrite Hstt in Hstt'. injection Hstt' as <-.
  exists (set_pages stt pgs). simpl.
  rewrite list_lookup_insert_eq by (eapply lookup_lt_Some; eauto).
  split; [reflexivity|].
  change (entry_slot (set_pages stt pgs) j) with (entry_slot stt j).
  eapply pages_store_zero_keeps; eauto.
Qed.

Lemma put_zero_sets p idx w u w' :
  kvmppc_tce_put p idx 0 w = Some (u, w') -> reads_zero w' p idx.
Proof.
  intros H. apply kvmppc_tce_put_inv in H as (stt & pgs & Hstt & Hst & ->).
  exists (set_pages stt pgs). simpl.
  rewrite list_lookup_insert_eq by (eapply lookup_lt_Some; eauto).
  split; [reflexivity|].
  change (entry_slot (set_pages stt pgs) idx) with (entry_slot stt idx).
  eapply pages_store_load; eauto.
Qed.

Lemma put_zero_id p idx w u w' :
  kvmppc_tce_put p idx 0 w = Some (u, w') -> reads_zero w p idx ->
  spapr_tce_tables w' = spapr_tce_tables w.
Proof.
  intros H (stt & Hstt & Hl).
  apply kvmppc_tce_put_inv in H as (stt' & pgs & Hstt' & Hst & ->).
  rewrite Hstt in Hstt'. injection Hstt' as <-. simpl.
  rewrite (pages_store_zero_id _ _ _ Hst Hl), set_pages_id.
  now apply list_insert_id.
Qed.

Lemma stuff_ioba_step idx s n :
  0 <= s <= 30 -> 0 <= idx -> (idx + Z.of_nat (S n)) * 2 ^ s <= 2 ^ 64 ->
  (0 < n)%nat ->
  u64 (Z.shiftl idx s + int_shl1 s) = Z.shiftl (idx + 1) s.
Proof.
  intros Hs Hi Hfit Hn. rewrite int_shl1_pow2, !Z.shiftl_mul_pow2 by lia.
  assert (0 < 2 ^ s) by (apply Z.pow_pos_nonneg; lia).
  rewrite u64_small; [lia|].
  assert ((idx + 2) * 2 ^ s <= (idx + Z.of_nat (S n)) * 2 ^ s)
    by (apply Z.mul_le_mono_nonneg_r; lia).
  lia.
Qed.

Lemma stuff_store_zeroes p stt n : forall idx w w',
  0 <= page_shift stt <= 30 -> 0 <= idx ->
  (idx + Z.of_nat n) * 2 ^ page_shift stt <= 2 ^ 64 ->
  stuff_store n p stt (Z.shiftl idx (page_shift stt)) 0 w = Some (tt, w') ->
  (forall j, reads_zero w p j -> reads_zero w' p j)
  /\ (forall k, idx <= k < idx + Z.of_nat n -> reads_zero w' p k).
Proof.
  induction n as [|n IH]; intros idx w w' Hs Hi Hfit; simpl.
  - intros [= <-]. split; [auto | lia].
  - intros H. apply bind_inv in H as ([] & w1 & Hput & H).
    rewrite shiftr_index in Hput by lia.
    destruct n as [|n].
    + simpl in H. injection H as <-. split.
      * intros j. eapply put_zero_keeps; eauto.
      * intros k Hk. replace k with idx by lia. eapply put_zero_sets; eauto.
    + rewrite (stuff_ioba_step idx _ (S n)) in H by (auto; lia).
      apply IH in H as [Hkeep Hset]; [|lia|lia|lia].
      split.
      * intros j Hj. apply Hkeep. eapply put_zero_keeps; eauto.
      * intros k Hk. destruct (decide (k = idx)) as [->|Hne].
        -- apply Hkeep. eapply put_zero_sets; eauto.
        -- apply Hset. lia.
Qed.

Lemma stuff_store_idem p stt n : forall idx w w',
  0 <= page_shift stt <= 30 -> 0 <= idx ->
  (idx + Z.of_nat n) * 2 ^ page_shift stt <= 2 ^ 64 ->
  (forall k, idx <= k < idx + Z.of_nat n -> reads_zero w p k) ->
  stuff_store n p stt (Z.shiftl idx (page_shift stt)) 0 w = Some (tt, w') ->
  spapr_tce_tables w' = spapr_tce_tables w.
Proof.
  induction n as [|n IH]; intros idx w w' Hs Hi Hfit Hz; simpl.
  - now intros [= <-].
  - intros H. apply bind_inv in H as ([] & w1 & Hput & H).
    rewrite shiftr_index in Hput by lia.
    pose proof (put_zero_id _ _ _ _ _ Hput (Hz idx ltac:(lia))) as Hid.
    destruct n as [|n].
    + simpl in H. now injection H as <-.
    + rewrite (stuff_ioba_step idx _ (S n)) in H by (auto; lia).
      apply IH in H; [congruence|lia|lia|lia|].
      intros k Hk. eapply put_zero_keeps; eauto. apply Hz. lia.
Qed.

Ltac frame_static :=
  repeat first
    [ frame_step
    | apply same_static_emit
    | apply same_static_modify; reflexivity ].

Lemma same_static_stuff_tce_iommu t bus ioba tce_value npages :
  preserves same_static (kvmppc_rm_h_stuff_tce_iommu t bus ioba tce_value npages).
Proof.
  unfold kvmppc_rm_h_stuff_tce_iommu, kvmppc_rm_tce_iommu_unmap,
    kvmppc_rm_tce_iommu_mapped_dec, deref_tbl, call_clear_param_check,
    call_xchg, load_real, kvmppc_rm_iommu_lookup, kvmppc_mm_context,
    call_mapped_dec, store_real.
  frame_static.
Qed.

(** What a device group answers to H_STUFF_TCE depends on its pre-flight
    check alone. *)
Lemma stuff_tce_iommu_code t bus ioba tce_value npages w r w' :
  kvmppc_rm_h_stuff_tce_iommu t bus ioba tce_value npages w = Some (r, w') ->
  exists it, iommu_tables w !! t = Some it
    /\ r = (if negb (iommu_tce_clear_param_check it ioba tce_value npages =? 0)
            then H_PARAMETER else H_SUCCESS)
    /\ iommu_tables w' = iommu_tables w.
Proof.
  intros H. pose proof (same_static_stuff_tce_iommu _ _ _ _ _ _ _ _ H) as [Hs _].
  unfold kvmppc_rm_h_stuff_tce_iommu in H.
  apply bind_inv in H as (it & w0 & Hd & H). apply deref_tbl_inv in Hd as [-> Hit].
  exists it. split; [exact Hit|]. split; [|exact Hs].
  apply bind_inv in H as (rc & w1 & Hc & H).
  unfold call_clear_param_check, bind, emit, modify, ret in Hc.
  injection Hc as <- <-.
  destruct (negb _); [now injection H as <- _|].
  apply bind_inv in H as (x & w2 & _ & H). now injection H as <- _.
Qed.

Lemma stuff_groups_deterministic gs bus ioba tce_value npages :
  forall tbltmp wa wb ra wa' rb wb',
    iommu_tables wa = iommu_tables wb ->
    for_each_group gs tbltmp
      (fun t => kvmppc_rm_h_stuff_tce_iommu t bus ioba tce_value npages) wa
    = Some (ra, wa') ->
    for_each_group gs tbltmp
      (fun t => kvmppc_rm_h_stuff_tce_iommu t bus ioba tce_value npages) wb
    = Some (rb, wb') ->
    ra = rb.
Proof.
  induction gs as [|kg gs IH]; intros tbltmp wa wb ra wa' rb wb' Heq; simpl.
  - now intros [= <- _] [= <- _].
  - destruct (decide _); [now apply IH|].
    intros Ha Hb.
    apply bind_inv in Ha as (r1 & wa1 & Ha1 & Ha).
    apply bind_inv in Hb as (r2 & wb1 & Hb1 & Hb).
    apply stuff_tce_iommu_code in Ha1 as (ita & Hita & -> & Hsa).
    apply stuff_tce_iommu_code in Hb1 as (itb & Hitb & -> & Hsb).
    rewrite Heq, Hitb in Hita. injection Hita as <-.
    destruct (negb _).
    + simpl in Ha, Hb. injection Ha as <- _. now injection Hb as <- _.
    + simpl in Ha, Hb. eapply IH; [|exact Ha|exact Hb]. congruence.
Qed.

Lemma with_tables_id w : with_tables w (spapr_tce_tables w) = w.
Proof. now destruct w. Qed.

Lemma for_each_group_nonzero gs tbltmp body w v w' :
  for_each_group gs tbltmp body w = Some (Some v, w') -> v <> 0.
Proof.
  intros H. apply for_each_group_fail in H. induction H; auto.
Qed.

Lemma stuff_store_tables p stt n : forall ioba v w w' stt0,
  stuff_store n p stt ioba v w = Some (tt, w') ->
  spapr_tce_tables w !! p = Some stt0 -> wf_table stt0 ->
  exists pgs,
    w' = with_tables w (<[p := set_pages stt0 pgs]> (spapr_tce_tables w))
    /\ wf_table (set_pages stt0 pgs).
Proof.
  induction n as [|n IH]; intros ioba v w w' stt0; simpl.
  - intros [= <-] Hstt Hwf. exists (pages stt0).
    rewrite set_pages_id, list_insert_id, with_tables_id by assumption. auto.
  - intros H Hstt Hwf. apply bind_inv in H as ([] & w1 & Hput & H).
    apply kvmppc_tce_put_inv in Hput as (stt' & pgs1 & Hstt' & Hst & ->).
    rewrite Hstt in Hstt'. injection Hstt' as <-.
    eapply (IH _ _ _ _ (set_pages stt0 pgs1)) in H as (pgs & -> & Hwf').
    + exists pgs. split; [|exact Hwf'].
      unfold with_tables; simpl. now rewrite list_insert_insert_eq.
    + simpl. apply list_lookup_insert_eq. eapply lookup_lt_Some; eauto.
    + eapply wf_table_set_pages; eauto.
Qed.

Lemma stuff_tce_inv bus ioba n w p stt r w' :
  find_table_from (spapr_tce_tables w) 0 bus = Some p ->
  spapr_tce_tables w !! p = Some stt ->
  kvmppc_rm_h_stuff_tce bus ioba 0 n w = Some (r, w') ->
  (kvmppc_ioba_validate stt ioba n <> 0
   /\ r = kvmppc_ioba_validate stt ioba n /\ w' = w)
  \/ (kvmppc_ioba_validate stt ioba n = 0
      /\ exists res wm,
           for_each_group (groups stt) 0
             (fun t => kvmppc_rm_h_stuff_tce_iommu t bus ioba 0 n) w
           = Some (res, wm)
           /\ match res with
              | Some v => v <> 0 /\ r = v /\ w' = wm
              | None => r = H_SUCCESS
                        /\ stuff_store (Z.to_nat n) p stt ioba 0 wm = Some (tt, w')
              end).
Proof.
  intros Hfind Hstt H. unfold kvmppc_rm_h_stuff_tce in H.
  rewrite (bind_run _ _ _ _ _ (kvmppc_find_table_run bus w)), Hfind in H.
  assert (Hd : deref_stt p w = Some (stt, w)).
  { unfold deref_stt, bind, gets, lift_option. now rewrite Hstt. }
  rewrite (bind_run _ _ _ _ _ Hd) in H.
  destruct (Z.eqb_spec (kvmppc_ioba_validate stt ioba n) 0) as [Hv|Hv]; simpl in H.
  2:{ left. now injection H as <- <-. }
  right. split; [exact Hv|].
  apply bind_inv in H as (res & wm & Hloop & H). exists res, wm.
  split; [exact Hloop|]. destruct res as [v|].
  - injection H as <- <-. split; [eapply for_each_group_nonzero; eauto | auto].
  - apply bind_inv in H as ([] & w2 & Hs & H). injection H as <- <-. auto.
Qed.

Lemma same_static_stuff_groups gs tbltmp bus ioba v n :
  preserves same_static
    (for_each_group gs tbltmp (fun t => kvmppc_rm_h_stuff_tce_iommu t bus ioba v n)).
Proof.
  apply preserves_for_each_group; [apply _|].
  intros t. apply same_static_stuff_tce_iommu.
Qed.

Lemma same_tables_stuff_groups gs tbltmp bus ioba v n :
  preserves same_tables
    (for_each_group gs tbltmp (fun t => kvmppc_rm_h_stuff_tce_iommu t bus ioba v n)).
Proof.
  apply preserves_for_each_group; [apply _|].
  intros t. apply same_tables_stuff_tce_iommu.
Qed.

(** Take a well-formed table and a range of [n] indices from [idx]
    inside its window, and let H_STUFF_TCE with value 0 return.
    - If it returns [H_SUCCESS], an H_GET_TCE on every index of the range
      succeeds and returns 0.
    - If it returns anything else, the Entry Store is as before: no index
      was touched.
    - A second, identical H_STUFF_TCE leaves the Entry Store exactly as the
      first one left it. *)
Lemma stuff_zero_outcomes bus idx n w p stt r1 w1 :
  3 <= PAGE_SHIFT < 64 ->
  find_table_from (spapr_tce_tables w) 0 bus = Some p ->
  spapr_tce_tables w !! p = Some stt ->
  wf_table stt ->
  offset stt <= idx -> 0 <= n -> idx + n <= offset stt + size stt ->
  kvmppc_rm_h_stuff_tce bus (Z.shiftl idx (page_shift stt)) 0 n w
  = Some (r1, w1) ->
  (r1 = H_SUCCESS ->
     forall k, idx <= k < idx + n ->
       exists w2, kvmppc_h_get_tce bus (Z.shiftl k (page_shift stt)) w1
                  = Some (H_SUCCESS, w2)
                  /\ gpr4 w2 = 0)
  /\ (r1 <> H_SUCCESS -> entry_store w1 = entry_store w)
  /\ (forall r2 w2,
        kvmppc_rm_h_stuff_tce bus (Z.shiftl idx (page_shift stt)) 0 n w1
        = Some (r2, w2) ->
        entry_store w2 = entry_store w1).
Proof.
  intros HP Hfind Hstt Hwf Hlo Hn Hhi Hrun.
  pose proof Hwf as (Hs & Ho & Hz & Hfit & _).
  assert (Hs0 : 0 <= page_shift stt <= 30) by lia.
  assert (Hidx0 : 0 <= idx) by lia.
  assert (Hfitn : (idx + Z.of_nat (Z.to_nat n)) * 2 ^ page_shift stt <= 2 ^ 64).
  { rewrite Z2Nat.id by lia. etransitivity; [|exact Hfit].
    apply Z.mul_le_mono_nonneg_r; [apply Z.pow_nonneg; lia | lia]. }
  destruct (stuff_tce_inv _ _ _ _ _ _ _ _ Hfind Hstt Hrun)
    as [(Hv & -> & ->) | (Hv & res & wm & Hloop & Hres)].
  - split; [intros He; contradiction|]. split; [reflexivity|].
    intros r2 w2 Hrun2. rewrite Hrun in Hrun2. now injection Hrun2 as _ <-.
  - pose proof (same_tables_stuff_groups _ _ _ _ _ _ _ _ _ Hloop) as Hsame.
    pose proof (same_static_stuff_groups _ _ _ _ _ _ _ _ _ Hloop) as [Hit _].
    unfold same_tables in Hsame.
    destruct res as [v|].
    + destruct Hres as (Hv0 & -> & ->).
      split; [intros He; contradiction|].
      split; [intros _; now apply same_tables_entry_store|].
      intros r2 w2 Hrun2.
      rewrite <- Hsame in Hfind, Hstt.
      destruct (stuff_tce_inv _ _ _ _ _ _ _ _ Hfind Hstt Hrun2)
        as [(_ & _ & ->) | (_ & res2 & wm2 & Hloop2 & Hres2)]; [reflexivity|].
      pose proof (stuff_groups_deterministic _ _ _ _ _ _ _ _ _ _ _ _ Hit Hloop2 Hloop)
        as ->.
      destruct Hres2 as (_ & _ & ->). apply same_tables_entry_store.
      eapply same_tables_stuff_groups; eauto.
    + destruct Hres as (-> & Hst).
      assert (Hsttm : spapr_tce_tables wm !! p = Some stt) by now rewrite Hsame.
      destruct (stuff_store_tables _ _ _ _ _ _ _ _ Hst Hsttm Hwf) as (pgs & Hw1 & Hwf1).
      destruct (stuff_store_zeroes _ _ _ _ _ _ Hs0 Hidx0 Hfitn Hst) as [_ Hzero].
      set (stt1 := set_pages stt pgs) in *.
      assert (Hstt1 : spapr_tce_tables w1 !! p = Some stt1).
      { rewrite Hw1. simpl. apply list_lookup_insert_eq.
        eapply lookup_lt_Some; eauto. }
      assert (Hfind1 : find_table_from (spapr_tce_tables w1) 0 bus = Some p).
      { rewrite Hw1. simpl. rewrite Hsame.
        pose proof (find_table_from_insert _ 0 bus p stt stt1 Hfind) as H.
        rewrite Nat.sub_0_r in H. now apply H. }
      split; [|split; [intros H; now contradiction H|]].
      * intros _ k Hk. exists (with_gpr4 w1 0). split; [|reflexivity].
        destruct (Hzero k) as (stt' & Hl' & Hload); [lia|].
        rewrite Hstt1 in Hl'. injection Hl' as <-.
        apply (get_tce_reads bus w1 p stt1 k 0); auto.
        subst stt1; simpl; lia.
      * intros r2 w2 Hrun2.
        destruct (stuff_tce_inv _ _ _ _ _ _ _ _ Hfind1 Hstt1 Hrun2)
          as [(_ & _ & ->) | (_ & res2 & wm2 & Hloop2 & Hres2)]; [reflexivity|].
        assert (Hit1 : iommu_tables w1 = iommu_tables w).
        { rewrite Hw1. simpl. exact Hit. }
        pose proof (stuff_groups_deterministic _ _ _ _ _ _ _ _ _ _ _ _
                      Hit1 Hloop2 Hloop) as ->.
        destruct Hres2 as (_ & Hst2).
        pose proof (same_tables_stuff_groups _ _ _ _ _ _ _ _ _ Hloop2) as Hsame2.
        unfold same_tables in Hsame2.
        unfold entry_store. f_equal. rewrite <- Hsame2.
        eapply (stuff_store_idem p stt1); [| | |
          | exact Hst2]; try (subst stt1; simpl; first [exact Hs0 | exact Hfitn]).
        -- exact Hidx0.
        -- intros k Hk. destruct (Hzero k Hk) as (stt' & Hl' & Hload).
           exists stt'. rewrite Hsame2. auto.
Qed.

(** ** Further properties of the validation layer and of the registry *)

Lemma find_table_from_first l : forall pos bus p,
  find_table_from l pos bus = Some p ->
  forall q stt', (pos <= q < p)%nat -> l !! (q - pos)%nat = Some stt' ->
                 liobn stt' <> bus.
Proof.
  induction l as [|stt l IH]; intros pos bus p; simpl; [discriminate|].
  destruct (decide (liobn stt = bus)) as [Heq|Hne].
  - intros [= <-] q stt' Hq. lia.
  - intros Hf q stt' Hq. destruct (decide (q = pos)) as [->|Hqp].
    + rewrite Nat.sub_diag. simpl. now intros [= <-].
    + replace (q - pos)%nat with (S (q - S pos)) by lia. simpl.
      apply (IH _ _ _ Hf). lia.
Qed.

Lemma find_table_from_none l : forall pos bus,
  find_table_from l pos bus = None -> Forall (fun stt => liobn stt <> bus) l.
Proof.
  induction l as [|stt l IH]; intros pos bus; simpl; [constructor|].
  destruct (decide (liobn stt = bus)); [discriminate|].
  intros H. constructor; [assumption | eapply IH; eauto].
Qed.

(** X1.  [kvmppc_find_table] changes nothing and answers with the first table
    of the list whose [liobn] is the bus id: no table before it has that
    id.  It answers NULL only when no table of the VM has the id. *)
Theorem find_table_first_match bus w :
  exists r, kvmppc_find_table bus w = Some (r, w)
  /\ match r with
     | Some p =>
         exists stt, spapr_tce_tables w !! p = Some stt /\ liobn stt = bus
           /\ forall q stt', (q < p)%nat -> spapr_tce_tables w !! q = Some stt' ->
                             liobn stt' <> bus
     | None => Forall (fun stt => liobn stt <> bus) (spapr_tce_tables w)
     end.
Proof.
  exists (find_table_from (spapr_tce_tables w) 0 bus).
  split; [apply kvmppc_find_table_run|].
  destruct (find_table_from _ 0 bus) as [p|] eqn:Hf.
  - destruct (find_table_from_lookup _ _ _ _ Hf) as [_ (stt & Hl & Hb)].
    rewrite Nat.sub_0_r in Hl. exists stt. repeat split; try assumption.
    intros q stt' Hq Hl'.
    apply (find_table_from_first _ _ _ _ Hf q stt'); [lia|].
    now rewrite Nat.sub_0_r.
  - eapply find_table_from_none; eauto.
Qed.

(** X2.  What [kvmppc_ioba_validate] does for a table whose page shift fits the
    [int] arithmetic of the mask and whose window does not wrap:
    - a page aligned address whose index lies in the window
      [offset, offset + size) is accepted, for every page count;
    - an address that is not page aligned, or whose index lies below the
      window, is refused with [H_PARAMETER];
    - an accepted index lies below [offset + size + npages]. *)
Theorem ioba_validate_window stt ioba npages :
  0 <= page_shift stt <= 30 ->
  0 <= ioba ->
  0 <= npages ->
  0 <= offset stt + size stt + npages < 2 ^ 64 ->
  let idx := ioba / 2 ^ page_shift stt in
  (ioba mod 2 ^ page_shift stt = 0 ->
   offset stt <= idx < offset stt + size stt ->
   kvmppc_ioba_validate stt ioba npages = H_SUCCESS)
  /\ (ioba mod 2 ^ page_shift stt <> 0 \/ idx < offset stt ->
      kvmppc_ioba_validate stt ioba npages = H_PARAMETER)
  /\ (kvmppc_ioba_validate stt ioba npages = H_SUCCESS ->
      ioba mod 2 ^ page_shift stt = 0
      /\ offset stt <= idx < offset stt + size stt + npages).
Proof.
  intros Hs Hio Hn Hsum idx.
  assert (Hspec : kvmppc_ioba_validate stt ioba npages = H_SUCCESS <->
                  ioba mod 2 ^ page_shift stt = 0
                  /\ offset stt <= idx < offset stt + size stt + npages).
  { rewrite kvmppc_ioba_validate_spec.
    rewrite int_page_mask_ones, (u64_small (Z.ones _)) by (try apply ones_bound; lia).
    rewrite Z.land_ones, Z.shiftr_div_pow2 by lia.
    rewrite (u64_small (offset stt + size stt + npages)) by lia.
    fold idx. tauto. }
  split; [|split].
  - intros Ha Hw. apply Hspec. split; [exact Ha | lia].
  - intros Hbad.
    destruct (kvmppc_ioba_validate_cases stt ioba npages) as [Hok|Hno];
      [|exact Hno].
    apply Hspec in Hok. lia.
  - apply Hspec.
Qed.

Lemma tce_mask_bits s i :
  0 <= s <= 30 ->
  Z.testbit (u64 (Z.land (int_page_mask s)
                         (Z.lnot (Z.lor TCE_PCI_WRITE TCE_PCI_READ)))) i
  = (2 <=? i) && (i <? s).
Proof.
  intros Hs. rewrite int_page_mask_ones by lia.
  assert (Hm : 0 <= Z.land (Z.ones s) (Z.lnot (Z.lor TCE_PCI_WRITE TCE_PCI_READ))
               < 2 ^ 64).
  { pose proof (ones_bound s Hs) as Hb.
    rewrite Z.land_comm, Z.land_ones by lia.
    pose proof (Z.mod_pos_bound (Z.lnot (Z.lor TCE_PCI_WRITE TCE_PCI_READ)) (2 ^ s)
                  ltac:(apply Z.pow_pos_nonneg; lia)).
    rewrite Z.ones_equiv in Hb. lia. }
  rewrite u64_small by exact Hm.
  destruct (Z.ltb_spec i 0) as [Hneg|Hpos].
  - rewrite Z.testbit_neg_r by lia.
    destruct (Z.leb_spec 2 i); [lia | reflexivity].
  - rewrite Z.land_spec, Z.lnot_spec, Z.testbit_ones_nonneg by lia.
    change (Z.lor TCE_PCI_WRITE TCE_PCI_READ) with (Z.ones 2).
    rewrite Z.testbit_ones_nonneg by lia.
    destruct (Z.ltb_spec i s), (Z.ltb_spec i 2), (Z.leb_spec 2 i); simpl;
      try reflexivity; lia.
Qed.

(** X3.  [kvmppc_tce_validate] looks at the bits of the entry between the two
    direction flags and the page boundary of the table, and at nothing
    else: an entry is accepted exactly when these bits are all 0.  The
    flags, and the bits of the page number, do not matter. *)
Theorem tce_validate_bits stt tce :
  0 <= page_shift stt <= 30 ->
  (kvmppc_tce_validate stt tce = H_SUCCESS <->
   forall i, 2 <= i < page_shift stt -> Z.testbit tce i = false)
  /\ (kvmppc_tce_validate stt tce <> H_SUCCESS ->
      kvmppc_tce_validate stt tce = H_PARAMETER)
  /\ kvmppc_tce_validate stt (Z.lor tce (Z.lor TCE_PCI_READ TCE_PCI_WRITE))
     = kvmppc_tce_validate stt tce.
Proof.
  intros Hs.
  assert (Hspec : forall x,
            kvmppc_tce_validate stt x = H_SUCCESS <->
            forall i, 2 <= i < page_shift stt -> Z.testbit x i = false).
  { intros x. unfold kvmppc_tce_validate, H_SUCCESS, H_PARAMETER.
    set (mask := u64 _).
    destruct (Z.eqb_spec (Z.land x mask) 0) as [Hz|Hnz]; simpl.
    - split; [intros _|reflexivity]. intros i Hi.
      assert (Hb : Z.testbit (Z.land x mask) i = false) by (rewrite Hz; apply Z.bits_0).
      rewrite Z.land_spec in Hb. subst mask. rewrite tce_mask_bits in Hb by lia.
      destruct (Z.leb_spec 2 i), (Z.ltb_spec i (page_shift stt)); try lia.
      now rewrite andb_true_r in Hb.
    - split; [discriminate|]. intros Hbits. exfalso. apply Hnz.
      apply Z.bits_inj'. intros i Hi. rewrite Z.land_spec, Z.bits_0.
      subst mask. rewrite tce_mask_bits by lia.
      destruct (Z.leb_spec 2 i), (Z.ltb_spec i (page_shift stt)); simpl;
        try apply andb_false_r.
      rewrite Hbits by lia. reflexivity. }
  split; [apply Hspec|]. split.
  - unfold kvmppc_tce_validate. destruct (negb _); [reflexivity | contradiction].
  - assert (Hcases : forall x, kvmppc_tce_validate stt x = H_SUCCESS
                               \/ kvmppc_tce_validate stt x = H_PARAMETER).
    { intros x. unfold kvmppc_tce_validate. destruct (negb _); auto. }
    assert (Hiff : kvmppc_tce_validate stt (Z.lor tce (Z.lor TCE_PCI_READ TCE_PCI_WRITE))
                   = H_SUCCESS <-> kvmppc_tce_validate stt tce = H_SUCCESS).
    { rewrite !Hspec. split; intros H i Hi; specialize (H i Hi).
      - rewrite Z.lor_spec in H. now apply orb_false_iff in H as [H _].
      - rewrite Z.lor_spec, H.
        change (Z.lor TCE_PCI_READ TCE_PCI_WRITE) with (Z.ones 2).
        rewrite Z.testbit_ones_nonneg by lia.
        destruct (Z.ltb_spec i 2); [lia | reflexivity]. }
    destruct (Hcases tce) as [H1|H1],
             (Hcases (Z.lor tce (Z.lor TCE_PCI_READ TCE_PCI_WRITE))) as [H2|H2];
      try congruence.
    + apply Hiff in H1. rewrite H2 in H1. discriminate H1.
    + apply Hiff in H2. rewrite H1 in H2. discriminate H2.
Qed.

(** ** Further properties of the Entry Store and of the dispatcher *)

Lemma find_table_from_absent l : forall pos bus,
  Forall (fun stt => liobn stt <> bus) l -> find_table_from l pos bus = None.
Proof.
  induction l as [|stt l IH]; intros pos bus H; simpl; [reflexivity|].
  apply Forall_cons in H as [Hne Hl]. rewrite decide_False by assumption. auto.
Qed.

Lemma find_table_from_insert_same l : forall pos bus q stt stt',
  l !! q = Some stt -> liobn stt' = liobn stt ->
  find_table_from (<[q := stt']> l) pos bus = find_table_from l pos bus.
Proof.
  induction l as [|x l IH]; intros pos bus q stt stt'; [discriminate|].
  destruct q as [|q]; simpl.
  - intros [= ->] ->. reflexivity.
  - intros Hl Hb. destruct (decide (liobn x = bus)); [reflexivity|]. eauto.
Qed.

Lemma entry_slot_inj stt i j :
  0 < TCES_PER_PAGE ->
  entry_slot stt i = entry_slot stt j ->
  u64 (i - offset stt) = u64 (j - offset stt).
Proof.
  intros HT. unfold entry_slot.
  set (a := u64 (i - offset stt)). set (b := u64 (j - offset stt)).
  assert (Ha : 0 <= a) by (apply Z.mod_pos_bound; reflexivity).
  assert (Hb : 0 <= b) by (apply Z.mod_pos_bound; reflexivity).
  intros [= Hq Hr].
  apply Z2Nat.inj in Hq; [|apply Z.div_pos; lia|apply Z.div_pos; lia].
  apply Z2Nat.inj in Hr; [|apply Z.mod_pos_bound; lia|apply Z.mod_pos_bound; lia].
  rewrite (Z.div_mod a TCES_PER_PAGE), (Z.div_mod b TCES_PER_PAGE) by lia.
  now rewrite Hq, Hr.
Qed.

Lemma u64_sub_inj i j o :
  0 <= i < 2 ^ 64 -> 0 <= j < 2 ^ 64 -> u64 (i - o) = u64 (j - o) -> i = j.
Proof.
  unfold u64. intros Hi Hj H.
  assert (Hd : (i - j) mod 2 ^ 64 = 0).
  { replace (i - j) with ((i - o) - (j - o)) by lia.
    rewrite Zminus_mod, H, Z.sub_diag. reflexivity. }
  apply Z.mod_divide in Hd; [|lia]. destruct Hd as [k Hk].
  change (2 ^ 64) with 18446744073709551616 in *. lia.
Qed.

Lemma pages_store_other pgs s v pgs' s' :
  pages_store pgs s v = Some pgs' -> s' <> s ->
  pages_load pgs' s' = pages_load pgs s'.
Proof.
  unfold pages_store, pages_load.
  destruct (pgs !! s.1) as [page|] eqn:Hp; [|discriminate].
  destruct (decide _) as [Hlt|]; [|discriminate]. intros [= <-] Hne.
  destruct (decide (s'.1 = s.1)) as [He|Hn1].
  - rewrite He, Hp, list_lookup_insert_eq by (eapply lookup_lt_Some; eauto).
    apply list_lookup_insert_ne. intros He2. apply Hne.
    destruct s, s'; simpl in *; congruence.
  - now rewrite list_lookup_insert_ne by auto.
Qed.

Lemma with_gpr4_id w : with_gpr4 w (gpr4 w) = w.
Proof. now destruct w. Qed.

(** What an H_GET_TCE does, as a function of the table it finds. *)
Lemma get_tce_run bus ioba w :
  kvmppc_h_get_tce bus ioba w =
  match find_table_from (spapr_tce_tables w) 0 bus with
  | None => Some (H_TOO_HARD, w)
  | Some p =>
      match spapr_tce_tables w !! p with
      | None => None
      | Some stt =>
          if kvmppc_ioba_validate stt ioba 1 =? 0 then
            match pages_load (pages stt)
                    (entry_slot stt (Z.shiftr ioba (page_shift stt))) with
            | Some v => Some (kvmppc_ioba_validate stt ioba 1, with_gpr4 w v)
            | None => None
            end
          else Some (kvmppc_ioba_validate stt ioba 1, w)
      end
  end.
Proof.
  unfold kvmppc_h_get_tce.
  rewrite (bind_run _ _ _ _ _ (kvmppc_find_table_run bus w)).
  destruct (find_table_from _ 0 bus) as [p|]; [|reflexivity].
  unfold deref_stt, bind, gets, lift_option, ret, fault, modify.
  destruct (spapr_tce_tables w !! p) as [stt|]; [|reflexivity].
  destruct (_ =? 0); [|reflexivity].
  destruct (pages_load _ _); reflexivity.
Qed.

(** X4.  H_GET_TCE only reads: it returns [H_SUCCESS], [H_PARAMETER] or
    [H_TOO_HARD], the one thing it may change is [gpr4], and when it does
    not return [H_SUCCESS] it has changed nothing at all. *)
Theorem get_tce_read_only bus ioba w r w' :
  kvmppc_h_get_tce bus ioba w = Some (r, w') ->
  (r = H_SUCCESS \/ r = H_PARAMETER \/ r = H_TOO_HARD)
  /\ w' = with_gpr4 w (gpr4 w')
  /\ (r <> H_SUCCESS -> w' = w).
Proof.
  rewrite get_tce_run.
  destruct (find_table_from _ 0 bus) as [p|].
  2:{ intros [= <- <-]. rewrite with_gpr4_id. auto. }
  destruct (spapr_tce_tables w !! p) as [stt|]; [|discriminate].
  destruct (Z.eqb_spec (kvmppc_ioba_validate stt ioba 1) 0) as [Hv|Hv].
  - destruct (pages_load _ _) as [v|]; [|discriminate].
    intros [= <- <-]. split; [left; exact Hv|].
    split; [reflexivity|]. intros Hne. contradiction.
  - intros [= <- <-]. rewrite with_gpr4_id.
    split; [|auto].
    destruct (kvmppc_ioba_validate_cases stt ioba 1) as [->| ->]; auto.
Qed.

(** X5.  [kvmppc_tce_put] writes one entry and no other: an H_GET_TCE on another
    bus, or on another index of the same bus, answers after the put what it
    answered before. *)
Theorem tce_put_keeps_other_entries p idx v w w1 stt bus ioba r w2 :
  3 <= PAGE_SHIFT < 64 ->
  spapr_tce_tables w !! p = Some stt ->
  0 <= page_shift stt -> 0 <= idx < 2 ^ 64 -> 0 <= ioba < 2 ^ 64 ->
  bus <> liobn stt \/ Z.shiftr ioba (page_shift stt) <> idx ->
  kvmppc_tce_put p idx v w = Some (tt, w1) ->
  kvmppc_h_get_tce bus ioba w = Some (r, w2) ->
  exists w3, kvmppc_h_get_tce bus ioba w1 = Some (r, w3) /\ gpr4 w3 = gpr4 w2.
Proof.
  intros HP Hstt Hs Hidx Hio Hother Hput Hget.
  pose proof (TCES_PER_PAGE_pos HP) as HT.
  apply kvmppc_tce_put_inv in Hput as (stt' & pgs & Hstt' & Hst & ->).
  rewrite Hstt in Hstt'. injection Hstt' as <-.
  rewrite get_tce_run in Hget. rewrite get_tce_run.
  cbn [spapr_tce_tables with_tables].
  rewrite (find_table_from_insert_same _ 0 bus p stt (set_pages stt pgs) Hstt eq_refl).
  destruct (find_table_from _ 0 bus) as [q|] eqn:Hfind.
  2:{ injection Hget as <- <-. eexists. split; reflexivity. }
  destruct (decide (q = p)) as [->|Hqp].
  - rewrite Hstt in Hget.
    rewrite list_lookup_insert_eq by (eapply lookup_lt_Some; eauto).
    change (kvmppc_ioba_validate (set_pages stt pgs) ioba 1)
      with (kvmppc_ioba_validate stt ioba 1).
    destruct (_ =? 0).
    + cbn [pages set_pages page_shift].
      change (entry_slot (set_pages stt pgs) (Z.shiftr ioba (page_shift stt)))
        with (entry_slot stt (Z.shiftr ioba (page_shift stt))).
      assert (Hidx' : Z.shiftr ioba (page_shift stt) <> idx).
      { destruct Hother as [Hb|]; [|assumption]. exfalso. apply Hb.
        destruct (find_table_from_lookup _ _ _ _ Hfind) as [_ (s0 & Hl & Hb0)].
        rewrite Nat.sub_0_r, Hstt in Hl. now injection Hl as <-. }
      assert (Hslot : entry_slot stt (Z.shiftr ioba (page_shift stt))
                      <> entry_slot stt idx).
      { intros He. apply Hidx'. apply entry_slot_inj in He; [|exact HT].
        apply (u64_sub_inj _ _ (offset stt)); [|exact Hidx|exact He].
        rewrite Z.shiftr_div_pow2 by lia.
        assert (0 < 2 ^ page_shift stt) by (apply Z.pow_pos_nonneg; lia).
        split; [apply Z.div_pos; lia|].
        apply Z.div_lt_upper_bound; [lia|]. nia. }
      rewrite (pages_store_other _ _ _ _ _ Hst Hslot).
      destruct (pages_load _ _) as [x|]; [|discriminate].
      injection Hget as <- <-. eexists. split; reflexivity.
    + injection Hget as <- <-. eexists. split; reflexivity.
  - rewrite list_lookup_insert_ne by auto.
    destruct (spapr_tce_tables w !! q) as [sq|]; [|discriminate].
    destruct (_ =? 0).
    + destruct (pages_load _ _) as [x|]; [|discriminate].
      injection Hget as <- <-. eexists. split; reflexivity.
    + injection Hget as <- <-. eexists. split; reflexivity.
Qed.

(** X6.  A bus id that no table of the VM carries: each of the four hypercalls
    returns [H_TOO_HARD] and leaves the world as it was. *)
Theorem unknown_bus_is_too_hard bus w :
  Forall (fun stt => liobn stt <> bus) (spapr_tce_tables w) ->
  (forall ioba tce, kvmppc_rm_h_put_tce bus ioba tce w = Some (H_TOO_HARD, w))
  /\ (forall ioba tce_list npages,
        kvmppc_rm_h_put_tce_indirect bus ioba tce_list npages w
        = Some (H_TOO_HARD, w))
  /\ (forall ioba tce_value npages,
        kvmppc_rm_h_stuff_tce bus ioba tce_value npages w = Some (H_TOO_HARD, w))
  /\ (forall ioba, kvmppc_h_get_tce bus ioba w = Some (H_TOO_HARD, w)).
Proof.
  intros Habs. pose proof (find_table_from_absent _ 0 bus Habs) as Hf.
  repeat split; intros;
    unfold kvmppc_rm_h_put_tce, kvmppc_rm_h_put_tce_indirect,
      kvmppc_rm_h_stuff_tce, kvmppc_h_get_tce;
    rewrite (bind_run _ _ _ _ _ (kvmppc_find_table_run bus w)), Hf; reflexivity.
Qed.

Lemma deref_stt_run p w stt :
  spapr_tce_tables w !! p = Some stt -> deref_stt p w = Some (stt, w).
Proof. intros H. unfold deref_stt, bind, gets, lift_option. now rewrite H. Qed.

Lemma ioba_invalid_code stt ioba n :
  kvmppc_ioba_validate stt ioba n <> H_SUCCESS ->
  (kvmppc_ioba_validate stt ioba n =? 0) = false
  /\ kvmppc_ioba_validate stt ioba n = H_PARAMETER.
Proof.
  intros H. destruct (kvmppc_ioba_validate_cases stt ioba n) as [Hc|Hc];
    [contradiction|]. rewrite Hc. split; reflexivity.
Qed.

Lemma tce_validate_cases stt tce :
  kvmppc_tce_validate stt tce = H_SUCCESS \/ kvmppc_tce_validate stt tce = H_PARAMETER.
Proof. unfold kvmppc_tce_validate. destruct (negb _); auto. Qed.

(** X7.  A request that the validation layer refuses: the hypercall returns
    [H_PARAMETER] and leaves the world as it was; no device group has been
    asked anything and no entry has been written.  For H_STUFF_TCE a value
    that carries a direction flag is refused in the same way. *)
Theorem invalid_request_changes_nothing bus w p stt ioba :
  find_table_from (spapr_tce_tables w) 0 bus = Some p ->
  spapr_tce_tables w !! p = Some stt ->
  (forall tce,
     kvmppc_ioba_validate stt ioba 1 <> H_SUCCESS
     \/ kvmppc_tce_validate stt tce <> H_SUCCESS ->
     kvmppc_rm_h_put_tce bus ioba tce w = Some (H_PARAMETER, w))
  /\ (forall tce_list npages,
        kvmppc_ioba_validate stt ioba npages <> H_SUCCESS ->
        kvmppc_rm_h_put_tce_indirect bus ioba tce_list npages w
        = Some (H_PARAMETER, w))
  /\ (forall tce_value npages,
        kvmppc_ioba_validate stt ioba npages <> H_SUCCESS
        \/ kvmppc_tce_validate stt tce_value <> H_SUCCESS
        \/ Z.land tce_value (Z.lor TCE_PCI_WRITE TCE_PCI_READ) <> 0 ->
        kvmppc_rm_h_stuff_tce bus ioba tce_value npages w = Some (H_PARAMETER, w))
  /\ (kvmppc_ioba_validate stt ioba 1 <> H_SUCCESS ->
      kvmppc_h_get_tce bus ioba w = Some (H_PARAMETER, w)).
Proof.
  intros Hfind Hstt. pose proof (deref_stt_run _ _ _ Hstt) as Hd.
  split; [|split; [|split]].
  - intros tce Hbad. unfold kvmppc_rm_h_put_tce.
    rewrite (bind_run _ _ _ _ _ (kvmppc_find_table_run bus w)), Hfind.
    rewrite (bind_run _ _ _ _ _ Hd).
    destruct (kvmppc_ioba_validate_cases stt ioba 1) as [Hi|Hi]; rewrite Hi;
      [|reflexivity].
    destruct Hbad as [Hb|Hb]; [contradiction|].
    destruct (tce_validate_cases stt tce) as [Ht|Ht]; [contradiction|].
    rewrite Ht. reflexivity.
  - intros tce_list npages Hbad. unfold kvmppc_rm_h_put_tce_indirect.
    rewrite (bind_run _ _ _ _ _ (kvmppc_find_table_run bus w)), Hfind.
    rewrite (bind_run _ _ _ _ _ Hd).
    destruct (512 <? npages); [reflexivity|].
    destruct (negb _); [reflexivity|].
    destruct (ioba_invalid_code _ _ _ Hbad) as [_ ->]. reflexivity.
  - intros tce_value npages Hbad. unfold kvmppc_rm_h_stuff_tce.
    rewrite (bind_run _ _ _ _ _ (kvmppc_find_table_run bus w)), Hfind.
    rewrite (bind_run _ _ _ _ _ Hd).
    destruct (kvmppc_ioba_validate_cases stt ioba npages) as [Hi|Hi]; rewrite Hi;
      [|reflexivity].
    destruct Hbad as [Hb|[Hb|Hb]]; [contradiction| |].
    + destruct (tce_validate_cases stt tce_value) as [Ht|Ht]; [contradiction|].
      rewrite Ht. reflexivity.
    + destruct (Z.eqb_spec (Z.land tce_value (Z.lor TCE_PCI_WRITE TCE_PCI_READ)) 0);
        [contradiction|].
      simpl. rewrite orb_true_r. reflexivity.
  - intros Hbad. rewrite get_tce_run, Hfind, Hstt.
    destruct (ioba_invalid_code _ _ _ Hbad) as [-> ->]. reflexivity.
Qed.

(** X8.  An H_PUT_TCE that returns [H_SUCCESS] has recorded the entry: the
    H_GET_TCE that follows it on the same bus and address returns
    [H_SUCCESS] and hands back exactly the value that was put, whether the
    bus has device groups or not. *)
Theorem put_tce_then_get_tce bus ioba tce w w1 :
  kvmppc_rm_h_put_tce bus ioba tce w = Some (H_SUCCESS, w1) ->
  exists w2, kvmppc_h_get_tce bus ioba w1 = Some (H_SUCCESS, w2) /\ gpr4 w2 = tce.
Proof.
  intros Hrun. unfold kvmppc_rm_h_put_tce in Hrun.
  rewrite (bind_run _ _ _ _ _ (kvmppc_find_table_run bus w)) in Hrun.
  destruct (find_table_from (spapr_tce_tables w) 0 bus) as [p|] eqn:Hfind;
    [|discriminate].
  destruct (deref_stt_found _ _ _ Hfind) as (stt & Hstt & _ & Hd).
  rewrite (bind_run _ _ _ _ _ Hd) in Hrun.
  destruct (Z.eqb_spec (kvmppc_ioba_validate stt ioba 1) 0) as [Hv1|Hv1];
    simpl in Hrun.
  2:{ injection Hrun as Hr _. contradiction. }
  destruct (Z.eqb_spec (kvmppc_tce_validate stt tce) 0) as [Hv2|Hv2]; simpl in Hrun.
  2:{ injection Hrun as Hr _. contradiction. }
  apply bind_inv in Hrun as (res & wm & Hloop & Hrun).
  assert (Hsame : same_tables w wm).
  { eapply (preserves_for_each_group same_tables); [|exact Hloop].
    intros t. apply same_tables_put_tce_iommu. }
  unfold same_tables in Hsame.
  destruct res as [v|].
  { injection Hrun as -> _. apply for_each_group_nonzero in Hloop. contradiction. }
  apply bind_inv in Hrun as ([] & w1' & Hput & Hret). injection Hret as <-.
  apply kvmppc_tce_put_inv in Hput as (stt' & pgs & Hstt' & Hst & ->).
  rewrite Hsame, Hstt in Hstt'. injection Hstt' as <-.
  rewrite get_tce_run. cbn [spapr_tce_tables with_tables]. rewrite Hsame.
  rewrite (find_table_from_insert_same _ 0 bus p stt (set_pages stt pgs) Hstt eq_refl).
  rewrite Hfind, list_lookup_insert_eq by (eapply lookup_lt_Some; eauto).
  change (kvmppc_ioba_validate (set_pages stt pgs) ioba 1)
    with (kvmppc_ioba_validate stt ioba 1).
  rewrite Hv1. cbn [Z.eqb pages set_pages page_shift].
  change (entry_slot (set_pages stt pgs) (Z.shiftr ioba (page_shift stt)))
    with (entry_slot stt (Z.shiftr ioba (page_shift stt))).
  rewrite (pages_store_load _ _ _ _ Hst).
  eexists. split; reflexivity.
Qed.

(** X9.  On a bus without device groups (an emulated bus) a valid H_PUT_TCE
    always goes through: for a well-formed table, a page aligned address
    whose index lies in the window and an entry the validation accepts, it
    returns [H_SUCCESS], and nothing but the table list has changed. *)
Theorem put_tce_emulated_succeeds bus ioba tce w p stt :
  3 <= PAGE_SHIFT < 64 ->
  find_table_from (spapr_tce_tables w) 0 bus = Some p ->
  spapr_tce_tables w !! p = Some stt ->
  wf_table stt ->
  groups stt = [] ->
  0 <= ioba ->
  ioba mod 2 ^ page_shift stt = 0 ->
  offset stt <= ioba / 2 ^ page_shift stt < offset stt + size stt ->
  kvmppc_tce_validate stt tce = H_SUCCESS ->
  exists l, kvmppc_rm_h_put_tce bus ioba tce w = Some (H_SUCCESS, with_tables w l).
Proof.
  intros HP Hfind Hstt Hwf Hg Hio Hal Hwin Htce.
  pose proof (deref_stt_run _ _ _ Hstt) as Hd.
  destruct (window_index_bound _ _ Hwf Hwin) as (_ & Hsz & _ & _).
  pose proof Hwf as (Hs & Ho & Hz & _).
  assert (Hval : kvmppc_ioba_validate stt ioba 1 = H_SUCCESS).
  { apply kvmppc_ioba_validate_spec.
    rewrite int_page_mask_ones, (u64_small (Z.ones _)) by (try apply ones_bound; lia).
    rewrite Z.land_ones, Z.shiftr_div_pow2 by lia.
    change (2 ^ 63) with 9223372036854775808 in Hsz.
    rewrite u64_small by (change (2 ^ 64) with 18446744073709551616; lia).
    lia. }
  rewrite <- (Z.shiftr_div_pow2 ioba) in Hwin by lia.
  destruct (entry_slot_in_range _ _ HP Hwf Hwin) as (page & Hpage & Hlt).
  eexists. unfold kvmppc_rm_h_put_tce.
  rewrite (bind_run _ _ _ _ _ (kvmppc_find_table_run bus w)), Hfind.
  rewrite (bind_run _ _ _ _ _ Hd), Hval, Htce, Hg. simpl.
  unfold kvmppc_tce_put, bind, ret, modify, lift_option, pages_store.
  rewrite Hd, Hpage. rewrite decide_True by assumption. reflexivity.
Qed.

(** ** Further properties of the pinned-memory mapper *)

Lemma call_xchg_inv_full t entry hpa dir w rc h d w' :
  call_xchg t entry hpa dir w = Some ((rc, h, d), w') ->
  exists e', iommu_tce_xchg_rm t entry hpa dir (ext_state w) = (rc, h, d, e')
    /\ w' = with_trace (with_ext w e') (trace w ++ [EvXchg t entry hpa dir rc]).
Proof.
  unfold call_xchg, bind, emit, modify, gets, ret.
  destruct (iommu_tce_xchg_rm _ _ _ _ _) as [[[rc' h'] d'] e'].
  intros [= <- <- <- <-]. eauto.
Qed.

Lemma call_mapped_dec_run mem w :
  call_mapped_dec mem w
  = Some (tt, with_trace (with_ext w (mm_iommu_mapped_dec mem (ext_state w)))
                (trace w ++ [EvMappedDec mem])).
Proof. reflexivity. Qed.

Lemma mapped_dec_inv t entry w r w' :
  kvmppc_rm_tce_iommu_mapped_dec t entry w = Some (r, w') ->
  (w' = w /\ (r = H_SUCCESS \/ r = H_HARDWARE))
  \/ (exists mem,
        r = H_SUCCESS
        /\ w' = with_real_mem
                  (with_trace (with_ext w (mm_iommu_mapped_dec mem (ext_state w)))
                     (trace w ++ [EvMappedDec mem]))
                  (<[real_vmalloc_addr (IOMMU_TABLE_USERSPACE_ENTRY t entry) := 0]>
                     (real_mem w))).
Proof.
  unfold kvmppc_rm_tce_iommu_mapped_dec. intros H.
  apply bind_inv in H as (it & w0 & Hd & H). apply deref_tbl_inv in Hd as [-> _].
  destruct (_ =? 0); [injection H as <- <-; left; auto|].
  destruct (_ =? 0); [injection H as <- <-; left; auto|].
  apply bind_inv in H as (ua & w0 & Hl & H).
  assert (w0 = w) as ->.
  { unfold load_real, bind, gets, lift_option, ret, fault in Hl.
    destruct (real_mem w !! _); [now injection Hl as _ <- | discriminate]. }
  apply bind_inv in H as (mem & w0 & Hk & H).
  apply kvmppc_rm_iommu_lookup_inv in Hk as [-> _].
  destruct mem as [mem|]; [|injection H as <- <-; left; auto].
  rewrite (bind_run _ _ _ _ _ (call_mapped_dec_run mem w)) in H.
  apply bind_inv in H as (u' & w2 & Hst & H). injection H as <- <-.
  apply store_real_inv in Hst as ->. right. exists mem. auto.
Qed.

Lemma unmap_inv t entry w r w' :
  kvmppc_rm_tce_iommu_unmap t entry w = Some (r, w') ->
  exists rc h d e',
    iommu_tce_xchg_rm t entry 0 DMA_NONE (ext_state w) = (rc, h, d, e')
    /\ let w1 := with_trace (with_ext w e')
                   (trace w ++ [EvXchg t entry 0 DMA_NONE rc]) in
       (rc <> 0 /\ r = H_HARDWARE /\ w' = w1)
       \/ (rc = 0 /\ d = DMA_NONE /\ r = H_SUCCESS /\ w' = w1)
       \/ (rc = 0 /\ d <> DMA_NONE
           /\ kvmppc_rm_tce_iommu_mapped_dec t entry w1 = Some (r, w')).
Proof.
  unfold kvmppc_rm_tce_iommu_unmap. intros H.
  apply bind_inv in H as ([[rc h] d] & w1 & Hx & H).
  apply call_xchg_inv_full in Hx as (e' & Hx & ->).
  exists rc, h, d, e'. split; [exact Hx|]. cbv zeta.
  destruct (Z.eqb_spec rc 0) as [->|Hrc]; simpl in H.
  - destruct (decide (d = DMA_NONE)) as [->|Hd].
    + injection H as <- <-. right; left. auto.
    + right; right. auto.
  - injection H as <- <-. left. auto.
Qed.

(** X10.  Every [kvmppc_rm_tce_iommu_unmap] that returns has made exactly one
    exchange, of the entry it was asked to unmap, installing "no mapping".
    It returns [H_SUCCESS] or [H_HARDWARE], and [H_HARDWARE] whenever the
    exchange failed.  It releases at most one mapping counter, only after a
    successful exchange; when it releases one it returns [H_SUCCESS] and
    has cleared the userspace address recorded for the entry; when it
    releases none the recorded addresses are as before. *)
Theorem unmap_outcomes t entry w r w' :
  kvmppc_rm_tce_iommu_unmap t entry w = Some (r, w') ->
  exists rc,
    (r = H_SUCCESS \/ r = H_HARDWARE)
    /\ (rc <> 0 -> r = H_HARDWARE)
    /\ ((trace w' = trace w ++ [EvXchg t entry 0 DMA_NONE rc]
         /\ real_mem w' = real_mem w)
        \/ (exists mem,
              rc = 0 /\ r = H_SUCCESS
              /\ trace w' = trace w ++ [EvXchg t entry 0 DMA_NONE rc; EvMappedDec mem]
              /\ real_mem w'
                 = <[real_vmalloc_addr (IOMMU_TABLE_USERSPACE_ENTRY t entry) := 0]>
                     (real_mem w))).
Proof.
  intros H. apply unmap_inv in H as (rc & h & d & e' & _ & H). exists rc.
  destruct H as [(Hrc & -> & ->) | [(-> & _ & -> & ->) | (-> & Hd & H)]].
  - split; [auto|]. split; [auto|]. left. auto.
  - split; [auto|]. split; [intros []; reflexivity|]. left. auto.
  - split; [|split; [intros []; reflexivity|]];
      apply mapped_dec_inv in H as [(-> & Hr) | (mem & -> & ->)]; auto.
    right. exists mem. simpl. rewrite <- app_assoc. auto.
Qed.

Lemma map_inv t entry gpa dir w r w' :
  kvmppc_rm_tce_iommu_map t entry gpa dir w = Some (r, w') ->
  exists evs, trace w' = trace w ++ EvGpaToUa gpa :: evs
  /\ ((r = H_HARDWARE /\ real_mem w' = real_mem w
       /\ (evs = [] \/ exists mem rc, rc <> 0 /\ evs = [EvMappedInc mem rc]))
      \/ (r = H_TOO_HARD /\ real_mem w' = real_mem w
          /\ exists mem hpa rc,
               rc <> 0
               /\ evs = [EvMappedInc mem 0; EvXchg t entry hpa dir rc; EvMappedDec mem])
      \/ (r = H_SUCCESS
          /\ exists mem hpa memslot rest,
               evs = EvMappedInc mem 0 :: EvXchg t entry hpa dir 0 :: rest
               /\ (rest = [] \/ exists old, rest = [EvMappedDec old])
               /\ search_memslots (Z.shiftr gpa PAGE_SHIFT) (ext_state w)
                  = Some memslot
               /\ real_mem w' !! real_vmalloc_addr (IOMMU_TABLE_USERSPACE_ENTRY t entry)
                  = Some (Z.lor (gfn_to_hva_memslot memslot (Z.shiftr gpa PAGE_SHIFT))
                            (Z.land gpa
                               (u64 (Z.lnot (Z.lor PAGE_MASK
                                               (Z.lor TCE_PCI_READ TCE_PCI_WRITE)))))))).
Proof.
  unfold kvmppc_rm_tce_iommu_map. intros H.
  apply bind_inv in H as (g & w1 & Hg & H).
  pose proof (kvmppc_gpa_to_ua_inv _ _ _ _ _ Hg) as Hw1.
  assert (Ht1 : trace w1 = trace w ++ [EvGpaToUa gpa]) by now subst w1.
  assert (Hm1 : real_mem w1 = real_mem w) by now subst w1.
  assert (He1 : ext_state w1 = ext_state w) by now subst w1.
  assert (Hhw' : forall wx rx, rx = H_HARDWARE ->
            trace wx = trace w1 -> real_mem wx = real_mem w1 ->
            exists evs, trace wx = trace w ++ EvGpaToUa gpa :: evs
              /\ ((rx = H_HARDWARE /\ real_mem wx = real_mem w
                   /\ (evs = [] \/ exists mem rc, rc <> 0 /\ evs = [EvMappedInc mem rc]))
                  \/ (rx = H_TOO_HARD /\ real_mem wx = real_mem w
                      /\ exists mem hpa rc,
                           rc <> 0
                           /\ evs = [EvMappedInc mem 0; EvXchg t entry hpa dir rc;
                                     EvMappedDec mem])
                  \/ (rx = H_SUCCESS
                      /\ exists mem hpa memslot rest,
                           evs = EvMappedInc mem 0 :: EvXchg t entry hpa dir 0 :: rest
                           /\ (rest = [] \/ exists old, rest = [EvMappedDec old])
                           /\ search_memslots (Z.shiftr gpa PAGE_SHIFT) (ext_state w)
                              = Some memslot
                           /\ real_mem wx
                                !! real_vmalloc_addr (IOMMU_TABLE_USERSPACE_ENTRY t entry)
                              = Some (Z.lor (gfn_to_hva_memslot memslot
                                               (Z.shiftr gpa PAGE_SHIFT))
                                        (Z.land gpa
                                           (u64 (Z.lnot (Z.lor PAGE_MASK
                                                   (Z.lor TCE_PCI_READ TCE_PCI_WRITE))))))))).
  { intros wx rx -> Ht Hm. exists []. rewrite Ht, Ht1, Hm, Hm1.
    split; [reflexivity|]. left. auto. }
  unfold kvmppc_gpa_to_ua, bind, emit, modify, gets, ret in Hg. simpl in Hg.
  destruct (search_memslots (Z.shiftr gpa PAGE_SHIFT) (ext_state w))
    as [memslot|] eqn:Hslot.
  2:{ injection Hg as <- _. injection H as <- <-. now apply Hhw'. }
  injection Hg as <- _.
  apply bind_inv in H as (it & w0 & Hd & H). apply deref_tbl_inv in Hd as [-> _].
  apply bind_inv in H as (m & w0 & Hk & H).
  apply kvmppc_rm_iommu_lookup_inv in Hk as [-> _].
  destruct m as [mem|]; [|injection H as <- <-; now apply Hhw'].
  apply bind_inv in H as (e & w0 & He & H). injection He as _ <-.
  destruct (mm_iommu_rm_ua_to_hpa mem _ _) as [hpa|];
    [|injection H as <- <-; now apply Hhw'].
  destruct (_ =? 0); [injection H as <- <-; now apply Hhw'|].
  apply bind_inv in H as (rc & w2 & Hinc & H).
  pose proof (call_mapped_inc_inv _ _ _ _ Hinc) as Ht2.
  assert (Hm2 : real_mem w2 = real_mem w1).
  { unfold call_mapped_inc, bind, emit, modify, gets, ret in Hinc.
    destruct (mm_iommu_mapped_inc mem (ext_state w1)) as [rc0 e0].
    now injection Hinc as _ <-. }
  destruct (Z.eqb_spec rc 0) as [->|Hrc]; simpl in H.
  2:{ injection H as <- <-. exists [EvMappedInc mem rc].
      rewrite Ht2, Ht1, <- app_assoc. split; [reflexivity|]. left.
      split; [reflexivity|]. split; [congruence|]. right. eauto. }
  apply bind_inv in H as ([[rx hx] dx] & w3 & Hx & H).
  apply call_xchg_inv_full in Hx as (e3 & _ & ->).
  destruct (Z.eqb_spec rx 0) as [->|Hrx]; simpl in H.
  2:{ rewrite (bind_run _ _ _ _ _ (call_mapped_dec_run mem _)) in H.
      injection H as <- <-.
      exists [EvMappedInc mem 0; EvXchg t entry hpa dir rx; EvMappedDec mem].
      simpl. rewrite Ht2, Ht1, <- !app_assoc. split; [reflexivity|].
      right; left. split; [reflexivity|]. split; [congruence|]. eauto. }
  apply bind_inv in H as (rd & w4 & Hdec & H).
  apply bind_inv in H as (u & w5 & Hst & H). injection H as <- <-.
  apply store_real_inv in Hst as ->.
  assert (Hrest : exists rest,
            trace w4 = trace w ++ EvGpaToUa gpa
                         :: EvMappedInc mem 0 :: EvXchg t entry hpa dir 0 :: rest
            /\ (rest = [] \/ exists old, rest = [EvMappedDec old])).
  { destruct (decide (dx = DMA_NONE)).
    - injection Hdec as _ <-. exists []. simpl.
      rewrite Ht2, Ht1, <- !app_assoc. auto.
    - apply mapped_dec_inv in Hdec as [(-> & _) | (old & _ & ->)].
      + exists []. simpl. rewrite Ht2, Ht1, <- !app_assoc. auto.
      + exists [EvMappedDec old]. simpl. rewrite Ht2, Ht1, <- !app_assoc.
        split; [reflexivity|]. right. eauto. }
  destruct Hrest as (rest & Ht4 & Hrest).
  exists (EvMappedInc mem 0 :: EvXchg t entry hpa dir 0 :: rest).
  split; [exact Ht4|]. right; right. split; [reflexivity|].
  exists mem, hpa, memslot, rest. split; [reflexivity|]. split; [exact Hrest|].
  split; [reflexivity|]. simpl. apply lookup_insert_eq.
Qed.

(** X11.  The three ways [kvmppc_rm_tce_iommu_map] returns.
    - [H_HARDWARE]: the request was given up before any exchange; no
      counter was released and the recorded userspace addresses are as
      before.
    - [H_TOO_HARD]: the exchange was tried and failed, and the mapping
      counter that had been taken for the new page was released again.
    - [H_SUCCESS]: the counter of the new page's region was taken, the
      exchange succeeded, and the userspace address recorded for the entry
      is the address the guest page resolves to in its memory slot. *)
Theorem map_outcomes t entry gpa dir w r w' :
  kvmppc_rm_tce_iommu_map t entry gpa dir w = Some (r, w') ->
  exists evs, trace w' = trace w ++ evs
  /\ (r = H_SUCCESS \/ r = H_HARDWARE \/ r = H_TOO_HARD)
  /\ (r = H_HARDWARE ->
      Forall (fun e => is_exchange e = false) evs
      /\ Forall (fun e => forall m, e <> EvMappedDec m) evs
      /\ real_mem w' = real_mem w)
  /\ (r = H_TOO_HARD ->
      real_mem w' = real_mem w
      /\ exists mem hpa rc,
           rc <> 0
           /\ evs = [EvGpaToUa gpa; EvMappedInc mem 0; EvXchg t entry hpa dir rc;
                     EvMappedDec mem])
  /\ (r = H_SUCCESS ->
      exists mem hpa memslot,
        In (EvMappedInc mem 0) evs /\ In (EvXchg t entry hpa dir 0) evs
        /\ search_memslots (Z.shiftr gpa PAGE_SHIFT) (ext_state w) = Some memslot
        /\ real_mem w' !! real_vmalloc_addr (IOMMU_TABLE_USERSPACE_ENTRY t entry)
           = Some (Z.lor (gfn_to_hva_memslot memslot (Z.shiftr gpa PAGE_SHIFT))
                     (Z.land gpa
                        (u64 (Z.lnot (Z.lor PAGE_MASK
                                        (Z.lor TCE_PCI_READ TCE_PCI_WRITE))))))).
Proof.
  intros H. apply map_inv in H as (evs & Ht & H).
  exists (EvGpaToUa gpa :: evs). split; [exact Ht|].
  destruct H as [(-> & Hm & Hev) | [(-> & Hm & mem & hpa & rc & Hrc & ->)
                | (-> & mem & hpa & memslot & rest & -> & Hrest & Hslot & Hpua)]].
  - split; [auto|]. split; [|split; [discriminate | discriminate]].
    intros _. split; [|split; [|exact Hm]].
    + destruct Hev as [->|(mem & rc & _ & ->)]; repeat constructor.
    + destruct Hev as [->|(mem & rc & _ & ->)]; repeat constructor; discriminate.
  - split; [auto|]. split; [discriminate|]. split; [|discriminate].
    intros _. split; [exact Hm|]. eauto.
  - split; [auto|]. split; [discriminate|]. split; [discriminate|].
    intros _. exists mem, hpa, memslot. simpl. auto 6.
Qed.

Lemma call_clear_param_check_run t it ioba v n w :
  call_clear_param_check t it ioba v n w
  = Some (iommu_tce_clear_param_check it ioba v n,
          with_trace w (trace w ++ [EvClearParamCheck t ioba v n
                                      (iommu_tce_clear_param_check it ioba v n)])).
Proof. reflexivity. Qed.

Lemma call_put_param_check_run t it ioba gpa w :
  call_put_param_check t it ioba gpa w
  = Some (iommu_tce_put_param_check it ioba gpa,
          with_trace w (trace w ++ [EvPutParamCheck t ioba gpa
                                      (iommu_tce_put_param_check it ioba gpa)])).
Proof. reflexivity. Qed.

Lemma no_inc_unmap t entry :
  preserves (trace_grows (fun e => is_mapped_inc e = false))
    (kvmppc_rm_tce_iommu_unmap t entry).
Proof.
  unfold kvmppc_rm_tce_iommu_unmap, kvmppc_rm_tce_iommu_mapped_dec, call_xchg,
    deref_tbl, load_real, kvmppc_rm_iommu_lookup, kvmppc_mm_context,
    call_mapped_dec, store_real.
  frame_trace.
Qed.

(** X12.  A device group's half of H_PUT_TCE.  It returns [H_PARAMETER] exactly
    when the group's pre-flight check refuses the request (the clear check
    for an entry without direction flags, the put check otherwise), and
    then the check is all that has happened.  Otherwise it returns
    [H_SUCCESS], [H_HARDWARE] or [H_TOO_HARD].  An entry without direction
    flags never takes a mapping counter. *)
Theorem put_tce_iommu_check_decides t bus ioba tce w r w' :
  kvmppc_rm_h_put_tce_iommu t bus ioba tce w = Some (r, w') ->
  exists it,
    iommu_tables w !! t = Some it
    /\ let clear := bool_decide (iommu_tce_direction tce = DMA_NONE) in
       let rc := if clear then iommu_tce_clear_param_check it ioba 0 1
                 else iommu_tce_put_param_check it ioba (tce_gpa tce) in
       let ev := if clear then EvClearParamCheck t ioba 0 1 rc
                 else EvPutParamCheck t ioba (tce_gpa tce) rc in
       (r = H_PARAMETER <-> rc <> 0)
       /\ (rc <> 0 -> w' = with_trace w (trace w ++ [ev]))
       /\ (r = H_SUCCESS \/ r = H_PARAMETER \/ r = H_HARDWARE \/ r = H_TOO_HARD)
       /\ (clear = true ->
           trace_grows (fun e => is_mapped_inc e = false) w w').
Proof.
  unfold kvmppc_rm_h_put_tce_iommu. intros H.
  apply bind_inv in H as (it & w0 & Hd & H). apply deref_tbl_inv in Hd as [-> Hit].
  exists it. split; [exact Hit|]. cbv zeta.
  destruct (decide (iommu_tce_direction tce = DMA_NONE)) as [Hdir|Hdir].
  - rewrite bool_decide_true by assumption.
    rewrite (bind_run _ _ _ _ _ (call_clear_param_check_run _ _ _ _ _ _)) in H.
    set (rc := iommu_tce_clear_param_check it ioba 0 1) in *.
    set (w1 := with_trace w _) in *.
    assert (Hg1 : trace_grows (fun e => is_mapped_inc e = false) w w1).
    { exists [EvClearParamCheck t ioba 0 1 rc]. split; [reflexivity|].
      repeat constructor. }
    destruct (Z.eqb_spec rc 0) as [Hrc|Hrc]; simpl in H.
    + pose proof (no_inc_unmap _ _ _ _ _ H) as Hg2.
      apply unmap_inv in H as (rx & h & d & e' & _ & H).
      assert (Hr : r = H_SUCCESS \/ r = H_HARDWARE).
      { destruct H as [(_ & -> & _) | [(_ & _ & -> & _) | (_ & _ & H)]]; auto.
        apply mapped_dec_inv in H as [(_ & Hr) | (mem & -> & _)]; auto. }
      split; [|split; [contradiction|split]].
      * split; [|contradiction]. destruct Hr as [-> | ->]; discriminate.
      * destruct Hr as [-> | ->]; auto.
      * intros _. eapply frame_trans; eauto.
    + injection H as <- <-. split; [tauto|]. split; [reflexivity|].
      split; [auto|]. intros _. exact Hg1.
  - rewrite bool_decide_false by assumption.
    rewrite (bind_run _ _ _ _ _ (call_put_param_check_run _ _ _ _ _)) in H.
    set (rc := iommu_tce_put_param_check it ioba (tce_gpa tce)) in *.
    destruct (Z.eqb_spec rc 0) as [Hrc|Hrc]; simpl in H.
    + apply map_inv in H as (evs & _ & H).
      assert (Hr : r = H_SUCCESS \/ r = H_HARDWARE \/ r = H_TOO_HARD).
      { destruct H as [(-> & _) | [(-> & _) | (-> & _)]]; auto. }
      split; [|split; [contradiction|split; [|discriminate]]].
      * split; [|contradiction]. destruct Hr as [-> | [-> | ->]]; discriminate.
      * destruct Hr as [-> | [-> | ->]]; auto.
    + injection H as <- <-. split; [tauto|]. split; [reflexivity|].
      split; [auto|discriminate].
Qed.

Lemma unmap_exchanged t entry w r w' :
  kvmppc_rm_tce_iommu_unmap t entry w = Some (r, w') ->
  exists evs, trace w' = trace w ++ evs /\ exchanged_entries evs = [(t, entry)].
Proof.
  intros H. apply unmap_inv in H as (rc & h & d & e' & _ & H).
  destruct H as [(_ & _ & ->) | [(_ & _ & _ & ->) | (_ & _ & H)]];
    try (eexists; split; [reflexivity|]; reflexivity).
  apply mapped_dec_inv in H as [(-> & _) | (mem & _ & ->)].
  - eexists; split; [reflexivity|]; reflexivity.
  - exists [EvXchg t entry 0 DMA_NONE rc; EvMappedDec mem]. simpl.
    rewrite <- app_assoc. split; reflexivity.
Qed.

Lemma exchanged_entries_app l1 l2 :
  exchanged_entries (l1 ++ l2) = exchanged_entries l1 ++ exchanged_entries l2.
Proof. apply omap_app. Qed.

Lemma stuff_loop_exchanged t entry : forall n i w res w',
  0 <= i -> i + Z.of_nat n <= 2 ^ 64 ->
  for_loop n i (fun i => kvmppc_rm_tce_iommu_unmap t (u64 (entry + i)) ;;; ret None) w
  = Some (res, w') ->
  res = None
  /\ exists evs, trace w' = trace w ++ evs
       /\ exchanged_entries evs
          = (fun k => (t, u64 (entry + k))) <$> seqZ i (Z.of_nat n).
Proof.
  induction n as [|n IH]; intros i w res w' Hi Hfit; simpl.
  - intros [= <- <-]. split; [reflexivity|]. exists []. now rewrite app_nil_r.
  - intros H. apply bind_inv in H as (r1 & w1 & Hb & H).
    apply bind_inv in Hb as (r0 & w0 & Hu & Hb). injection Hb as <- <-.
    apply unmap_exchanged in Hu as (e1 & Ht1 & Hx1).
    rewrite (seqZ_cons i) by lia. rewrite fmap_cons.
    replace (Z.pred (Z.of_nat (S n))) with (Z.of_nat n) by lia.
    destruct n as [|n].
    + simpl in H. injection H as <- <-. split; [reflexivity|].
      exists e1. split; [exact Ht1|]. rewrite Hx1. reflexivity.
    + rewrite u64_small in H by lia.
      apply IH in H as (-> & e2 & Ht2 & Hx2); [|lia|lia].
      split; [reflexivity|]. exists (e1 ++ e2).
      rewrite Ht2, Ht1, app_assoc. split; [reflexivity|].
      rewrite exchanged_entries_app, Hx1, Hx2.
      replace (Z.succ i) with (i + 1) by lia. reflexivity.
Qed.

(** X13.  A device group's half of H_STUFF_TCE.  When the group's pre-flight
    check refuses the range it returns [H_PARAMETER] and the check is all
    that has happened.  When the check passes, every entry of the range is
    exchanged, once and in ascending order, and the call returns
    [H_SUCCESS]: an unmap that fails neither stops the walk nor shows in
    the result. *)
Theorem stuff_tce_iommu_exchanges_whole_range t bus ioba tce_value npages w r w' :
  0 <= npages < 2 ^ 64 ->
  kvmppc_rm_h_stuff_tce_iommu t bus ioba tce_value npages w = Some (r, w') ->
  exists it evs,
    iommu_tables w !! t = Some it
    /\ trace w' = trace w ++ evs
    /\ let rc := iommu_tce_clear_param_check it ioba tce_value npages in
       let entry := Z.shiftr ioba (it_page_shift it) in
       if rc =? 0 then
         r = H_SUCCESS
         /\ exchanged_entries evs
            = (fun k => (t, u64 (entry + k))) <$> seqZ 0 npages
       else
         r = H_PARAMETER
         /\ w' = with_trace w
                   (trace w ++ [EvClearParamCheck t ioba tce_value npages rc]).
Proof.
  intros Hn H. unfold kvmppc_rm_h_stuff_tce_iommu in H.
  apply bind_inv in H as (it & w0 & Hd & H). apply deref_tbl_inv in Hd as [-> Hit].
  rewrite (bind_run _ _ _ _ _ (call_clear_param_check_run _ _ _ _ _ _)) in H.
  set (rc := iommu_tce_clear_param_check it ioba tce_value npages) in *.
  exists it. cbv zeta. fold rc.
  destruct (Z.eqb_spec rc 0) as [Hrc|Hrc]; simpl in H.
  - apply bind_inv in H as (res & w1 & Hloop & H). injection H as <- <-.
    apply stuff_loop_exchanged in Hloop as (_ & evs & Ht & Hx);
      [|lia|rewrite Z2Nat.id; lia].
    exists (EvClearParamCheck t ioba tce_value npages rc :: evs).
    split; [exact Hit|]. split.
    + rewrite Ht. simpl. now rewrite <- app_assoc.
    + split; [reflexivity|]. rewrite Z2Nat.id in Hx by lia. exact Hx.
  - injection H as <- <-. exists [EvClearParamCheck t ioba tce_value npages rc].
    split; [exact Hit|]. split; [reflexivity|]. split; reflexivity.
Qed.

(** ** Further properties of H_STUFF_TCE and H_PUT_TCE_INDIRECT *)

Lemma u64_add_inj e i j :
  0 <= i < 2 ^ 64 -> 0 <= j < 2 ^ 64 -> u64 (e + i) = u64 (e + j) -> i = j.
Proof.
  intros Hi Hj H. apply (u64_sub_inj i j (- e)); [assumption..|].
  now replace (i - - e) with (e + i) by lia; replace (j - - e) with (e + j) by lia.
Qed.

Lemma u64_range z : 0 <= u64 z < 2 ^ 64.
Proof. apply Z.mod_pos_bound. reflexivity. Qed.

Lemma put_entry_at p idx v w u w' :
  0 < TCES_PER_PAGE -> 0 <= idx < 2 ^ 64 ->
  kvmppc_tce_put p idx v w = Some (u, w') ->
  forall k, 0 <= k < 2 ^ 64 ->
    entry_at w' p k = if decide (k = idx) then Some v else entry_at w p k.
Proof.
  intros HT Hidx H k Hk.
  apply kvmppc_tce_put_inv in H as (stt & pgs & Hstt & Hst & ->).
  unfold entry_at. cbn [spapr_tce_tables with_tables].
  rewrite list_lookup_insert_eq by (eapply lookup_lt_Some; eauto).
  rewrite Hstt. simpl.
  change (entry_slot (set_pages stt pgs) k) with (entry_slot stt k).
  destruct (decide (k = idx)) as [->|Hne].
  - eapply pages_store_load; eauto.
  - eapply pages_store_other; eauto. intros He. apply Hne.
    apply entry_slot_inj in He; [|exact HT].
    eapply u64_sub_inj; eauto.
Qed.

Lemma stuff_store_entry_at p stt v n : forall idx w w',
  0 < TCES_PER_PAGE ->
  0 <= page_shift stt <= 30 -> 0 <= idx ->
  (idx + Z.of_nat n) * 2 ^ page_shift stt <= 2 ^ 64 ->
  stuff_store n p stt (Z.shiftl idx (page_shift stt)) v w = Some (tt, w') ->
  forall k, 0 <= k < 2 ^ 64 ->
    entry_at w' p k
    = if decide (idx <= k < idx + Z.of_nat n) then Some v else entry_at w p k.
Proof.
  induction n as [|n IH]; intros idx w w' HT Hs Hi Hfit; simpl.
  - intros [= <-] k Hk. rewrite decide_False by lia. reflexivity.
  - intros H k Hk. apply bind_inv in H as ([] & w1 & Hput & H).
    rewrite shiftr_index in Hput by lia.
    assert (Hp2 : 1 <= 2 ^ page_shift stt)
      by (pose proof (Z.pow_pos_nonneg 2 (page_shift stt)); lia).
    assert (Hidx : 0 <= idx < 2 ^ 64) by nia.
    pose proof (put_entry_at _ _ _ _ _ _ HT Hidx Hput k Hk) as H1.
    destruct n as [|n].
    + simpl in H. injection H as <-. rewrite H1.
      destruct (decide (k = idx)) as [->|Hne].
      * rewrite decide_True by lia. reflexivity.
      * rewrite decide_False by lia. reflexivity.
    + rewrite (stuff_ioba_step idx _ (S n)) in H by (auto; lia).
      rewrite (IH (idx + 1) w1 w' HT Hs ltac:(lia) ltac:(lia) H k Hk), H1.
      destruct (decide (k = idx)) as [->|Hne].
      * rewrite decide_False by lia. rewrite decide_True by lia. reflexivity.
      * destruct (decide (idx + 1 <= k < idx + 1 + Z.of_nat (S n))).
        -- rewrite decide_True by lia. reflexivity.
        -- rewrite decide_False by lia. reflexivity.
Qed.

Lemma stuff_tce_success_inv bus ioba v n w p stt w' :
  find_table_from (spapr_tce_tables w) 0 bus = Some p ->
  spapr_tce_tables w !! p = Some stt ->
  kvmppc_rm_h_stuff_tce bus ioba v n w = Some (H_SUCCESS, w') ->
  exists wm,
    for_each_group (groups stt) 0
      (fun t => kvmppc_rm_h_stuff_tce_iommu t bus ioba v n) w = Some (None, wm)
    /\ stuff_store (Z.to_nat n) p stt ioba v wm = Some (tt, w').
Proof.
  intros Hfind Hstt H. unfold kvmppc_rm_h_stuff_tce in H.
  rewrite (bind_run _ _ _ _ _ (kvmppc_find_table_run bus w)), Hfind in H.
  rewrite (bind_run _ _ _ _ _ (deref_stt_run _ _ _ Hstt)) in H.
  destruct (Z.eqb_spec (kvmppc_ioba_validate stt ioba n) 0) as [Hv|Hv]; simpl in H.
  2:{ injection H as Hr _. contradiction. }
  destruct (_ || _); [discriminate|].
  apply bind_inv in H as (res & wm & Hloop & H). exists wm.
  destruct res as [x|].
  - injection H as -> _. apply for_each_group_nonzero in Hloop. contradiction.
  - apply bind_inv in H as ([] & w2 & Hs & H). injection H as <-. auto.
Qed.

(** X14.  An H_STUFF_TCE that returns [H_SUCCESS], for a range of [n] indices
    from [idx] inside the window of a well-formed table and any value the
    validation lets through.  Afterwards an H_GET_TCE on an index of the
    window succeeds; on an index of the range it returns the value, on
    every other index of the window what the Entry Store held there
    before. *)
Theorem stuff_tce_fills_range bus idx n v w p stt w1 :
  3 <= PAGE_SHIFT < 64 ->
  find_table_from (spapr_tce_tables w) 0 bus = Some p ->
  spapr_tce_tables w !! p = Some stt ->
  wf_table stt ->
  offset stt <= idx -> 0 <= n -> idx + n <= offset stt + size stt ->
  kvmppc_rm_h_stuff_tce bus (Z.shiftl idx (page_shift stt)) v n w
  = Some (H_SUCCESS, w1) ->
  forall k, offset stt <= k < offset stt + size stt ->
    exists x,
      kvmppc_h_get_tce bus (Z.shiftl k (page_shift stt)) w1
      = Some (H_SUCCESS, with_gpr4 w1 x)
      /\ if decide (idx <= k < idx + n) then x = v else entry_at w p k = Some x.
Proof.
  intros HP Hfind Hstt Hwf Hlo Hn Hhi Hrun k Hk.
  pose proof (TCES_PER_PAGE_pos HP) as HT.
  pose proof Hwf as (Hs & Ho & Hz & Hfit & _).
  destruct (stuff_tce_success_inv _ _ _ _ _ _ _ _ Hfind Hstt Hrun) as (wm & Hloop & Hst).
  pose proof (same_tables_stuff_groups _ _ _ _ _ _ _ _ _ Hloop) as Hsame.
  unfold same_tables in Hsame.
  assert (Hsttm : spapr_tce_tables wm !! p = Some stt) by now rewrite Hsame.
  destruct (stuff_store_tables _ _ _ _ _ _ _ _ Hst Hsttm Hwf) as (pgs & Hw1 & Hwf1).
  set (stt1 := set_pages stt pgs) in *.
  assert (Hstt1 : spapr_tce_tables w1 !! p = Some stt1).
  { rewrite Hw1. simpl. apply list_lookup_insert_eq. eapply lookup_lt_Some; eauto. }
  assert (Hfind1 : find_table_from (spapr_tce_tables w1) 0 bus = Some p).
  { rewrite Hw1. simpl. rewrite Hsame.
    now rewrite (find_table_from_insert_same _ 0 bus p stt stt1 Hstt eq_refl). }
  assert (Hk1 : offset stt1 <= k < offset stt1 + size stt1) by exact Hk.
  destruct (entry_slot_in_range _ _ HP Hwf1 Hk1) as (page & Hpage & Hlt).
  destruct (lookup_lt_is_Some_2 _ _ Hlt) as [x Hx].
  assert (Hload : pages_load (pages stt1) (entry_slot stt1 k) = Some x).
  { unfold pages_load. now rewrite Hpage. }
  exists x. split.
  - apply (get_tce_reads bus w1 p stt1 k x); auto.
  - assert (Hfitn : (idx + Z.of_nat (Z.to_nat n)) * 2 ^ page_shift stt <= 2 ^ 64).
    { rewrite Z2Nat.id by lia. etransitivity; [|exact Hfit].
      apply Z.mul_le_mono_nonneg_r; [apply Z.pow_nonneg; lia | lia]. }
    destruct (window_index_bound _ _ Hwf Hk) as (_ & Hsz & Hk0 & _).
    assert (Hk64 : 0 <= k < 2 ^ 64).
    { change (2 ^ 63) with 9223372036854775808 in Hsz.
      change (2 ^ 64) with 18446744073709551616. lia. }
    pose proof (stuff_store_entry_at p stt v _ idx wm w1 HT ltac:(lia) ltac:(lia)
                  Hfitn Hst k Hk64) as He.
    rewrite Z2Nat.id in He by lia.
    assert (Hent : entry_at w1 p k = Some x)
      by (unfold entry_at; rewrite Hstt1; exact Hload).
    rewrite Hent in He.
    destruct (decide (idx <= k < idx + n)).
    + now injection He as ->.
    + rewrite He. unfold entry_at. now rewrite Hsame.
Qed.

Lemma load_tce_run tces i w :
  load_tce tces i w
  = Some (load_be64 (u64 (tces + 8 * i)) (ext_state w),
          with_trace w (trace w ++ [EvListLoad (u64 (tces + 8 * i))])).
Proof. reflexivity. Qed.

Lemma u64_index_rel entry k i :
  0 <= k < 2 ^ 64 -> 0 <= i < 2 ^ 64 ->
  k = u64 (entry + i) <-> u64 (k - entry) = i.
Proof.
  intros Hk Hi. unfold u64. split.
  - intros ->. rewrite Zminus_mod_idemp_l.
    replace (entry + i - entry) with i by lia. now apply Z.mod_small.
  - intros <-. rewrite Zplus_mod_idemp_r.
    replace (entry + (k - entry)) with k by lia. symmetry. now apply Z.mod_small.
Qed.

(** The closing loop of H_PUT_TCE_INDIRECT from round [i]: it writes the
    list entries of the rounds [i, m) to consecutive indices and stops at
    the first entry the validation refuses. *)
Lemma indirect_store_loop p stt entry tces : forall n i w res w',
  0 < TCES_PER_PAGE -> 0 <= i -> i + Z.of_nat n <= 2 ^ 64 ->
  for_loop n i (fun i =>
      tce <- load_tce tces i ;;
      let rc := kvmppc_tce_validate stt tce in
      if negb (rc =? 0) then ret (Some rc)
      else kvmppc_tce_put p (u64 (entry + i)) tce ;;; ret None) w
  = Some (res, w') ->
  ext_state w' = ext_state w
  /\ real_mem w' = real_mem w
  /\ (exists loads, trace w' = trace w ++ loads
                    /\ Forall (fun e => is_list_load e = true) loads)
  /\ exists m,
       i <= m <= i + Z.of_nat n
       /\ (forall k, 0 <= k < 2 ^ 64 ->
             entry_at w' p k
             = if decide (i <= u64 (k - entry) < m)
               then Some (load_be64 (u64 (tces + 8 * u64 (k - entry))) (ext_state w))
               else entry_at w p k)
       /\ (forall j, i <= j < m ->
             kvmppc_tce_validate stt (load_be64 (u64 (tces + 8 * j)) (ext_state w))
             = H_SUCCESS)
       /\ match res with
          | None => m = i + Z.of_nat n
          | Some v =>
              v = H_PARAMETER /\ m < i + Z.of_nat n
              /\ kvmppc_tce_validate stt (load_be64 (u64 (tces + 8 * m)) (ext_state w))
                 <> H_SUCCESS
          end.
Proof.
  induction n as [|n IH]; intros i w res w' HT Hi Hfit; simpl.
  - intros [= <- <-]. split; [reflexivity|]. split; [reflexivity|].
    split; [exists []; now rewrite app_nil_r|].
    exists i. split; [lia|]. split; [|split; [intros; lia | lia]].
    intros k Hk. rewrite decide_False by lia. reflexivity.
  - intros H. apply bind_inv in H as (r1 & w1 & Hb & H).
    rewrite (bind_run _ _ _ _ _ (load_tce_run tces i w)) in Hb.
    set (tce := load_be64 (u64 (tces + 8 * i)) (ext_state w)) in *.
    set (w0 := with_trace w _) in *.
    destruct (Z.eqb_spec (kvmppc_tce_validate stt tce) 0) as [Hv|Hv]; simpl in Hb.
    + apply bind_inv in Hb as ([] & w2 & Hput & Hb). injection Hb as <- <-.
      assert (Hi64 : 0 <= i < 2 ^ 64) by lia.
      pose proof (put_entry_at _ _ _ _ _ _ HT (u64_range (entry + i)) Hput) as Hent.
      apply kvmppc_tce_put_inv in Hput as (stt' & pgs & _ & _ & Hw2).
      assert (He2 : ext_state w2 = ext_state w) by now subst w2.
      assert (Hm2 : real_mem w2 = real_mem w) by now subst w2.
      assert (Ht2 : trace w2 = trace w ++ [EvListLoad (u64 (tces + 8 * i))])
        by now subst w2.
      assert (Hrest : exists m,
                i + 1 <= m <= i + Z.of_nat (S n)
                /\ ext_state w' = ext_state w2 /\ real_mem w' = real_mem w2
                /\ (exists loads, trace w' = trace w2 ++ loads
                                  /\ Forall (fun e => is_list_load e = true) loads)
                /\ (forall k, 0 <= k < 2 ^ 64 ->
                      entry_at w' p k
                      = if decide (i + 1 <= u64 (k - entry) < m)
                        then Some (load_be64 (u64 (tces + 8 * u64 (k - entry)))
                                     (ext_state w2))
                        else entry_at w2 p k)
                /\ (forall j, i + 1 <= j < m ->
                      kvmppc_tce_validate stt
                        (load_be64 (u64 (tces + 8 * j)) (ext_state w2)) = H_SUCCESS)
                /\ match res with
                   | None => m = i + Z.of_nat (S n)
                   | Some v =>
                       v = H_PARAMETER /\ m < i + Z.of_nat (S n)
                       /\ kvmppc_tce_validate stt
                            (load_be64 (u64 (tces + 8 * m)) (ext_state w2))
                          <> H_SUCCESS
                   end).
      { destruct n as [|n].
        - simpl in H. injection H as <- <-. exists (i + 1).
          split; [lia|]. split; [reflexivity|]. split; [reflexivity|].
          split; [exists []; now rewrite app_nil_r|].
          split; [|split; [intros; lia | lia]].
          intros k Hk. rewrite decide_False by lia. reflexivity.
        - rewrite u64_small in H by lia.
          apply IH in H as (Hx & Hy & Hz & m & Hm & Hk & Hj & Hres); [|auto|lia|lia].
          exists m. split; [lia|]. split; [exact Hx|]. split; [exact Hy|].
          split; [exact Hz|]. split; [exact Hk|]. split; [exact Hj|].
          destruct res as [v|]; [|lia].
          destruct Hres as (? & ? & ?). repeat split; auto; lia. }
      destruct Hrest as (m & Hm & Hx & Hy & (loads & Hl & Hfl) & Hk & Hj & Hres).
      rewrite He2 in *. split; [congruence|]. split; [congruence|].
      split.
      { exists (EvListLoad (u64 (tces + 8 * i)) :: loads).
        rewrite Hl, Ht2, <- app_assoc. split; [reflexivity|]. now constructor. }
      exists m. split; [lia|]. split; [|split].
      * intros k Hk64. rewrite (Hk k Hk64), (Hent k Hk64).
        pose proof (u64_index_rel entry k i Hk64 Hi64) as Hrel.
        destruct (decide (k = u64 (entry + i))) as [Heq|Hne].
        -- apply Hrel in Heq. rewrite Heq.
           rewrite decide_False by lia. rewrite decide_True by lia. reflexivity.
        -- assert (u64 (k - entry) <> i) by (intros Hc; apply Hne, Hrel, Hc).
           destruct (decide (i + 1 <= u64 (k - entry) < m)).
           ++ rewrite decide_True by lia. reflexivity.
           ++ rewrite decide_False by lia. reflexivity.
      * intros j Hjr. destruct (decide (j = i)) as [->|Hne]; [exact Hv|].
        apply Hj. lia.
      * exact Hres.
    + injection Hb as <- <-. injection H as <- <-.
      split; [reflexivity|]. split; [reflexivity|].
      split; [exists [EvListLoad (u64 (tces + 8 * i))]; split;
              [reflexivity | repeat constructor]|].
      exists i. split; [lia|]. split; [|split; [intros; lia|]].
      * intros k Hk. rewrite decide_False by lia. reflexivity.
      * split; [|split; [lia | exact Hv]].
        destruct (tce_validate_cases stt tce) as [Hc|Hc]; [contradiction | exact Hc].
Qed.

Lemma put_tce_indirect_store_inv p stt entry tces npages rmap w r w' :
  put_tce_indirect_store p stt entry tces npages rmap w = Some (r, w') ->
  exists res wl,
    for_loop (Z.to_nat npages) 0 (fun i =>
        tce <- load_tce tces i ;;
        let rc := kvmppc_tce_validate stt tce in
        if negb (rc =? 0) then ret (Some rc)
        else kvmppc_tce_put p (u64 (entry + i)) tce ;;; ret None) w
    = Some (res, wl)
    /\ w' = (if rmap =? 0 then wl
             else with_trace wl (trace wl ++ [EvUnlockRmap rmap]))
    /\ r = match res with Some v => v | None => H_SUCCESS end.
Proof.
  unfold put_tce_indirect_store. intros H.
  apply bind_inv in H as (res & wl & Hloop & H). exists res, wl.
  split; [exact Hloop|].
  apply bind_inv in H as ([] & w2 & Hu & H).
  assert (w2 = if rmap =? 0 then wl
               else with_trace wl (trace wl ++ [EvUnlockRmap rmap])) as ->.
  { destruct (rmap =? 0); now injection Hu as <-. }
  destruct res; injection H as <- <-; auto.
Qed.

Lemma kvmppc_rm_ua_to_hpa_inv ua w x w' :
  kvmppc_rm_ua_to_hpa ua w = Some (x, w') -> w' = w.
Proof.
  revert w x w'. change (preserves (fun w w' => w' = w) (kvmppc_rm_ua_to_hpa ua)).
  unfold kvmppc_rm_ua_to_hpa. repeat frame_step.
Qed.

Lemma kvmppc_preregistered_run w :
  kvmppc_preregistered w
  = Some (run_task_mm w && mm_iommu_preregistered (ext_state w), w).
Proof.
  unfold kvmppc_preregistered, kvmppc_mm_context, bind, gets, ret.
  destruct (run_task_mm w); reflexivity.
Qed.

Lemma kvmppc_rm_ua_to_hpa_ext ua w1 w2 :
  ext_state w1 = ext_state w2 ->
  fst <$> kvmppc_rm_ua_to_hpa ua w1 = fst <$> kvmppc_rm_ua_to_hpa ua w2.
Proof.
  intros He. unfold kvmppc_rm_ua_to_hpa, bind, gets, ret. rewrite He.
  destruct (find_linux_pte_or_hugepte ua (ext_state w2)) as [[pte shift]|];
    [|reflexivity].
  destruct (negb (pte_present pte)); [reflexivity|].
  destruct (_ <? _); [reflexivity|].
  destruct (negb (pte_young pte)); reflexivity.
Qed.

(** How an H_PUT_TCE_INDIRECT that walks no device group ends: before the
    list is read, or in the closing loop over the list read at the address
    the list address resolves to. *)
Lemma put_tce_indirect_list_inv bus ioba tce_list npages w r w' p stt :
  find_table_from (spapr_tce_tables w) 0 bus = Some p ->
  spapr_tce_tables w !! p = Some stt ->
  groups stt = [] \/ run_task_mm w = false
  \/ mm_iommu_preregistered (ext_state w) = false ->
  kvmppc_rm_h_put_tce_indirect bus ioba tce_list npages w = Some (r, w') ->
  ((r = H_PARAMETER \/ r = H_TOO_HARD)
   /\ spapr_tce_tables w' = spapr_tce_tables w
   /\ ext_state w' = ext_state w)
  \/ (exists tces rmap wx,
        list_read_at w tce_list tces
        /\ spapr_tce_tables wx = spapr_tce_tables w
        /\ ext_state wx = ext_state w
        /\ npages <= 512
        /\ put_tce_indirect_store p stt (Z.shiftr ioba (page_shift stt)) tces npages
             rmap wx = Some (r, w')).
Proof.
  intros Hfind Hstt Hnogroup Hrun.
  unfold kvmppc_rm_h_put_tce_indirect in Hrun.
  rewrite (bind_run _ _ _ _ _ (kvmppc_find_table_run bus w)), Hfind in Hrun.
  rewrite (bind_run _ _ _ _ _ (deref_stt_run _ _ _ Hstt)) in Hrun.
  destruct (Z.ltb_spec 512 npages) as [Hcap|Hcap];
    [injection Hrun as <- <-; left; auto|].
  destruct (negb _); [injection Hrun as <- <-; left; auto|].
  destruct (Z.eqb_spec (kvmppc_ioba_validate stt ioba npages) 0) as [Hv|Hv];
    simpl in Hrun.
  2:{ injection Hrun as <- <-. left. split; [|auto].
      destruct (kvmppc_ioba_validate_cases stt ioba npages) as [Hc|Hc];
        [contradiction | auto]. }
  rewrite (bind_run _ _ _ _ _ (kvmppc_preregistered_run w)) in Hrun.
  destruct (run_task_mm w && mm_iommu_preregistered (ext_state w)) eqn:Hpre.
  - destruct Hnogroup as [Hg|[Hmm|Hreg]].
    2:{ rewrite Hmm in Hpre. discriminate. }
    2:{ rewrite Hreg, andb_false_r in Hpre. discriminate. }
    apply bind_inv in Hrun as (g & w1 & Hg1 & Hrun).
    pose proof (kvmppc_gpa_to_ua_inv _ _ _ _ _ Hg1) as ->.
    destruct g as [[ua rm]|]; [|injection Hrun as <- <-; left; auto].
    apply bind_inv in Hrun as (mem & w2 & Hl & Hrun).
    apply kvmppc_rm_iommu_lookup_inv in Hl as [-> Hmem].
    cbn [run_task_mm ext_state with_trace] in Hmem.
    apply bind_inv in Hrun as (e & w2 & He & Hrun). injection He as <- <-.
    cbn [ext_state with_trace] in Hrun.
    destruct mem as [mem|]; [|injection Hrun as <- <-; left; auto].
    cbn [mbind option_bind] in Hrun.
    destruct (mm_iommu_rm_ua_to_hpa mem ua (ext_state w)) as [tces|] eqn:Hhpa;
      [|injection Hrun as <- <-; left; auto].
    rewrite Hg in Hrun.
    change (put_tce_indirect_store p stt (Z.shiftr ioba (page_shift stt)) tces npages 0
              (with_trace w (trace w ++ [EvGpaToUa tce_list])) = Some (r, w')) in Hrun.
    right. exists tces, 0, (with_trace w (trace w ++ [EvGpaToUa tce_list])).
    split; [|auto].
    unfold list_read_at. rewrite Hpre. exists ua, rm. cbn [negb].
    rewrite Hg1. split; [reflexivity|]. exists mem. split; [|exact Hhpa].
    apply andb_true_iff in Hpre as [Hmm _]. rewrite Hmm in Hmem. now symmetry.
  - apply bind_inv in Hrun as (g & w1 & Hg1 & Hrun).
    pose proof (kvmppc_gpa_to_ua_inv _ _ _ _ _ Hg1) as ->.
    destruct g as [[ua rm]|]; [|injection Hrun as <- <-; left; auto].
    apply bind_inv in Hrun as ([] & w2 & Hlk & Hrun). injection Hlk as <-.
    apply bind_inv in Hrun as (x & w3 & Hhpa & Hrun).
    pose proof (kvmppc_rm_ua_to_hpa_inv _ _ _ _ Hhpa) as ->.
    destruct x as [err|tces].
    + apply bind_inv in Hrun as ([] & w4 & Hu & Hrun). injection Hrun as <- <-.
      left. split; [auto|]. destruct (rm =? 0); injection Hu as <-; auto.
    + right. eexists tces, rm, _. split; [|split; [|split; [|split; [|exact Hrun]]]];
        auto.
      unfold list_read_at. rewrite Hpre. exists ua, rm. cbn [negb].
      rewrite Hg1. split; [reflexivity|].
      pose proof (f_equal (fmap fst) Hhpa) as Hf.
      rewrite <- (kvmppc_rm_ua_to_hpa_ext ua w) in Hf by reflexivity.
      exact Hf.
Qed.

(** X15.  What H_PUT_TCE_INDIRECT leaves in the Entry Store when it walks no
    device group (the bus has none, or guest memory is not preregistered).
    It writes the entries of the list, in order, to consecutive indices
    from the index of the I/O address, checking each entry just before it
    writes it: the entries before the first one the validation refuses
    are written, [m] of them, and stay written when the call returns
    [H_PARAMETER]; every other index holds what it held.  A call that
    returns [H_SUCCESS] has written all [npages] entries.  The list is the
    one at the address [tces] that the list address resolves to
    ([list_read_at]): entry [i] is the doubleword at [tces + 8 * i]. *)
Theorem put_tce_indirect_writes_list_prefix bus ioba tce_list npages w r w' p stt :
  3 <= PAGE_SHIFT < 64 ->
  find_table_from (spapr_tce_tables w) 0 bus = Some p ->
  spapr_tce_tables w !! p = Some stt ->
  0 <= npages ->
  groups stt = [] \/ run_task_mm w = false
  \/ mm_iommu_preregistered (ext_state w) = false ->
  kvmppc_rm_h_put_tce_indirect bus ioba tce_list npages w = Some (r, w') ->
  ext_state w' = ext_state w
  /\ (r = H_SUCCESS \/ r = H_PARAMETER \/ r = H_TOO_HARD)
  /\ exists tces m,
       0 <= m <= npages
       /\ (forall k, 0 <= k < 2 ^ 64 ->
             let i := u64 (k - Z.shiftr ioba (page_shift stt)) in
             entry_at w' p k
             = if decide (i < m)
               then Some (load_be64 (u64 (tces + 8 * i)) (ext_state w))
               else entry_at w p k)
       /\ (forall j, 0 <= j < m ->
             kvmppc_tce_validate stt (load_be64 (u64 (tces + 8 * j)) (ext_state w))
             = H_SUCCESS)
       /\ (r = H_SUCCESS -> m = npages)
       /\ (0 < m < npages ->
           r = H_PARAMETER
           /\ kvmppc_tce_validate stt (load_be64 (u64 (tces + 8 * m)) (ext_state w))
              <> H_SUCCESS)
       /\ (r = H_SUCCESS \/ 0 < m -> list_read_at w tce_list tces).
Proof.
  intros HP Hfind Hstt Hn Hnogroup Hrun.
  pose proof (TCES_PER_PAGE_pos HP) as HT.
  destruct (put_tce_indirect_list_inv _ _ _ _ _ _ _ _ _ Hfind Hstt Hnogroup Hrun)
    as [(Hrx & Htab & Hext) | (tces & rmap & wx & Hread & Htab & Hext & Hcap & Hs)].
  - split; [exact Hext|]. split; [tauto|].
    exists 0, 0. split; [lia|].
    split; [|split; [intros; lia|split; [|split; [lia|]]]].
    + intros k Hk i.
      rewrite decide_False
        by (pose proof (u64_range (k - Z.shiftr ioba (page_shift stt))); subst i; lia).
      unfold entry_at. now rewrite Htab.
    + intros ->. destruct Hrx; discriminate.
    + intros [-> | Hm]; [destruct Hrx; discriminate | lia].
  - apply put_tce_indirect_store_inv in Hs as (res & wl & Hloop & -> & ->).
    apply indirect_store_loop in Hloop
      as (Hx & _ & _ & m & Hm & Hk & Hj & Hres); [|exact HT|lia|rewrite Z2Nat.id; lia].
    rewrite Z2Nat.id in * by lia. rewrite Hext in *.
    assert (Hent : forall k, entry_at (if rmap =? 0 then wl
                                       else with_trace wl (trace wl ++ [EvUnlockRmap rmap]))
                               p k = entry_at wl p k)
      by (intros k; destruct (rmap =? 0); reflexivity).
    split; [destruct (rmap =? 0); exact Hx|].
    split.
    { destruct res as [v|]; [|auto]. destruct Hres as (-> & _). auto. }
    exists tces, m. split; [lia|]. split; [|split; [|split; [|split]]].
    + intros k Hk64 i. rewrite Hent, (Hk k Hk64). subst i.
      pose proof (u64_range (k - Z.shiftr ioba (page_shift stt))).
      destruct (decide (u64 (k - Z.shiftr ioba (page_shift stt)) < m)).
      * rewrite decide_True by lia. reflexivity.
      * rewrite decide_False by lia. unfold entry_at. now rewrite Htab.
    + intros j Hjr. apply Hj. lia.
    + destruct res as [v|]; [|intros _; lia].
      destruct Hres as (-> & _). discriminate.
    + intros Hmn. destruct res as [v|]; [|lia].
      destruct Hres as (-> & _ & Hbad). auto.
    + intros _. exact Hread.
Qed.

Lemma indirect_store_loop_frame p stt entry tces : forall n i w res w',
  for_loop n i (fun i =>
      tce <- load_tce tces i ;;
      let rc := kvmppc_tce_validate stt tce in
      if negb (rc =? 0) then ret (Some rc)
      else kvmppc_tce_put p (u64 (entry + i)) tce ;;; ret None) w
  = Some (res, w') ->
  ext_state w' = ext_state w
  /\ real_mem w' = real_mem w
  /\ exists loads, trace w' = trace w ++ loads
                   /\ Forall (fun e => is_list_load e = true) loads.
Proof.
  induction n as [|n IH]; intros i w res w'; simpl.
  - intros [= <- <-]. split; [reflexivity|]. split; [reflexivity|].
    exists []. now rewrite app_nil_r.
  - intros H. apply bind_inv in H as (r1 & w1 & Hb & H).
    rewrite (bind_run _ _ _ _ _ (load_tce_run tces i w)) in Hb.
    assert (Hw1 : ext_state w1 = ext_state w /\ real_mem w1 = real_mem w
                  /\ trace w1 = trace w ++ [EvListLoad (u64 (tces + 8 * i))]).
    { destruct (negb _).
      - injection Hb as _ <-. auto.
      - apply bind_inv in Hb as ([] & w2 & Hput & Hb). injection Hb as _ <-.
        apply kvmppc_tce_put_inv in Hput as (stt' & pgs & _ & _ & ->). auto. }
    destruct Hw1 as (Hx1 & Hy1 & Ht1).
    assert (Hrest : ext_state w' = ext_state w1 /\ real_mem w' = real_mem w1
                    /\ exists loads, trace w' = trace w1 ++ loads
                         /\ Forall (fun e => is_list_load e = true) loads).
    { destruct r1 as [v|].
      - injection H as _ <-. split; [reflexivity|]. split; [reflexivity|].
        exists []. now rewrite app_nil_r.
      - eapply IH; eauto. }
    destruct Hrest as (Hx & Hy & loads & Hl & Hfl).
    split; [congruence|]. split; [congruence|].
    exists (EvListLoad (u64 (tces + 8 * i)) :: loads).
    rewrite Hl, Ht1, <- app_assoc. split; [reflexivity|]. now constructor.
Qed.

(** X16.  When guest memory is not preregistered, H_PUT_TCE_INDIRECT asks nothing
    of any device group, attached or not: the state of the collaborators
    and the recorded userspace addresses are as before, and the call
    consists of the resolution of the list address, the lock of its
    reverse-map entry, the loads from the list and, last, the release of
    the lock if one was taken on a real entry. *)
Theorem put_tce_indirect_unregistered_path bus ioba tce_list npages w r w' :
  run_task_mm w = false \/ mm_iommu_preregistered (ext_state w) = false ->
  kvmppc_rm_h_put_tce_indirect bus ioba tce_list npages w = Some (r, w') ->
  ext_state w' = ext_state w
  /\ real_mem w' = real_mem w
  /\ exists evs,
       trace w' = trace w ++ evs
       /\ (evs = [] \/ evs = [EvGpaToUa tce_list]
           \/ exists rmap loads,
                Forall (fun e => is_list_load e = true) loads
                /\ evs = EvGpaToUa tce_list :: EvLockRmap rmap :: loads
                         ++ (if rmap =? 0 then [] else [EvUnlockRmap rmap])).
Proof.
  intros Hunreg Hrun.
  assert (Hnil : forall rx : Z,
            ext_state w = ext_state w /\ real_mem w = real_mem w
            /\ exists evs,
                 trace w = trace w ++ evs
                 /\ (evs = [] \/ evs = [EvGpaToUa tce_list]
                     \/ exists rmap loads,
                          Forall (fun e => is_list_load e = true) loads
                          /\ evs = EvGpaToUa tce_list :: EvLockRmap rmap :: loads
                                   ++ (if rmap =? 0 then []
                                       else [EvUnlockRmap rmap]))).
  { intros _. split; [reflexivity|]. split; [reflexivity|].
    exists []. rewrite app_nil_r. auto. }
  unfold kvmppc_rm_h_put_tce_indirect in Hrun.
  rewrite (bind_run _ _ _ _ _ (kvmppc_find_table_run bus w)) in Hrun.
  destruct (find_table_from _ 0 bus) as [p|];
    [|injection Hrun as _ <-; now apply Hnil].
  apply bind_inv in Hrun as (stt & w0 & Hd & Hrun).
  apply deref_stt_inv in Hd as [-> _].
  destruct (512 <? npages); [injection Hrun as _ <-; now apply Hnil|].
  destruct (negb _); [injection Hrun as _ <-; now apply Hnil|].
  destruct (negb _); [injection Hrun as _ <-; now apply Hnil|].
  rewrite (bind_run _ _ _ _ _ (kvmppc_preregistered_run w)) in Hrun.
  assert (Hpre : run_task_mm w && mm_iommu_preregistered (ext_state w) = false).
  { destruct Hunreg as [-> | ->]; [reflexivity | apply andb_false_r]. }
  rewrite Hpre in Hrun.
  apply bind_inv in Hrun as (g & w1 & Hg1 & Hrun).
  apply kvmppc_gpa_to_ua_inv in Hg1 as ->.
  destruct g as [[ua rm]|].
  2:{ injection Hrun as _ <-. split; [reflexivity|]. split; [reflexivity|].
      exists [EvGpaToUa tce_list]. auto. }
  apply bind_inv in Hrun as ([] & w2 & Hlk & Hrun). injection Hlk as <-.
  apply bind_inv in Hrun as (x & w3 & Hhpa & Hrun).
  apply kvmppc_rm_ua_to_hpa_inv in Hhpa as ->.
  destruct x as [err|tces].
  - apply bind_inv in Hrun as ([] & w4 & Hu & Hrun). injection Hrun as _ <-.
    assert (Hw4 : w4 = if rm =? 0 then
                         with_trace (with_trace w (trace w ++ [EvGpaToUa tce_list]))
                           ((trace w ++ [EvGpaToUa tce_list]) ++ [EvLockRmap rm])
                       else
                         with_trace
                           (with_trace (with_trace w (trace w ++ [EvGpaToUa tce_list]))
                              ((trace w ++ [EvGpaToUa tce_list]) ++ [EvLockRmap rm]))
                           (((trace w ++ [EvGpaToUa tce_list]) ++ [EvLockRmap rm])
                              ++ [EvUnlockRmap rm])).
    { destruct (rm =? 0); now injection Hu as <-. }
    split; [rewrite Hw4; destruct (rm =? 0); reflexivity|].
    split; [rewrite Hw4; destruct (rm =? 0); reflexivity|].
    exists (EvGpaToUa tce_list :: EvLockRmap rm :: []
              ++ (if rm =? 0 then [] else [EvUnlockRmap rm])).
    split; [|right; right; exists rm, []; split; [constructor | reflexivity]].
    rewrite Hw4. destruct (rm =? 0); simpl; rewrite <- !app_assoc; reflexivity.
  - apply put_tce_indirect_store_inv in Hrun as (res & wl & Hloop & -> & _).
    apply indirect_store_loop_frame in Hloop as (Hx & Hy & loads & Hl & Hfl).
    split; [destruct (rm =? 0); exact Hx|].
    split; [destruct (rm =? 0); exact Hy|].
    exists (EvGpaToUa tce_list :: EvLockRmap rm :: loads
              ++ (if rm =? 0 then [] else [EvUnlockRmap rm])).
    split; [|right; right; exists rm, loads; auto].
    destruct (rm =? 0); simpl; rewrite Hl; simpl; rewrite <- ?app_assoc;
      try rewrite app_nil_r; reflexivity.
Qed.

(** ** Further properties of the address translation *)

Lemma lor_disjoint_add a b s :
  0 <= s -> a mod 2 ^ s = 0 -> 0 <= b < 2 ^ s -> Z.lor a b = a + b.
Proof.
  intros Hs Ha Hb.
  assert (Hland : Z.land a b = 0).
  { apply Z.bits_inj'. intros i Hi. rewrite Z.land_spec, Z.bits_0.
    destruct (Z.ltb_spec i s).
    - rewrite <- (Z.mod_pow2_bits_low a s i) by lia. now rewrite Ha, Z.bits_0.
    - assert (Z.testbit b i = false) as ->; [|apply andb_false_r].
      destruct (Z.eq_dec b 0) as [->|Hnz]; [apply Z.bits_0|].
      apply Z.bits_above_log2; [lia|]. apply Z.log2_lt_pow2; [lia|].
      apply Z.lt_le_trans with (2 ^ s); [lia|]. apply Z.pow_le_mono_r; lia. }
  rewrite <- Z.lxor_lor by exact Hland. symmetry. now apply Z.add_nocarry_lxor.
Qed.

Lemma u64_shiftl_low z s : 0 <= s <= 64 -> u64 (Z.shiftl z s) mod 2 ^ s = 0.
Proof.
  intros Hs. unfold u64. rewrite Z.shiftl_mul_pow2 by lia.
  replace 64 with (s + (64 - s)) at 1 by lia. rewrite Z.pow_add_r by lia.
  assert (0 < 2 ^ s) by (apply Z.pow_pos_nonneg; lia).
  assert (0 < 2 ^ (64 - s)) by (apply Z.pow_pos_nonneg; lia).
  rewrite (Z.mul_comm (2 ^ s)), Z.mul_mod_distr_r by lia.
  apply Z.mod_mul. lia.
Qed.

Lemma land_ones_sub a s t :
  0 <= s <= t -> Z.lor (Z.land a (Z.ones s)) (Z.land a (Z.ones t)) = Z.land a (Z.ones t).
Proof.
  intros H. apply Z.bits_inj'. intros i Hi.
  rewrite Z.lor_spec, !Z.land_spec, !Z.testbit_ones_nonneg by lia.
  destruct (Z.testbit a i), (Z.ltb_spec i s), (Z.ltb_spec i t); simpl;
    try reflexivity; lia.
Qed.

(** X17.  [kvmppc_rm_ua_to_hpa] reads the page table and changes nothing.  It
    answers [-ENXIO] or [-EAGAIN], or a host physical address; an address
    is given only for a present, young page table entry of a page no
    larger than the base page, and it is the page frame of that entry
    followed by the offset of the userspace address in its page. *)
Theorem rm_ua_to_hpa_outcomes ua w x w' :
  0 <= PAGE_SHIFT <= 30 ->
  kvmppc_rm_ua_to_hpa ua w = Some (x, w') ->
  w' = w
  /\ match x with
     | inl e => e = - ENXIO \/ e = - EAGAIN
     | inr hpa =>
         exists pte shift,
           find_linux_pte_or_hugepte ua (ext_state w) = Some (pte, shift)
           /\ pte_present pte = true
           /\ pte_young pte = true
           /\ shift <= PAGE_SHIFT
           /\ (0 <= shift ->
               hpa = u64 (Z.shiftl (pte_pfn pte) PAGE_SHIFT) + ua mod 2 ^ PAGE_SHIFT)
     end.
Proof.
  intros HP H. split; [eapply kvmppc_rm_ua_to_hpa_inv; eauto|].
  unfold kvmppc_rm_ua_to_hpa, bind, gets, ret in H.
  destruct (find_linux_pte_or_hugepte ua (ext_state w)) as [[pte shift]|] eqn:Hpte;
    [|injection H as <- _; auto].
  destruct (pte_present pte) eqn:Hpres; simpl in H; [|injection H as <- _; auto].
  set (shift' := if shift =? 0 then PAGE_SHIFT else shift) in *.
  destruct (Z.ltb_spec PAGE_SHIFT shift') as [Hbig|Hsmall];
    [injection H as <- _; auto|].
  destruct (pte_young pte) eqn:Hyoung; simpl in H; [|injection H as <- _; auto].
  injection H as <- _. exists pte, shift.
  assert (Hle : shift <= PAGE_SHIFT).
  { subst shift'. destruct (Z.eqb_spec shift 0); lia. }
  repeat split; try assumption. intros Hs0.
  assert (Hs' : 0 <= shift' <= PAGE_SHIFT).
  { subst shift'. destruct (Z.eqb_spec shift 0); lia. }
  unfold PAGE_MASK. rewrite Z.lnot_involutive.
  rewrite !int_page_mask_ones by lia.
  rewrite (u64_small (Z.ones shift')), (u64_small (Z.ones PAGE_SHIFT))
    by (apply ones_bound; lia).
  rewrite <- Z.lor_assoc, land_ones_sub by lia.
  rewrite Z.land_ones by lia.
  apply (lor_disjoint_add _ _ PAGE_SHIFT); [lia| |].
  - apply u64_shiftl_low. lia.
  - apply Z.mod_pos_bound. apply Z.pow_pos_nonneg; lia.
Qed.

Lemma gpa_offset_mask_bits i :
  0 <= PAGE_SHIFT <= 30 -> 0 <= i ->
  Z.testbit (u64 (Z.lnot (Z.lor PAGE_MASK (Z.lor TCE_PCI_READ TCE_PCI_WRITE)))) i
  = (2 <=? i) && (i <? PAGE_SHIFT).
Proof.
  intros HP Hi. unfold u64, PAGE_MASK.
  rewrite int_page_mask_ones by lia.
  rewrite <- Z.land_ones by lia.
  rewrite Z.land_spec, Z.lnot_spec, Z.lor_spec, Z.lnot_spec by lia.
  rewrite !Z.testbit_ones_nonneg by lia.
  change (Z.lor TCE_PCI_READ TCE_PCI_WRITE) with (Z.ones 2).
  rewrite Z.testbit_ones_nonneg by lia.
  destruct (Z.ltb_spec i PAGE_SHIFT), (Z.ltb_spec i 2), (Z.leb_spec 2 i),
    (Z.ltb_spec i 64); simpl; try reflexivity; lia.
Qed.

Lemma gpa_offset_arith gpa :
  0 <= PAGE_SHIFT <= 30 ->
  Z.land gpa (u64 (Z.lnot (Z.lor PAGE_MASK (Z.lor TCE_PCI_READ TCE_PCI_WRITE))))
  = 4 * (gpa mod 2 ^ PAGE_SHIFT / 4).
Proof.
  intros HP.
  rewrite <- Z.land_ones by lia.
  change 4 with (2 ^ 2). rewrite <- Z.shiftr_div_pow2 by lia.
  rewrite Z.mul_comm, <- Z.shiftl_mul_pow2 by lia.
  apply Z.bits_inj'. intros i Hi.
  rewrite Z.land_spec, gpa_offset_mask_bits by lia.
  destruct (Z.leb_spec 2 i).
  - rewrite Z.shiftl_spec, Z.shiftr_spec by lia.
    replace (i - 2 + 2) with i by lia.
    now rewrite Z.land_spec, Z.testbit_ones_nonneg by lia.
  - rewrite Z.shiftl_spec_low by lia. apply andb_false_r.
Qed.

(** X18.  [kvmppc_gpa_to_ua] fails exactly when no memory slot holds the guest
    page.  Otherwise the userspace address is the address of the page in
    the slot followed by the offset of the guest physical address in its
    page, with the two flag bits cleared; the reverse-map entry is handed
    out only when asked for. *)
Theorem gpa_to_ua_strips_flags gpa want_rmap w r w' :
  0 <= PAGE_SHIFT <= 30 ->
  kvmppc_gpa_to_ua gpa want_rmap w = Some (r, w') ->
  let gfn := Z.shiftr gpa PAGE_SHIFT in
  w' = with_trace w (trace w ++ [EvGpaToUa gpa])
  /\ match r with
     | None => search_memslots gfn (ext_state w) = None
     | Some (ua, rmap) =>
         exists memslot,
           search_memslots gfn (ext_state w) = Some memslot
           /\ rmap = (if want_rmap then rmap_real_addr memslot gfn else 0)
           /\ (gfn_to_hva_memslot memslot gfn mod 2 ^ PAGE_SHIFT = 0 ->
               ua = gfn_to_hva_memslot memslot gfn
                    + 4 * (gpa mod 2 ^ PAGE_SHIFT / 4))
     end.
Proof.
  intros HP H gfn. split; [eapply kvmppc_gpa_to_ua_inv; eauto|].
  unfold kvmppc_gpa_to_ua, bind, emit, modify, gets, ret in H. simpl in H.
  fold gfn in H.
  destruct (search_memslots gfn (ext_state w)) as [memslot|] eqn:Hslot.
  - injection H as <- _. exists memslot. split; [reflexivity|].
    split; [reflexivity|]. intros Hal.
    rewrite gpa_offset_arith by exact HP.
    apply (lor_disjoint_add _ _ PAGE_SHIFT); [lia|exact Hal|].
    assert (Hpos : 0 < 2 ^ PAGE_SHIFT) by (apply Z.pow_pos_nonneg; lia).
    pose proof (Z.mod_pos_bound gpa (2 ^ PAGE_SHIFT) Hpos) as Hm.
    assert (Hq : 0 <= gpa mod 2 ^ PAGE_SHIFT / 4) by (apply Z.div_pos; lia).
    assert (H4 : 0 < 4) by lia.
    pose proof (Z.mul_div_le (gpa mod 2 ^ PAGE_SHIFT) 4 H4) as Hd. lia.
  - injection H as <- _. reflexivity.
Qed.

(** ** Progress on an emulated bus, and the order of the exchanges *)

Lemma stuff_store_runs p stt v n : forall idx w stt0,
  3 <= PAGE_SHIFT < 64 ->
  spapr_tce_tables w !! p = Some stt0 -> wf_table stt0 ->
  page_shift stt = page_shift stt0 ->
  offset stt0 <= idx -> idx + Z.of_nat n <= offset stt0 + size stt0 ->
  exists w', stuff_store n p stt (Z.shiftl idx (page_shift stt)) v w = Some (tt, w').
Proof.
  induction n as [|n IH]; intros idx w stt0 HP Hstt Hwf Hsh Hlo Hhi; simpl.
  - eexists. reflexivity.
  - pose proof Hwf as (Hs & Ho & Hz & Hfit & _).
    rewrite shiftr_index by lia.
    destruct (entry_slot_in_range stt0 idx HP Hwf ltac:(lia)) as (page & Hpage & Hlt).
    set (pgs := <[(entry_slot stt0 idx).1 := <[(entry_slot stt0 idx).2 := v]> page]>
                  (pages stt0)).
    assert (Hst : pages_store (pages stt0) (entry_slot stt0 idx) v = Some pgs).
    { unfold pages_store. rewrite Hpage. now rewrite decide_True. }
    set (w1 := with_tables w (<[p := set_pages stt0 pgs]> (spapr_tce_tables w))).
    assert (Hput : kvmppc_tce_put p idx v w = Some (tt, w1)).
    { unfold kvmppc_tce_put. rewrite (bind_run _ _ _ _ _ (deref_stt_run _ _ _ Hstt)).
      unfold bind, lift_option, modify. now rewrite Hst. }
    rewrite (bind_run _ _ _ _ _ Hput).
    destruct n as [|n]; [eexists; reflexivity|].
    rewrite (stuff_ioba_step idx _ (S n)); try lia.
    2:{ rewrite Hsh. etransitivity; [|exact Hfit].
        apply Z.mul_le_mono_nonneg_r; [apply Z.pow_nonneg; lia | lia]. }
    apply (IH (idx + 1) w1 (set_pages stt0 pgs)); auto; try (simpl; lia).
    + subst w1. simpl. apply list_lookup_insert_eq. eapply lookup_lt_Some; eauto.
    + eapply wf_table_set_pages; eauto.
Qed.

(** X19.  On a bus without device groups a valid H_STUFF_TCE always goes
    through: for a well-formed table, a range inside the window and a value
    the validation accepts and that carries no direction flag, it returns
    [H_SUCCESS], and nothing but the table list has changed.  (The sum
    [offset + size + npages] of the window check must not wrap.) *)
Theorem stuff_tce_emulated_succeeds bus idx n v w p stt :
  3 <= PAGE_SHIFT < 64 ->
  find_table_from (spapr_tce_tables w) 0 bus = Some p ->
  spapr_tce_tables w !! p = Some stt ->
  wf_table stt ->
  groups stt = [] ->
  offset stt <= idx < offset stt + size stt ->
  0 <= n -> idx + n <= offset stt + size stt ->
  offset stt + size stt + n < 2 ^ 64 ->
  kvmppc_tce_validate stt v = H_SUCCESS ->
  Z.land v (Z.lor TCE_PCI_WRITE TCE_PCI_READ) = 0 ->
  exists l,
    kvmppc_rm_h_stuff_tce bus (Z.shiftl idx (page_shift stt)) v n w
    = Some (H_SUCCESS, with_tables w l).
Proof.
  intros HP Hfind Hstt Hwf Hg Hidx Hn Hhi Hsum Hv Hfl.
  pose proof Hwf as (Hs & Ho & Hz & Hfit & _).
  destruct (window_index_bound _ _ Hwf Hidx) as (_ & Hsz & Hi0 & Hio).
  assert (Hval : kvmppc_ioba_validate stt (Z.shiftl idx (page_shift stt)) n
                 = H_SUCCESS).
  { apply kvmppc_ioba_validate_spec. rewrite shiftr_index by lia.
    rewrite int_page_mask_ones, u64_small by (try apply ones_bound; lia).
    rewrite Z.land_ones, Z.shiftl_mul_pow2 by lia.
    rewrite Z.mod_mul by (apply Z.pow_nonzero; lia).
    rewrite u64_small by lia.
    lia. }
  destruct (stuff_store_runs p stt v (Z.to_nat n) idx w stt HP Hstt Hwf eq_refl
              ltac:(lia) ltac:(rewrite Z2Nat.id; lia)) as (w' & Hst).
  destruct (stuff_store_tables _ _ _ _ _ _ _ _ Hst Hstt Hwf) as (pgs & -> & _).
  eexists. unfold kvmppc_rm_h_stuff_tce.
  rewrite (bind_run _ _ _ _ _ (kvmppc_find_table_run bus w)), Hfind.
  rewrite (bind_run _ _ _ _ _ (deref_stt_run _ _ _ Hstt)), Hval, Hv, Hfl, Hg.
  simpl. unfold bind at 1. unfold ret at 1.
  rewrite (bind_run _ _ _ _ _ Hst). reflexivity.
Qed.

Lemma preflight_not_exchange evs :
  Forall preflight evs -> exchanged_entries evs = [].
Proof.
  induction 1 as [|e evs He _ IH]; [reflexivity|].
  change (e :: evs) with ([e] ++ evs).
  rewrite exchanged_entries_app, IH, app_nil_r.
  destruct e; simpl in He; try discriminate; reflexivity.
Qed.

Lemma map_exchanged t entry gpa dir w r w' :
  kvmppc_rm_tce_iommu_map t entry gpa dir w = Some (r, w') ->
  exists evs,
    trace w' = trace w ++ evs
    /\ (r = H_SUCCESS \/ r = H_HARDWARE \/ r = H_TOO_HARD)
    /\ (r = H_HARDWARE -> exchanged_entries evs = [])
    /\ (r <> H_HARDWARE -> exchanged_entries evs = [(t, entry)]).
Proof.
  intros H. apply map_inv in H as (evs & Ht & H).
  exists (EvGpaToUa gpa :: evs). split; [exact Ht|].
  destruct H as [(-> & _ & Hev) | [(-> & _ & mem & hpa & rc & _ & ->)
                | (-> & mem & hpa & memslot & rest & -> & Hrest & _)]].
  - split; [auto|]. split; [|intros Hc; now contradiction Hc].
    intros _. destruct Hev as [->|(mem & rc & _ & ->)]; reflexivity.
  - split; [auto|]. split; [discriminate|]. intros _. reflexivity.
  - split; [auto|]. split; [discriminate|]. intros _.
    destruct Hrest as [->|(old & ->)]; reflexivity.
Qed.

Lemma indirect_map_loop t entry tces : forall n i w res w',
  0 <= i -> i + Z.of_nat n <= 2 ^ 64 ->
  for_loop n i (fun i =>
      tce <- load_tce tces i ;;
      let gpa := tce_gpa tce in
      rc <- kvmppc_rm_tce_iommu_map t (u64 (entry + i)) gpa
              (iommu_tce_direction tce) ;;
      if negb (rc =? 0) then ret (Some rc) else ret None) w
  = Some (res, w') ->
  exists evs m,
    trace w' = trace w ++ evs
    /\ i <= m <= i + Z.of_nat n
    /\ exchanged_entries evs = (fun k => (t, u64 (entry + k))) <$> seqZ i (m - i)
    /\ match res with
       | None => m = i + Z.of_nat n
       | Some v => v = H_HARDWARE \/ v = H_TOO_HARD
       end.
Proof.
  induction n as [|n IH]; intros i w res w' Hi Hfit; simpl.
  - intros [= <- <-]. exists [], i. rewrite app_nil_r, Z.sub_diag.
    split; [reflexivity|]. split; [lia|]. split; [reflexivity | lia].
  - intros H. apply bind_inv in H as (r1 & w1 & Hb & H).
    rewrite (bind_run _ _ _ _ _ (load_tce_run tces i w)) in Hb.
    apply bind_inv in Hb as (rc & w2 & Hmap & Hb).
    apply map_exchanged in Hmap as (e1 & Ht1 & Hrc & Hhw & Hnhw).
    simpl in Ht1.
    destruct (Z.eqb_spec rc 0) as [->|Hnz]; simpl in Hb.
    + injection Hb as <- <-.
      assert (Hx1 : exchanged_entries e1 = [(t, u64 (entry + i))])
        by (apply Hnhw; discriminate).
      assert (Hrest : exists e2 m,
                trace w' = trace w2 ++ e2 /\ i + 1 <= m <= i + Z.of_nat (S n)
                /\ exchanged_entries e2
                   = (fun k => (t, u64 (entry + k))) <$> seqZ (i + 1) (m - (i + 1))
                /\ match res with
                   | None => m = i + Z.of_nat (S n)
                   | Some v => v = H_HARDWARE \/ v = H_TOO_HARD
                   end).
      { destruct n as [|n].
        - simpl in H. injection H as <- <-. exists [], (i + 1).
          rewrite app_nil_r, Z.sub_diag.
          split; [reflexivity|]. split; [lia|]. split; [reflexivity | lia].
        - rewrite u64_small in H by lia.
          apply IH in H as (e2 & m & Ht2 & Hm & Hx2 & Hres); [|lia|lia].
          exists e2, m. split; [exact Ht2|]. split; [lia|]. split; [exact Hx2|].
          destruct res; [exact Hres | lia]. }
      destruct Hrest as (e2 & m & Ht2 & Hm & Hx2 & Hres).
      exists (EvListLoad (u64 (tces + 8 * i)) :: e1 ++ e2), m.
      split; [rewrite Ht2, Ht1; simpl; now rewrite <- !app_assoc|].
      split; [lia|]. split; [|exact Hres].
      change (EvListLoad (u64 (tces + 8 * i)) :: e1 ++ e2)
        with ([EvListLoad (u64 (tces + 8 * i))] ++ e1 ++ e2).
      rewrite !exchanged_entries_app, Hx1, Hx2. simpl.
      rewrite (seqZ_cons i (m - i)) by lia. rewrite fmap_cons.
      replace (Z.succ i) with (i + 1) by lia.
      replace (Z.pred (m - i)) with (m - (i + 1)) by lia. reflexivity.
    + injection Hb as <- <-. injection H as <- <-.
      assert (Hcode : rc = H_HARDWARE \/ rc = H_TOO_HARD).
      { destruct Hrc as [->|[->| ->]]; auto. now contradiction Hnz. }
      destruct (Z.eq_dec rc H_HARDWARE) as [Heq|Hne].
      * exists (EvListLoad (u64 (tces + 8 * i)) :: e1), i.
        split; [rewrite Ht1; simpl; now rewrite <- !app_assoc|].
        split; [lia|]. split; [|exact Hcode].
        change (EvListLoad (u64 (tces + 8 * i)) :: e1)
          with ([EvListLoad (u64 (tces + 8 * i))] ++ e1).
        rewrite exchanged_entries_app, (Hhw Heq), Z.sub_diag. reflexivity.
      * exists (EvListLoad (u64 (tces + 8 * i)) :: e1), (i + 1).
        split; [rewrite Ht1; simpl; now rewrite <- !app_assoc|].
        split; [lia|]. split; [|exact Hcode].
        change (EvListLoad (u64 (tces + 8 * i)) :: e1)
          with ([EvListLoad (u64 (tces + 8 * i))] ++ e1).
        rewrite exchanged_entries_app, (Hnhw Hne).
        replace (i + 1 - i) with 1 by lia. reflexivity.
Qed.

(** X20.  A device group's half of H_PUT_TCE_INDIRECT exchanges the entries of
    the range in ascending order from the entry of the I/O address and
    stops at the first map that fails: the [m] exchanges made by then are
    not taken back.  After a refused pre-flight check no entry was
    exchanged; after [H_SUCCESS] all [npages] entries were. *)
Theorem put_tce_indirect_iommu_installs_in_order t ioba tces npages w r w' :
  0 <= npages < 2 ^ 64 ->
  kvmppc_rm_h_put_tce_indirect_iommu t ioba tces npages w = Some (r, w') ->
  exists it evs m,
    iommu_tables w !! t = Some it
    /\ trace w' = trace w ++ evs
    /\ 0 <= m <= npages
    /\ exchanged_entries evs
       = (fun k => (t, u64 (Z.shiftr ioba (it_page_shift it) + k))) <$> seqZ 0 m
    /\ (r = H_SUCCESS \/ r = H_PARAMETER \/ r = H_HARDWARE \/ r = H_TOO_HARD)
    /\ (r = H_SUCCESS -> m = npages)
    /\ (r = H_PARAMETER -> m = 0).
Proof.
  intros Hn H. unfold kvmppc_rm_h_put_tce_indirect_iommu in H.
  apply bind_inv in H as (it & w0 & Hd & H). apply deref_tbl_inv in Hd as [-> Hit].
  exists it.
  apply bind_inv in H as (res & w1 & Hp1 & H).
  apply preflight_pass in Hp1 as [Hot Hres].
  destruct Hot as (_ & _ & _ & _ & _ & _ & Hgrow).
  destruct Hgrow as (e1 & Ht1 & Hpre).
  apply preflight_not_exchange in Hpre.
  destruct res as [v|].
  - injection H as <- <-. destruct Hres as (-> & _).
    exists e1, 0. split; [exact Hit|]. split; [exact Ht1|]. split; [lia|].
    split; [exact Hpre|]. split; [auto|]. split; [discriminate | auto].
  - apply bind_inv in H as (res2 & w2 & Hp2 & H).
    apply indirect_map_loop in Hp2 as (e2 & m & Ht2 & Hm & Hx2 & Hres2);
      [|lia|rewrite Z2Nat.id; lia].
    rewrite Z2Nat.id, Z.sub_0_r in * by lia.
    exists (e1 ++ e2), m. split; [exact Hit|].
    assert (w' = w2) as -> by (destruct res2; unfold ret in H; congruence).
    split; [rewrite Ht2, Ht1; now rewrite app_assoc|]. split; [lia|].
    split; [rewrite exchanged_entries_app, Hpre, Hx2; reflexivity|].
    destruct res2 as [v|].
    + injection H as <-. split; [tauto|].
      destruct Hres2 as [-> | ->]; split; discriminate.
    + injection H as <-. split; [auto|]. split; [intros _; lia|discriminate].
Qed.

(** X21.  A vcpu whose task has no address space: nothing counts as
    preregistered, no pinned region is found, and a map gives up with
    [H_HARDWARE] right after resolving the guest address, before any
    counter or hardware entry is touched. *)
Theorem no_mm_no_mapping w :
  run_task_mm w = false ->
  kvmppc_preregistered w = Some (false, w)
  /\ (forall ua sz, kvmppc_rm_iommu_lookup ua sz w = Some (None, w))
  /\ (forall t entry gpa dir r w',
        kvmppc_rm_tce_iommu_map t entry gpa dir w = Some (r, w') ->
        r = H_HARDWARE /\ w' = with_trace w (trace w ++ [EvGpaToUa gpa])).
Proof.
  intros Hmm. split; [|split].
  - rewrite kvmppc_preregistered_run, Hmm. reflexivity.
  - intros ua sz. unfold kvmppc_rm_iommu_lookup, kvmppc_mm_context, bind, gets, ret.
    rewrite Hmm. reflexivity.
  - intros t entry gpa dir r w' H. unfold kvmppc_rm_tce_iommu_map in H.
    apply bind_inv in H as (g & w1 & Hg & H).
    apply kvmppc_gpa_to_ua_inv in Hg as ->.
    destruct g as [[ua rm]|]; [|injection H as <- <-; auto].
    apply bind_inv in H as (it & w0 & Hd & H). apply deref_tbl_inv in Hd as [-> _].
    apply bind_inv in H as (m & w0 & Hk & H).
    apply kvmppc_rm_iommu_lookup_inv in Hk as [-> ->].
    cbn [run_task_mm with_trace] in H. rewrite Hmm in H.
    injection H as <- <-. auto.
Qed.

(** ** C5: the counters around the exchange, tied to the regions *)

Lemma kvmppc_gpa_to_ua_run gpa b w g :
  fst <$> kvmppc_gpa_to_ua gpa b w = Some g ->
  kvmppc_gpa_to_ua gpa b w = Some (g, with_trace w (trace w ++ [EvGpaToUa gpa])).
Proof.
  destruct (kvmppc_gpa_to_ua gpa b w) as [[g' w1]|] eqn:Hg; [|discriminate].
  intros [= ->]. now rewrite (kvmppc_gpa_to_ua_inv _ _ _ _ _ Hg).
Qed.

Lemma kvmppc_rm_iommu_lookup_run ua sz w :
  kvmppc_rm_iommu_lookup ua sz w
  = Some (if run_task_mm w then mm_iommu_lookup_rm ua sz (ext_state w) else None, w).
Proof.
  unfold kvmppc_rm_iommu_lookup, kvmppc_mm_context, bind, gets, ret.
  now destruct (run_task_mm w).
Qed.

Lemma deref_tbl_run t w it :
  iommu_tables w !! t = Some it -> deref_tbl t w = Some (it, w).
Proof. intros H. unfold deref_tbl, bind, gets, lift_option. now rewrite H. Qed.

Lemma call_mapped_inc_run mem w :
  call_mapped_inc mem w
  = Some ((mm_iommu_mapped_inc mem (ext_state w)).1,
          with_trace (with_ext w (mm_iommu_mapped_inc mem (ext_state w)).2)
            (trace w ++ [EvMappedInc mem (mm_iommu_mapped_inc mem (ext_state w)).1])).
Proof.
  unfold call_mapped_inc, bind, emit, modify, gets, ret.
  now destruct (mm_iommu_mapped_inc mem (ext_state w)).
Qed.

Lemma call_xchg_total t entry hpa dir w :
  call_xchg t entry hpa dir w
  = let x := iommu_tce_xchg_rm t entry hpa dir (ext_state w) in
    Some ((x.1.1.1, x.1.1.2, x.1.2),
          with_trace (with_ext w x.2) (trace w ++ [EvXchg t entry hpa dir x.1.1.1])).
Proof.
  unfold call_xchg, bind, emit, modify, gets, ret.
  now destruct (iommu_tce_xchg_rm t entry hpa dir (ext_state w)) as [[[rc h] d] e'].
Qed.

Lemma load_real_run a w v :
  real_mem w !! a = Some v -> load_real a w = Some (v, w).
Proof. intros H. unfold load_real, bind, gets, lift_option. now rewrite H. Qed.

Lemma store_real_run a v w :
  is_Some (real_mem w !! a) ->
  store_real a v w = Some (tt, with_real_mem w (<[a := v]> (real_mem w))).
Proof. intros [x H]. unfold store_real, bind, gets, modify. now rewrite H. Qed.

(** The release of the counter of an entry's recorded mapping, when the
    entry has a place for its userspace address. *)
Lemma mapped_dec_run t entry w it ua :
  iommu_tables w !! t = Some it ->
  IOMMU_TABLE_USERSPACE_ENTRY t entry <> 0 ->
  real_vmalloc_addr (IOMMU_TABLE_USERSPACE_ENTRY t entry) <> 0 ->
  real_mem w !! real_vmalloc_addr (IOMMU_TABLE_USERSPACE_ENTRY t entry) = Some ua ->
  kvmppc_rm_tce_iommu_mapped_dec t entry w
  = match (if run_task_mm w
           then mm_iommu_lookup_rm ua (u64 (Z.shiftl 1 (it_page_shift it)))
                  (ext_state w)
           else None) with
    | Some old =>
        Some (H_SUCCESS,
              with_real_mem
                (with_trace (with_ext w (mm_iommu_mapped_dec old (ext_state w)))
                   (trace w ++ [EvMappedDec old]))
                (<[real_vmalloc_addr (IOMMU_TABLE_USERSPACE_ENTRY t entry) := 0]>
                   (real_mem w)))
    | None => Some (H_HARDWARE, w)
    end.
Proof.
  intros Hit Hp Hr Hua. unfold kvmppc_rm_tce_iommu_mapped_dec.
  rewrite (bind_run _ _ _ _ _ (deref_tbl_run _ _ _ Hit)).
  destruct (Z.eqb_spec (IOMMU_TABLE_USERSPACE_ENTRY t entry) 0); [contradiction|].
  destruct (Z.eqb_spec (real_vmalloc_addr (IOMMU_TABLE_USERSPACE_ENTRY t entry)) 0);
    [contradiction|].
  rewrite (bind_run _ _ _ _ _ (load_real_run _ _ _ Hua)).
  rewrite (bind_run _ _ _ _ _ (kvmppc_rm_iommu_lookup_run _ _ _)).
  destruct (if run_task_mm w then _ else _) as [old|]; [|reflexivity].
  rewrite (bind_run _ _ _ _ _ (call_mapped_dec_run old w)).
  set (w2 := with_trace _ _).
  assert (Hs : is_Some (real_mem w2
                          !! real_vmalloc_addr (IOMMU_TABLE_USERSPACE_ENTRY t entry)))
    by (simpl; rewrite Hua; eauto).
  rewrite (bind_run _ _ _ _ _ (store_real_run _ 0 w2 Hs)). reflexivity.
Qed.

(** A map operation that has resolved the new page asks for the counter
    of its region and, when it gets it, goes on with the exchange. *)
Lemma map_run t entry gpa dir w mem hpa :
  new_region w t gpa mem hpa ->
  real_vmalloc_addr (IOMMU_TABLE_USERSPACE_ENTRY t entry) <> 0 ->
  exists ua,
    kvmppc_rm_tce_iommu_map t entry gpa dir w
    = (let inc := mm_iommu_mapped_inc mem (ext_state w) in
       let x := iommu_tce_xchg_rm t entry hpa dir inc.2 in
       let wx := with_trace (with_ext w x.2)
                   (trace w ++ [EvGpaToUa gpa; EvMappedInc mem 0;
                                EvXchg t entry hpa dir x.1.1.1]) in
       if negb (inc.1 =? 0)
       then Some (H_HARDWARE,
                  with_trace (with_ext w inc.2)
                    (trace w ++ [EvGpaToUa gpa; EvMappedInc mem inc.1]))
       else if negb (x.1.1.1 =? 0)
       then Some (H_TOO_HARD,
                  with_trace (with_ext w (mm_iommu_mapped_dec mem x.2))
                    (trace wx ++ [EvMappedDec mem]))
       else ((if decide (x.1.2 = DMA_NONE) then ret H_SUCCESS
              else kvmppc_rm_tce_iommu_mapped_dec t entry) ;;;
             store_real (real_vmalloc_addr (IOMMU_TABLE_USERSPACE_ENTRY t entry)) ua ;;;
             ret 0) wx).
Proof.
  intros (ua & rmap & it & Hg & Hit & Hmm & Hmem & Hhpa) Hr.
  exists ua. unfold kvmppc_rm_tce_iommu_map.
  rewrite (bind_run _ _ _ _ _ (kvmppc_gpa_to_ua_run _ _ _ _ Hg)).
  set (w1 := with_trace w (trace w ++ [EvGpaToUa gpa])).
  rewrite (bind_run _ _ _ _ _ (deref_tbl_run t w1 it Hit)).
  rewrite (bind_run _ _ _ _ _ (kvmppc_rm_iommu_lookup_run _ _ _)).
  change (run_task_mm w1) with (run_task_mm w).
  change (ext_state w1) with (ext_state w). rewrite Hmm, Hmem.
  unfold gets at 1. unfold bind at 1.
  change (ext_state w1) with (ext_state w). rewrite Hhpa.
  destruct (Z.eqb_spec (real_vmalloc_addr (IOMMU_TABLE_USERSPACE_ENTRY t entry)) 0);
    [contradiction|].
  rewrite (bind_run _ _ _ _ _ (call_mapped_inc_run mem w1)).
  change (ext_state w1) with (ext_state w).
  destruct (mm_iommu_mapped_inc mem (ext_state w)) as [rci e1]. cbn [fst snd].
  cbv zeta. subst w1. cbn [trace with_trace with_ext]. rewrite <- !app_assoc.
  cbn [app].
  destruct (Z.eqb_spec rci 0) as [->|Hrci]; cbn [negb]; [|reflexivity].
  rewrite (bind_run _ _ _ _ _ (call_xchg_total _ _ _ _ _)).
  cbn [ext_state with_trace with_ext trace]. cbv zeta.
  destruct (iommu_tce_xchg_rm t entry hpa dir e1) as [[[rc h] d] e2].
  cbn [fst snd]. rewrite <- !app_assoc. cbn [app].
  destruct (negb (rc =? 0)); [|reflexivity].
  rewrite (bind_run _ _ _ _ _ (call_mapped_dec_run mem _)).
  unfold ret, with_trace, with_ext. simpl. rewrite <- !app_assoc. reflexivity.
Qed.

(** Every map operation either gives up before it asks for a counter, or
    has resolved the new page. *)
Lemma map_reaches_inc t entry gpa dir w r w' :
  kvmppc_rm_tce_iommu_map t entry gpa dir w = Some (r, w') ->
  (r = H_HARDWARE /\ w' = with_trace w (trace w ++ [EvGpaToUa gpa]))
  \/ exists mem hpa,
       new_region w t gpa mem hpa
       /\ real_vmalloc_addr (IOMMU_TABLE_USERSPACE_ENTRY t entry) <> 0.
Proof.
  unfold kvmppc_rm_tce_iommu_map. intros H.
  apply bind_inv in H as (g & w1 & Hg & H).
  pose proof (kvmppc_gpa_to_ua_inv _ _ _ _ _ Hg) as ->.
  assert (Hgive : forall rx wx,
            Some (H_HARDWARE, with_trace w (trace w ++ [EvGpaToUa gpa]))
            = Some (rx, wx) ->
            rx = H_HARDWARE /\ wx = with_trace w (trace w ++ [EvGpaToUa gpa])).
  { intros rx wx [= <- <-]. auto. }
  destruct g as [[ua rm]|]; [|left; now apply Hgive].
  apply bind_inv in H as (it & w0 & Hd & H). apply deref_tbl_inv in Hd as [-> Hit].
  apply bind_inv in H as (m & w0 & Hk & H).
  apply kvmppc_rm_iommu_lookup_inv in Hk as [-> Hm].
  cbn [run_task_mm ext_state with_trace] in Hm.
  destruct m as [mem|]; [|left; now apply Hgive].
  apply bind_inv in H as (e & w0 & He & H). injection He as <- <-.
  cbn [ext_state with_trace] in H.
  destruct (mm_iommu_rm_ua_to_hpa mem ua (ext_state w)) as [hpa|] eqn:Hhpa;
    [|left; now apply Hgive].
  destruct (Z.eqb_spec (real_vmalloc_addr (IOMMU_TABLE_USERSPACE_ENTRY t entry)) 0)
    as [|Hr]; [left; now apply Hgive|].
  right. exists mem, hpa. split; [|exact Hr].
  exists ua, rm, it. rewrite Hg. split; [reflexivity|]. split; [exact Hit|].
  destruct (run_task_mm w); [|discriminate]. auto.
Qed.

Lemma load_real_inv a w v w' :
  load_real a w = Some (v, w') -> w' = w /\ real_mem w !! a = Some v.
Proof.
  unfold load_real, bind, gets, lift_option, ret, fault.
  destruct (real_mem w !! a); [now intros [= -> ->] | discriminate].
Qed.

(** What the map operation does after a successful exchange. *)
Lemma map_after_exchange t entry ua d w it r w' :
  iommu_tables w !! t = Some it ->
  run_task_mm w = true ->
  real_vmalloc_addr (IOMMU_TABLE_USERSPACE_ENTRY t entry) <> 0 ->
  ((if decide (d = DMA_NONE) then ret H_SUCCESS
    else kvmppc_rm_tce_iommu_mapped_dec t entry) ;;;
   store_real (real_vmalloc_addr (IOMMU_TABLE_USERSPACE_ENTRY t entry)) ua ;;;
   ret 0) w = Some (r, w') ->
  r = H_SUCCESS
  /\ ((exists old,
         d <> DMA_NONE
         /\ old_region w (ext_state w) t entry old
         /\ trace w' = trace w ++ [EvMappedDec old]
         /\ ext_state w' = mm_iommu_mapped_dec old (ext_state w))
      \/ ((d = DMA_NONE \/ forall old, ~ old_region w (ext_state w) t entry old)
          /\ trace w' = trace w /\ ext_state w' = ext_state w)).
Proof.
  intros Hit Hmm Hr H.
  apply bind_inv in H as (rd & w4 & Hdec & H).
  apply bind_inv in H as (u & w5 & Hst & H). injection H as <- <-.
  apply store_real_inv in Hst as ->. split; [reflexivity|].
  cbn [trace ext_state with_real_mem].
  destruct (decide (d = DMA_NONE)) as [Hd|Hd].
  { injection Hdec as _ <-. right. auto. }
  destruct (Z.eq_dec (IOMMU_TABLE_USERSPACE_ENTRY t entry) 0) as [Hp|Hp].
  { unfold kvmppc_rm_tce_iommu_mapped_dec in Hdec.
    rewrite (bind_run _ _ _ _ _ (deref_tbl_run _ _ _ Hit)) in Hdec.
    rewrite Hp in Hdec. injection Hdec as _ <-. right.
    split; [|auto]. right. intros old (it' & ua' & _ & Hne & _). contradiction. }
  assert (Hcell : exists ua0,
            real_mem w !! real_vmalloc_addr (IOMMU_TABLE_USERSPACE_ENTRY t entry)
            = Some ua0).
  { pose proof Hdec as Hdec'. unfold kvmppc_rm_tce_iommu_mapped_dec in Hdec'.
    rewrite (bind_run _ _ _ _ _ (deref_tbl_run _ _ _ Hit)) in Hdec'.
    destruct (Z.eqb_spec (IOMMU_TABLE_USERSPACE_ENTRY t entry) 0); [contradiction|].
    destruct (Z.eqb_spec (real_vmalloc_addr (IOMMU_TABLE_USERSPACE_ENTRY t entry)) 0);
      [contradiction|].
    apply bind_inv in Hdec' as (ua0 & w0 & Hl & _).
    apply load_real_inv in Hl as [_ Hl]. eauto. }
  destruct Hcell as (ua0 & Hcell).
  rewrite (mapped_dec_run _ _ _ _ _ Hit Hp Hr Hcell), Hmm in Hdec.
  destruct (mm_iommu_lookup_rm ua0 _ (ext_state w)) as [old|] eqn:Hlook.
  - injection Hdec as _ <-. left. exists old. split; [exact Hd|].
    split; [|auto]. exists it, ua0. auto.
  - injection Hdec as _ <-. right. split; [|auto]. right.
    intros old (it' & ua' & Hit' & _ & Hcell' & Hlook').
    rewrite Hit in Hit'. injection Hit' as <-.
    rewrite Hcell in Hcell'. injection Hcell' as <-. congruence.
Qed.

Lemma old_region_unique w e t entry old old' :
  old_region w e t entry old -> old_region w e t entry old' -> old = old'.
Proof.
  intros (it & ua & Hit & _ & Hc & Hl) (it' & ua' & Hit' & _ & Hc' & Hl').
  congruence.
Qed.

(** C5.  The map operation around the exchange.

    For every map operation that returns:
    - every exchange is preceded by a successful increment of a mapping
      counter, and every decrement is preceded by the exchange;
    - either it gives up before the counter of any region is taken, with
      [H_HARDWARE] and nothing changed, or it has resolved the new page to
      its region [mem] ([new_region]) and asked for the counter of [mem].
      When the counter is refused it returns [H_HARDWARE] and there is no
      exchange.  When it is taken, the exchange is made on the registry
      [e1] in which [mem] is counted, and it is the next action;
    - after a failed exchange the counter of [mem] is given back and the
      result is [H_TOO_HARD];
    - after a successful exchange that hands back a mapping with a
      direction other than "none", the counter of the region of the old
      mapping ([old_region]) is released, as the last action: the registry
      is the one the exchange left with that counter released.  When the
      exchange hands back direction "none", or the old mapping has no
      region any more, no counter is released.

    And the map operation does return when it replaces a mapping: when
    the new page resolves, its counter is taken, the exchange succeeds and
    hands back a direction other than "none", and the old mapping has a
    region, the result is [H_SUCCESS] after exactly these four actions. *)
Theorem map_counter_order t entry gpa dir w :
  (forall r w',
     kvmppc_rm_tce_iommu_map t entry gpa dir w = Some (r, w') ->
     exists evs, trace w' = trace w ++ evs
     /\ (forall i t' en h d rc,
           evs !! i = Some (EvXchg t' en h d rc) ->
           exists j mem, (j < i)%nat /\ evs !! j = Some (EvMappedInc mem 0))
     /\ (forall i m,
           evs !! i = Some (EvMappedDec m) ->
           exists j t' en h d rc,
             (j < i)%nat /\ evs !! j = Some (EvXchg t' en h d rc)
             /\ (rc <> 0 ->
                 exists k, (k < j)%nat /\ evs !! k = Some (EvMappedInc m 0)))
     /\ ((r = H_HARDWARE /\ evs = [EvGpaToUa gpa] /\ ext_state w' = ext_state w)
         \/ exists mem hpa,
              new_region w t gpa mem hpa
              /\ let inc := mm_iommu_mapped_inc mem (ext_state w) in
                 let x := iommu_tce_xchg_rm t entry hpa dir inc.2 in
                 let rc := x.1.1.1 in
                 let old_dir := x.1.2 in
                 let e2 := x.2 in
                 if negb (inc.1 =? 0)
                 then r = H_HARDWARE
                      /\ evs = [EvGpaToUa gpa; EvMappedInc mem inc.1]
                      /\ ext_state w' = inc.2
                 else
                   exists rest,
                     evs = [EvGpaToUa gpa; EvMappedInc mem 0;
                            EvXchg t entry hpa dir rc] ++ rest
                     /\ (rc <> 0 ->
                         r = H_TOO_HARD /\ rest = [EvMappedDec mem]
                         /\ ext_state w' = mm_iommu_mapped_dec mem e2)
                     /\ (rc = 0 ->
                         r = H_SUCCESS
                         /\ (forall old,
                               old_dir <> DMA_NONE ->
                               old_region w e2 t entry old ->
                               rest = [EvMappedDec old]
                               /\ ext_state w' = mm_iommu_mapped_dec old e2)
                         /\ (old_dir = DMA_NONE
                             \/ (forall old, ~ old_region w e2 t entry old) ->
                             rest = [] /\ ext_state w' = e2))))
  /\ (forall mem hpa e1 h old_dir e2 old,
        new_region w t gpa mem hpa ->
        real_vmalloc_addr (IOMMU_TABLE_USERSPACE_ENTRY t entry) <> 0 ->
        mm_iommu_mapped_inc mem (ext_state w) = (0, e1) ->
        iommu_tce_xchg_rm t entry hpa dir e1 = (0, h, old_dir, e2) ->
        old_dir <> DMA_NONE ->
        old_region w e2 t entry old ->
        exists w',
          kvmppc_rm_tce_iommu_map t entry gpa dir w = Some (H_SUCCESS, w')
          /\ trace w' = trace w ++ [EvGpaToUa gpa; EvMappedInc mem 0;
                                    EvXchg t entry hpa dir 0; EvMappedDec old]
          /\ ext_state w' = mm_iommu_mapped_dec old e2).
Proof.
  split.
  - intros r w' H.
    destruct (map_events_order _ _ _ _ _ _ _ H) as (evs & Ht & Hxchg & Hdec).
    exists evs. split; [exact Ht|]. split; [exact Hxchg|]. split; [exact Hdec|].
    clear Hxchg Hdec.
    destruct (map_reaches_inc _ _ _ _ _ _ _ H) as [(-> & ->) | (mem & hpa & Hnew & Hr)].
    { left. split; [reflexivity|]. split; [|reflexivity].
      simpl in Ht. now apply app_inv_head in Ht. }
    right. exists mem, hpa. split; [exact Hnew|].
    destruct (map_run t entry gpa dir w mem hpa Hnew Hr) as (ua & Hrun).
    rewrite Hrun in H. clear Hrun. cbv zeta in H |- *.
    destruct Hnew as (_ & _ & it & _ & Hit & Hmm & _).
    destruct (mm_iommu_mapped_inc mem (ext_state w)) as [rci e1]. cbn [fst snd] in *.
    destruct (Z.eqb_spec rci 0) as [->|Hrci]; cbn [negb] in *.
    2:{ injection H as <- <-. split; [reflexivity|]. split; [|reflexivity].
        simpl in Ht. now apply app_inv_head in Ht. }
    destruct (iommu_tce_xchg_rm t entry hpa dir e1) as [[[rc h] d] e2].
    cbn [fst snd] in *.
    destruct (Z.eqb_spec rc 0) as [->|Hrc]; cbn [negb] in *.
    2:{ injection H as <- <-. exists [EvMappedDec mem]. split.
        - simpl in Ht. rewrite <- app_assoc in Ht. now apply app_inv_head in Ht.
        - split; [auto | intros; contradiction]. }
    apply map_after_exchange with (it := it) in H as (-> & Hafter); auto.
    cbn [trace ext_state with_trace with_ext] in Hafter.
    assert (Hold : forall old,
              old_region
                (with_trace (with_ext w e2)
                   (trace w ++ [EvGpaToUa gpa; EvMappedInc mem 0;
                                EvXchg t entry hpa dir 0])) e2 t entry old
              <-> old_region w e2 t entry old) by (intros old; reflexivity).
    destruct Hafter as [(old & Hd & Hreg & Ht' & He') | (Hnone & Ht' & He')];
      rewrite Ht' in Ht.
    + exists [EvMappedDec old]. rewrite <- app_assoc in Ht.
      apply app_inv_head in Ht. split; [now symmetry|].
      split; [intros []; reflexivity|]. intros _. split; [reflexivity|]. split.
      * intros old' _ Hreg'. apply Hold in Hreg.
        now rewrite (old_region_unique _ _ _ _ _ _ Hreg' Hreg).
      * intros [Hd' | Hno]; [contradiction|]. apply Hold in Hreg.
        destruct (Hno old Hreg).
    + exists []. apply app_inv_head in Ht. rewrite app_nil_r.
      split; [now symmetry|]. split; [intros []; reflexivity|]. intros _.
      split; [reflexivity|]. split; [|auto].
      intros old Hd Hreg. destruct Hnone as [Hd' | Hno]; [contradiction|].
      apply Hold in Hreg. destruct (Hno old Hreg).
  - intros mem hpa e1 h old_dir e2 old Hnew Hr Hinc Hx Hd Hold.
    destruct (map_run t entry gpa dir w mem hpa Hnew Hr) as (ua & Hrun).
    rewrite Hinc in Hrun. cbn [fst snd] in Hrun. rewrite Hx in Hrun.
    cbv zeta in Hrun. cbn [fst snd negb Z.eqb] in Hrun.
    destruct (decide (old_dir = DMA_NONE)); [contradiction|].
    destruct Hnew as (_ & _ & _ & _ & _ & Hmm & _).
    destruct Hold as (it & ua0 & Hit & Hp & Hcell & Hlook).
    set (wx := with_trace (with_ext w e2) _) in Hrun.
    pose proof (mapped_dec_run t entry wx it ua0 Hit Hp Hr Hcell) as Hdec.
    change (run_task_mm wx) with (run_task_mm w) in Hdec.
    change (ext_state wx) with e2 in Hdec. rewrite Hmm, Hlook in Hdec.
    rewrite (bind_run _ _ _ _ _ Hdec) in Hrun.
    set (w4 := with_real_mem _ _) in Hrun.
    assert (Hs : is_Some (real_mem w4
                            !! real_vmalloc_addr (IOMMU_TABLE_USERSPACE_ENTRY t entry)))
      by (simpl; rewrite lookup_insert_eq; eauto).
    rewrite (bind_run _ _ _ _ _ (store_real_run _ ua w4 Hs)) in Hrun.
    eexists. split; [exact Hrun|]. subst w4 wx. simpl. rewrite <- app_assoc.
    split; reflexivity.
Qed.

(** ** C2: every entry is validated before a group's mappings change *)

Lemma app_prefix_of_Forall {A} (P : A -> Prop) l1 l2 pre e post :
  l1 ++ l2 = pre ++ e :: post -> Forall P l1 -> ~ P e ->
  exists m, pre = l1 ++ m.
Proof.
  revert pre. induction l1 as [|a l1 IH]; intros pre Heq Hall Hne.
  - exists pre. reflexivity.
  - apply Forall_cons in Hall as [Ha Hall]. destruct pre as [|b pre]; simpl in Heq.
    + injection Heq as -> _. contradiction.
    + injection Heq as -> Heq. destruct (IH pre Heq Hall Hne) as (m & ->).
      exists m. reflexivity.
Qed.

(** The first pass of a device group's half, in full: it changes nothing
    but the trace, where it leaves loads and checks; it falls through when
    every entry has been checked and accepted, and it stops with
    [H_PARAMETER] at an entry that its check refuses. *)
Lemma preflight_pass_checks t it ioba tces n : forall i w,
  0 <= i -> i + Z.of_nat n <= 2 ^ 64 ->
  exists res pre,
    for_loop n i (fun i =>
        tce <- load_tce tces i ;;
        let gpa := tce_gpa tce in
        rc <- call_put_param_check t it
                (u64 (ioba + u64 (Z.shiftl i (it_page_shift it)))) gpa ;;
        if negb (rc =? 0) then ret (Some H_PARAMETER) else ret None) w
    = Some (res, with_trace w (trace w ++ pre))
    /\ Forall preflight pre
    /\ match res with
       | None =>
           forall j, i <= j < i + Z.of_nat n ->
             preflight_check it ioba tces (ext_state w) j = 0
             /\ In (preflight_event t it ioba tces (ext_state w) j) pre
       | Some v =>
           v = H_PARAMETER
           /\ exists j, i <= j < i + Z.of_nat n
                        /\ preflight_check it ioba tces (ext_state w) j <> 0
       end.
Proof.
  induction n as [|n IH]; intros i w Hi Hn.
  - exists None, []. simpl. unfold ret. rewrite app_nil_r.
    split; [now destruct w|]. split; [constructor|]. intros j Hj. lia.
  - cbn [for_loop]. rewrite (bind_run _ _ _ _ _ (preflight_round t it ioba tces i w)).
    fold (preflight_check it ioba tces (ext_state w) i).
    set (l := EvListLoad _). set (c := EvPutParamCheck _ _ _ _).
    assert (Hc : c = preflight_event t it ioba tces (ext_state w) i) by reflexivity.
    destruct (Z.eqb_spec (preflight_check it ioba tces (ext_state w) i) 0)
      as [Hrc|Hrc]; cbn [negb].
    + set (w1 := with_trace w (trace w ++ [l; c])).
      assert (Hi' : 0 <= u64 (i + 1)) by apply u64_range.
      assert (Hn' : u64 (i + 1) + Z.of_nat n <= 2 ^ 64).
      { destruct n as [|n]; [pose proof (u64_range (i + 1)); lia|].
        rewrite u64_small by lia. lia. }
      destruct (IH (u64 (i + 1)) w1 Hi' Hn') as (res & pre & Hrun & Hpre & Hres).
      exists res, ([l; c] ++ pre). split; [|split].
      * etransitivity; [exact Hrun|]. subst w1. unfold with_trace. simpl.
        rewrite <- app_assoc. reflexivity.
      * apply Forall_app. split; [repeat constructor | exact Hpre].
      * change (ext_state w1) with (ext_state w) in Hres. destruct res as [v|].
        -- destruct Hres as (-> & j & Hj & Hbad). split; [reflexivity|].
           exists j. split; [|exact Hbad].
           destruct n as [|n]; [lia|]. rewrite u64_small in Hj by lia. lia.
        -- intros j Hj. destruct (Z.eq_dec j i) as [->|Hne].
           ++ split; [exact Hrc|]. rewrite <- Hc. right. left. reflexivity.
           ++ destruct n as [|n]; [lia|]. rewrite u64_small in Hres by lia.
              destruct (Hres j ltac:(lia)) as [H0 Hin]. split; [exact H0|].
              apply in_or_app. right. exact Hin.
    + exists (Some H_PARAMETER), [l; c]. split; [reflexivity|].
      split; [repeat constructor|]. split; [reflexivity|].
      exists i. split; [lia | exact Hrc].
Qed.

(** The two ways a device group's half of H_PUT_TCE_INDIRECT goes: its
    first pass stops at a refused entry, or its first pass has accepted
    every entry and the second pass follows. *)
Lemma put_tce_indirect_iommu_inv t it ioba tces npages w :
  iommu_tables w !! t = Some it -> npages <= 2 ^ 64 ->
  (exists pre,
     kvmppc_rm_h_put_tce_indirect_iommu t ioba tces npages w
     = Some (H_PARAMETER, with_trace w (trace w ++ pre))
     /\ Forall preflight pre
     /\ exists j, 0 <= j < npages
                  /\ preflight_check it ioba tces (ext_state w) j <> 0)
  \/ (exists pre,
        Forall preflight pre
        /\ (forall j, 0 <= j < npages ->
              preflight_check it ioba tces (ext_state w) j = 0
              /\ In (preflight_event t it ioba tces (ext_state w) j) pre)
        /\ forall r w',
             kvmppc_rm_h_put_tce_indirect_iommu t ioba tces npages w = Some (r, w') ->
             exists rest, trace w' = trace w ++ pre ++ rest).
Proof.
  intros Hit Hn. unfold kvmppc_rm_h_put_tce_indirect_iommu.
  rewrite (bind_run _ _ _ _ _ (deref_tbl_run _ _ _ Hit)).
  destruct (preflight_pass_checks t it ioba tces (Z.to_nat npages) 0 w
              ltac:(lia) ltac:(lia)) as (res & pre & Hrun & Hpre & Hres).
  rewrite (bind_run _ _ _ _ _ Hrun).
  destruct res as [v|].
  - left. destruct Hres as (-> & j & Hj & Hbad). exists pre.
    split; [reflexivity|]. split; [exact Hpre|]. exists j. split; [lia | exact Hbad].
  - right. exists pre. split; [exact Hpre|]. split.
    + intros j Hj. apply Hres. lia.
    + intros r w' H. apply bind_inv in H as (res2 & w2 & Hp2 & H).
      assert (Hg : trace_grows no_failed_check (with_trace w (trace w ++ pre)) w2).
      { eapply (preserves_for_loop (trace_grows no_failed_check)); [|exact Hp2].
        intros j. cbv beta. frame_step; [apply no_failed_check_load_tce|].
        frame_step; [apply no_failed_check_map|]. frame_trace. }
      destruct Hg as (rest & Ht & _). exists rest.
      assert (w' = w2) as -> by (destruct res2; unfold ret in H; congruence).
      rewrite Ht. cbn [trace with_trace]. now rewrite app_assoc.
Qed.

Lemma groups_fail_split body gs tbltmp w v w' :
  groups_fail body gs tbltmp w v w' ->
  exists gs1 kg gs2 wk,
    gs = gs1 ++ kg :: gs2
    /\ groups_ok body gs1 tbltmp w wk
    /\ body (tbl kg) wk = Some (v, w')
    /\ v <> 0.
Proof.
  induction 1 as [kg gs tb w v w' Hne Hb Hv
                 | kg gs tb w v w' Heq _ IH
                 | kg gs tb w w1 v w' Hne Hb _ IH].
  - exists [], kg, gs, w. repeat split; auto. constructor.
  - destruct IH as (gs1 & kg' & gs2 & wk & -> & Hok & Hb & Hv).
    exists (kg :: gs1), kg', gs2, wk. repeat split; auto.
    now apply groups_ok_skip.
  - destruct IH as (gs1 & kg' & gs2 & wk & -> & Hok & Hb' & Hv).
    exists (kg :: gs1), kg', gs2, wk. repeat split; auto.
    eapply groups_ok_step; eauto.
Qed.

Lemma put_tce_indirect_groups_ok_trace gs tbltmp ioba tces npages w wk :
  groups_ok (fun t => kvmppc_rm_h_put_tce_indirect_iommu t ioba tces npages)
    gs tbltmp w wk ->
  trace_grows no_failed_check w wk.
Proof.
  induction 1 as [tb w | kg gs tb w w' _ _ IH | kg gs tb w w1 w' _ Hb _ IH].
  - apply frame_refl.
  - exact IH.
  - apply put_tce_indirect_iommu_trace in Hb as [Hg | (Hr & _)].
    + eapply frame_trans; eauto.
    + discriminate Hr.
Qed.

(** An H_PUT_TCE_INDIRECT either meets no failing check, or it has read the
    list at the address its list address resolves to, walked some of the
    device groups with success, and stopped in the half of the next one,
    which has done nothing but load and check. *)
Lemma put_tce_indirect_failed_group bus ioba tce_list npages w r w' :
  kvmppc_rm_h_put_tce_indirect bus ioba tce_list npages w = Some (r, w') ->
  trace_grows no_failed_check w w'
  \/ exists p stt tces gs1 kg gs2 wk,
       find_table_from (spapr_tce_tables w) 0 bus = Some p
       /\ spapr_tce_tables w !! p = Some stt
       /\ list_read_at w tce_list tces
       /\ groups stt = gs1 ++ kg :: gs2
       /\ groups_ok (fun t => kvmppc_rm_h_put_tce_indirect_iommu t ioba tces npages)
            gs1 0 (with_trace w (trace w ++ [EvGpaToUa tce_list])) wk
       /\ kvmppc_rm_h_put_tce_indirect_iommu (tbl kg) ioba tces npages wk
          = Some (H_PARAMETER, w')
       /\ only_trace preflight wk w'.
Proof.
  intros H. pose proof H as Hrun. unfold kvmppc_rm_h_put_tce_indirect in H.
  rewrite (bind_run _ _ _ _ _ (kvmppc_find_table_run bus w)) in H.
  destruct (find_table_from _ 0 bus) as [p|] eqn:Hfind;
    [|injection H as <- <-; left; apply frame_refl].
  apply bind_inv in H as (stt & w0 & Hd & H). apply deref_stt_inv in Hd as [-> Hstt].
  destruct (512 <? npages); [injection H as <- <-; left; apply frame_refl|].
  destruct (negb _); [injection H as <- <-; left; apply frame_refl|].
  destruct (negb _); [injection H as <- <-; left; apply frame_refl|].
  rewrite (bind_run _ _ _ _ _ (kvmppc_preregistered_run w)) in H.
  destruct (run_task_mm w && mm_iommu_preregistered (ext_state w)) eqn:Hpre.
  2:{ left. destruct (put_tce_indirect_trace _ _ _ _ _ _ _ Hrun)
        as [Hg | (_ & _ & pr & ev & Ht & Hev & Hpr)]; [exact Hg|].
      exfalso.
      match type of H with
      | ?m w = Some _ => assert (Hm : preserves (trace_grows no_failed_check) m)
      end.
      { unfold kvmppc_rm_ua_to_hpa.
        frame_trace; try apply no_failed_check_gpa_to_ua;
          apply no_failed_check_store. }
      destruct (Hm _ _ _ H) as (evs & Ht' & Hall). rewrite Ht in Ht'.
      apply app_inv_head in Ht'. subst evs. apply Forall_app in Hall as [_ Hall].
      apply Forall_cons in Hall as [Hall _]. simpl in Hall. congruence. }
  apply bind_inv in H as (g & w1 & Hg1 & H).
  pose proof (kvmppc_gpa_to_ua_inv _ _ _ _ _ Hg1) as ->.
  set (w1 := with_trace w (trace w ++ [EvGpaToUa tce_list])) in *.
  assert (Ht1 : trace_grows no_failed_check w w1).
  { exists [EvGpaToUa tce_list]. split; [reflexivity | repeat constructor]. }
  destruct g as [[ua rm]|]; [|injection H as <- <-; now left].
  apply bind_inv in H as (mem & w2 & Hl & H).
  apply kvmppc_rm_iommu_lookup_inv in Hl as [-> Hmem].
  change (run_task_mm w1) with (run_task_mm w) in Hmem.
  change (ext_state w1) with (ext_state w) in Hmem.
  apply bind_inv in H as (e & w2 & He & H). injection He as <- <-.
  change (ext_state w1) with (ext_state w) in H.
  destruct mem as [mem|]; [|injection H as <- <-; now left].
  cbn [mbind option_bind] in H.
  destruct (mm_iommu_rm_ua_to_hpa mem ua (ext_state w)) as [tces|] eqn:Hhpa;
    [|injection H as <- <-; now left].
  assert (Hread : list_read_at w tce_list tces).
  { unfold list_read_at. rewrite Hpre. exists ua, rm. cbn [negb].
    rewrite Hg1. split; [reflexivity|]. exists mem. split; [|exact Hhpa].
    apply andb_true_iff in Hpre as [Hmm _]. rewrite Hmm in Hmem. now symmetry. }
  apply bind_inv in H as (res & w3 & Hloop & H).
  destruct res as [v|].
  - injection H as <- <-. apply for_each_group_fail, groups_fail_split in Hloop
      as (gs1 & kg & gs2 & wk & Hgs & Hok & Hb & Hv).
    pose proof (put_tce_indirect_groups_ok_trace _ _ _ _ _ _ _ Hok) as Htk.
    destruct (put_tce_indirect_iommu_trace _ _ _ _ _ _ _ Hb)
      as [Hg | (-> & Hot & _)].
    + left. eapply frame_trans; [exact Ht1|]. eapply frame_trans; eauto.
    + right. exists p, stt, tces, gs1, kg, gs2, wk. auto 10.
  - left. apply for_each_group_ok in Hloop.
    apply put_tce_indirect_groups_ok_trace in Hloop.
    apply no_failed_check_store in H.
    eapply frame_trans; [exact Ht1|]. eapply frame_trans; eauto.
Qed.

(** C2, as the code has it.  Validation is per device group.
    - A device group's half of H_PUT_TCE_INDIRECT that meets a failing
      pre-flight check returns [H_PARAMETER] having done nothing but load
      list entries and check them: no exchange, no counter change, no
      memory change.
    - An H_PUT_TCE_INDIRECT that meets a failing pre-flight check returns
      [H_PARAMETER], the failing check is the last event of the call, and
      the Entry Store is unmodified.  The device groups walked before the
      failing one keep what they installed: the groups of the table are
      [gs1], the failing group [kg] and [gs2]; every group of [gs1] has
      been served with success, which leaves the world [wk]; the half of
      [kg] runs from [wk], and the world the hypercall returns differs
      from [wk] in nothing but the loads and checks in the trace.
    - A device group's half validates every entry before it changes any
      mapping.  When its check refuses some entry of the list, the half
      does return, with [H_PARAMETER], and has changed nothing.  And in
      every run, any action that is not a load or a check of a list entry
      comes after the checks of all [npages] entries, which all accepted. *)
Theorem put_tce_indirect_preflight_per_group :
  (forall t ioba tces npages w r w' evs,
     kvmppc_rm_h_put_tce_indirect_iommu t ioba tces npages w = Some (r, w') ->
     trace w' = trace w ++ evs ->
     Exists failed_check evs ->
     r = H_PARAMETER /\ only_trace preflight w w')
  /\ (forall bus ioba tce_list npages w r w' evs,
        kvmppc_rm_h_put_tce_indirect bus ioba tce_list npages w = Some (r, w') ->
        trace w' = trace w ++ evs ->
        Exists failed_check evs ->
        r = H_PARAMETER
        /\ entry_store w' = entry_store w
        /\ (exists pre e, evs = pre ++ [e]
                          /\ is_failed_check e = true
                          /\ Forall no_failed_check pre)
        /\ exists p stt tces gs1 kg gs2 wk,
             find_table_from (spapr_tce_tables w) 0 bus = Some p
             /\ spapr_tce_tables w !! p = Some stt
             /\ list_read_at w tce_list tces
             /\ groups stt = gs1 ++ kg :: gs2
             /\ groups_ok
                  (fun t => kvmppc_rm_h_put_tce_indirect_iommu t ioba tces npages)
                  gs1 0 (with_trace w (trace w ++ [EvGpaToUa tce_list])) wk
             /\ kvmppc_rm_h_put_tce_indirect_iommu (tbl kg) ioba tces npages wk
                = Some (H_PARAMETER, w')
             /\ only_trace preflight wk w')
  /\ (forall t it ioba tces npages w,
        iommu_tables w !! t = Some it ->
        npages <= 2 ^ 64 ->
        ((exists j, 0 <= j < npages
                    /\ preflight_check it ioba tces (ext_state w) j <> 0) ->
         exists w',
           kvmppc_rm_h_put_tce_indirect_iommu t ioba tces npages w
           = Some (H_PARAMETER, w')
           /\ only_trace preflight w w')
        /\ (forall r w' pre e post,
              kvmppc_rm_h_put_tce_indirect_iommu t ioba tces npages w
              = Some (r, w') ->
              trace w' = trace w ++ pre ++ e :: post ->
              is_preflight e = false ->
              forall j, 0 <= j < npages ->
                preflight_check it ioba tces (ext_state w) j = 0
                /\ In (preflight_event t it ioba tces (ext_state w) j) pre)).
Proof.
  split; [|split].
  - intros t ioba tces npages w r w' evs Hrun Ht Hex.
    apply put_tce_indirect_iommu_trace in Hrun as [Hg | (-> & Hot & _)].
    + exfalso. eapply failed_check_excluded; [|exact Hex].
      eapply trace_grows_unique; eauto.
    + auto.
  - intros bus ioba tce_list npages w r w' evs Hrun Ht Hex.
    pose proof (put_tce_indirect_failed_group _ _ _ _ _ _ _ Hrun) as Hgrp.
    apply put_tce_indirect_trace in Hrun as [Hg | (-> & Hs & pre & e & Ht' & He & Hpre)].
    + exfalso. eapply failed_check_excluded; [|exact Hex].
      eapply trace_grows_unique; eauto.
    + split; [reflexivity|]. split; [now apply same_tables_entry_store|]. split.
      * exists pre, e. rewrite Ht in Ht'. apply app_inv_head in Ht'. auto.
      * destruct Hgrp as [Hg | Hgrp]; [|exact Hgrp].
        exfalso. eapply failed_check_excluded; [|exact Hex].
        eapply trace_grows_unique; eauto.
  - intros t it ioba tces npages w Hit Hn.
    destruct (put_tce_indirect_iommu_inv t it ioba tces npages w Hit Hn)
      as [(pre & Hrun & Hpre & Hbad) | (pre & Hpre & Hall & Hrest)].
    + split.
      * intros _. eexists. split; [exact Hrun|]. repeat split.
        exists pre. split; [reflexivity | exact Hpre].
      * intros r w' pr e post Hrun' Ht He. rewrite Hrun in Hrun'.
        injection Hrun' as <- <-. cbn [trace with_trace] in Ht.
        apply app_inv_head in Ht. subst pre.
        apply Forall_app in Hpre as [_ Hpre]. apply Forall_cons in Hpre as [Hpre _].
        simpl in Hpre. congruence.
    + split.
      * intros (j & Hj & Hbad). destruct (Hall j Hj) as [H0 _]. contradiction.
      * intros r w' pr e post Hrun Ht He j Hj.
        destruct (Hrest _ _ Hrun) as (rest & Ht'). rewrite Ht in Ht'.
        apply app_inv_head in Ht'. symmetry in Ht'.
        destruct (app_prefix_of_Forall preflight _ _ _ _ _ Ht' Hpre) as (m & ->).
        { simpl. congruence. }
        destruct (Hall j Hj) as [H0 Hin]. split; [exact H0|].
        apply in_or_app. left. exact Hin.
Qed.

(** ** C9: a clear of a valid range goes through *)

#[local] Instance cells_kept_frame : Frame cells_kept.
Proof.
  split; unfold cells_kept; [auto|]. intros a b c H1 H2 x Hx. auto.
Qed.

Lemma cells_kept_insert w a v :
  cells_kept w (with_real_mem w (<[a := v]> (real_mem w))).
Proof.
  intros b Hb. simpl. destruct (decide (a = b)) as [->|Hne].
  - rewrite lookup_insert_eq. eauto.
  - now rewrite lookup_insert_ne.
Qed.

Ltac frame_cells :=
  repeat first
    [ frame_step
    | apply preserves_modify; intros ?;
      first [ exact (fun a H => H) | apply cells_kept_insert ] ].

Lemma cells_kept_unmap t entry :
  preserves cells_kept (kvmppc_rm_tce_iommu_unmap t entry).
Proof.
  unfold kvmppc_rm_tce_iommu_unmap, kvmppc_rm_tce_iommu_mapped_dec, deref_tbl,
    call_xchg, load_real, kvmppc_rm_iommu_lookup, kvmppc_mm_context,
    call_mapped_dec, store_real, emit.
  frame_cells.
Qed.

Lemma same_static_unmap t entry :
  preserves same_static (kvmppc_rm_tce_iommu_unmap t entry).
Proof.
  unfold kvmppc_rm_tce_iommu_unmap, kvmppc_rm_tce_iommu_mapped_dec, deref_tbl,
    call_xchg, load_real, kvmppc_rm_iommu_lookup, kvmppc_mm_context,
    call_mapped_dec, store_real.
  frame_static.
Qed.

Lemma cells_kept_stuff_tce_iommu t bus ioba tce_value npages :
  preserves cells_kept (kvmppc_rm_h_stuff_tce_iommu t bus ioba tce_value npages).
Proof.
  unfold kvmppc_rm_h_stuff_tce_iommu, deref_tbl, call_clear_param_check, emit.
  repeat first
    [ apply cells_kept_unmap
    | frame_step
    | apply preserves_modify; intros ?; exact (fun a H => H) ].
Qed.

Lemma cells_kept_stuff_groups gs tbltmp bus ioba v n :
  preserves cells_kept
    (for_each_group gs tbltmp (fun t => kvmppc_rm_h_stuff_tce_iommu t bus ioba v n)).
Proof.
  apply preserves_for_each_group; [apply _|].
  intros t. apply cells_kept_stuff_tce_iommu.
Qed.

Lemma userspace_slot_ok_kept w w' t entry :
  cells_kept w w' -> userspace_slot_ok w t entry -> userspace_slot_ok w' t entry.
Proof. intros Hk [H|[H|H]]; [left | right; left | right; right]; auto. Qed.

Lemma group_accepts_clear_kept w w' ioba n kg :
  iommu_tables w' = iommu_tables w -> cells_kept w w' ->
  group_accepts_clear w ioba n kg -> group_accepts_clear w' ioba n kg.
Proof.
  intros Hit Hk (it & H1 & H2 & H3). exists it. rewrite Hit.
  split; [exact H1|]. split; [exact H2|].
  intros i Hi. eapply userspace_slot_ok_kept; eauto.
Qed.

(** The release of an entry's counter returns when the entry has a usable
    place for its userspace address. *)
Lemma mapped_dec_runs t entry w it :
  iommu_tables w !! t = Some it ->
  userspace_slot_ok w t entry ->
  exists r w', kvmppc_rm_tce_iommu_mapped_dec t entry w = Some (r, w').
Proof.
  intros Hit Hslot.
  destruct (Z.eq_dec (IOMMU_TABLE_USERSPACE_ENTRY t entry) 0) as [Hp|Hp].
  { unfold kvmppc_rm_tce_iommu_mapped_dec.
    rewrite (bind_run _ _ _ _ _ (deref_tbl_run _ _ _ Hit)), Hp.
    eexists _, _. reflexivity. }
  destruct (Z.eq_dec (real_vmalloc_addr (IOMMU_TABLE_USERSPACE_ENTRY t entry)) 0)
    as [Hr|Hr].
  { unfold kvmppc_rm_tce_iommu_mapped_dec.
    rewrite (bind_run _ _ _ _ _ (deref_tbl_run _ _ _ Hit)), Hr.
    destruct (_ =? 0); eexists _, _; reflexivity. }
  destruct Hslot as [H|[H|[ua Hua]]]; [contradiction..|].
  rewrite (mapped_dec_run _ _ _ _ _ Hit Hp Hr Hua).
  destruct (if run_task_mm w then _ else _); eexists _, _; reflexivity.
Qed.

Lemma unmap_runs t entry w it :
  iommu_tables w !! t = Some it ->
  userspace_slot_ok w t entry ->
  exists r w', kvmppc_rm_tce_iommu_unmap t entry w = Some (r, w').
Proof.
  intros Hit Hslot. unfold kvmppc_rm_tce_iommu_unmap.
  rewrite (bind_run _ _ _ _ _ (call_xchg_total _ _ _ _ _)). cbv zeta.
  destruct (iommu_tce_xchg_rm t entry 0 DMA_NONE (ext_state w)) as [[[rc h] d] e2].
  cbn [fst snd].
  destruct (negb (rc =? 0)); [eexists _, _; reflexivity|].
  destruct (decide (d = DMA_NONE)); [eexists _, _; reflexivity|].
  apply (mapped_dec_runs t entry _ it); [exact Hit|].
  destruct Hslot as [H|[H|H]]; [left | right; left | right; right]; auto.
Qed.

(** The loop of a device group's half of H_STUFF_TCE runs to its end. *)
Lemma stuff_unmap_loop_runs t it entry n : forall i w,
  0 <= i -> i + Z.of_nat n <= 2 ^ 64 ->
  iommu_tables w !! t = Some it ->
  (forall k, i <= k < i + Z.of_nat n -> userspace_slot_ok w t (u64 (entry + k))) ->
  exists w',
    for_loop n i (fun i =>
      kvmppc_rm_tce_iommu_unmap t (u64 (entry + i)) ;;; ret None) w
    = Some (None, w').
Proof.
  induction n as [|n IH]; intros i w Hi Hn Hit Hslots.
  - eexists. reflexivity.
  - cbn [for_loop].
    destruct (unmap_runs t (u64 (entry + i)) w it Hit (Hslots i ltac:(lia)))
      as (r & w1 & Hu).
    assert (Hb : (kvmppc_rm_tce_iommu_unmap t (u64 (entry + i)) ;;; ret (@None Z)) w
                 = Some (None, w1)) by (now rewrite (bind_run _ _ _ _ _ Hu)).
    rewrite (bind_run _ _ _ _ _ Hb).
    pose proof (same_static_unmap _ _ _ _ _ Hu) as [Hit1 _].
    pose proof (cells_kept_unmap _ _ _ _ _ Hu) as Hk.
    apply IH.
    + apply u64_range.
    + destruct n as [|n]; [pose proof (u64_range (i + 1)); lia|].
      rewrite u64_small by lia. lia.
    + now rewrite Hit1.
    + intros k Hkr. destruct n as [|n]; [lia|]. rewrite u64_small in Hkr by lia.
      eapply userspace_slot_ok_kept; [exact Hk|]. apply Hslots. lia.
Qed.

(** A device group that accepts the clearing answers [H_SUCCESS]. *)
Lemma stuff_tce_iommu_runs bus ioba n w kg :
  n <= 2 ^ 64 ->
  group_accepts_clear w ioba n kg ->
  exists w', kvmppc_rm_h_stuff_tce_iommu (tbl kg) bus ioba 0 n w
             = Some (H_SUCCESS, w').
Proof.
  intros Hn (it & Hit & Hc & Hslots). unfold kvmppc_rm_h_stuff_tce_iommu.
  rewrite (bind_run _ _ _ _ _ (deref_tbl_run _ _ _ Hit)).
  rewrite (bind_run _ _ _ _ _ (call_clear_param_check_run _ _ _ _ _ _)), Hc.
  cbn [negb Z.eqb].
  set (w1 := with_trace w _).
  destruct (stuff_unmap_loop_runs (tbl kg) it (Z.shiftr ioba (it_page_shift it))
              (Z.to_nat n) 0 w1 ltac:(lia) ltac:(lia) Hit) as (w' & Hl).
  { intros k Hk. apply (userspace_slot_ok_kept w); [exact (fun a H => H)|].
    apply Hslots. lia. }
  rewrite (bind_run _ _ _ _ _ Hl). eexists. reflexivity.
Qed.

Lemma stuff_groups_run bus ioba n gs : forall tbltmp w,
  n <= 2 ^ 64 ->
  Forall (group_accepts_clear w ioba n) gs ->
  exists wm,
    for_each_group gs tbltmp
      (fun t => kvmppc_rm_h_stuff_tce_iommu t bus ioba 0 n) w = Some (None, wm).
Proof.
  induction gs as [|kg gs IH]; intros tbltmp w Hn Hall.
  - eexists. reflexivity.
  - apply Forall_cons in Hall as [Hkg Hall]. cbn [for_each_group].
    destruct (decide _); [now apply IH|].
    destruct (stuff_tce_iommu_runs bus ioba n w kg Hn Hkg) as (w1 & Hr).
    rewrite (bind_run _ _ _ _ _ Hr). change (H_SUCCESS =? 0) with true. cbv iota.
    apply IH; [exact Hn|].
    pose proof (same_static_stuff_tce_iommu _ _ _ _ _ _ _ _ Hr) as [Hit _].
    pose proof (cells_kept_stuff_tce_iommu _ _ _ _ _ _ _ _ Hr) as Hk.
    eapply Forall_impl; [exact Hall|]. intros kg'.
    now apply group_accepts_clear_kept.
Qed.

(** Clearing a range inside the window that every device group accepts
    returns [H_SUCCESS]; the groups accept the same range afterwards. *)
Lemma stuff_tce_runs bus idx n w p stt :
  3 <= PAGE_SHIFT < 64 ->
  find_table_from (spapr_tce_tables w) 0 bus = Some p ->
  spapr_tce_tables w !! p = Some stt ->
  wf_table stt ->
  offset stt <= idx < offset stt + size stt ->
  0 <= n -> idx + n <= offset stt + size stt ->
  offset stt + size stt + n < 2 ^ 64 ->
  Forall (group_accepts_clear w (Z.shiftl idx (page_shift stt)) n) (groups stt) ->
  exists w1 pgs,
    kvmppc_rm_h_stuff_tce bus (Z.shiftl idx (page_shift stt)) 0 n w
    = Some (H_SUCCESS, w1)
    /\ spapr_tce_tables w1 = <[p := set_pages stt pgs]> (spapr_tce_tables w)
    /\ wf_table (set_pages stt pgs)
    /\ Forall (group_accepts_clear w1 (Z.shiftl idx (page_shift stt)) n) (groups stt).
Proof.
  intros HP Hfind Hstt Hwf Hidx Hn Hhi Hsum Hall.
  pose proof Hwf as (Hs & Ho & Hz & Hfit & _).
  destruct (window_index_bound _ _ Hwf Hidx) as (_ & Hsz & Hi0 & Hio).
  assert (Hval : kvmppc_ioba_validate stt (Z.shiftl idx (page_shift stt)) n
                 = H_SUCCESS).
  { apply kvmppc_ioba_validate_spec. rewrite shiftr_index by lia.
    rewrite int_page_mask_ones, u64_small by (try apply ones_bound; lia).
    rewrite Z.land_ones, Z.shiftl_mul_pow2 by lia.
    rewrite Z.mod_mul by (apply Z.pow_nonzero; lia).
    rewrite u64_small by lia.
    lia. }
  destruct (stuff_groups_run bus (Z.shiftl idx (page_shift stt)) n (groups stt) 0 w
              ltac:(lia) Hall) as (wm & Hloop).
  pose proof (same_tables_stuff_groups _ _ _ _ _ _ _ _ _ Hloop) as Hsame.
  pose proof (same_static_stuff_groups _ _ _ _ _ _ _ _ _ Hloop) as [Hit _].
  pose proof (cells_kept_stuff_groups _ _ _ _ _ _ _ _ _ Hloop) as Hk.
  unfold same_tables in Hsame.
  assert (Hsttm : spapr_tce_tables wm !! p = Some stt) by now rewrite Hsame.
  destruct (stuff_store_runs p stt 0 (Z.to_nat n) idx wm stt HP Hsttm Hwf eq_refl
              ltac:(lia) ltac:(rewrite Z2Nat.id; lia)) as (w1 & Hst).
  destruct (stuff_store_tables _ _ _ _ _ _ _ _ Hst Hsttm Hwf) as (pgs & Hw1 & Hwf1).
  exists w1, pgs. split; [|split; [|split]].
  - unfold kvmppc_rm_h_stuff_tce.
    rewrite (bind_run _ _ _ _ _ (kvmppc_find_table_run bus w)), Hfind.
    rewrite (bind_run _ _ _ _ _ (deref_stt_run _ _ _ Hstt)), Hval.
    change (negb (H_SUCCESS =? 0)) with false. cbv iota.
    assert (Hv0 : kvmppc_tce_validate stt 0 = H_SUCCESS)
      by (unfold kvmppc_tce_validate; now rewrite Z.land_0_l).
    rewrite Hv0, Z.land_0_l. change (negb (H_SUCCESS =? 0)) with false.
    change (negb (0 =? 0)) with false. cbn [orb].
    rewrite (bind_run _ _ _ _ _ Hloop). cbv iota.
    rewrite (bind_run _ _ _ _ _ Hst). reflexivity.
  - rewrite Hw1. simpl. now rewrite Hsame.
  - exact Hwf1.
  - eapply Forall_impl; [exact Hall|]. intros kg.
    apply group_accepts_clear_kept.
    + rewrite Hw1. simpl. exact Hit.
    + rewrite Hw1. intros a Ha. simpl. now apply Hk.
Qed.

(** C9.  Take a well-formed table and a range of [n] indices from [idx]
    inside its window.

    The range is valid when, besides, every device group attached to the
    table accepts its clearing ([group_accepts_clear]).  For a valid range
    H_STUFF_TCE with value 0 returns [H_SUCCESS]; afterwards an H_GET_TCE
    on every index of the range succeeds and returns 0; and a second,
    identical H_STUFF_TCE returns [H_SUCCESS] again and leaves the Entry
    Store exactly as the first one left it.  (The sum
    [offset + size + npages] of the window check must not wrap.)

    And whenever H_STUFF_TCE with value 0 returns on a range inside the
    window:
    - if it returns [H_SUCCESS], an H_GET_TCE on every index of the range
      succeeds and returns 0;
    - if it returns anything else, the Entry Store is as before: no index
      was touched;
    - a second, identical H_STUFF_TCE leaves the Entry Store exactly as the
      first one left it. *)
Theorem stuff_zero_idempotent bus idx n w p stt :
  3 <= PAGE_SHIFT < 64 ->
  find_table_from (spapr_tce_tables w) 0 bus = Some p ->
  spapr_tce_tables w !! p = Some stt ->
  wf_table stt ->
  offset stt <= idx -> 0 <= n -> idx + n <= offset stt + size stt ->
  (idx < offset stt + size stt ->
   offset stt + size stt + n < 2 ^ 64 ->
   Forall (group_accepts_clear w (Z.shiftl idx (page_shift stt)) n) (groups stt) ->
   exists w1 w2,
     kvmppc_rm_h_stuff_tce bus (Z.shiftl idx (page_shift stt)) 0 n w
     = Some (H_SUCCESS, w1)
     /\ (forall k, idx <= k < idx + n ->
           exists w3, kvmppc_h_get_tce bus (Z.shiftl k (page_shift stt)) w1
                      = Some (H_SUCCESS, w3)
                      /\ gpr4 w3 = 0)
     /\ kvmppc_rm_h_stuff_tce bus (Z.shiftl idx (page_shift stt)) 0 n w1
        = Some (H_SUCCESS, w2)
     /\ entry_store w2 = entry_store w1)
  /\ (forall r1 w1,
        kvmppc_rm_h_stuff_tce bus (Z.shiftl idx (page_shift stt)) 0 n w
        = Some (r1, w1) ->
        (r1 = H_SUCCESS ->
           forall k, idx <= k < idx + n ->
             exists w2, kvmppc_h_get_tce bus (Z.shiftl k (page_shift stt)) w1
                        = Some (H_SUCCESS, w2)
                        /\ gpr4 w2 = 0)
        /\ (r1 <> H_SUCCESS -> entry_store w1 = entry_store w)
        /\ (forall r2 w2,
              kvmppc_rm_h_stuff_tce bus (Z.shiftl idx (page_shift stt)) 0 n w1
              = Some (r2, w2) ->
              entry_store w2 = entry_store w1)).
Proof.
  intros HP Hfind Hstt Hwf Hlo Hn Hhi. split.
  - intros Hin Hsum Hall.
    destruct (stuff_tce_runs bus idx n w p stt HP Hfind Hstt Hwf ltac:(lia) Hn Hhi
                Hsum Hall) as (w1 & pgs & Hrun1 & Htab1 & Hwf1 & Hall1).
    destruct (stuff_zero_outcomes bus idx n w p stt H_SUCCESS w1 HP Hfind Hstt Hwf
                Hlo Hn Hhi Hrun1) as (Hzero & _ & Hidem).
    assert (Hstt1 : spapr_tce_tables w1 !! p = Some (set_pages stt pgs)).
    { rewrite Htab1. apply list_lookup_insert_eq. eapply lookup_lt_Some; eauto. }
    assert (Hfind1 : find_table_from (spapr_tce_tables w1) 0 bus = Some p).
    { rewrite Htab1.
      pose proof (find_table_from_insert _ 0 bus p stt (set_pages stt pgs) Hfind)
        as H.
      rewrite Nat.sub_0_r in H. now apply H. }
    destruct (stuff_tce_runs bus idx n w1 p (set_pages stt pgs) HP Hfind1 Hstt1 Hwf1
                (conj Hlo Hin) Hn Hhi Hsum Hall1) as (w2 & pgs2 & Hrun2 & _).
    exists w1, w2. split; [exact Hrun1|]. split; [exact (Hzero eq_refl)|].
    split; [exact Hrun2|]. exact (Hidem _ _ Hrun2).
  - intros r1 w1 Hrun. exact (stuff_zero_outcomes bus idx n w p stt r1 w1 HP Hfind
                                Hstt Hwf Hlo Hn Hhi Hrun).
Qed.

End VioProperties.

(** ** C7: who is notified by [kvmhv_commence_exit] *)

Lemma add_sent_nil s : add_sent s [] = s.
Proof. destruct s; unfold add_sent; simpl. now rewrite app_nil_r. Qed.

Lemma add_sent_app s l1 l2 : add_sent (add_sent s l1) l2 = add_sent s (l1 ++ l2).
Proof. unfold add_sent; simpl. now rewrite app_assoc. Qed.

Lemma interrupt_loop_done fuel vc cpu s : interrupt_loop fuel vc 0 cpu s = Some s.
Proof. now destruct fuel. Qed.

Lemma interrupt_loop_step fuel vc active cpu s :
  active <> 0 ->
  interrupt_loop (S fuel) vc active cpu s
  = interrupt_loop fuel vc (Z.shiftr active 1) (s32 (cpu + 1))
      (if Z.land active 1 =? 0 then s else kvmhv_rm_send_ipi vc cpu s).
Proof. intros H. simpl. destruct (Z.eqb_spec active 0); [contradiction | reflexivity]. Qed.

#[local] Arguments interrupt_loop : simpl never.

(** A negative [active] keeps the loop running for ever. *)
Lemma interrupt_loop_diverges fuel : forall vc active cpu s,
  active < 0 -> interrupt_loop fuel vc active cpu s = None.
Proof.
  induction fuel as [|fuel IH]; intros vc active cpu s Hneg.
  - unfold interrupt_loop. destruct (Z.eqb_spec active 0); [lia | reflexivity].
  - rewrite interrupt_loop_step by lia. apply IH. now apply Z.shiftr_neg.
Qed.

Lemma filter_none {A} (f : A -> bool) l :
  (forall x, In x l -> f x = false) -> List.filter f l = [].
Proof.
  induction l as [|x l IH]; simpl; intros H; [reflexivity|].
  rewrite (H x) by auto. apply IH. auto.
Qed.

Lemma s32_small z : - 2 ^ 31 <= z < 2 ^ 31 -> s32 z = z.
Proof.
  intros H. unfold s32. change (2 ^ 31) with 2147483648 in *.
  change (2 ^ 32) with 4294967296. rewrite Z.mod_small by lia. lia.
Qed.

Lemma land_1_bit0 a : (Z.land a 1 =? 0) = negb (Z.testbit a 0).
Proof.
  change 1 with (Z.ones 1). rewrite Z.land_ones by lia.
  change (2 ^ 1) with 2. rewrite <- Z.bit0_mod. now destruct (Z.testbit a 0).
Qed.

(** The loop visits the bits of [active] from bit [b] upwards and notifies
    hardware thread [cpu0 + i] for every bit [i] that is set. *)
Lemma interrupt_loop_spec vc active cpu0 :
  0 <= active -> 0 <= cpu0 ->
  forall k fuel b s,
    0 <= b -> active < 2 ^ (b + Z.of_nat k) -> (k <= fuel)%nat ->
    cpu0 + b + Z.of_nat k < 2 ^ 31 ->
    interrupt_loop fuel vc (Z.shiftr active b) (cpu0 + b) s
    = Some (add_sent s
              (map (fun i => {| ipi_vcore := vc; ipi_cpu := cpu0 + i |})
                   (List.filter (fun i => Z.testbit active i)
                                (seqZ b (Z.of_nat k))))).
Proof.
  intros Ha Hc. induction k as [|k IH]; intros fuel b s Hb Hlt Hfuel Hcpu.
  - assert (Z.shiftr active b = 0) as ->.
    { rewrite Z.shiftr_div_pow2 by lia. apply Z.div_small.
      rewrite Z.add_0_r in Hlt. lia. }
    rewrite interrupt_loop_done. simpl. now rewrite add_sent_nil.
  - destruct (Z.eq_dec (Z.shiftr active b) 0) as [Hz|Hnz].
    + rewrite Hz, interrupt_loop_done, filter_none; [now rewrite add_sent_nil|].
      intros i Hi. apply list_elem_of_In, elem_of_seqZ in Hi.
      replace i with ((i - b) + b) by lia.
      rewrite <- Z.shiftr_spec, Hz by lia. apply Z.bits_0.
    + destruct fuel as [|fuel]; [lia|].
      rewrite interrupt_loop_step by assumption.
      rewrite Z.shiftr_shiftr by lia.
      rewrite s32_small by (change (2 ^ 31) with 2147483648 in *; lia).
      replace (cpu0 + b + 1) with (cpu0 + (b + 1)) by lia.
      rewrite IH; try lia.
      2:{ replace (b + 1 + Z.of_nat k) with (b + Z.of_nat (S k)) by lia. exact Hlt. }
      rewrite (seqZ_cons b) by lia.
      replace (Z.succ b) with (b + 1) by lia.
      replace (Z.pred (Z.of_nat (S k))) with (Z.of_nat k) by lia.
      rewrite land_1_bit0, Z.shiftr_spec, Z.add_0_l by lia.
      cbn [List.filter].
      destruct (Z.testbit active b); simpl; [|reflexivity].
      unfold kvmhv_rm_send_ipi, add_sent; simpl. now rewrite <- app_assoc.
Qed.

Lemma first_ack_range ee : Z.shiftr ee 8 = 0 -> 0 <= ee < 256.
Proof.
  rewrite Z.shiftr_div_pow2 by lia. change (2 ^ 8) with 256.
  intros H. apply Z.div_small_iff in H; lia.
Qed.

Lemma kvmhv_interrupt_vcore_spec vc active s c :
  vcores s !! vc = Some c -> 0 <= pcpu c < 2 ^ 30 -> 0 <= active < 256 ->
  kvmhv_interrupt_vcore vc active s
  = Some (add_sent s
            (map (fun i => {| ipi_vcore := vc; ipi_cpu := pcpu c + i |})
                 (List.filter (fun i => Z.testbit active i) (seqZ 0 8)))).
Proof.
  intros Hc Hp Ha. unfold kvmhv_interrupt_vcore. rewrite Hc.
  unfold mbind, option_bind.
  pose proof (interrupt_loop_spec vc active (pcpu c) ltac:(lia) ltac:(lia)
                8%nat 32%nat 0 s) as H.
  rewrite Z.shiftr_0_r, Z.add_0_r in H. apply H; lia.
Qed.

Lemma own_active ee ptid :
  0 <= ee < 256 -> 0 <= ptid < 8 ->
  0 <= Z.land ee (Z.lnot (int_shl1 ptid)) < 256
  /\ List.filter (fun i => Z.testbit (Z.land ee (Z.lnot (int_shl1 ptid))) i)
                 (seqZ 0 8)
     = List.filter (fun i => Z.testbit ee i && negb (i =? ptid)) (seqZ 0 8).
Proof.
  intros He Hp. rewrite int_shl1_pow2 by lia.
  assert (Hnn : 0 <= Z.land ee (Z.lnot (2 ^ ptid))) by (apply Z.land_nonneg; lia).
  split.
  - split; [exact Hnn|]. change 256 with (2 ^ 8).
    apply (Z.bounded_iff_bits_nonneg 8); [lia | exact Hnn |].
    intros l Hl. rewrite Z.land_spec.
    assert (Z.testbit ee l = false) as ->; [|reflexivity].
    apply (Z.bounded_iff_bits_nonneg 8 ee); lia.
  - apply filter_ext_in. intros i Hi.
    apply list_elem_of_In, elem_of_seqZ in Hi.
    rewrite Z.land_spec, Z.lnot_spec, Z.pow2_bits_eqb by lia.
    now rewrite (Z.eqb_sym ptid i).
Qed.

Lemma set_exit_bit_spec vc me s c :
  vcores s !! vc = Some c ->
  set_exit_bit vc me s
  = Some (entry_exit_map c,
          set_entry_exit_map s vc (Z.lor (entry_exit_map c) me)).
Proof.
  intros Hc. unfold set_exit_bit, cmpxchg. rewrite Hc. simpl.
  now rewrite Z.eqb_refl.
Qed.

Lemma set_entry_exit_map_lookup s vc v c :
  vcores s !! vc = Some c ->
  vcores (set_entry_exit_map s vc v) !! vc
  = Some {| pcpu := pcpu c; entry_exit_map := v |}.
Proof. intros Hc. simpl. now rewrite lookup_alter_eq, Hc. Qed.

Lemma set_entry_exit_map_pcpu s vc v :
  (forall u c, vcores s !! u = Some c -> 0 <= pcpu c < 2 ^ 30) ->
  forall u c, vcores (set_entry_exit_map s vc v) !! u = Some c ->
              0 <= pcpu c < 2 ^ 30.
Proof.
  intros H u c. simpl. destruct (decide (vc = u)) as [->|Hne].
  - rewrite lookup_alter_eq. destruct (vcores s !! u) as [c0|] eqn:Hc0; [|discriminate].
    intros [= <-]. simpl. eauto.
  - rewrite lookup_alter_ne by assumption. eauto.
Qed.

Lemma set_entry_exit_map_valid s vc v (l : list Z) :
  Forall (fun u => u = 0 \/ is_Some (vcores s !! u)) l ->
  Forall (fun u => u = 0 \/ is_Some (vcores (set_entry_exit_map s vc v) !! u)) l.
Proof.
  intros H. eapply Forall_impl; [exact H|].
  intros u [->|Hu]; [now left | right]. simpl.
  now apply lookup_alter_is_Some.
Qed.

(** The walk over the other subcores notifies no thread of a vcore whose
    exit map is already set; the caller's own vcore is one. *)
Lemma subcores_loop_spec vc master_vcs : forall n i s,
  (n + i <= length master_vcs)%nat ->
  Forall (fun v => v = 0 \/ is_Some (vcores s !! v)) master_vcs ->
  (forall v c, vcores s !! v = Some c -> 0 <= pcpu c < 2 ^ 30) ->
  (exists c, vcores s !! vc = Some c /\ Z.shiftr (entry_exit_map c) 8 <> 0) ->
  exists s' others,
    subcores_loop n i master_vcs s = Some s'
    /\ sent s' = sent s ++ others
    /\ Forall (fun x => ipi_vcore x <> vc) others.
Proof.
  induction n as [|n IH]; intros i s Hlen Hval Hcpu Hown; simpl.
  - exists s, []. rewrite app_nil_r. auto.
  - destruct (lookup_lt_is_Some_2 master_vcs i ltac:(lia)) as [v Hv].
    rewrite Hv. simpl.
    destruct (Z.eqb_spec v 0) as [->|Hnz].
    { exists s, []. rewrite app_nil_r. auto. }
    pose proof Hval as Hval'. rewrite Forall_forall in Hval'.
    destruct (Hval' v (list_elem_of_lookup_2 _ _ _ Hv)) as [?|[c' Hc']];
      [contradiction|].
    unfold request_subcore_exit. rewrite Hc'. simpl.
    destruct (Z.eqb_spec (Z.shiftr (entry_exit_map c') 8) 0) as [Hz|Hz]; simpl.
    + unfold cmpxchg. rewrite Hc'. simpl. rewrite Z.eqb_refl. simpl.
      destruct (Z.eqb_spec (Z.shiftr (entry_exit_map c') 8) 0); [|contradiction].
      set (s1 := set_entry_exit_map s v _).
      assert (Hne : v <> vc).
      { intros ->. destruct Hown as (c & Hc & Hnz'). congruence. }
      rewrite (kvmhv_interrupt_vcore_spec v _ s1 _
                 (set_entry_exit_map_lookup _ _ _ _ Hc'))
        by (simpl; eauto using first_ack_range).
      simpl.
      set (l := map _ _).
      destruct (IH (S i) (add_sent s1 l)) as (s' & others & Hrun & Hsent & Hall).
      * lia.
      * simpl. now apply set_entry_exit_map_valid.
      * simpl. now apply set_entry_exit_map_pcpu.
      * simpl. rewrite lookup_alter_ne by assumption. exact Hown.
      * exists s', (l ++ others). split; [exact Hrun|].
        split; [rewrite Hsent; simpl; now rewrite app_assoc|].
        apply Forall_app. split; [|exact Hall].
        subst l. apply Forall_forall. intros x Hx.
        apply list_elem_of_In, in_map_iff in Hx as (j & <- & _). exact Hne.
    + destruct (Z.eqb_spec (Z.shiftr (entry_exit_map c') 8) 0); [contradiction|].
      simpl. apply IH; auto. lia.
Qed.

Lemma exit_bit_set ee ptid :
  0 <= ptid < 8 -> Z.shiftr ee 8 = 0 ->
  Z.shiftr (Z.lor ee (s32 (Z.shiftl 0x100 ptid))) 8 <> 0.
Proof.
  intros Hp He. rewrite Z.shiftr_lor, He, Z.lor_0_l.
  assert (ptid = 0 \/ ptid = 1 \/ ptid = 2 \/ ptid = 3 \/ ptid = 4 \/ ptid = 5
          \/ ptid = 6 \/ ptid = 7) as Hcases by lia.
  repeat destruct Hcases as [->|Hcases]; try subst ptid; vm_compute; discriminate.
Qed.

Lemma notified_spec vc pcpu ee ptid :
  NoDup (notified vc pcpu ee ptid)
  /\ forall cpu,
       In {| ipi_vcore := vc; ipi_cpu := cpu |} (notified vc pcpu ee ptid)
       <-> exists i, 0 <= i < 8 /\ Z.testbit ee i = true /\ i <> ptid
                     /\ cpu = pcpu + i.
Proof.
  unfold notified. split.
  - apply NoDup_ListNoDup, Finite.Injective_map_NoDup.
    + intros a b [= H]. lia.
    + apply List.NoDup_filter, NoDup_ListNoDup, NoDup_seqZ.
  - intros cpu. rewrite in_map_iff. split.
    + intros (i & [= <-] & Hi). apply filter_In in Hi as [Hi Hb].
      apply list_elem_of_In, elem_of_seqZ in Hi.
      apply andb_true_iff in Hb as [Hb Hne].
      exists i. split; [lia|]. split; [exact Hb|]. split; [|reflexivity].
      destruct (Z.eqb_spec i ptid); [discriminate | assumption].
    + intros (i & Hi & Hb & Hne & ->). exists i. split; [reflexivity|].
      apply filter_In. split.
      * apply list_elem_of_In, elem_of_seqZ. lia.
      * rewrite Hb. simpl. destruct (Z.eqb_spec i ptid); [contradiction | reflexivity].
Qed.

(** C7.  In a well-formed state, [kvmhv_commence_exit] returns.  Let [ee]
    be the word of the caller's vcore before the caller's own update.
    - If the exit map in [ee] (the bits from bit 8 up) is empty and the
      trap is not the hypervisor decrementer, the notifications sent to the
      caller's vcore are exactly [notified]: one for every thread of the
      entry map other than the caller, and no other.
    - If the exit map was not empty, or the trap is the hypervisor
      decrementer, no notification goes to the caller's vcore.
    Whatever is sent beyond that ([others], in split-core mode) goes to
    other vcores; nothing at all is sent when the exit map was not empty. *)
Theorem commence_exit_notifications trap s c :
  hv_wf s ->
  vcores s !! kvm_vcore (kvm_hstate s) = Some c ->
  let vc := kvm_vcore (kvm_hstate s) in
  let ee := entry_exit_map c in
  let own :=
    if (Z.shiftr ee 8 =? 0) && negb (trap =? BOOK3S_INTERRUPT_HV_DECREMENTER)
    then notified vc (pcpu c) ee (ptid (kvm_hstate s))
    else [] in
  exists s' others,
    kvmhv_commence_exit trap s = Some s'
    /\ sent s' = sent s ++ own ++ others
    /\ Forall (fun x => ipi_vcore x <> vc) others
    /\ (Z.shiftr ee 8 <> 0 -> others = [])
    /\ NoDup own
    /\ (forall cpu,
          In {| ipi_vcore := vc; ipi_cpu := cpu |}
             (notified vc (pcpu c) ee (ptid (kvm_hstate s)))
          <-> exists i, 0 <= i < 8 /\ Z.testbit ee i = true
                        /\ i <> ptid (kvm_hstate s) /\ cpu = pcpu c + i).
Proof.
  intros (_ & Hptid & Hcpu & Hsplit) Hc vc ee own.
  pose proof (notified_spec vc (pcpu c) ee (ptid (kvm_hstate s))) as [Hnd Hin].
  assert (Hown_nd : NoDup own).
  { subst own. destruct (_ && _); [exact Hnd | constructor]. }
  unfold kvmhv_commence_exit. fold vc.
  rewrite (set_exit_bit_spec vc _ s c Hc). fold ee.
  unfold mbind, option_bind.
  set (me := s32 (Z.shiftl 256 (ptid (kvm_hstate s)))).
  set (s1 := set_entry_exit_map s vc (Z.lor ee me)).
  destruct (Z.eqb_spec (Z.shiftr ee 8) 0) as [Hee|Hee]; cbn [negb].
  2:{ exists s1, []. subst own. simpl. rewrite app_nil_r.
      repeat split; auto; apply Hin. }
  pose proof (first_ack_range _ Hee) as Hrange.
  assert (Hc1 : vcores s1 !! vc = Some {| pcpu := pcpu c; entry_exit_map := Z.lor ee me |})
    by (apply set_entry_exit_map_lookup; exact Hc).
  assert (Hcpu1 : forall v c0, vcores s1 !! v = Some c0 -> 0 <= pcpu c0 < 2 ^ 30)
    by (apply set_entry_exit_map_pcpu; exact Hcpu).
  assert (Hs2 : exists s2,
            (if negb (trap =? BOOK3S_INTERRUPT_HV_DECREMENTER)
             then kvmhv_interrupt_vcore vc
                    (Z.land ee (Z.lnot (int_shl1 (ptid (kvm_hstate s))))) s1
             else Some s1) = Some s2
            /\ s2 = add_sent s1 own).
  { subst own. cbn [andb].
    destruct (negb (trap =? _)).
    - destruct (own_active ee (ptid (kvm_hstate s)) Hrange Hptid) as [Hact Hfil].
      rewrite (kvmhv_interrupt_vcore_spec vc _ s1 _ Hc1 (Hcpu _ _ Hc) Hact).
      rewrite Hfil. eauto.
    - exists s1. now rewrite add_sent_nil. }
  destruct Hs2 as (s2 & -> & ->).
  destruct (kvm_split_mode (kvm_hstate s)) as [master_vcs|] eqn:Hsip.
  - destruct Hsplit as [Hlen Hval].
    destruct (subcores_loop_spec vc master_vcs MAX_SUBCORES 0 (add_sent s1 own))
      as (s' & others & Hrun & Hsent & Hall).
    + rewrite Hlen. lia.
    + simpl. now apply set_entry_exit_map_valid.
    + exact Hcpu1.
    + eexists. split; [exact Hc1|]. simpl. now apply exit_bit_set.
    + exists s', others. split; [exact Hrun|].
      split; [rewrite Hsent; simpl; now rewrite app_assoc|].
      repeat split; auto; try apply Hin. intros; contradiction.
  - exists (add_sent s1 own), []. simpl. rewrite app_nil_r.
    repeat split; auto; apply Hin.
Qed.

(** ** Further properties of the exit coordination *)

(** X22.  [kvmhv_interrupt_vcore] notifies, in ascending order, the hardware
    thread [pcpu + i] of every bit [i] that is set in a non-negative
    [active], and no other; the vcores are left alone.  For a negative
    [active] the loop does not end: under the arithmetic shift of an [int]
    the value never becomes 0. *)
Theorem interrupt_vcore_notifies_set_bits vc active s c :
  vcores s !! vc = Some c -> 0 <= pcpu c < 2 ^ 30 ->
  (0 <= active < 2 ^ 31 ->
   kvmhv_interrupt_vcore vc active s
   = Some (add_sent s
             (map (fun i => {| ipi_vcore := vc; ipi_cpu := pcpu c + i |})
                  (List.filter (fun i => Z.testbit active i) (seqZ 0 31)))))
  /\ (active < 0 -> kvmhv_interrupt_vcore vc active s = None).
Proof.
  intros Hc Hp. unfold kvmhv_interrupt_vcore. rewrite Hc.
  unfold mbind, option_bind. split.
  - intros Ha.
    pose proof (interrupt_loop_spec vc active (pcpu c) ltac:(lia) ltac:(lia)
                  31%nat 32%nat 0 s) as H.
    rewrite Z.shiftr_0_r, Z.add_0_r in H.
    apply H; change (2 ^ 30) with 1073741824 in *;
      change (2 ^ 31) with 2147483648 in *; simpl; lia.
  - intros Hneg. now apply interrupt_loop_diverges.
Qed.

Lemma exit_req_set ee : Z.shiftr (Z.lor ee VCORE_EXIT_REQ) 8 <> 0.
Proof.
  intros H.
  assert (Hb : Z.testbit (Z.shiftr (Z.lor ee VCORE_EXIT_REQ) 8) 8 = true).
  { rewrite Z.shiftr_spec, Z.lor_spec by lia. apply orb_true_r. }
  rewrite H, Z.bits_0 in Hb. discriminate.
Qed.

Lemma kvmhv_interrupt_vcore_maps vc active s c :
  vcores s !! vc = Some c -> 0 <= pcpu c < 2 ^ 30 -> 0 <= active < 256 ->
  exists s', kvmhv_interrupt_vcore vc active s = Some s'
             /\ vcores s' = vcores s /\ kvm_hstate s' = kvm_hstate s.
Proof.
  intros Hc Hp Ha. rewrite (kvmhv_interrupt_vcore_spec _ _ _ _ Hc Hp Ha).
  eexists. split; [reflexivity|]. split; reflexivity.
Qed.

(** The walk over the subcores touches the word of a vcore only to set the
    exit request where the exit map is empty, and leaves every subcore it
    reaches with a non-empty exit map or an exit request. *)
Lemma subcores_loop_maps master_vcs : forall n i s,
  (n + i <= length master_vcs)%nat ->
  Forall (fun v => v = 0 \/ is_Some (vcores s !! v)) master_vcs ->
  (forall v c, vcores s !! v = Some c -> 0 <= pcpu c < 2 ^ 30) ->
  exists s',
    subcores_loop n i master_vcs s = Some s'
    /\ kvm_hstate s' = kvm_hstate s
    /\ (forall v cv, vcores s !! v = Some cv ->
          exists cv', vcores s' !! v = Some cv' /\ pcpu cv' = pcpu cv
            /\ (entry_exit_map cv' = entry_exit_map cv
                \/ (Z.shiftr (entry_exit_map cv) 8 = 0
                    /\ entry_exit_map cv'
                       = Z.lor (entry_exit_map cv) VCORE_EXIT_REQ)))
    /\ (forall j v, (i <= j < i + n)%nat -> master_vcs !! j = Some v ->
          (forall j', (i <= j' <= j)%nat -> master_vcs !! j' <> Some 0) ->
          exists cv', vcores s' !! v = Some cv'
                      /\ Z.shiftr (entry_exit_map cv') 8 <> 0).
Proof.
  induction n as [|n IH]; intros i s Hlen Hval Hcpu; simpl.
  - exists s. split; [reflexivity|]. split; [reflexivity|]. split.
    + intros v cv Hv. exists cv. auto.
    + intros j v Hj. lia.
  - destruct (lookup_lt_is_Some_2 master_vcs i ltac:(lia)) as [v0 Hv0].
    rewrite Hv0. simpl.
    destruct (Z.eqb_spec v0 0) as [->|Hnz].
    { exists s. split; [reflexivity|]. split; [reflexivity|]. split.
      - intros v cv Hv. exists cv. auto.
      - intros j v Hj Hjv Hall. exfalso. apply (Hall i); [lia | exact Hv0]. }
    pose proof Hval as Hval'. rewrite Forall_forall in Hval'.
    destruct (Hval' v0 (list_elem_of_lookup_2 _ _ _ Hv0)) as [?|[c0 Hc0]];
      [contradiction|].
    unfold request_subcore_exit. rewrite Hc0. simpl.
    destruct (Z.eqb_spec (Z.shiftr (entry_exit_map c0) 8) 0) as [Hz|Hz]; simpl.
    + unfold cmpxchg. rewrite Hc0. simpl. rewrite Z.eqb_refl. simpl.
      destruct (Z.eqb_spec (Z.shiftr (entry_exit_map c0) 8) 0); [|contradiction].
      set (s1 := set_entry_exit_map s v0 (Z.lor (entry_exit_map c0) VCORE_EXIT_REQ)).
      pose proof (set_entry_exit_map_lookup s v0
                    (Z.lor (entry_exit_map c0) VCORE_EXIT_REQ) c0 Hc0) as Hc1.
      fold s1 in Hc1.
      destruct (kvmhv_interrupt_vcore_maps v0 (entry_exit_map c0) s1 _ Hc1
                  ltac:(simpl; eauto) (first_ack_range _ Hz))
        as (s2 & Hrun2 & Hvc2 & Hhs2).
      rewrite Hrun2. simpl.
      destruct (IH (S i) s2) as (s' & Hrun & Hhs & Hmaps & Hreach).
      * lia.
      * rewrite Hvc2. now apply set_entry_exit_map_valid.
      * rewrite Hvc2. now apply set_entry_exit_map_pcpu.
      * exists s'. split; [exact Hrun|]. split; [now rewrite Hhs, Hhs2|]. split.
        -- intros v cv Hv. destruct (decide (v = v0)) as [->|Hne].
           ++ rewrite Hc0 in Hv. injection Hv as <-.
              destruct (Hmaps v0 _ ltac:(rewrite Hvc2; exact Hc1))
                as (cv' & Hl & Hp & [He|[He _]]).
              ** exists cv'. split; [exact Hl|]. split; [exact Hp|].
                 right. split; [exact Hz | exact He].
              ** simpl in He. now apply exit_req_set in He.
           ++ apply (Hmaps v cv). rewrite Hvc2. subst s1. simpl.
              rewrite lookup_alter_ne by auto. exact Hv.
        -- intros j v Hj Hjv Hall. destruct (decide (j = i)) as [->|Hji].
           ++ rewrite Hv0 in Hjv. injection Hjv as <-.
              destruct (Hmaps v0 _ ltac:(rewrite Hvc2; exact Hc1))
                as (cv' & Hl & Hp & [He|[He _]]).
              ** exists cv'. split; [exact Hl|]. rewrite He. simpl.
                 apply exit_req_set.
              ** simpl in He. now apply exit_req_set in He.
           ++ apply (Hreach j v); [lia|exact Hjv|].
              intros j' Hj'. apply Hall. lia.
    + destruct (Z.eqb_spec (Z.shiftr (entry_exit_map c0) 8) 0); [contradiction|].
      simpl.
      destruct (IH (S i) s) as (s' & Hrun & Hhs & Hmaps & Hreach); auto; [lia|].
      exists s'. split; [exact Hrun|]. split; [exact Hhs|]. split; [exact Hmaps|].
      intros j v Hj Hjv Hall. destruct (decide (j = i)) as [->|Hji].
      * rewrite Hv0 in Hjv. injection Hjv as <-.
        destruct (Hmaps v0 c0 Hc0) as (cv' & Hl & Hp & [He|[He _]]).
        -- exists cv'. split; [exact Hl|]. now rewrite He.
        -- contradiction.
      * apply (Hreach j v); [lia|exact Hjv|].
        intros j' Hj'. apply Hall. lia.
Qed.

Lemma own_exit_bit ptid : 0 <= ptid < 8 -> s32 (Z.shiftl 256 ptid) = Z.shiftl 256 ptid.
Proof.
  intros Hp. apply s32_small. rewrite Z.shiftl_mul_pow2 by lia.
  assert (0 < 2 ^ ptid <= 2 ^ 7) by (split; [apply Z.pow_pos_nonneg; lia
                                             | apply Z.pow_le_mono_r; lia]).
  change (2 ^ 7) with 128 in *. change (2 ^ 31) with 2147483648. lia.
Qed.

(** X23.  What [kvmhv_commence_exit] does to the words of the vcores.
    - In the word of the caller's vcore the caller's bit of the exit map
      (bit [8 + ptid]) gets set and nothing else changes.
    - The word of another vcore is either left as it was or gets the exit
      request set; the hardware thread of a vcore never changes.
    - When the caller is the first of its vcore to exit and the core is
      split, every subcore listed before the first NULL of [master_vcs]
      ends with a non-empty exit map or an exit request. *)
Theorem commence_exit_exit_maps trap s c :
  hv_wf s ->
  vcores s !! kvm_vcore (kvm_hstate s) = Some c ->
  let vc := kvm_vcore (kvm_hstate s) in
  let ee := entry_exit_map c in
  exists s',
    kvmhv_commence_exit trap s = Some s'
    /\ kvm_hstate s' = kvm_hstate s
    /\ vcores s' !! vc
       = Some {| pcpu := pcpu c;
                 entry_exit_map := Z.lor ee (Z.shiftl 0x100 (ptid (kvm_hstate s))) |}
    /\ (forall v cv, v <> vc -> vcores s !! v = Some cv ->
          exists cv', vcores s' !! v = Some cv' /\ pcpu cv' = pcpu cv
            /\ (entry_exit_map cv' = entry_exit_map cv
                \/ entry_exit_map cv' = Z.lor (entry_exit_map cv) VCORE_EXIT_REQ))
    /\ (Z.shiftr ee 8 = 0 ->
        forall master_vcs j v,
          kvm_split_mode (kvm_hstate s) = Some master_vcs ->
          master_vcs !! j = Some v ->
          (forall j', (j' <= j)%nat -> master_vcs !! j' <> Some 0) ->
          exists cv', vcores s' !! v = Some cv'
                      /\ Z.shiftr (entry_exit_map cv') 8 <> 0).
Proof.
  intros (_ & Hptid & Hcpu & Hsplit) Hc vc ee.
  unfold kvmhv_commence_exit. fold vc.
  rewrite (set_exit_bit_spec vc _ s c Hc). fold ee.
  unfold mbind, option_bind.
  rewrite own_exit_bit by exact Hptid.
  set (me := Z.shiftl 256 (ptid (kvm_hstate s))).
  set (s1 := set_entry_exit_map s vc (Z.lor ee me)).
  assert (Hc1 : vcores s1 !! vc = Some {| pcpu := pcpu c; entry_exit_map := Z.lor ee me |})
    by (apply set_entry_exit_map_lookup; exact Hc).
  assert (Hother1 : forall v cv, v <> vc -> vcores s !! v = Some cv ->
                                 vcores s1 !! v = Some cv).
  { intros v cv Hne Hv. subst s1. simpl. rewrite lookup_alter_ne by auto. exact Hv. }
  destruct (Z.eqb_spec (Z.shiftr ee 8) 0) as [Hee|Hee]; cbn [negb].
  2:{ exists s1. split; [reflexivity|]. split; [reflexivity|].
      split; [exact Hc1|]. split; [|contradiction].
      intros v cv Hne Hv. exists cv. auto. }
  pose proof (first_ack_range _ Hee) as Hrange.
  assert (Hcpu1 : forall v c0, vcores s1 !! v = Some c0 -> 0 <= pcpu c0 < 2 ^ 30)
    by (apply set_entry_exit_map_pcpu; exact Hcpu).
  assert (Hs2 : exists s2,
            (if negb (trap =? BOOK3S_INTERRUPT_HV_DECREMENTER)
             then kvmhv_interrupt_vcore vc
                    (Z.land ee (Z.lnot (int_shl1 (ptid (kvm_hstate s))))) s1
             else Some s1) = Some s2
            /\ vcores s2 = vcores s1 /\ kvm_hstate s2 = kvm_hstate s1).
  { destruct (negb _).
    - destruct (own_active ee (ptid (kvm_hstate s)) Hrange Hptid) as [Hact _].
      apply (kvmhv_interrupt_vcore_maps vc _ s1 _ Hc1 (Hcpu _ _ Hc) Hact).
    - exists s1. auto. }
  destruct Hs2 as (s2 & -> & Hvc2 & Hhs2).
  assert (Hexit1 : Z.shiftr (Z.lor ee me) 8 <> 0).
  { subst me. rewrite <- own_exit_bit by exact Hptid. now apply exit_bit_set. }
  destruct (kvm_split_mode (kvm_hstate s)) as [master_vcs|] eqn:Hsip.
  - destruct Hsplit as [Hlen Hval].
    destruct (subcores_loop_maps master_vcs MAX_SUBCORES 0 s2)
      as (s' & Hrun & Hhs & Hmaps & Hreach).
    + rewrite Hlen. lia.
    + rewrite Hvc2. now apply set_entry_exit_map_valid.
    + rewrite Hvc2. exact Hcpu1.
    + exists s'. split; [exact Hrun|].
      split; [now rewrite Hhs, Hhs2|]. split; [|split].
      * destruct (Hmaps vc _ ltac:(rewrite Hvc2; exact Hc1))
          as (cv' & Hl & Hp & [He|[He _]]); [|contradiction].
        rewrite Hl. f_equal. destruct cv'. simpl in *. now subst.
      * intros v cv Hne Hv.
        destruct (Hmaps v cv ltac:(rewrite Hvc2; now apply Hother1))
          as (cv' & Hl & Hp & [He|[_ He]]); exists cv'; auto.
      * intros _ mv j v [= <-] Hj Hall.
        apply (Hreach j v); [|exact Hj|intros j' Hj'; apply Hall; lia].
        pose proof (lookup_lt_Some _ _ _ Hj) as Hlt. rewrite Hlen in Hlt. lia.
  - exists s2. split; [reflexivity|]. split; [exact Hhs2|].
    split; [now rewrite Hvc2|]. split; [|discriminate].
    intros v cv Hne Hv. exists cv. rewrite Hvc2. auto.
Qed.

(** ** Properties of the interrupt classification *)

Lemma get_irqmap_from_spec pmap xisr : forall n i,
  (i + n <= length (irq_map pmap))%nat ->
  exists r,
    get_irqmap_from n i pmap xisr = Some r
    /\ match r with
       | Some k =>
           (i <= k < i + n)%nat
           /\ (exists e, irq_map pmap !! k = Some e /\ r_hwirq e = xisr)
           /\ forall j e, (i <= j < k)%nat -> irq_map pmap !! j = Some e ->
                          r_hwirq e <> xisr
       | None =>
           forall j e, (i <= j < i + n)%nat -> irq_map pmap !! j = Some e ->
                       r_hwirq e <> xisr
       end.
Proof.
  induction n as [|n IH]; intros i Hlen; simpl.
  - exists None. split; [reflexivity|]. intros j e Hj. lia.
  - destruct (lookup_lt_is_Some_2 (irq_map pmap) i ltac:(lia)) as [e He].
    rewrite He. simpl. destruct (Z.eqb_spec xisr (r_hwirq e)) as [Heq|Hne].
    + exists (Some i). split; [reflexivity|]. split; [lia|]. split; [eauto|].
      intros j e' Hj. lia.
    + destruct (IH (S i) ltac:(lia)) as (r & Hrun & Hr). exists r.
      split; [exact Hrun|]. destruct r as [k|].
      * destruct Hr as (Hk & Hm & Hfirst). split; [lia|]. split; [exact Hm|].
        intros j e' Hj Hl. destruct (decide (j = i)) as [->|Hji].
        -- rewrite He in Hl. injection Hl as <-. auto.
        -- apply (Hfirst j e'); [lia | exact Hl].
      * intros j e' Hj Hl. destruct (decide (j = i)) as [->|Hji].
        -- rewrite He in Hl. injection Hl as <-. auto.
        -- apply (Hr j e'); [lia | exact Hl].
Qed.

(** X24.  When the entries in use fit the array, [get_irqmap] returns.  It
    answers with the position of the first entry in use whose real
    interrupt number is the one asked for, and with NULL only when no entry
    in use has that number; entries beyond [n_map_irq] are not looked at. *)
Theorem get_irqmap_first_match pmap xisr :
  n_map_irq pmap <= Z.of_nat (length (irq_map pmap)) ->
  exists r,
    get_irqmap pmap xisr = Some r
    /\ match r with
       | Some k =>
           Z.of_nat k < n_map_irq pmap
           /\ (exists e, irq_map pmap !! k = Some e /\ r_hwirq e = xisr)
           /\ forall j e, (j < k)%nat -> irq_map pmap !! j = Some e ->
                          r_hwirq e <> xisr
       | None =>
           forall j e, Z.of_nat j < n_map_irq pmap -> irq_map pmap !! j = Some e ->
                       r_hwirq e <> xisr
       end.
Proof.
  intros Hn. unfold get_irqmap.
  destruct (get_irqmap_from_spec pmap xisr (Z.to_nat (n_map_irq pmap)) 0 ltac:(lia))
    as (r & Hrun & Hr).
  exists r. split; [exact Hrun|]. destruct r as [k|].
  - destruct Hr as (Hk & Hm & Hfirst). split; [lia|]. split; [exact Hm|].
    intros j e Hj. apply Hfirst. lia.
  - intros j e Hj. apply Hr. lia.
Qed.

Section ReadIntrProperties.

Variable LITTLE_ENDIAN : bool.
Variable deliver : Z -> nat -> kvmppc_passthru_map -> intr_state -> Z * intr_state.

(** X25.  What the result of [kvmppc_read_intr] tells the caller, when the
    interrupt is not handed to the passthrough delivery.  [xisr] is the
    source number in the word read from the XIRR register, taken in host
    byte order.
    - The result is 0, 1 or -1.
    - 0: the controller presented no interrupt; the XIRR register was read
      and nothing was written to the controller.
    - -1: the source was the IPI and no host IPI is pending at the return;
      the MFRR register was cleared, the interrupt acknowledged with the
      very word that had been read, and the saved word is 0.
    - 1 with a host IPI pending at the return: either the controller was
      not touched at all, or the host's signal arrived after the IPI had
      been acknowledged, and then the last access re-arms the MFRR with
      [IPI_PRIORITY].
    - 1 otherwise: no controller is configured, or the interrupt belongs
      to the host, which finds the word in [saved_xirr].
    When the passthrough map has an entry for the source, the result and
    the state are those of [kvmppc_deliver_irq_passthru]. *)
Theorem read_intr_return_contract host_signal s r s' :
  kvmppc_read_intr LITTLE_ENDIAN deliver host_signal s = Some (r, s') ->
  let xirr := u32 (icp_xirr s) in
  let h_xirr := if LITTLE_ENDIAN then swab32 xirr else xirr in
  let xisr := Z.land h_xirr 0xffffff in
  let load := IcpLoadWord (u64 (xics_phys s + XICS_XIRR)) in
  (exists pmap i,
     pimap s = Some pmap /\ get_irqmap pmap xisr = Some (Some i)
     /\ host_ipi s = 0 /\ xisr <> 0 /\ xisr <> XICS_IPI
     /\ (r, s') = deliver xirr i pmap
                    (set_saved_xirr (icp_access_log s load) h_xirr))
  \/ ((r = 0 \/ r = 1 \/ r = -1)
      /\ (r = 0 ->
          xisr = 0 /\ saved_xirr s' = h_xirr /\ icp_log s' = icp_log s ++ [load])
      /\ (r = -1 ->
          xisr = XICS_IPI /\ host_ipi s' = 0 /\ saved_xirr s' = 0
          /\ icp_log s'
             = icp_log s
               ++ [load; IcpStoreByte (u64 (xics_phys s + XICS_MFRR)) 0xff;
                   IcpStoreWord (u64 (xics_phys s + XICS_XIRR)) xirr])
      /\ (r = 1 -> host_ipi s' <> 0 ->
          s' = s
          \/ (xisr = XICS_IPI /\ host_ipi s = 0
              /\ icp_log s'
                 = icp_log s
                   ++ [load; IcpStoreByte (u64 (xics_phys s + XICS_MFRR)) 0xff;
                       IcpStoreWord (u64 (xics_phys s + XICS_XIRR)) xirr;
                       IcpStoreByte (u64 (xics_phys s + XICS_MFRR)) IPI_PRIORITY]))
      /\ (r = 1 -> host_ipi s' = 0 ->
          (xics_phys s = 0 /\ s' = s)
          \/ (xisr <> 0 /\ xisr <> XICS_IPI /\ saved_xirr s' = h_xirr
              /\ icp_log s' = icp_log s ++ [load]))).
Proof.
  intros H xirr h_xirr xisr load. unfold kvmppc_read_intr in H.
  fold xirr h_xirr xisr load in H.
  destruct (Z.eqb_spec (host_ipi s) 0) as [Hipi|Hipi]; simpl in H.
  2:{ injection H as <- <-. right. split; [auto|].
      split; [discriminate|]. split; [discriminate|]. split; [auto|].
      intros _ Hc. contradiction. }
  destruct (Z.eqb_spec (xics_phys s) 0) as [Hx|Hx].
  { injection H as <- <-. right. split; [auto|].
    split; [discriminate|]. split; [discriminate|]. split; [auto|]. auto. }
  destruct (Z.eqb_spec xisr 0) as [Hz|Hz].
  { injection H as <- <-. right. split; [auto|].
    split; [auto|]. split; [discriminate|]. split; discriminate. }
  destruct (Z.eqb_spec xisr XICS_IPI) as [Hi|Hi].
  { destruct host_signal; simpl in H.
    - injection H as <- <-. right. split; [auto|].
      split; [discriminate|]. split; [discriminate|]. split.
      + intros _ _. right. split; [exact Hi|]. split; [exact Hipi|].
        simpl. rewrite <- !app_assoc. reflexivity.
      + intros _ Hc. simpl in Hc. discriminate.
    - rewrite Hipi in H. simpl in H. injection H as <- <-. right. split; [auto|].
      split; [discriminate|]. split.
      + intros _. split; [exact Hi|]. split; [exact Hipi|]. split; [reflexivity|].
        simpl. rewrite <- !app_assoc. reflexivity.
      + split; discriminate. }
  cbn [pimap set_saved_xirr icp_access_log] in H.
  destruct (pimap s) as [pmap|] eqn:Hmap.
  2:{ injection H as <- <-. right. split; [auto|].
      split; [discriminate|]. split; [discriminate|]. split.
      - intros _ Hc. simpl in Hc. contradiction.
      - intros _ _. right. auto. }
  destruct (get_irqmap pmap xisr) as [[i|]|] eqn:Hirq; simpl in H.
  - left. exists pmap, i. injection H as H. auto 10.
  - injection H as <- <-. right. split; [auto|].
    split; [discriminate|]. split; [discriminate|]. split.
    + intros _ Hc. simpl in Hc. contradiction.
    + intros _ _. right. auto.
  - discriminate.
Qed.

End ReadIntrProperties.

(** * The properties on concrete machines *)

(** The address accepted in C1 makes H_PUT_TCE store outside the Entry
    Store of an emulated bus: the second chunk does not exist. *)
Lemma put_tce_past_window_faults :
  kvmppc_ioba_validate stt_window_512 (Z.shiftl 512 12) 1 = H_SUCCESS
  /\ kvmppc_rm_h_put_tce 1 (Z.shiftl 512 12) 0 emulated_machine = None.
Proof. split; reflexivity. Qed.

Lemma two_group_find :
  find_table_from (spapr_tce_tables two_group_machine) 0 1 = Some 0%nat.
Proof. reflexivity. Qed.

(** C6 on the two-group machine: 513 pages. *)
Lemma put_tce_indirect_list_cap_witness :
  find_table_from (spapr_tce_tables two_group_machine) 0 1 = Some 0%nat
  /\ 512 < 513
  /\ kvmppc_rm_h_put_tce_indirect 1 0 0x2000 513 two_group_machine
     = Some (H_PARAMETER, two_group_machine).
Proof.
  split; [reflexivity|]. split; [lia|].
  apply (put_tce_indirect_list_cap 1 0 0x2000 513 two_group_machine 0%nat);
    [reflexivity | lia].
Defined.

(** C10 on the two-group machine: a list address 8 bytes into a page. *)
Lemma put_tce_indirect_list_alignment_witness :
  find_table_from (spapr_tce_tables two_group_machine) 0 1 = Some 0%nat
  /\ Z.land 0x2008 4095 <> 0
  /\ kvmppc_rm_h_put_tce_indirect 1 0 0x2008 1 two_group_machine
     = Some (H_PARAMETER, two_group_machine).
Proof.
  split; [reflexivity|]. split; [vm_compute; discriminate|].
  apply (put_tce_indirect_list_alignment 1 0 0x2008 1 two_group_machine 0%nat);
    [reflexivity | vm_compute; discriminate].
Defined.

Lemma ref_page_shift_ok : 3 <= @PAGE_SHIFT ref_collaborators < 64.
Proof. change (3 <= 12 < 64). lia. Qed.

Lemma one_group_table_wf : wf_table one_group_table.
Proof.
  unfold wf_table. change (@TCES_PER_PAGE ref_collaborators) with 512. simpl.
  repeat split; try lia. repeat constructor.
Qed.

(** C8 on the one-group machine: entry 5 of the window. *)
Lemma tce_put_get_round_trip_witness :
  find_table_from (spapr_tce_tables one_group_machine) 0 1 = Some 0%nat
  /\ offset one_group_table <= 5 < offset one_group_table + size one_group_table
  /\ exists w1 w2,
       kvmppc_tce_put 0 5 0x3003 one_group_machine = Some (tt, w1)
       /\ kvmppc_h_get_tce 1 (Z.shiftl 5 (page_shift one_group_table)) w1
          = Some (H_SUCCESS, w2)
       /\ gpr4 w2 = 0x3003.
Proof.
  split; [reflexivity|]. split; [simpl; lia|].
  apply (tce_put_get_round_trip 1 one_group_machine 0%nat one_group_table 5 0x3003).
  - exact ref_page_shift_ok.
  - reflexivity.
  - reflexivity.
  - exact one_group_table_wf.
  - simpl; lia.
Defined.

Lemma filled_table_wf : wf_table filled_table.
Proof.
  unfold wf_table. change (@TCES_PER_PAGE ref_collaborators) with 512. simpl.
  repeat split; try lia. repeat constructor.
Qed.

(** C9 on the machine whose window holds 0x3003 everywhere: clearing
    entries 0 to 3.  Before the call index 0 reads 0x3003; the call
    returns [H_SUCCESS], the four indices read 0, and the second call
    returns [H_SUCCESS] with the Entry Store as the first left it. *)
Lemma stuff_zero_idempotent_witness :
  (gpr4 <$> (snd <$> kvmppc_h_get_tce 1 (Z.shiftl 0 (page_shift filled_table))
                       filled_machine)) = Some 0x3003
  /\ Forall (group_accepts_clear filled_machine
               (Z.shiftl 0 (page_shift filled_table)) 4) (groups filled_table)
  /\ exists w1 w2,
       kvmppc_rm_h_stuff_tce 1 (Z.shiftl 0 (page_shift filled_table)) 0 4
         filled_machine = Some (H_SUCCESS, w1)
       /\ (forall k, 0 <= k < 0 + 4 ->
             exists w3, kvmppc_h_get_tce 1 (Z.shiftl k (page_shift filled_table)) w1
                        = Some (H_SUCCESS, w3)
                        /\ gpr4 w3 = 0)
       /\ kvmppc_rm_h_stuff_tce 1 (Z.shiftl 0 (page_shift filled_table)) 0 4 w1
          = Some (H_SUCCESS, w2)
       /\ entry_store w2 = entry_store w1.
Proof.
  split; [vm_compute; reflexivity|].
  assert (Hall : Forall (group_accepts_clear filled_machine
                           (Z.shiftl 0 (page_shift filled_table)) 4)
                   (groups filled_table)).
  { constructor; [|constructor].
    exists {| it_page_shift := 12; it_offset := 0; it_size := 512 |}.
    split; [vm_compute; reflexivity|]. split; [vm_compute; reflexivity|].
    intros i Hi. right; right.
    assert (Hcase : i = 0 \/ i = 1 \/ i = 2 \/ i = 3) by lia.
    destruct Hcase as [-> | [-> | [-> | ->]]]; eexists; vm_compute; reflexivity. }
  split; [exact Hall|].
  exact (proj1 (stuff_zero_idempotent 1 0 4 filled_machine 0%nat filled_table
                  ref_page_shift_ok eq_refl eq_refl filled_table_wf
                  ltac:(simpl; lia) ltac:(lia) ltac:(simpl; lia))
           ltac:(simpl; lia) ltac:(simpl; lia) Hall).
Defined.

(** C4 on the two-group machine: the second group rejects the address, the
    first has been served. *)
Lemma put_tce_store_after_all_groups_witness :
  let w' := world_after (kvmppc_rm_h_put_tce 1 0 0x3003) two_group_machine in
  kvmppc_rm_h_put_tce 1 0 0x3003 two_group_machine = Some (H_PARAMETER, w')
  /\ (entry_store w' <> entry_store two_group_machine -> H_PARAMETER = H_SUCCESS)
  /\ entry_store w' = entry_store two_group_machine
  /\ hw_tce (ext_state w') !! (grp_tbl_a, 0)
     = Some (0x80003000, DMA_BIDIRECTIONAL).
Proof.
  intros w'.
  assert (Hfst : fst <$> kvmppc_rm_h_put_tce 1 0 0x3003 two_group_machine
                 = Some H_PARAMETER)
    by (vm_compute; reflexivity).
  pose proof (run_world_after _ _ _ Hfst) as Hrun. fold w' in Hrun.
  split; [exact Hrun|].
  pose proof (put_tce_store_after_all_groups 1 0 0x3003 two_group_machine
                H_PARAMETER w' Hrun) as [H1 _].
  split; [intros Hne; exact (proj1 (H1 Hne))|].
  split; vm_compute; reflexivity.
Defined.

Lemma pair_with_snd {A B} (x : A * B) a : fst x = a -> x = (a, snd x).
Proof. destruct x. simpl. now intros ->. Qed.

Lemma Exists_of_existsb {A} (f : A -> bool) l :
  existsb f l = true -> Exists (fun x => f x = true) l.
Proof.
  intros H. apply existsb_exists in H as (x & Hin & Hx).
  apply Exists_exists. exists x. split; [now apply list_elem_of_In | exact Hx].
Qed.

Lemma Forall_false_existsb {A} (f : A -> bool) l :
  Forall (fun x => f x = false) l -> existsb f l = false.
Proof.
  intros H. destruct (existsb f l) eqn:He; [|reflexivity].
  apply existsb_exists in He as (x & Hin & Hx).
  rewrite Forall_forall in H. apply list_elem_of_In in Hin.
  specialize (H x Hin). congruence.
Qed.

(** C5 on the machine whose entry 0 is already mapped: mapping it to guest
    physical 0x3000 takes the counter of region 7, exchanges, and then
    releases the counter of region 8, the region of the old mapping. *)
Lemma map_counter_order_witness :
  let w' := world_after (kvmppc_rm_tce_iommu_map grp_tbl_a 0 0x3000 DMA_BIDIRECTIONAL)
              remap_machine in
  new_region remap_machine grp_tbl_a 0x3000 7 0x80003000
  /\ old_region remap_machine
       (ref_xchg grp_tbl_a 0 0x80003000 DMA_BIDIRECTIONAL
          (ref_mapped_inc 7 remap_ext).2).2 grp_tbl_a 0 8
  /\ kvmppc_rm_tce_iommu_map grp_tbl_a 0 0x3000 DMA_BIDIRECTIONAL remap_machine
     = Some (H_SUCCESS, w')
  /\ trace w' = [EvGpaToUa 0x3000; EvMappedInc 7 0;
                 EvXchg grp_tbl_a 0 0x80003000 DMA_BIDIRECTIONAL 0; EvMappedDec 8]
  /\ mapped (ext_state remap_machine) = {[ 7 := 1; 8 := 2 ]}
  /\ mapped (ext_state w') !! 7 = Some 2
  /\ mapped (ext_state w') !! 8 = Some 1
  /\ ext_state w'
     = ref_mapped_dec 8
         (ref_xchg grp_tbl_a 0 0x80003000 DMA_BIDIRECTIONAL
            (ref_mapped_inc 7 remap_ext).2).2.
Proof.
  intros w'.
  assert (Hnew : new_region remap_machine grp_tbl_a 0x3000 7 0x80003000).
  { exists 0x40003000, 0,
      {| it_page_shift := 12; it_offset := 0; it_size := 512 |}.
    repeat split; vm_compute; reflexivity. }
  assert (Hold : old_region remap_machine
                   (ref_xchg grp_tbl_a 0 0x80003000 DMA_BIDIRECTIONAL
                      (ref_mapped_inc 7 remap_ext).2).2 grp_tbl_a 0 8).
  { exists {| it_page_shift := 12; it_offset := 0; it_size := 512 |}, 0x40011000.
    split; [vm_compute; reflexivity|]. split; [vm_compute; discriminate|].
    split; vm_compute; reflexivity. }
  assert (Hfst : fst <$> kvmppc_rm_tce_iommu_map grp_tbl_a 0 0x3000
                            DMA_BIDIRECTIONAL remap_machine = Some H_SUCCESS)
    by (vm_compute; reflexivity).
  pose proof (run_world_after _ _ _ Hfst) as Hrun. fold w' in Hrun.
  split; [exact Hnew|]. split; [exact Hold|]. split; [exact Hrun|].
  destruct (proj2 (map_counter_order grp_tbl_a 0 0x3000 DMA_BIDIRECTIONAL
                     remap_machine)
              7 0x80003000 (ref_mapped_inc 7 remap_ext).2 0x90001000
              DMA_BIDIRECTIONAL
              (ref_xchg grp_tbl_a 0 0x80003000 DMA_BIDIRECTIONAL
                 (ref_mapped_inc 7 remap_ext).2).2 8 Hnew
              ltac:(vm_compute; discriminate)
              ltac:(apply pair_with_snd; vm_compute; reflexivity)
              ltac:(apply pair_with_snd; vm_compute; reflexivity)
              ltac:(discriminate) Hold) as (w2 & Hrun2 & Ht2 & He2).
  rewrite Hrun in Hrun2. injection Hrun2 as <-.
  split; [exact Ht2|]. split; [reflexivity|].
  split; [vm_compute; reflexivity|]. split; [vm_compute; reflexivity|].
  exact He2.
Defined.

(** The unmap of the stale entry, evaluated. *)
Lemma unmap_stale_entry_run :
  kvmppc_rm_tce_iommu_unmap grp_tbl_a 0 stale_mapping_machine
  = Some (H_HARDWARE,
          world_after (kvmppc_rm_tce_iommu_unmap grp_tbl_a 0) stale_mapping_machine).
Proof.
  refine (run_world_after _ _ _ _). vm_compute. reflexivity.
Qed.

(** C3, counterexample.  On the machine with the stale entry the hardware
    entry has direction "bidirectional", the recorded userspace address
    0x50000000 is in no pinned region, and the unmap returns [H_HARDWARE],
    not [H_SUCCESS]. *)
Lemma unmap_missing_region_not_tolerated :
  ~ unmap_tolerates_missing_region.
Proof.
  intros H.
  destruct (H grp_tbl_a 0 stale_mapping_machine
              {| it_page_shift := 12; it_offset := 0; it_size := 512 |}
              0x90000000 DMA_BIDIRECTIONAL
              (snd (ref_xchg grp_tbl_a 0 0 DMA_NONE (ext_state stale_mapping_machine)))
              0x50000000) as [w' Hw'].
  - vm_compute. reflexivity.
  - apply pair_with_snd. vm_compute. reflexivity.
  - discriminate.
  - vm_compute. discriminate.
  - vm_compute. discriminate.
  - vm_compute. reflexivity.
  - vm_compute. reflexivity.
  - rewrite unmap_stale_entry_run in Hw'. discriminate Hw'.
Qed.

(** C3 on the machine with the stale entry. *)
Lemma unmap_missing_region_is_hardware_error_witness :
  let e' := snd (ref_xchg grp_tbl_a 0 0 DMA_NONE (ext_state stale_mapping_machine)) in
  iommu_tables stale_mapping_machine !! grp_tbl_a
    = Some {| it_page_shift := 12; it_offset := 0; it_size := 512 |}
  /\ ref_xchg grp_tbl_a 0 0 DMA_NONE (ext_state stale_mapping_machine)
     = (0, 0x90000000, DMA_BIDIRECTIONAL, e')
  /\ ref_lookup_rm 0x50000000 (u64 (Z.shiftl 1 12)) e' = None
  /\ kvmppc_rm_tce_iommu_unmap grp_tbl_a 0 stale_mapping_machine
     = Some (H_HARDWARE,
             with_trace (with_ext stale_mapping_machine e')
               (trace stale_mapping_machine ++ [EvXchg grp_tbl_a 0 0 DMA_NONE 0])).
Proof.
  intros e'.
  assert (H1 : iommu_tables stale_mapping_machine !! grp_tbl_a
               = Some {| it_page_shift := 12; it_offset := 0; it_size := 512 |})
    by (vm_compute; reflexivity).
  assert (H2 : ref_xchg grp_tbl_a 0 0 DMA_NONE (ext_state stale_mapping_machine)
               = (0, 0x90000000, DMA_BIDIRECTIONAL, e'))
    by (apply pair_with_snd; vm_compute; reflexivity).
  assert (H3 : ref_lookup_rm 0x50000000 (u64 (Z.shiftl 1 12)) e' = None)
    by (vm_compute; reflexivity).
  split; [exact H1|]. split; [exact H2|]. split; [exact H3|].
  apply (unmap_missing_region_is_hardware_error grp_tbl_a 0 stale_mapping_machine
           {| it_page_shift := 12; it_offset := 0; it_size := 512 |}
           0x90000000 DMA_BIDIRECTIONAL e' 0x50000000); try assumption.
  - discriminate.
  - vm_compute. discriminate.
  - vm_compute. discriminate.
  - vm_compute. reflexivity.
Defined.

(** The indirect put of the one-entry list on the two-group machine,
    evaluated. *)
Lemma put_tce_indirect_two_groups_run :
  kvmppc_rm_h_put_tce_indirect 1 0 0x2000 1 two_group_machine
  = Some (H_PARAMETER,
          world_after (kvmppc_rm_h_put_tce_indirect 1 0 0x2000 1) two_group_machine).
Proof.
  refine (run_world_after _ _ _ _). vm_compute. reflexivity.
Qed.

(** C2, counterexample.  On the two-group machine the second group's check
    of the only entry fails and the hypercall returns [H_PARAMETER]; by then
    the first group has exchanged its entry 0: the hardware table holds the
    new mapping and the pinned region's counter has gone from 1 to 2.  So
    the validation of all groups does not precede every mutation. *)
Lemma put_tce_indirect_first_group_installed :
  let w' := world_after (kvmppc_rm_h_put_tce_indirect 1 0 0x2000 1)
              two_group_machine in
  kvmppc_rm_h_put_tce_indirect 1 0 0x2000 1 two_group_machine
    = Some (H_PARAMETER, w')
  /\ existsb is_failed_check (trace w') = true
  /\ hw_tce (ext_state two_group_machine) !! (grp_tbl_a, 0) = None
  /\ hw_tce (ext_state w') !! (grp_tbl_a, 0) = Some (0x80003000, DMA_BIDIRECTIONAL)
  /\ mapped (ext_state two_group_machine) !! 7 = Some 1
  /\ mapped (ext_state w') !! 7 = Some 2
  /\ ~ indirect_preflight_all_groups.
Proof.
  intros w'. split; [exact put_tce_indirect_two_groups_run|].
  assert (Hfail : existsb is_failed_check (trace w') = true)
    by (vm_compute; reflexivity).
  split; [exact Hfail|].
  split; [vm_compute; reflexivity|]. split; [vm_compute; reflexivity|].
  split; [vm_compute; reflexivity|]. split; [vm_compute; reflexivity|].
  intros H.
  destruct (H 1 0 0x2000 1 two_group_machine H_PARAMETER w' (trace w')
              put_tce_indirect_two_groups_run eq_refl
              (Exists_of_existsb _ _ Hfail)) as [Hno _].
  apply Forall_false_existsb in Hno.
  assert (Hx : existsb is_exchange (trace w') = true) by (vm_compute; reflexivity).
  congruence.
Qed.

(** C2 on the two-group machine.  The second group's check fails: the
    call ends there, the Entry Store is untouched, and the first group,
    served before, keeps what it installed.  And the half of the first
    group, asked for two entries of which the second falls outside its
    window, returns [H_PARAMETER] with nothing changed. *)
Lemma put_tce_indirect_preflight_per_group_witness :
  let w' := world_after (kvmppc_rm_h_put_tce_indirect 1 0 0x2000 1)
              two_group_machine in
  kvmppc_rm_h_put_tce_indirect 1 0 0x2000 1 two_group_machine
    = Some (H_PARAMETER, w')
  /\ Exists (fun e => is_failed_check e = true) (trace w')
  /\ entry_store w' = entry_store two_group_machine
  /\ (exists pre e, trace w' = pre ++ [e]
                    /\ is_failed_check e = true
                    /\ Forall (fun e => is_failed_check e = false) pre)
  /\ (exists gs1 kg gs2 wk,
        [ {| tbl := grp_tbl_a |}; {| tbl := grp_tbl_b |} ] = gs1 ++ kg :: gs2
        /\ groups_ok
             (fun t => kvmppc_rm_h_put_tce_indirect_iommu t 0 0x80002000 1)
             gs1 0 (with_trace two_group_machine [EvGpaToUa 0x2000]) wk
        /\ kvmppc_rm_h_put_tce_indirect_iommu (tbl kg) 0 0x80002000 1 wk
           = Some (H_PARAMETER, w')
        /\ ext_state w' = ext_state wk)
  /\ hw_tce (ext_state w') !! (grp_tbl_a, 0) = Some (0x80003000, DMA_BIDIRECTIONAL)
  /\ preflight_check {| it_page_shift := 12; it_offset := 0; it_size := 512 |}
       0x1FF000 0x80002000 two_group_ext 0 = 0
  /\ preflight_check {| it_page_shift := 12; it_offset := 0; it_size := 512 |}
       0x1FF000 0x80002000 two_group_ext 1 <> 0
  /\ exists w2,
       kvmppc_rm_h_put_tce_indirect_iommu grp_tbl_a 0x1FF000 0x80002000 2
         two_group_machine = Some (H_PARAMETER, w2)
       /\ ext_state w2 = two_group_ext
       /\ real_mem w2 = real_mem two_group_machine.
Proof.
  intros w'.
  assert (Hex : Exists (fun e => is_failed_check e = true) (trace w')).
  { apply Exists_of_existsb. vm_compute. reflexivity. }
  split; [exact put_tce_indirect_two_groups_run|]. split; [exact Hex|].
  destruct (proj1 (proj2 put_tce_indirect_preflight_per_group)
              1 0 0x2000 1 two_group_machine H_PARAMETER w' (trace w')
              put_tce_indirect_two_groups_run eq_refl Hex)
    as (_ & Hes & Hlast & p & stt & tces & gs1 & kg & gs2 & wk
        & Hfind & Hstt & Hread & Hgs & Hok & Hb & Hot).
  split; [exact Hes|]. split; [exact Hlast|].
  assert (Hbad : preflight_check
                   {| it_page_shift := 12; it_offset := 0; it_size := 512 |}
                   0x1FF000 0x80002000 two_group_ext 1 <> 0)
    by (vm_compute; discriminate).
  split; [|split; [vm_compute; reflexivity|split; [vm_compute; reflexivity|
    split; [exact Hbad|]]]].
  - rewrite two_group_find in Hfind. injection Hfind as <-.
    injection Hstt as <-. cbn [groups] in Hgs.
    assert (Htces : tces = 0x80002000).
    { destruct Hread as (ua & rmap & Hg & Hreg).
      assert (Hp : run_task_mm two_group_machine
                   && mm_iommu_preregistered (ext_state two_group_machine) = true)
        by reflexivity.
      rewrite Hp in Hg, Hreg. cbn [negb] in Hg.
      assert (Hua : fst <$> kvmppc_gpa_to_ua 0x2000 false two_group_machine
                    = Some (Some (0x40002000, 0))) by (vm_compute; reflexivity).
      rewrite Hua in Hg. injection Hg as <- <-.
      destruct Hreg as (mem & Hmem & Hhpa).
      assert (Hl : mm_iommu_lookup_rm 0x40002000 IOMMU_PAGE_SIZE_4K
                     (ext_state two_group_machine) = Some 7)
        by (vm_compute; reflexivity).
      rewrite Hl in Hmem. injection Hmem as <-.
      assert (Hh : mm_iommu_rm_ua_to_hpa 7 0x40002000 (ext_state two_group_machine)
                   = Some 0x80002000) by (vm_compute; reflexivity).
      rewrite Hh in Hhpa. now injection Hhpa as <-. }
    subst tces. exists gs1, kg, gs2, wk.
    split; [exact Hgs|]. split; [exact Hok|]. split; [exact Hb|].
    destruct Hot as (_ & _ & _ & _ & _ & He & _). exact He.
  - destruct (proj1 (proj2 (proj2 put_tce_indirect_preflight_per_group)
                       grp_tbl_a
                       {| it_page_shift := 12; it_offset := 0; it_size := 512 |}
                       0x1FF000 0x80002000 2 two_group_machine
                       ltac:(vm_compute; reflexivity) ltac:(lia))
                (ex_intro _ 1 (conj (conj (Z.le_0_1) (eq_refl : 1 < 2)) Hbad)))
      as (w2 & Hrun2 & Hot2).
    exists w2. split; [exact Hrun2|].
    destruct Hot2 as (_ & _ & Hm & _ & _ & He & _). auto.
Defined.

Lemma four_thread_vcore_wf : hv_wf four_thread_vcore.
Proof.
  unfold hv_wf. simpl. split; [|split; [lia|split; [|exact I]]].
  - eexists. apply lookup_singleton_eq.
  - intros v c H. apply lookup_singleton_Some in H as [_ <-]. simpl. lia.
Qed.

(** C7 on the four-thread vcore: thread 0 asks for the exit on an external
    interrupt; threads 1 and 2, on hardware threads 9 and 10, are notified
    once each, thread 3 is not. *)
Lemma commence_exit_notifications_witness :
  hv_wf four_thread_vcore
  /\ vcores four_thread_vcore !! 0x100
     = Some {| pcpu := 8; entry_exit_map := 0x07 |}
  /\ (sent <$> kvmhv_commence_exit 0x500 four_thread_vcore)
     = Some [ {| ipi_vcore := 0x100; ipi_cpu := 9 |};
              {| ipi_vcore := 0x100; ipi_cpu := 10 |} ]
  /\ exists s' others,
       kvmhv_commence_exit 0x500 four_thread_vcore = Some s'
       /\ sent s' = [] ++ notified 0x100 8 0x07 0 ++ others
       /\ Forall (fun x => ipi_vcore x <> 0x100) others.
Proof.
  split; [exact four_thread_vcore_wf|].
  assert (Hc : vcores four_thread_vcore !! kvm_vcore (kvm_hstate four_thread_vcore)
               = Some {| pcpu := 8; entry_exit_map := 0x07 |})
    by apply lookup_singleton_eq.
  split; [exact Hc|]. split; [vm_compute; reflexivity|].
  destruct (commence_exit_notifications 0x500 four_thread_vcore _
              four_thread_vcore_wf Hc)
    as (s' & others & Hrun & Hsent & Hall & _).
  exists s', others. auto.
Defined.

(** * Further properties on concrete machines *)

(** The window check on the table of 512 entries: three pages from index 5
    are accepted, an address one byte off the page boundary is refused. *)
Lemma ioba_validate_window_witness :
  kvmppc_ioba_validate stt_window_512 0x5000 3 = H_SUCCESS
  /\ kvmppc_ioba_validate stt_window_512 0x5001 3 = H_PARAMETER.
Proof.
  pose proof (ioba_validate_window stt_window_512 0x5000 3
                ltac:(simpl; lia) ltac:(lia) ltac:(lia) ltac:(simpl; lia))
    as (Hin & _ & _).
  pose proof (ioba_validate_window stt_window_512 0x5001 3
                ltac:(simpl; lia) ltac:(lia) ltac:(lia) ltac:(simpl; lia))
    as (_ & Hout & _).
  split.
  - apply Hin; [reflexivity|].
    change (20480 / 2 ^ page_shift stt_window_512) with 5. simpl. lia.
  - apply Hout. left.
    change (20481 mod 2 ^ page_shift stt_window_512) with 1. lia.
Defined.

(** The entry check on the same table: a page address with both flags is
    accepted, an address inside a page is not. *)
Lemma tce_validate_bits_witness :
  kvmppc_tce_validate stt_window_512 0x3003 = H_SUCCESS
  /\ kvmppc_tce_validate stt_window_512 (Z.lor 0x3010 (Z.lor TCE_PCI_READ TCE_PCI_WRITE))
     = kvmppc_tce_validate stt_window_512 0x3010.
Proof.
  pose proof (tce_validate_bits stt_window_512 0x3003 ltac:(simpl; lia)) as (H1 & _ & _).
  pose proof (tce_validate_bits stt_window_512 0x3010 ltac:(simpl; lia)) as (_ & _ & H3).
  split; [|exact H3].
  apply H1. simpl. intros i Hi.
  assert (i = 2 \/ i = 3 \/ i = 4 \/ i = 5 \/ i = 6 \/ i = 7 \/ i = 8 \/ i = 9
          \/ i = 10 \/ i = 11) as Hc by lia.
  repeat destruct Hc as [->|Hc]; try subst i; reflexivity.
Defined.

Lemma stt_window_512_wf : wf_table stt_window_512.
Proof.
  unfold wf_table. change (@TCES_PER_PAGE ref_collaborators) with 512. simpl.
  repeat split; try lia. repeat constructor.
Qed.

(** Reading entry 5 of the emulated bus. *)
Lemma get_tce_read_only_witness :
  let w' := world_after (kvmppc_h_get_tce 1 0x5000) emulated_machine in
  kvmppc_h_get_tce 1 0x5000 emulated_machine = Some (H_SUCCESS, w')
  /\ w' = with_gpr4 emulated_machine (gpr4 w').
Proof.
  intros w'.
  assert (Hfst : fst <$> kvmppc_h_get_tce 1 0x5000 emulated_machine = Some H_SUCCESS)
    by (vm_compute; reflexivity).
  pose proof (run_world_after _ _ _ Hfst) as Hrun. fold w' in Hrun.
  split; [exact Hrun|].
  exact (proj1 (proj2 (get_tce_read_only 1 0x5000 emulated_machine H_SUCCESS w' Hrun))).
Defined.

(** Writing entry 5 of the emulated bus leaves the answer for entry 6. *)
Lemma tce_put_keeps_other_entries_witness :
  let w1 := world_after (kvmppc_tce_put 0 5 0x3003) emulated_machine in
  let w2 := world_after (kvmppc_h_get_tce 1 0x6000) emulated_machine in
  kvmppc_tce_put 0 5 0x3003 emulated_machine = Some (tt, w1)
  /\ kvmppc_h_get_tce 1 0x6000 emulated_machine = Some (H_SUCCESS, w2)
  /\ exists w3, kvmppc_h_get_tce 1 0x6000 w1 = Some (H_SUCCESS, w3)
                /\ gpr4 w3 = gpr4 w2.
Proof.
  intros w1 w2.
  assert (Hp : fst <$> kvmppc_tce_put 0 5 0x3003 emulated_machine = Some tt)
    by (vm_compute; reflexivity).
  assert (Hg : fst <$> kvmppc_h_get_tce 1 0x6000 emulated_machine = Some H_SUCCESS)
    by (vm_compute; reflexivity).
  pose proof (run_world_after _ _ _ Hp) as Hput. fold w1 in Hput.
  pose proof (run_world_after _ _ _ Hg) as Hget. fold w2 in Hget.
  split; [exact Hput|]. split; [exact Hget|].
  apply (tce_put_keeps_other_entries 0 5 0x3003 emulated_machine w1 stt_window_512
           1 0x6000 H_SUCCESS w2); try assumption.
  - exact ref_page_shift_ok.
  - reflexivity.
  - simpl; lia.
  - lia.
  - lia.
  - right. vm_compute. discriminate.
Defined.

(** No table of the emulated machine has bus id 9. *)
Lemma unknown_bus_is_too_hard_witness :
  kvmppc_rm_h_put_tce 9 0 0x3003 emulated_machine = Some (H_TOO_HARD, emulated_machine)
  /\ kvmppc_h_get_tce 9 0 emulated_machine = Some (H_TOO_HARD, emulated_machine).
Proof.
  assert (Habs : Forall (fun stt => liobn stt <> 9) (spapr_tce_tables emulated_machine)).
  { repeat constructor. simpl. lia. }
  pose proof (unknown_bus_is_too_hard 9 emulated_machine Habs) as (H1 & _ & _ & H4).
  split; [apply H1 | apply H4].
Defined.

(** An address inside a page, and a value with a direction flag. *)
Lemma invalid_request_changes_nothing_witness :
  kvmppc_rm_h_put_tce 1 0x5008 0x3003 emulated_machine
    = Some (H_PARAMETER, emulated_machine)
  /\ kvmppc_rm_h_stuff_tce 1 0x5000 0x3001 2 emulated_machine
     = Some (H_PARAMETER, emulated_machine).
Proof.
  pose proof (invalid_request_changes_nothing 1 emulated_machine 0%nat stt_window_512
                0x5008 eq_refl eq_refl) as (H1 & _).
  pose proof (invalid_request_changes_nothing 1 emulated_machine 0%nat stt_window_512
                0x5000 eq_refl eq_refl) as (_ & _ & H3 & _).
  split.
  - apply H1. left. vm_compute. discriminate.
  - apply H3. right. right. vm_compute. discriminate.
Defined.

(** Putting and reading back entry 5 of the emulated bus. *)
Lemma put_tce_then_get_tce_witness :
  let w1 := world_after (kvmppc_rm_h_put_tce 1 0x5000 0x3003) emulated_machine in
  kvmppc_rm_h_put_tce 1 0x5000 0x3003 emulated_machine = Some (H_SUCCESS, w1)
  /\ exists w2, kvmppc_h_get_tce 1 0x5000 w1 = Some (H_SUCCESS, w2)
                /\ gpr4 w2 = 0x3003.
Proof.
  intros w1.
  assert (Hfst : fst <$> kvmppc_rm_h_put_tce 1 0x5000 0x3003 emulated_machine
                 = Some H_SUCCESS)
    by (vm_compute; reflexivity).
  pose proof (run_world_after _ _ _ Hfst) as Hrun. fold w1 in Hrun.
  split; [exact Hrun|].
  exact (put_tce_then_get_tce 1 0x5000 0x3003 emulated_machine w1 Hrun).
Defined.

Lemma put_tce_emulated_succeeds_witness :
  exists l, kvmppc_rm_h_put_tce 1 0x5000 0x3003 emulated_machine
            = Some (H_SUCCESS, with_tables emulated_machine l).
Proof.
  apply (put_tce_emulated_succeeds 1 0x5000 0x3003 emulated_machine 0%nat
           stt_window_512).
  - exact ref_page_shift_ok.
  - reflexivity.
  - reflexivity.
  - exact stt_window_512_wf.
  - reflexivity.
  - lia.
  - reflexivity.
  - change (20480 / 2 ^ page_shift stt_window_512) with 5. simpl. lia.
  - reflexivity.
Defined.

(** Unmapping the stale entry: one exchange, no counter released. *)
Lemma unmap_outcomes_witness :
  let w' := world_after (kvmppc_rm_tce_iommu_unmap grp_tbl_a 0) stale_mapping_machine in
  kvmppc_rm_tce_iommu_unmap grp_tbl_a 0 stale_mapping_machine = Some (H_HARDWARE, w')
  /\ exists rc,
       (H_HARDWARE = H_SUCCESS \/ H_HARDWARE = H_HARDWARE)
       /\ (rc <> 0 -> H_HARDWARE = H_HARDWARE).
Proof.
  intros w'.
  assert (Hfst : fst <$> kvmppc_rm_tce_iommu_unmap grp_tbl_a 0 stale_mapping_machine
                 = Some H_HARDWARE)
    by (vm_compute; reflexivity).
  pose proof (run_world_after _ _ _ Hfst) as Hrun. fold w' in Hrun.
  split; [exact Hrun|].
  destruct (unmap_outcomes grp_tbl_a 0 stale_mapping_machine H_HARDWARE w' Hrun)
    as (rc & Hr & Hrc & _).
  exists rc. auto.
Defined.

(** Mapping entry 0 of the first group to guest physical 0x3000: the slot of
    the entry records userspace address 0x40003000. *)
Lemma map_outcomes_witness :
  let w' := world_after (kvmppc_rm_tce_iommu_map grp_tbl_a 0 0x3000 DMA_BIDIRECTIONAL)
              two_group_machine in
  kvmppc_rm_tce_iommu_map grp_tbl_a 0 0x3000 DMA_BIDIRECTIONAL two_group_machine
  = Some (H_SUCCESS, w')
  /\ real_mem w' !! grp_tbl_a = Some 0x40003000
  /\ exists evs, trace w' = trace two_group_machine ++ evs
       /\ (H_SUCCESS = H_SUCCESS \/ H_SUCCESS = H_HARDWARE \/ H_SUCCESS = H_TOO_HARD).
Proof.
  intros w'.
  assert (Hfst : fst <$> kvmppc_rm_tce_iommu_map grp_tbl_a 0 0x3000
                            DMA_BIDIRECTIONAL two_group_machine = Some H_SUCCESS)
    by (vm_compute; reflexivity).
  pose proof (run_world_after _ _ _ Hfst) as Hrun. fold w' in Hrun.
  split; [exact Hrun|]. split; [vm_compute; reflexivity|].
  destruct (map_outcomes grp_tbl_a 0 0x3000 DMA_BIDIRECTIONAL two_group_machine
              H_SUCCESS w' Hrun) as (evs & Ht & Hr & _).
  exists evs. auto.
Defined.

(** The second group of the two-group machine refuses every address. *)
Lemma put_tce_iommu_check_decides_witness :
  let w' := world_after (kvmppc_rm_h_put_tce_iommu grp_tbl_b 1 0 0x3003)
              two_group_machine in
  kvmppc_rm_h_put_tce_iommu grp_tbl_b 1 0 0x3003 two_group_machine
  = Some (H_PARAMETER, w')
  /\ trace w' = [EvPutParamCheck grp_tbl_b 0 0x3000 (- EINVAL)]
  /\ exists it, iommu_tables two_group_machine !! grp_tbl_b = Some it.
Proof.
  intros w'.
  assert (Hfst : fst <$> kvmppc_rm_h_put_tce_iommu grp_tbl_b 1 0 0x3003
                            two_group_machine = Some H_PARAMETER)
    by (vm_compute; reflexivity).
  pose proof (run_world_after _ _ _ Hfst) as Hrun. fold w' in Hrun.
  split; [exact Hrun|]. split; [vm_compute; reflexivity|].
  destruct (put_tce_iommu_check_decides grp_tbl_b 1 0 0x3003 two_group_machine
              H_PARAMETER w' Hrun) as (it & Hit & _).
  exists it. exact Hit.
Defined.

(** Clearing entries 0 to 3 of the first group. *)
Lemma stuff_tce_iommu_exchanges_whole_range_witness :
  let w' := world_after (kvmppc_rm_h_stuff_tce_iommu grp_tbl_a 1 0 0 4)
              one_group_machine in
  kvmppc_rm_h_stuff_tce_iommu grp_tbl_a 1 0 0 4 one_group_machine
  = Some (H_SUCCESS, w')
  /\ exchanged_entries (trace w')
     = [(grp_tbl_a, 0); (grp_tbl_a, 1); (grp_tbl_a, 2); (grp_tbl_a, 3)]
  /\ exists it evs,
       iommu_tables one_group_machine !! grp_tbl_a = Some it
       /\ trace w' = trace one_group_machine ++ evs.
Proof.
  intros w'.
  assert (Hfst : fst <$> kvmppc_rm_h_stuff_tce_iommu grp_tbl_a 1 0 0 4
                            one_group_machine = Some H_SUCCESS)
    by (vm_compute; reflexivity).
  pose proof (run_world_after _ _ _ Hfst) as Hrun. fold w' in Hrun.
  split; [exact Hrun|]. split; [vm_compute; reflexivity|].
  destruct (stuff_tce_iommu_exchanges_whole_range grp_tbl_a 1 0 0 4 one_group_machine
              H_SUCCESS w' ltac:(lia) Hrun) as (it & evs & Hit & Ht & _).
  exists it, evs. auto.
Defined.

(** Filling entries 4 to 6 of the emulated bus with 0x7000. *)
Lemma stuff_tce_fills_range_witness :
  let w1 := world_after
              (kvmppc_rm_h_stuff_tce 1 (Z.shiftl 4 (page_shift stt_window_512)) 0x7000 3)
              emulated_machine in
  kvmppc_rm_h_stuff_tce 1 (Z.shiftl 4 (page_shift stt_window_512)) 0x7000 3
    emulated_machine = Some (H_SUCCESS, w1)
  /\ entry_at w1 0 5 = Some 0x7000
  /\ entry_at w1 0 7 = Some 0
  /\ forall k, 0 <= k < 0 + 512 ->
       exists x,
         kvmppc_h_get_tce 1 (Z.shiftl k (page_shift stt_window_512)) w1
         = Some (H_SUCCESS, with_gpr4 w1 x)
         /\ if decide (4 <= k < 4 + 3) then x = 0x7000
            else entry_at emulated_machine 0 k = Some x.
Proof.
  intros w1.
  assert (Hfst : fst <$> kvmppc_rm_h_stuff_tce 1
                            (Z.shiftl 4 (page_shift stt_window_512)) 0x7000 3
                            emulated_machine = Some H_SUCCESS)
    by (vm_compute; reflexivity).
  pose proof (run_world_after _ _ _ Hfst) as Hrun. fold w1 in Hrun.
  split; [exact Hrun|]. split; [vm_compute; reflexivity|].
  split; [vm_compute; reflexivity|].
  exact (stuff_tce_fills_range 1 4 3 0x7000 emulated_machine 0%nat stt_window_512 w1
           ref_page_shift_ok eq_refl eq_refl stt_window_512_wf
           ltac:(simpl; lia) ltac:(lia) ltac:(simpl; lia) Hrun).
Defined.

(** A list of three entries on the machine without preregistered memory,
    read at real address 0x80002000: the first two are written, the third
    is refused. *)
Lemma put_tce_indirect_writes_list_prefix_witness :
  let w' := world_after (kvmppc_rm_h_put_tce_indirect 1 0x5000 0x2000 3)
              unregistered_machine in
  kvmppc_rm_h_put_tce_indirect 1 0x5000 0x2000 3 unregistered_machine
  = Some (H_PARAMETER, w')
  /\ entry_at w' 0 5 = Some 0x3003
  /\ entry_at w' 0 6 = Some 0x5001
  /\ entry_at w' 0 7 = Some 0
  /\ list_read_at unregistered_machine 0x2000 0x80002000
  /\ ext_state w' = ext_state unregistered_machine.
Proof.
  intros w'.
  assert (Hfst : fst <$> kvmppc_rm_h_put_tce_indirect 1 0x5000 0x2000 3
                            unregistered_machine = Some H_PARAMETER)
    by (vm_compute; reflexivity).
  pose proof (run_world_after _ _ _ Hfst) as Hrun. fold w' in Hrun.
  split; [exact Hrun|]. split; [vm_compute; reflexivity|].
  split; [vm_compute; reflexivity|]. split; [vm_compute; reflexivity|].
  split.
  - exists 0x40002000, 0x7000010. split; vm_compute; reflexivity.
  - exact (proj1 (put_tce_indirect_writes_list_prefix 1 0x5000 0x2000 3
                    unregistered_machine H_PARAMETER w' 0%nat stt_window_512
                    ref_page_shift_ok eq_refl eq_refl ltac:(lia)
                    (or_intror (or_intror eq_refl)) Hrun)).
Defined.

(** A list of two entries on the same machine: the lock taken on the
    reverse-map entry of the list page is released at the end. *)
Lemma put_tce_indirect_unregistered_path_witness :
  let w' := world_after (kvmppc_rm_h_put_tce_indirect 1 0x5000 0x2000 2)
              unregistered_machine in
  kvmppc_rm_h_put_tce_indirect 1 0x5000 0x2000 2 unregistered_machine
  = Some (H_SUCCESS, w')
  /\ trace w' = [EvGpaToUa 0x2000; EvLockRmap 0x7000010;
                 EvListLoad 0x80002000; EvListLoad 0x80002008;
                 EvUnlockRmap 0x7000010]
  /\ real_mem w' = real_mem unregistered_machine.
Proof.
  intros w'.
  assert (Hfst : fst <$> kvmppc_rm_h_put_tce_indirect 1 0x5000 0x2000 2
                            unregistered_machine = Some H_SUCCESS)
    by (vm_compute; reflexivity).
  pose proof (run_world_after _ _ _ Hfst) as Hrun. fold w' in Hrun.
  split; [exact Hrun|]. split; [vm_compute; reflexivity|].
  exact (proj1 (proj2 (put_tce_indirect_unregistered_path 1 0x5000 0x2000 2
                         unregistered_machine H_SUCCESS w'
                         (or_intror eq_refl) Hrun))).
Defined.

Lemma ref_page_shift_int : 0 <= @PAGE_SHIFT ref_collaborators <= 30.
Proof. change (0 <= 12 <= 30). lia. Qed.

(** The list page of the machine without preregistered memory, eight bytes
    into the page. *)
Lemma rm_ua_to_hpa_outcomes_witness :
  let w' := world_after (kvmppc_rm_ua_to_hpa 0x40002008) unregistered_machine in
  kvmppc_rm_ua_to_hpa 0x40002008 unregistered_machine = Some (inr 0x80002008, w')
  /\ w' = unregistered_machine.
Proof.
  intros w'.
  assert (Hfst : fst <$> kvmppc_rm_ua_to_hpa 0x40002008 unregistered_machine
                 = Some (inr 0x80002008))
    by (vm_compute; reflexivity).
  pose proof (run_world_after _ _ _ Hfst) as Hrun. fold w' in Hrun.
  split; [exact Hrun|].
  exact (proj1 (rm_ua_to_hpa_outcomes 0x40002008 unregistered_machine
                  (inr 0x80002008) w' ref_page_shift_int Hrun)).
Defined.

(** Guest physical 0x2ffb on the two-group machine: the flag bits of the
    offset are dropped. *)
Lemma gpa_to_ua_strips_flags_witness :
  let w' := world_after (kvmppc_gpa_to_ua 0x2ffb false) two_group_machine in
  kvmppc_gpa_to_ua 0x2ffb false two_group_machine = Some (Some (0x40002ff8, 0), w')
  /\ w' = with_trace two_group_machine (trace two_group_machine ++ [EvGpaToUa 0x2ffb]).
Proof.
  intros w'.
  assert (Hfst : fst <$> kvmppc_gpa_to_ua 0x2ffb false two_group_machine
                 = Some (Some (0x40002ff8, 0)))
    by (vm_compute; reflexivity).
  pose proof (run_world_after _ _ _ Hfst) as Hrun. fold w' in Hrun.
  split; [exact Hrun|].
  exact (proj1 (gpa_to_ua_strips_flags 0x2ffb false two_group_machine
                  (Some (0x40002ff8, 0)) w' ref_page_shift_int Hrun)).
Defined.

(** Bits 0 and 2 on the four-thread vcore: hardware threads 8 and 10. *)
Lemma interrupt_vcore_notifies_set_bits_witness :
  (sent <$> kvmhv_interrupt_vcore 0x100 0x5 four_thread_vcore)
  = Some [ {| ipi_vcore := 0x100; ipi_cpu := 8 |};
           {| ipi_vcore := 0x100; ipi_cpu := 10 |} ]
  /\ kvmhv_interrupt_vcore 0x100 (-1) four_thread_vcore = None.
Proof.
  pose proof (interrupt_vcore_notifies_set_bits 0x100 0x5 four_thread_vcore
                {| pcpu := 8; entry_exit_map := 0x07 |}
                ltac:(apply lookup_singleton_eq) ltac:(simpl; lia)) as [H1 _].
  pose proof (interrupt_vcore_notifies_set_bits 0x100 (-1) four_thread_vcore
                {| pcpu := 8; entry_exit_map := 0x07 |}
                ltac:(apply lookup_singleton_eq) ltac:(simpl; lia)) as [_ H2].
  split.
  - rewrite (H1 ltac:(lia)). reflexivity.
  - apply H2. lia.
Defined.

Lemma split_core_wf : hv_wf split_core.
Proof.
  unfold hv_wf. simpl. split; [|split; [lia|split]].
  - eexists. vm_compute. reflexivity.
  - intros v c H.
    apply lookup_insert_Some in H as [[_ <-]|[_ H]]; [simpl; lia|].
    apply lookup_singleton_Some in H as [_ <-]. simpl. lia.
  - split; [reflexivity|].
    constructor; [right; eexists; vm_compute; reflexivity|].
    constructor; [right; eexists; vm_compute; reflexivity|].
    constructor; [now left|]. constructor; [now left|]. constructor.
Qed.

(** On the split core, thread 0 of the first subcore asks for the exit: its
    bit is set in the exit map of its vcore, and the second subcore gets
    the exit request. *)
Lemma commence_exit_exit_maps_witness :
  (s' ← kvmhv_commence_exit 0x500 split_core; entry_exit_map <$> vcores s' !! 0x100)
    = Some 0x103
  /\ (s' ← kvmhv_commence_exit 0x500 split_core; entry_exit_map <$> vcores s' !! 0x200)
     = Some 0x10001
  /\ exists s',
       kvmhv_commence_exit 0x500 split_core = Some s'
       /\ kvm_hstate s' = kvm_hstate split_core.
Proof.
  split; [vm_compute; reflexivity|]. split; [vm_compute; reflexivity|].
  assert (Hc : vcores split_core !! kvm_vcore (kvm_hstate split_core)
               = Some {| pcpu := 8; entry_exit_map := 0x03 |})
    by (vm_compute; reflexivity).
  destruct (commence_exit_exit_maps 0x500 split_core _ split_core_wf Hc)
    as (s' & Hrun & Hhs & _).
  exists s'. auto.
Defined.

(** Looking up real interrupt 0x30, in use, and 0x40, stale. *)
Lemma get_irqmap_first_match_witness :
  get_irqmap two_irq_map 0x30 = Some (Some 1%nat)
  /\ get_irqmap two_irq_map 0x40 = Some None
  /\ exists r, get_irqmap two_irq_map 0x40 = Some r.
Proof.
  split; [reflexivity|]. split; [reflexivity|].
  destruct (get_irqmap_first_match two_irq_map 0x40 ltac:(simpl; lia))
    as (r & Hrun & _).
  exists r. exact Hrun.
Defined.

(** The IPI on a big-endian host, no host signal in between: a wake-up. *)
Lemma read_intr_return_contract_witness :
  let s' := snd (default (0, ipi_pending)
                   (kvmppc_read_intr false deliver_always false ipi_pending)) in
  kvmppc_read_intr false deliver_always false ipi_pending = Some (-1, s')
  /\ host_ipi s' = 0
  /\ saved_xirr s' = 0
  /\ icp_log s' = [ IcpLoadWord 0x3ffff80000004;
                    IcpStoreByte 0x3ffff8000000c 0xff;
                    IcpStoreWord 0x3ffff80000004 0xff000002 ].
Proof.
  intros s'.
  assert (Hrun : kvmppc_read_intr false deliver_always false ipi_pending
                 = Some (-1, s')) by (vm_compute; reflexivity).
  split; [exact Hrun|].
  destruct (read_intr_return_contract false deliver_always false ipi_pending
              (-1) s' Hrun) as [(pmap & i & Hp & _) | (_ & _ & Hm & _)].
  - discriminate Hp.
  - destruct (Hm eq_refl) as (_ & H1 & H2 & H3).
    split; [exact H1|]. split; [exact H2|]. exact H3.
Defined.

Lemma stuff_tce_emulated_succeeds_witness :
  exists l,
    kvmppc_rm_h_stuff_tce 1 (Z.shiftl 4 (page_shift stt_window_512)) 0x7000 3
      emulated_machine
    = Some (H_SUCCESS, with_tables emulated_machine l).
Proof.
  apply (stuff_tce_emulated_succeeds 1 4 3 0x7000 emulated_machine 0%nat
           stt_window_512).
  - exact ref_page_shift_ok.
  - reflexivity.
  - reflexivity.
  - exact stt_window_512_wf.
  - reflexivity.
  - simpl; lia.
  - lia.
  - simpl; lia.
  - simpl; lia.
  - reflexivity.
  - reflexivity.
Defined.

(** The one-entry list of the two-group machine, for the first group. *)
Lemma put_tce_indirect_iommu_installs_in_order_witness :
  let w' := world_after (kvmppc_rm_h_put_tce_indirect_iommu grp_tbl_a 0 0x80002000 1)
              two_group_machine in
  kvmppc_rm_h_put_tce_indirect_iommu grp_tbl_a 0 0x80002000 1 two_group_machine
  = Some (H_SUCCESS, w')
  /\ exchanged_entries (trace w') = [(grp_tbl_a, 0)]
  /\ exists it evs,
       iommu_tables two_group_machine !! grp_tbl_a = Some it
       /\ trace w' = trace two_group_machine ++ evs.
Proof.
  intros w'.
  assert (Hfst : fst <$> kvmppc_rm_h_put_tce_indirect_iommu grp_tbl_a 0 0x80002000 1
                            two_group_machine = Some H_SUCCESS)
    by (vm_compute; reflexivity).
  pose proof (run_world_after _ _ _ Hfst) as Hrun. fold w' in Hrun.
  split; [exact Hrun|]. split; [vm_compute; reflexivity|].
  destruct (put_tce_indirect_iommu_installs_in_order grp_tbl_a 0 0x80002000 1
              two_group_machine H_SUCCESS w' ltac:(lia) Hrun)
    as (it & evs & m & Hit & Ht & _).
  exists it, evs. auto.
Defined.

(** Mapping on the machine without an address space. *)
Lemma no_mm_no_mapping_witness :
  let w' := world_after (kvmppc_rm_tce_iommu_map grp_tbl_a 0 0x3000 DMA_BIDIRECTIONAL)
              no_mm_machine in
  kvmppc_rm_tce_iommu_map grp_tbl_a 0 0x3000 DMA_BIDIRECTIONAL no_mm_machine
  = Some (H_HARDWARE, w')
  /\ w' = with_trace no_mm_machine (trace no_mm_machine ++ [EvGpaToUa 0x3000]).
Proof.
  intros w'.
  assert (Hfst : fst <$> kvmppc_rm_tce_iommu_map grp_tbl_a 0 0x3000
                            DMA_BIDIRECTIONAL no_mm_machine = Some H_HARDWARE)
    by (vm_compute; reflexivity).
  pose proof (run_world_after _ _ _ Hfst) as Hrun. fold w' in Hrun.
  split; [exact Hrun|].
  exact (proj2 (proj2 (proj2 (no_mm_no_mapping no_mm_machine eq_refl))
                  grp_tbl_a 0 0x3000 DMA_BIDIRECTIONAL H_HARDWARE w' Hrun)).
Defined.
